(** * riotplan-format: dual-format plan storage, migration and validation

    A shallow embedding of the storage provider contract, the SQLite
    provider ([sqlite-provider.ts] over [schema.sql]), the format
    heuristics ([utils.ts]), the migrator ([migrator.ts]) and the
    migration validator ([validator.ts]), followed by the properties
    established about them.

    Conventions of the embedding.
    - JavaScript strings are [string]; [toLowerCase] and [trim] act on
      the ASCII range.
    - The string-literal unions of [types.ts] ([PlanStage], [StepStatus],
      [PlanFileType], [TimelineEventType]) are TEXT at run time and in the
      schema, and are kept as [string]; closed tags the code branches on
      are inductive types.
    - An optional property ([description?: string]) is an [option]; [None]
      stands for both [undefined] and SQL NULL.
    - Integers ([number] of a step, [schemaVersion], row ids) are [Z];
      scores are rationals ([Q]).
    - A JSON column is kept as the value it encodes.
    - Every asynchronous method is a state transformer on the provider. *)

From Stdlib Require Import String Ascii List ZArith QArith Qminmax Bool Arith Lia.
From Stdlib Require Import DecimalString Permutation Sorted.
From Stdlib.Strings Require Import Byte.
Import ListNotations.

Local Close Scope Q_scope.
Local Open Scope string_scope.
Local Open Scope list_scope.

(* ================================================================== *)
(** ** JavaScript helpers *)
(* ================================================================== *)

(** The double quote character, for template literals that contain one. *)
Definition dquote : string := String (ascii_of_nat 34) EmptyString.

(** [String(n)] and [`${n}`] for an integer. *)
Definition string_of_Z (z : Z) : string := NilZero.string_of_int (Z.to_int z).

(** [`${s.length}`] for a length. *)
Definition string_of_nat (n : nat) : string := NilZero.string_of_uint (Nat.to_uint n).

(** [x || null] and [x || undefined] on an optional string: the empty
    string is falsy. *)
Definition or_null (x : option string) : option string :=
  match x with
  | Some EmptyString => None
  | _ => x
  end.

(** [x || y] where [y] is a string. *)
Definition or_else (x : option string) (y : string) : string :=
  match or_null x with
  | Some s => s
  | None => y
  end.

(** [String.prototype.toLowerCase], ASCII range. *)
Definition lower_ascii (c : ascii) : ascii :=
  let n := nat_of_ascii c in
  if andb (65 <=? n)%nat (n <=? 90)%nat then ascii_of_nat (n + 32) else c.

Fixpoint toLowerCase (s : string) : string :=
  match s with
  | EmptyString => EmptyString
  | String c s' => String (lower_ascii c) (toLowerCase s')
  end.

(** White space removed by [String.prototype.trim], ASCII range: space,
    tab, line feed, vertical tab, form feed, carriage return. *)
Definition is_space (c : ascii) : bool :=
  let n := nat_of_ascii c in
  orb (n =? 32)%nat (andb (9 <=? n)%nat (n <=? 13)%nat).

Fixpoint trimStart (s : string) : string :=
  match s with
  | EmptyString => EmptyString
  | String c s' => if is_space c then trimStart s' else s
  end.

Fixpoint string_rev_onto (s acc : string) : string :=
  match s with
  | EmptyString => acc
  | String c s' => string_rev_onto s' (String c acc)
  end.

Definition string_rev (s : string) : string := string_rev_onto s EmptyString.

Definition trimEnd (s : string) : string := string_rev (trimStart (string_rev s)).

Definition trim (s : string) : string := trimEnd (trimStart s).

(** [s.slice(start, end)] for [0 <= start] and [0 <= end]. *)
Definition slice (s : string) (start stop : nat) : string :=
  substring start (stop - start) s.

(** [s.endsWith(suffix)]. *)
Definition endsWith (s suffix : string) : bool :=
  let n := String.length s in
  let m := String.length suffix in
  andb (m <=? n)%nat (String.eqb (substring (n - m) m s) suffix).

(** Drop the first [n] characters. *)
Fixpoint string_skip (n : nat) (s : string) : string :=
  match n, s with
  | O, _ => s
  | S _, EmptyString => EmptyString
  | S n', String _ s' => string_skip n' s'
  end.

(** [s.indexOf(q, pos)]: the least index [k >= pos] at which [q] occurs
    in [s], [None] for [-1].  [pos] is clamped to the length, and the
    empty [q] is found at the clamped position. *)
Fixpoint indexOf_from (s q : string) (k : nat) : option nat :=
  if prefix q s then Some k
  else match s with
       | EmptyString => None
       | String _ s' => indexOf_from s' q (S k)
       end.

Definition indexOf (s q : string) (pos : nat) : option nat :=
  let p := Nat.min pos (String.length s) in
  indexOf_from (string_skip p s) q p.

(** A stable sort by insertion, for [ORDER BY] and [Array.prototype.sort]:
    [before x y] says that [x] may stand before [y]. *)
Fixpoint insert_by {A : Type} (before : A -> A -> bool) (x : A) (l : list A) : list A :=
  match l with
  | [] => [x]
  | y :: l' => if before x y then x :: l else y :: insert_by before x l'
  end.

Definition sort_by {A : Type} (before : A -> A -> bool) (l : list A) : list A :=
  fold_right (insert_by before) [] l.

(* ================================================================== *)
(** ** Data in transit ([types.ts]) *)
(* ================================================================== *)

Inductive StorageFormat : Type := directory | sqlite.

Definition PlanStage := string.
Definition StepStatus := string.
Definition PlanFileType := string.
Definition TimelineEventType := string.

(** JSON values: the payload of a timeline event. *)
#[local] Unset Elimination Schemes.
Inductive Json : Type :=
| JNull
| JBool (b : bool)
| JNumber (z : Z)
| JString (s : string)
| JArray (items : list Json)
| JObject (fields : list (string * Json)).
#[local] Set Elimination Schemes.

Record PlanMetadata : Type := {
  md_id : string;
  md_name : string;
  md_description : option string;
  md_createdAt : string;
  md_updatedAt : string;
  md_stage : PlanStage;
  md_schemaVersion : Z }.

Record PlanStep : Type := {
  st_number : Z;
  st_code : string;
  st_title : string;
  st_description : option string;
  st_status : StepStatus;
  st_startedAt : option string;
  st_completedAt : option string;
  st_content : string }.

Record PlanFile : Type := {
  pf_type : PlanFileType;
  pf_filename : string;
  pf_content : string;
  pf_createdAt : string;
  pf_updatedAt : string }.

Record TimelineEvent : Type := {
  ev_id : string;
  ev_timestamp : string;
  ev_type : TimelineEventType;
  ev_data : Json }.

Record EvidenceRecord : Type := {
  er_id : string;
  er_description : string;
  er_source : option string;
  er_sourceUrl : option string;
  er_gatheringMethod : option string;
  er_content : option string;
  er_filePath : option string;
  er_relevanceScore : option Q;
  er_originalQuery : option string;
  er_summary : option string;
  er_createdAt : string }.

Record FeedbackRecord : Type := {
  fb_id : string;
  fb_title : option string;
  fb_platform : option string;
  fb_content : string;
  fb_participants : option (list string);
  fb_createdAt : string }.

(** [Pick<PlanStep, 'number' | 'status' | 'startedAt' | 'completedAt'>] *)
Record SnapshotStep : Type := {
  ss_number : Z;
  ss_status : StepStatus;
  ss_startedAt : option string;
  ss_completedAt : option string }.

(** [Pick<PlanFile, 'type' | 'filename' | 'content'>] *)
Record SnapshotFile : Type := {
  sf_type : PlanFileType;
  sf_filename : string;
  sf_content : string }.

Record CheckpointSnapshot : Type := {
  snap_metadata : PlanMetadata;
  snap_steps : list SnapshotStep;
  snap_files : list SnapshotFile }.

Record Checkpoint : Type := {
  cp_name : string;
  cp_message : string;
  cp_createdAt : string;
  cp_snapshot : CheckpointSnapshot }.

(** [Partial<PlanStep>] and [Partial<PlanMetadata>]: [None] is a property
    that is absent (or [undefined]). *)
Record PlanStepPatch : Type := {
  up_number : option Z;
  up_code : option string;
  up_title : option string;
  up_description : option string;
  up_status : option StepStatus;
  up_startedAt : option string;
  up_completedAt : option string;
  up_content : option string }.

Record PlanMetadataPatch : Type := {
  um_id : option string;
  um_name : option string;
  um_description : option string;
  um_createdAt : option string;
  um_updatedAt : option string;
  um_stage : option PlanStage;
  um_schemaVersion : option Z }.

(** [StorageResult<T>]: [data = None] is a missing or [null] payload. *)
Record StorageResult (T : Type) : Type := {
  success : bool;
  data : option T;
  error : option string }.

Arguments success {T} _.
Arguments data {T} _.
Arguments error {T} _.

Definition ok_void : StorageResult unit :=
  {| success := true; data := None; error := None |}.

Definition ok_data {T : Type} (x : T) : StorageResult T :=
  {| success := true; data := Some x; error := None |}.

Definition ok_null {T : Type} : StorageResult T :=
  {| success := true; data := None; error := None |}.

Definition failure {T : Type} (msg : string) : StorageResult T :=
  {| success := false; data := None; error := Some msg |}.

(** [SearchResult] ([provider.ts]). *)
Inductive SearchResultType : Type :=
| sr_step | sr_file | sr_evidence | sr_feedback | sr_timeline.

Record SearchResult : Type := {
  sr_type : SearchResultType;
  sr_id : string;
  sr_snippet : string;
  sr_score : Q }.

(** The options of [getTimelineEvents]. *)
Record TimelineOptions : Type := {
  opt_since : option string;
  opt_type : option string;
  opt_limit : option nat }.

Definition no_timeline_options : TimelineOptions :=
  {| opt_since := None; opt_type := None; opt_limit := None |}.

(* ================================================================== *)
(** ** The provider contract ([provider.ts]) *)
(* ================================================================== *)

(** [StorageProvider]: every method takes the provider's state and gives
    it back.  [search] carries the number of iterations its scoring loop
    may take; [None] means the loop did not finish within them. *)
Class StorageProvider (S : Type) : Type := {
  format : S -> StorageFormat;
  path : S -> string;
  exists_ : S -> bool * S;
  initialize : PlanMetadata -> S -> StorageResult unit * S;
  getMetadata : S -> StorageResult PlanMetadata * S;
  updateMetadata : PlanMetadataPatch -> S -> StorageResult unit * S;
  getSteps : S -> StorageResult (list PlanStep) * S;
  getStep : Z -> S -> StorageResult PlanStep * S;
  addStep : PlanStep -> S -> StorageResult unit * S;
  updateStep : Z -> PlanStepPatch -> S -> StorageResult unit * S;
  deleteStep : Z -> S -> StorageResult unit * S;
  getFiles : S -> StorageResult (list PlanFile) * S;
  getFile : string -> string -> S -> StorageResult PlanFile * S;
  saveFile : PlanFile -> S -> StorageResult unit * S;
  deleteFile : string -> string -> S -> StorageResult unit * S;
  getTimelineEvents : TimelineOptions -> S -> StorageResult (list TimelineEvent) * S;
  addTimelineEvent : TimelineEvent -> S -> StorageResult unit * S;
  getEvidence : S -> StorageResult (list EvidenceRecord) * S;
  addEvidence : EvidenceRecord -> S -> StorageResult unit * S;
  getFeedback : S -> StorageResult (list FeedbackRecord) * S;
  addFeedback : FeedbackRecord -> S -> StorageResult unit * S;
  getCheckpoints : S -> StorageResult (list Checkpoint) * S;
  getCheckpoint : string -> S -> StorageResult Checkpoint * S;
  createCheckpoint : Checkpoint -> S -> StorageResult unit * S;
  restoreCheckpoint : string -> S -> StorageResult unit * S;
  search : nat -> string -> S -> option (StorageResult (list SearchResult) * S) }.

(* ================================================================== *)
(** ** The relational store ([schema.sql]) *)
(* ================================================================== *)

Module Schema.

(** One record per table, one field per column.  The surrogate [id]
    columns of [plan_steps], [plan_files] and [checkpoints] are never read
    by the provider and are left out; [schema_version] and
    [step_reflections] are never touched by it. *)

Record PlanRow : Type := {
  plans_id : Z;
  plans_code : string;
  plans_name : string;
  plans_description : option string;
  plans_stage : string;
  plans_created_at : string;
  plans_updated_at : string;
  plans_schema_version : Z }.

Record StepRow : Type := {
  steps_plan_id : Z;
  steps_number : Z;
  steps_code : string;
  steps_title : string;
  steps_description : option string;
  steps_status : string;
  steps_started_at : option string;
  steps_completed_at : option string;
  steps_content : string }.

Record FileRow : Type := {
  files_plan_id : Z;
  files_file_type : string;
  files_filename : string;
  files_content : string;
  files_created_at : string;
  files_updated_at : string }.

Record EventRow : Type := {
  tl_id : string;
  tl_plan_id : Z;
  tl_timestamp : string;
  tl_event_type : string;
  tl_data : Json }.

Record EvidenceRow : Type := {
  evr_id : string;
  evr_plan_id : Z;
  evr_description : string;
  evr_source : option string;
  evr_source_url : option string;
  evr_gathering_method : option string;
  evr_content : option string;
  evr_file_path : option string;
  evr_relevance_score : option Q;
  evr_original_query : option string;
  evr_summary : option string;
  evr_created_at : string }.

Record FeedbackRow : Type := {
  fbr_id : string;
  fbr_plan_id : Z;
  fbr_title : option string;
  fbr_platform : option string;
  fbr_content : string;
  fbr_participants : option (list string);
  fbr_created_at : string }.

Record CheckpointRow : Type := {
  ck_plan_id : Z;
  ck_name : string;
  ck_message : string;
  ck_created_at : string;
  ck_snapshot : CheckpointSnapshot }.

(** The database file.  [has_schema] is false until the schema script has
    run; [plans_seq] is the AUTOINCREMENT high-water mark of [plans].
    Each table lists its rows in insertion order. *)
Record Db : Type := {
  has_schema : bool;
  plans : list PlanRow;
  plans_seq : Z;
  plan_steps : list StepRow;
  plan_files : list FileRow;
  timeline_events : list EventRow;
  evidence_records : list EvidenceRow;
  feedback_records : list FeedbackRow;
  checkpoints : list CheckpointRow }.

(** A file that was just created: no table yet. *)
Definition empty_db : Db :=
  {| has_schema := false; plans := []; plans_seq := 0; plan_steps := [];
     plan_files := []; timeline_events := []; evidence_records := [];
     feedback_records := []; checkpoints := [] |}.

Definition with_schema (d : Db) : Db :=
  {| has_schema := true; plans := plans d; plans_seq := plans_seq d;
     plan_steps := plan_steps d; plan_files := plan_files d;
     timeline_events := timeline_events d; evidence_records := evidence_records d;
     feedback_records := feedback_records d; checkpoints := checkpoints d |}.

Definition with_plans (l : list PlanRow) (seq : Z) (d : Db) : Db :=
  {| has_schema := has_schema d; plans := l; plans_seq := seq;
     plan_steps := plan_steps d; plan_files := plan_files d;
     timeline_events := timeline_events d; evidence_records := evidence_records d;
     feedback_records := feedback_records d; checkpoints := checkpoints d |}.

Definition with_plan_steps (l : list StepRow) (d : Db) : Db :=
  {| has_schema := has_schema d; plans := plans d; plans_seq := plans_seq d;
     plan_steps := l; plan_files := plan_files d;
     timeline_events := timeline_events d; evidence_records := evidence_records d;
     feedback_records := feedback_records d; checkpoints := checkpoints d |}.

Definition with_plan_files (l : list FileRow) (d : Db) : Db :=
  {| has_schema := has_schema d; plans := plans d; plans_seq := plans_seq d;
     plan_steps := plan_steps d; plan_files := l;
     timeline_events := timeline_events d; evidence_records := evidence_records d;
     feedback_records := feedback_records d; checkpoints := checkpoints d |}.

Definition with_timeline_events (l : list EventRow) (d : Db) : Db :=
  {| has_schema := has_schema d; plans := plans d; plans_seq := plans_seq d;
     plan_steps := plan_steps d; plan_files := plan_files d;
     timeline_events := l; evidence_records := evidence_records d;
     feedback_records := feedback_records d; checkpoints := checkpoints d |}.

Definition with_evidence_records (l : list EvidenceRow) (d : Db) : Db :=
  {| has_schema := has_schema d; plans := plans d; plans_seq := plans_seq d;
     plan_steps := plan_steps d; plan_files := plan_files d;
     timeline_events := timeline_events d; evidence_records := l;
     feedback_records := feedback_records d; checkpoints := checkpoints d |}.

Definition with_feedback_records (l : list FeedbackRow) (d : Db) : Db :=
  {| has_schema := has_schema d; plans := plans d; plans_seq := plans_seq d;
     plan_steps := plan_steps d; plan_files := plan_files d;
     timeline_events := timeline_events d; evidence_records := evidence_records d;
     feedback_records := l; checkpoints := checkpoints d |}.

Definition with_checkpoints (l : list CheckpointRow) (d : Db) : Db :=
  {| has_schema := has_schema d; plans := plans d; plans_seq := plans_seq d;
     plan_steps := plan_steps d; plan_files := plan_files d;
     timeline_events := timeline_events d; evidence_records := evidence_records d;
     feedback_records := feedback_records d; checkpoints := l |}.

(** *** Statements

    A statement maps the database to a result and a new database, or to
    the message of the error it raises; a failed statement changes
    nothing. *)

Definition Statement (A : Type) : Type := Db -> (A * Db) + string.

(** [FOREIGN KEY (plan_id) REFERENCES plans(id)] under
    [PRAGMA foreign_keys = ON]. *)
Definition plan_row_exists (k : Z) (d : Db) : bool :=
  existsb (fun r => Z.eqb (plans_id r) k) (plans d).

Definition max_plan_id (l : list PlanRow) : Z :=
  fold_right (fun r m => Z.max (plans_id r) m) 0%Z l.

(** [INSERT INTO plans (code, name, description, stage, created_at,
    updated_at, schema_version) VALUES (...)]; the result is
    [lastInsertRowid]. *)
Definition insert_plan (m : PlanMetadata) : Statement Z := fun d =>
  if existsb (fun r => String.eqb (plans_code r) (md_id m)) (plans d)
  then inr "UNIQUE constraint failed: plans.code"
  else
    let id := (Z.max (plans_seq d) (max_plan_id (plans d)) + 1)%Z in
    let row := {| plans_id := id;
                  plans_code := md_id m;
                  plans_name := md_name m;
                  plans_description := or_null (md_description m);
                  plans_stage := md_stage m;
                  plans_created_at := md_createdAt m;
                  plans_updated_at := md_updatedAt m;
                  plans_schema_version := md_schemaVersion m |} in
    inl (id, with_plans (plans d ++ [row]) id d).

(** [UPDATE plans SET ... WHERE id = ?] *)
Definition update_plans (k : Z) (f : PlanRow -> PlanRow) : Statement unit := fun d =>
  inl (tt, with_plans (map (fun r => if Z.eqb (plans_id r) k then f r else r) (plans d))
                      (plans_seq d) d).

Definition step_key (k n : Z) (r : StepRow) : bool :=
  andb (Z.eqb (steps_plan_id r) k) (Z.eqb (steps_number r) n).

(** [INSERT INTO plan_steps (...) VALUES (...)] under
    [UNIQUE(plan_id, number)]. *)
Definition insert_plan_step (row : StepRow) : Statement unit := fun d =>
  if existsb (step_key (steps_plan_id row) (steps_number row)) (plan_steps d)
  then inr "UNIQUE constraint failed: plan_steps.plan_id, plan_steps.number"
  else if negb (plan_row_exists (steps_plan_id row) d)
  then inr "FOREIGN KEY constraint failed"
  else inl (tt, with_plan_steps (plan_steps d ++ [row]) d).

(** [UPDATE plan_steps SET ... WHERE plan_id = ? AND number = ?] *)
Definition update_plan_steps (k n : Z) (f : StepRow -> StepRow) : Statement unit := fun d =>
  inl (tt, with_plan_steps (map (fun r => if step_key k n r then f r else r) (plan_steps d)) d).

(** [DELETE FROM plan_steps WHERE plan_id = ? AND number = ?] *)
Definition delete_plan_steps (k n : Z) : Statement unit := fun d =>
  inl (tt, with_plan_steps (filter (fun r => negb (step_key k n r)) (plan_steps d)) d).

Definition file_key (k : Z) (ty name : string) (r : FileRow) : bool :=
  andb (Z.eqb (files_plan_id r) k)
       (andb (String.eqb (files_file_type r) ty) (String.eqb (files_filename r) name)).

(** [INSERT INTO plan_files (...) VALUES (...)
     ON CONFLICT(plan_id, file_type, filename) DO UPDATE SET
       content = excluded.content, updated_at = excluded.updated_at] *)
Definition upsert_plan_file (row : FileRow) : Statement unit := fun d =>
  let hit := file_key (files_plan_id row) (files_file_type row) (files_filename row) in
  if existsb hit (plan_files d)
  then inl (tt, with_plan_files
                  (map (fun r => if hit r
                                 then {| files_plan_id := files_plan_id r;
                                         files_file_type := files_file_type r;
                                         files_filename := files_filename r;
                                         files_content := files_content row;
                                         files_created_at := files_created_at r;
                                         files_updated_at := files_updated_at row |}
                                 else r) (plan_files d)) d)
  else if negb (plan_row_exists (files_plan_id row) d)
  then inr "FOREIGN KEY constraint failed"
  else inl (tt, with_plan_files (plan_files d ++ [row]) d).

(** [DELETE FROM plan_files WHERE plan_id = ? AND file_type = ? AND filename = ?] *)
Definition delete_plan_files (k : Z) (ty name : string) : Statement unit := fun d =>
  inl (tt, with_plan_files (filter (fun r => negb (file_key k ty name r)) (plan_files d)) d).

(** [INSERT INTO timeline_events (...)], [id TEXT PRIMARY KEY]. *)
Definition insert_timeline_event (row : EventRow) : Statement unit := fun d =>
  if existsb (fun r => String.eqb (tl_id r) (tl_id row)) (timeline_events d)
  then inr "UNIQUE constraint failed: timeline_events.id"
  else if negb (plan_row_exists (tl_plan_id row) d)
  then inr "FOREIGN KEY constraint failed"
  else inl (tt, with_timeline_events (timeline_events d ++ [row]) d).

(** [INSERT INTO evidence_records (...)], [id TEXT PRIMARY KEY]. *)
Definition insert_evidence_record (row : EvidenceRow) : Statement unit := fun d =>
  if existsb (fun r => String.eqb (evr_id r) (evr_id row)) (evidence_records d)
  then inr "UNIQUE constraint failed: evidence_records.id"
  else if negb (plan_row_exists (evr_plan_id row) d)
  then inr "FOREIGN KEY constraint failed"
  else inl (tt, with_evidence_records (evidence_records d ++ [row]) d).

(** [INSERT INTO feedback_records (...)], [id TEXT PRIMARY KEY]. *)
Definition insert_feedback_record (row : FeedbackRow) : Statement unit := fun d =>
  if existsb (fun r => String.eqb (fbr_id r) (fbr_id row)) (feedback_records d)
  then inr "UNIQUE constraint failed: feedback_records.id"
  else if negb (plan_row_exists (fbr_plan_id row) d)
  then inr "FOREIGN KEY constraint failed"
  else inl (tt, with_feedback_records (feedback_records d ++ [row]) d).

Definition checkpoint_key (k : Z) (name : string) (r : CheckpointRow) : bool :=
  andb (Z.eqb (ck_plan_id r) k) (String.eqb (ck_name r) name).

(** [INSERT INTO checkpoints (...) ON CONFLICT(plan_id, name) DO UPDATE SET
     message = excluded.message, created_at = excluded.created_at,
     snapshot = excluded.snapshot] *)
Definition upsert_checkpoint (row : CheckpointRow) : Statement unit := fun d =>
  let hit := checkpoint_key (ck_plan_id row) (ck_name row) in
  if existsb hit (checkpoints d)
  then inl (tt, with_checkpoints (map (fun r => if hit r then row else r) (checkpoints d)) d)
  else if negb (plan_row_exists (ck_plan_id row) d)
  then inr "FOREIGN KEY constraint failed"
  else inl (tt, with_checkpoints (checkpoints d ++ [row]) d).

(** *** Queries *)

(** [SELECT id FROM plans LIMIT 1] *)
Definition select_first_plan_id (d : Db) : option Z :=
  match plans d with
  | [] => None
  | r :: _ => Some (plans_id r)
  end.

(** [SELECT ... FROM plans WHERE id = ?] *)
Definition select_plan (k : Z) (d : Db) : option PlanRow :=
  find (fun r => Z.eqb (plans_id r) k) (plans d).

(** [SELECT ... FROM plan_steps WHERE plan_id = ? ORDER BY number] *)
Definition select_steps (k : Z) (d : Db) : list StepRow :=
  sort_by (fun a b => Z.leb (steps_number a) (steps_number b))
          (filter (fun r => Z.eqb (steps_plan_id r) k) (plan_steps d)).

(** [SELECT ... FROM plan_steps WHERE plan_id = ? AND number = ?] *)
Definition select_step (k n : Z) (d : Db) : option StepRow :=
  find (step_key k n) (plan_steps d).

(** [SELECT ... FROM plan_files WHERE plan_id = ?] *)
Definition select_files (k : Z) (d : Db) : list FileRow :=
  filter (fun r => Z.eqb (files_plan_id r) k) (plan_files d).

(** [SELECT ... FROM plan_files WHERE plan_id = ? AND file_type = ? AND filename = ?] *)
Definition select_file (k : Z) (ty name : string) (d : Db) : option FileRow :=
  find (file_key k ty name) (plan_files d).

(** [SELECT ... FROM timeline_events WHERE plan_id = ?
     [AND timestamp >= ?] [AND event_type = ?] ORDER BY timestamp DESC [LIMIT ?]] *)
Definition select_timeline_events (k : Z) (since ty : option string) (limit : option nat)
  (d : Db) : list EventRow :=
  let keep r :=
    andb (Z.eqb (tl_plan_id r) k)
         (andb (match since with Some s => String.leb s (tl_timestamp r) | None => true end)
               (match ty with Some t => String.eqb (tl_event_type r) t | None => true end)) in
  let rows := sort_by (fun a b => String.leb (tl_timestamp b) (tl_timestamp a))
                      (filter keep (timeline_events d)) in
  match limit with
  | Some n => firstn n rows
  | None => rows
  end.

(** [SELECT ... FROM evidence_records WHERE plan_id = ?] *)
Definition select_evidence (k : Z) (d : Db) : list EvidenceRow :=
  filter (fun r => Z.eqb (evr_plan_id r) k) (evidence_records d).

(** [SELECT ... FROM feedback_records WHERE plan_id = ?] *)
Definition select_feedback (k : Z) (d : Db) : list FeedbackRow :=
  filter (fun r => Z.eqb (fbr_plan_id r) k) (feedback_records d).

(** [SELECT ... FROM checkpoints WHERE plan_id = ? ORDER BY created_at DESC] *)
Definition select_checkpoints (k : Z) (d : Db) : list CheckpointRow :=
  sort_by (fun a b => String.leb (ck_created_at b) (ck_created_at a))
          (filter (fun r => Z.eqb (ck_plan_id r) k) (checkpoints d)).

(** [SELECT ... FROM checkpoints WHERE plan_id = ? AND name = ?] *)
Definition select_checkpoint (k : Z) (name : string) (d : Db) : option CheckpointRow :=
  find (checkpoint_key k name) (checkpoints d).

(** [x LIKE pattern]: [%] matches any run of characters, [_] any one
    character, and letters match without regard to (ASCII) case. *)
Fixpoint like (pattern s : string) : bool :=
  match pattern with
  | EmptyString => match s with EmptyString => true | _ => false end
  | String c pattern' =>
      if Ascii.eqb c "%"%char
      then (fix any (t : string) : bool :=
              orb (like pattern' t)
                  (match t with
                   | EmptyString => false
                   | String _ t' => any t'
                   end)) s
      else match s with
           | EmptyString => false
           | String x s' =>
               andb (orb (Ascii.eqb c "_"%char) (Ascii.eqb (lower_ascii c) (lower_ascii x)))
                    (like pattern' s')
           end
  end.

(** [x LIKE ?] where [x] may be NULL: NULL matches nothing. *)
Definition like_nullable (pattern : string) (x : option string) : bool :=
  match x with
  | Some s => like pattern s
  | None => false
  end.

End Schema.

(* ================================================================== *)
(** ** The SQLite provider ([sqlite-provider.ts]) *)
(* ================================================================== *)

Module Sqlite.
Import Schema.

(** The provider object together with what it reads from its
    environment: the database behind [this.db], the cached [this.planId],
    and three oracles.  [faults n] is the error raised by the [n]-th
    statement the handle executes, if the engine fails there (disk full,
    I/O error, lock); [uuids n] is what the [n]-th call of [randomUUID]
    returns, [clock n] what the [n]-th [new Date().toISOString()]
    returns. *)
Record Provider : Type := {
  path : string;
  db : Db;
  planId : option Z;
  faults : nat -> option string;
  statements : nat;
  uuids : nat -> string;
  uuid_calls : nat;
  clock : nat -> string;
  clock_calls : nat }.

Definition with_db (d : Db) (p : Provider) : Provider :=
  {| path := path p; db := d; planId := planId p;
     faults := faults p; statements := statements p;
     uuids := uuids p; uuid_calls := uuid_calls p;
     clock := clock p; clock_calls := clock_calls p |}.

Definition with_planId (k : option Z) (p : Provider) : Provider :=
  {| path := path p; db := db p; planId := k;
     faults := faults p; statements := statements p;
     uuids := uuids p; uuid_calls := uuid_calls p;
     clock := clock p; clock_calls := clock_calls p |}.

Definition count_statement (p : Provider) : Provider :=
  {| path := path p; db := db p; planId := planId p;
     faults := faults p; statements := S (statements p);
     uuids := uuids p; uuid_calls := uuid_calls p;
     clock := clock p; clock_calls := clock_calls p |}.

Definition count_uuid (p : Provider) : Provider :=
  {| path := path p; db := db p; planId := planId p;
     faults := faults p; statements := statements p;
     uuids := uuids p; uuid_calls := S (uuid_calls p);
     clock := clock p; clock_calls := clock_calls p |}.

Definition count_clock (p : Provider) : Provider :=
  {| path := path p; db := db p; planId := planId p;
     faults := faults p; statements := statements p;
     uuids := uuids p; uuid_calls := uuid_calls p;
     clock := clock p; clock_calls := S (clock_calls p) |}.

(** [new SqliteStorageProvider(planPath)] on a path where no file
    exists yet. *)
Definition create (planPath : string) (faults : nat -> option string)
  (uuids clock : nat -> string) : Provider :=
  {| path := planPath; db := empty_db; planId := None;
     faults := faults; statements := 0;
     uuids := uuids; uuid_calls := 0;
     clock := clock; clock_calls := 0 |}.

(** *** Method bodies: state and exceptions

    The body of a method either returns or throws, and in both cases the
    provider keeps what was done before. *)

Inductive Outcome (A : Type) : Type :=
| Returned (a : A)
| Thrown (message : string).

Arguments Returned {A} _.
Arguments Thrown {A} _.

Definition M (A : Type) : Type := Provider -> Outcome A * Provider.

Definition ret {A : Type} (a : A) : M A := fun p => (Returned a, p).

Definition throw {A : Type} (message : string) : M A := fun p => (Thrown message, p).

Definition bind {A B : Type} (c : M A) (k : A -> M B) : M B := fun p =>
  match c p with
  | (Returned a, p') => k a p'
  | (Thrown e, p') => (Thrown e, p')
  end.

Notation "x <- c ;; k" := (bind c (fun x => k))
  (at level 100, c at next level, right associativity).
Notation "c ;;; k" := (bind c (fun _ => k))
  (at level 100, right associativity).

(** [try { return body } catch (error) { return { success: false,
    error: error.message } }] *)
Definition try_catch {A : Type} (body : M (StorageResult A)) (p : Provider)
  : StorageResult A * Provider :=
  match body p with
  | (Returned r, p') => (r, p')
  | (Thrown e, p') => (failure e, p')
  end.

(** [this.db.prepare(sql)] for a statement over [table]: it throws when
    the table does not exist. *)
Definition prepare (table : string) : M unit := fun p =>
  if has_schema (db p) then (Returned tt, p)
  else (Thrown ("no such table: " ++ table), p).

(** [stmt.run(...)], [stmt.get(...)], [stmt.all(...)]: the statement is
    executed unless the engine fails at this point. *)
Definition run {A : Type} (s : Statement A) : M A := fun p =>
  let p1 := count_statement p in
  match faults p (statements p) with
  | Some e => (Thrown e, p1)
  | None =>
      match s (db p) with
      | inl (a, d') => (Returned a, with_db d' p1)
      | inr e => (Thrown e, p1)
      end
  end.

Definition fetch {A : Type} (q : Db -> A) : M A :=
  run (fun d => inl (q d, d)).

(** [new Date().toISOString()] *)
Definition now : M string := fun p =>
  (Returned (clock p (clock_calls p)), count_clock p).

(** [randomUUID()] *)
Definition randomUUID : M string := fun p =>
  (Returned (uuids p (uuid_calls p)), count_uuid p).

(** [id || randomUUID()] *)
Definition id_or_uuid (id : string) : M string :=
  match id with
  | EmptyString => randomUUID
  | _ => ret id
  end.

(** [this.db.exec(schema)]: every [CREATE TABLE] of the schema is
    [IF NOT EXISTS], so running it again changes nothing. *)
Definition initializeSchema : M unit :=
  run (fun d => inl (tt, with_schema d)).

Definition getPlanId : M Z := fun p =>
  match planId p with
  | Some k => (Returned k, p)
  | None =>
      (prepare "plans" ;;;
       row <- fetch select_first_plan_id ;;
       match row with
       | None => throw "No plan found in database"
       | Some k => fun p' => (Returned k, with_planId (Some k) p')
       end) p
  end.

(** *** Core operations *)

Definition exists_ (p : Provider) : bool * Provider :=
  match (prepare "plans" ;;; fetch (fun d => List.length (plans d))) p with
  | (Returned n, p') => (Nat.ltb 0 n, p')
  | (Thrown _, p') => (false, p')
  end.

Definition initialize (metadata : PlanMetadata) : Provider -> StorageResult unit * Provider :=
  try_catch
    (initializeSchema ;;;
     prepare "plans" ;;;
     lastInsertRowid <- run (insert_plan metadata) ;;
     (fun p => (Returned tt, with_planId (Some lastInsertRowid) p)) ;;;
     ret ok_void).

(** *** Metadata operations *)

Definition metadata_of_row (row : PlanRow) : PlanMetadata :=
  {| md_id := plans_code row;
     md_name := plans_name row;
     md_description := or_null (plans_description row);
     md_createdAt := plans_created_at row;
     md_updatedAt := plans_updated_at row;
     md_stage := plans_stage row;
     md_schemaVersion := plans_schema_version row |}.

Definition getMetadata : Provider -> StorageResult PlanMetadata * Provider :=
  try_catch
    (prepare "plans" ;;;
     k <- getPlanId ;;
     row <- fetch (select_plan k) ;;
     match row with
     | None => ret (failure "Plan not found")
     | Some r => ret (ok_data (metadata_of_row r))
     end).

(** The [SET] list of [updateMetadata]: [name], [description] and [stage]
    when supplied, and [updated_at] always. *)
Definition set_plan_columns (metadata : PlanMetadataPatch) (updated_at : string)
  (row : PlanRow) : PlanRow :=
  {| plans_id := plans_id row;
     plans_code := plans_code row;
     plans_name := match um_name metadata with Some v => v | None => plans_name row end;
     plans_description := match um_description metadata with
                          | Some v => Some v
                          | None => plans_description row
                          end;
     plans_stage := match um_stage metadata with Some v => v | None => plans_stage row end;
     plans_created_at := plans_created_at row;
     plans_updated_at := updated_at;
     plans_schema_version := plans_schema_version row |}.

Definition updateMetadata (metadata : PlanMetadataPatch)
  : Provider -> StorageResult unit * Provider :=
  try_catch
    (t <- now ;;
     k <- getPlanId ;;
     prepare "plans" ;;;
     run (update_plans k (set_plan_columns metadata t)) ;;;
     ret ok_void).

(** *** Step operations *)

Definition step_of_row (row : StepRow) : PlanStep :=
  {| st_number := steps_number row;
     st_code := steps_code row;
     st_title := steps_title row;
     st_description := or_null (steps_description row);
     st_status := steps_status row;
     st_startedAt := or_null (steps_started_at row);
     st_completedAt := or_null (steps_completed_at row);
     st_content := steps_content row |}.

Definition row_of_step (k : Z) (step : PlanStep) : StepRow :=
  {| steps_plan_id := k;
     steps_number := st_number step;
     steps_code := st_code step;
     steps_title := st_title step;
     steps_description := or_null (st_description step);
     steps_status := st_status step;
     steps_started_at := or_null (st_startedAt step);
     steps_completed_at := or_null (st_completedAt step);
     steps_content := st_content step |}.

Definition getSteps : Provider -> StorageResult (list PlanStep) * Provider :=
  try_catch
    (prepare "plan_steps" ;;;
     k <- getPlanId ;;
     rows <- fetch (select_steps k) ;;
     ret (ok_data (map step_of_row rows))).

Definition getStep (number : Z) : Provider -> StorageResult PlanStep * Provider :=
  try_catch
    (prepare "plan_steps" ;;;
     k <- getPlanId ;;
     row <- fetch (select_step k number) ;;
     match row with
     | None => ret ok_null
     | Some r => ret (ok_data (step_of_row r))
     end).

Definition addStep (step : PlanStep) : Provider -> StorageResult unit * Provider :=
  try_catch
    (prepare "plan_steps" ;;;
     k <- getPlanId ;;
     run (insert_plan_step (row_of_step k step)) ;;;
     ret ok_void).

(** [fields.length === 0] in [updateStep]: none of the seven columns it
    can set is supplied ([number] is not one of them). *)
Definition no_step_fields (updates : PlanStepPatch) : bool :=
  match up_code updates, up_title updates, up_description updates, up_status updates,
        up_startedAt updates, up_completedAt updates, up_content updates with
  | None, None, None, None, None, None, None => true
  | _, _, _, _, _, _, _ => false
  end.

(** The [SET] list of [updateStep]. *)
Definition set_step_columns (updates : PlanStepPatch) (row : StepRow) : StepRow :=
  {| steps_plan_id := steps_plan_id row;
     steps_number := steps_number row;
     steps_code := match up_code updates with Some v => v | None => steps_code row end;
     steps_title := match up_title updates with Some v => v | None => steps_title row end;
     steps_description := match up_description updates with
                          | Some v => Some v
                          | None => steps_description row
                          end;
     steps_status := match up_status updates with Some v => v | None => steps_status row end;
     steps_started_at := match up_startedAt updates with
                         | Some v => Some v
                         | None => steps_started_at row
                         end;
     steps_completed_at := match up_completedAt updates with
                           | Some v => Some v
                           | None => steps_completed_at row
                           end;
     steps_content := match up_content updates with Some v => v | None => steps_content row end |}.

Definition updateStep (number : Z) (updates : PlanStepPatch)
  : Provider -> StorageResult unit * Provider :=
  try_catch
    (if no_step_fields updates then ret ok_void
     else
       k <- getPlanId ;;
       prepare "plan_steps" ;;;
       run (update_plan_steps k number (set_step_columns updates)) ;;;
       ret ok_void).

Definition deleteStep (number : Z) : Provider -> StorageResult unit * Provider :=
  try_catch
    (prepare "plan_steps" ;;;
     k <- getPlanId ;;
     run (delete_plan_steps k number) ;;;
     ret ok_void).

(** *** File operations *)

Definition file_of_row (row : FileRow) : PlanFile :=
  {| pf_type := files_file_type row;
     pf_filename := files_filename row;
     pf_content := files_content row;
     pf_createdAt := files_created_at row;
     pf_updatedAt := files_updated_at row |}.

Definition row_of_file (k : Z) (file : PlanFile) : FileRow :=
  {| files_plan_id := k;
     files_file_type := pf_type file;
     files_filename := pf_filename file;
     files_content := pf_content file;
     files_created_at := pf_createdAt file;
     files_updated_at := pf_updatedAt file |}.

Definition getFiles : Provider -> StorageResult (list PlanFile) * Provider :=
  try_catch
    (prepare "plan_files" ;;;
     k <- getPlanId ;;
     rows <- fetch (select_files k) ;;
     ret (ok_data (map file_of_row rows))).

Definition getFile (type filename : string) : Provider -> StorageResult PlanFile * Provider :=
  try_catch
    (prepare "plan_files" ;;;
     k <- getPlanId ;;
     row <- fetch (select_file k type filename) ;;
     match row with
     | None => ret ok_null
     | Some r => ret (ok_data (file_of_row r))
     end).

Definition saveFile (file : PlanFile) : Provider -> StorageResult unit * Provider :=
  try_catch
    (prepare "plan_files" ;;;
     k <- getPlanId ;;
     run (upsert_plan_file (row_of_file k file)) ;;;
     ret ok_void).

Definition deleteFile (type filename : string) : Provider -> StorageResult unit * Provider :=
  try_catch
    (prepare "plan_files" ;;;
     k <- getPlanId ;;
     run (delete_plan_files k type filename) ;;;
     ret ok_void).

(** *** Timeline operations *)

Definition event_of_row (row : EventRow) : TimelineEvent :=
  {| ev_id := tl_id row;
     ev_timestamp := tl_timestamp row;
     ev_type := tl_event_type row;
     ev_data := tl_data row |}.

Definition getTimelineEvents (options : TimelineOptions)
  : Provider -> StorageResult (list TimelineEvent) * Provider :=
  try_catch
    (k <- getPlanId ;;
     prepare "timeline_events" ;;;
     rows <- fetch (select_timeline_events k
                      (or_null (opt_since options))
                      (or_null (opt_type options))
                      (match opt_limit options with Some O => None | l => l end)) ;;
     ret (ok_data (map event_of_row rows))).

Definition addTimelineEvent (event : TimelineEvent)
  : Provider -> StorageResult unit * Provider :=
  try_catch
    (prepare "timeline_events" ;;;
     id <- id_or_uuid (ev_id event) ;;
     k <- getPlanId ;;
     run (insert_timeline_event
            {| tl_id := id;
               tl_plan_id := k;
               tl_timestamp := ev_timestamp event;
               tl_event_type := ev_type event;
               tl_data := ev_data event |}) ;;;
     ret ok_void).

(** *** Evidence operations *)

Definition evidence_of_row (row : EvidenceRow) : EvidenceRecord :=
  {| er_id := evr_id row;
     er_description := evr_description row;
     er_source := or_null (evr_source row);
     er_sourceUrl := or_null (evr_source_url row);
     er_gatheringMethod := evr_gathering_method row;
     er_content := or_null (evr_content row);
     er_filePath := or_null (evr_file_path row);
     er_relevanceScore := evr_relevance_score row;
     er_originalQuery := or_null (evr_original_query row);
     er_summary := or_null (evr_summary row);
     er_createdAt := evr_created_at row |}.

Definition getEvidence : Provider -> StorageResult (list EvidenceRecord) * Provider :=
  try_catch
    (prepare "evidence_records" ;;;
     k <- getPlanId ;;
     rows <- fetch (select_evidence k) ;;
     ret (ok_data (map evidence_of_row rows))).

Definition addEvidence (evidence : EvidenceRecord)
  : Provider -> StorageResult unit * Provider :=
  try_catch
    (prepare "evidence_records" ;;;
     id <- id_or_uuid (er_id evidence) ;;
     k <- getPlanId ;;
     run (insert_evidence_record
            {| evr_id := id;
               evr_plan_id := k;
               evr_description := er_description evidence;
               evr_source := or_null (er_source evidence);
               evr_source_url := or_null (er_sourceUrl evidence);
               evr_gathering_method := or_null (er_gatheringMethod evidence);
               evr_content := or_null (er_content evidence);
               evr_file_path := or_null (er_filePath evidence);
               evr_relevance_score := er_relevanceScore evidence;
               evr_original_query := or_null (er_originalQuery evidence);
               evr_summary := or_null (er_summary evidence);
               evr_created_at := er_createdAt evidence |}) ;;;
     ret ok_void).

(** *** Feedback operations *)

Definition feedback_of_row (row : FeedbackRow) : FeedbackRecord :=
  {| fb_id := fbr_id row;
     fb_title := or_null (fbr_title row);
     fb_platform := or_null (fbr_platform row);
     fb_content := fbr_content row;
     fb_participants := fbr_participants row;
     fb_createdAt := fbr_created_at row |}.

Definition getFeedback : Provider -> StorageResult (list FeedbackRecord) * Provider :=
  try_catch
    (prepare "feedback_records" ;;;
     k <- getPlanId ;;
     rows <- fetch (select_feedback k) ;;
     ret (ok_data (map feedback_of_row rows))).

Definition addFeedback (feedback : FeedbackRecord)
  : Provider -> StorageResult unit * Provider :=
  try_catch
    (prepare "feedback_records" ;;;
     id <- id_or_uuid (fb_id feedback) ;;
     k <- getPlanId ;;
     run (insert_feedback_record
            {| fbr_id := id;
               fbr_plan_id := k;
               fbr_title := or_null (fb_title feedback);
               fbr_platform := or_null (fb_platform feedback);
               fbr_content := fb_content feedback;
               fbr_participants := fb_participants feedback;
               fbr_created_at := fb_createdAt feedback |}) ;;;
     ret ok_void).

(** *** Checkpoint operations *)

Definition checkpoint_of_row (row : CheckpointRow) : Checkpoint :=
  {| cp_name := ck_name row;
     cp_message := ck_message row;
     cp_createdAt := ck_created_at row;
     cp_snapshot := ck_snapshot row |}.

Definition getCheckpoints : Provider -> StorageResult (list Checkpoint) * Provider :=
  try_catch
    (prepare "checkpoints" ;;;
     k <- getPlanId ;;
     rows <- fetch (select_checkpoints k) ;;
     ret (ok_data (map checkpoint_of_row rows))).

Definition getCheckpoint (name : string) : Provider -> StorageResult Checkpoint * Provider :=
  try_catch
    (prepare "checkpoints" ;;;
     k <- getPlanId ;;
     row <- fetch (select_checkpoint k name) ;;
     match row with
     | None => ret ok_null
     | Some r => ret (ok_data (checkpoint_of_row r))
     end).

Definition createCheckpoint (checkpoint : Checkpoint)
  : Provider -> StorageResult unit * Provider :=
  try_catch
    (prepare "checkpoints" ;;;
     k <- getPlanId ;;
     run (upsert_checkpoint
            {| ck_plan_id := k;
               ck_name := cp_name checkpoint;
               ck_message := cp_message checkpoint;
               ck_created_at := cp_createdAt checkpoint;
               ck_snapshot := cp_snapshot checkpoint |}) ;;;
     ret ok_void).

(** [for (const x of xs) { body(x) }] *)
Fixpoint for_each {A : Type} (xs : list A) (body : A -> M unit) : M unit :=
  match xs with
  | [] => ret tt
  | x :: xs' => body x ;;; for_each xs' body
  end.

(** [this.db.transaction(fn)()] of better-sqlite3: BEGIN, the body,
    COMMIT; when the body or COMMIT throws, ROLLBACK restores the database
    as it was at BEGIN and the exception is thrown on. *)
Definition transaction {A : Type} (body : M A) : M A := fun p =>
  match run (fun d => inl (tt, d)) p with
  | (Thrown e, p1) => (Thrown e, p1)
  | (Returned _, p1) =>
      match (a <- body ;; run (fun d => inl (tt, d)) ;;; ret a) p1 with
      | (Returned a, p2) => (Returned a, p2)
      | (Thrown e, p2) => (Thrown e, with_db (db p1) p2)
      end
  end.

(** [UPDATE plans SET name = ?, description = ?, stage = ?, updated_at = ?] *)
Definition restore_plan_columns (metadata : PlanMetadata) (updated_at : string)
  (row : PlanRow) : PlanRow :=
  {| plans_id := plans_id row;
     plans_code := plans_code row;
     plans_name := md_name metadata;
     plans_description := or_null (md_description metadata);
     plans_stage := md_stage metadata;
     plans_created_at := plans_created_at row;
     plans_updated_at := updated_at;
     plans_schema_version := plans_schema_version row |}.

(** [UPDATE plan_steps SET status = ?, started_at = ?, completed_at = ?] *)
Definition restore_step_columns (step : SnapshotStep) (row : StepRow) : StepRow :=
  {| steps_plan_id := steps_plan_id row;
     steps_number := steps_number row;
     steps_code := steps_code row;
     steps_title := steps_title row;
     steps_description := steps_description row;
     steps_status := ss_status step;
     steps_started_at := or_null (ss_startedAt step);
     steps_completed_at := or_null (ss_completedAt step);
     steps_content := steps_content row |}.

(** The function handed to [this.db.transaction] in [restoreCheckpoint]. *)
Definition restore_body (planId : Z) (snapshot : CheckpointSnapshot) : M unit :=
  (prepare "plans" ;;;
   t <- now ;;
   run (update_plans planId (restore_plan_columns (snap_metadata snapshot) t))) ;;;
  for_each (snap_steps snapshot) (fun step =>
    prepare "plan_steps" ;;;
    run (update_plan_steps planId (ss_number step) (restore_step_columns step))) ;;;
  for_each (snap_files snapshot) (fun file =>
    prepare "plan_files" ;;;
    created <- now ;;
    updated <- now ;;
    run (upsert_plan_file
           {| files_plan_id := planId;
              files_file_type := sf_type file;
              files_filename := sf_filename file;
              files_content := sf_content file;
              files_created_at := created;
              files_updated_at := updated |})).

Definition restoreCheckpoint (name : string) : Provider -> StorageResult unit * Provider :=
  try_catch (fun p =>
    let (checkpointResult, p1) := getCheckpoint name p in
    match (if success checkpointResult then data checkpointResult else None) with
    | None => (Returned (failure ("Checkpoint not found: " ++ name)), p1)
    | Some checkpoint =>
        (planId <- getPlanId ;;
         transaction (restore_body planId (cp_snapshot checkpoint)) ;;;
         ret ok_void) p1
    end).

(** *** Search operations *)

Definition extractSnippet (content query : string) : string :=
  let lowerContent := toLowerCase content in
  let lowerQuery := toLowerCase query in
  match indexOf lowerContent lowerQuery 0 with
  | None => (slice content 0 100 ++ "...")%string
  | Some index =>
      let start := index - 50 in
      let stop := Nat.min (String.length content) (index + String.length query + 50) in
      let snippet := slice content start stop in
      let snippet := if Nat.ltb 0 start then ("..." ++ snippet)%string else snippet in
      if Nat.ltb stop (String.length content) then (snippet ++ "...")%string else snippet
  end.

(** The counting loop of [calculateScore]:
    [while ((pos = lowerContent.indexOf(lowerQuery, pos)) !== -1)
       { count++; pos += lowerQuery.length; }].
    [fuel] bounds the number of times the condition is evaluated; [None]
    means the loop was still running when it ran out. *)
Fixpoint count_loop (fuel : nat) (lowerContent lowerQuery : string) (pos count : nat)
  : option nat :=
  match fuel with
  | O => None
  | S fuel' =>
      match indexOf lowerContent lowerQuery pos with
      | None => Some count
      | Some found =>
          count_loop fuel' lowerContent lowerQuery (found + String.length lowerQuery) (S count)
      end
  end.

(** [Math.min(1, count / 10)] *)
Definition normalize_score (count : nat) : Q := Qmin 1 (Z.of_nat count # 10)%Q.

Definition calculateScore (fuel : nat) (content query : string) : option Q :=
  match count_loop fuel (toLowerCase content) (toLowerCase query) 0 0 with
  | Some count => Some (normalize_score count)
  | None => None
  end.

(** What [search] keeps of a matching row: the kind of entity, the
    identifier it reports, and the text it scores. *)
Record Match : Type := {
  m_type : SearchResultType;
  m_id : string;
  m_text : string }.

(** [SELECT number, title, content FROM plan_steps
     WHERE plan_id = ? AND (title LIKE ? OR content LIKE ?)] *)
Definition select_matching_steps (k : Z) (pattern : string) (d : Db) : list Match :=
  map (fun r => {| m_type := sr_step; m_id := string_of_Z (steps_number r);
                   m_text := steps_content r |})
      (filter (fun r => andb (Z.eqb (steps_plan_id r) k)
                             (orb (like pattern (steps_title r)) (like pattern (steps_content r))))
              (plan_steps d)).

(** [SELECT file_type, filename, content FROM plan_files
     WHERE plan_id = ? AND content LIKE ?] *)
Definition select_matching_files (k : Z) (pattern : string) (d : Db) : list Match :=
  map (fun r => {| m_type := sr_file; m_id := files_filename r; m_text := files_content r |})
      (filter (fun r => andb (Z.eqb (files_plan_id r) k) (like pattern (files_content r)))
              (plan_files d)).

(** [SELECT id, description, content FROM evidence_records
     WHERE plan_id = ? AND (description LIKE ? OR content LIKE ?)];
    the text scored is [row.content || row.description]. *)
Definition select_matching_evidence (k : Z) (pattern : string) (d : Db) : list Match :=
  map (fun r => {| m_type := sr_evidence; m_id := evr_id r;
                   m_text := or_else (evr_content r) (evr_description r) |})
      (filter (fun r => andb (Z.eqb (evr_plan_id r) k)
                             (orb (like pattern (evr_description r))
                                  (like_nullable pattern (evr_content r))))
              (evidence_records d)).

(** [for (const row of rows) results.push({ type, id, snippet, score })];
    [None] when a scoring loop does not finish. *)
Fixpoint push_results (fuel : nat) (query : string) (rows : list Match)
  (results : list SearchResult) : option (list SearchResult) :=
  match rows with
  | [] => Some results
  | row :: rows' =>
      match calculateScore fuel (m_text row) query with
      | None => None
      | Some score =>
          push_results fuel query rows'
            (results ++ [{| sr_type := m_type row;
                            sr_id := m_id row;
                            sr_snippet := extractSnippet (m_text row) query;
                            sr_score := score |}])
      end
  end.

(** [results.sort((a, b) => b.score - a.score)] *)
Definition by_score_descending (a b : SearchResult) : bool := Qle_bool (sr_score b) (sr_score a).

Definition search (fuel : nat) (query : string) (p : Provider)
  : option (StorageResult (list SearchResult) * Provider) :=
  match getPlanId p with
  | (Thrown e, p0) => Some (failure e, p0)
  | (Returned planId, p0) =>
  let searchPattern := ("%" ++ query ++ "%")%string in
  match (prepare "plan_steps" ;;; fetch (select_matching_steps planId searchPattern)) p0 with
  | (Thrown e, p1) => Some (failure e, p1)
  | (Returned stepRows, p1) =>
  match push_results fuel query stepRows [] with
  | None => None
  | Some results1 =>
  match (prepare "plan_files" ;;; fetch (select_matching_files planId searchPattern)) p1 with
  | (Thrown e, p2) => Some (failure e, p2)
  | (Returned fileRows, p2) =>
  match push_results fuel query fileRows results1 with
  | None => None
  | Some results2 =>
  match (prepare "evidence_records" ;;;
         fetch (select_matching_evidence planId searchPattern)) p2 with
  | (Thrown e, p3) => Some (failure e, p3)
  | (Returned evidenceRows, p3) =>
  match push_results fuel query evidenceRows results2 with
  | None => None
  | Some results3 => Some (ok_data (sort_by by_score_descending results3), p3)
  end end end end end end end.

(** *** Utility methods *)

Definition createSnapshot : M CheckpointSnapshot := fun p =>
  let (metadataResult, p1) := getMetadata p in
  let (stepsResult, p2) := getSteps p1 in
  let (filesResult, p3) := getFiles p2 in
  match (if success metadataResult then data metadataResult else None) with
  | None => (Thrown "Failed to get metadata for snapshot", p3)
  | Some metadata =>
      (Returned
         {| snap_metadata := metadata;
            snap_steps :=
              map (fun s => {| ss_number := st_number s;
                               ss_status := st_status s;
                               ss_startedAt := st_startedAt s;
                               ss_completedAt := st_completedAt s |})
                  (match data stepsResult with Some l => l | None => [] end);
            snap_files :=
              map (fun f => {| sf_type := pf_type f;
                               sf_filename := pf_filename f;
                               sf_content := pf_content f |})
                  (match data filesResult with Some l => l | None => [] end) |}, p3)
  end.

End Sqlite.

(** [class SqliteStorageProvider implements StorageProvider] *)
#[export] Instance SqliteStorageProvider : StorageProvider Sqlite.Provider := {|
  format := fun _ => sqlite;
  path := Sqlite.path;
  exists_ := Sqlite.exists_;
  initialize := Sqlite.initialize;
  getMetadata := Sqlite.getMetadata;
  updateMetadata := Sqlite.updateMetadata;
  getSteps := Sqlite.getSteps;
  getStep := Sqlite.getStep;
  addStep := Sqlite.addStep;
  updateStep := Sqlite.updateStep;
  deleteStep := Sqlite.deleteStep;
  getFiles := Sqlite.getFiles;
  getFile := Sqlite.getFile;
  saveFile := Sqlite.saveFile;
  deleteFile := Sqlite.deleteFile;
  getTimelineEvents := Sqlite.getTimelineEvents;
  addTimelineEvent := Sqlite.addTimelineEvent;
  getEvidence := Sqlite.getEvidence;
  addEvidence := Sqlite.addEvidence;
  getFeedback := Sqlite.getFeedback;
  addFeedback := Sqlite.addFeedback;
  getCheckpoints := Sqlite.getCheckpoints;
  getCheckpoint := Sqlite.getCheckpoint;
  createCheckpoint := Sqlite.createCheckpoint;
  restoreCheckpoint := Sqlite.restoreCheckpoint;
  search := Sqlite.search |}.

(* ================================================================== *)
(** ** Format heuristics ([utils.ts]) *)
(* ================================================================== *)

(** What the file system holds at a path: a regular file with its bytes
    ([None] when it cannot be read), a directory, or something else
    (a socket, a device).  [fs path = None] when nothing exists there. *)
Inductive Node : Type :=
| RegularFile (contents : option (list byte))
| Directory
| OtherNode.

Definition FileSystem : Type := string -> option Node.

(** The result type [StorageFormat | 'unknown']. *)
Inductive DetectedFormat : Type :=
| detected (f : StorageFormat)
| unknown.

(** [Buffer.from('SQLite format 3\0')] *)
Definition SQLITE_HEADER : list byte := list_byte_of_string "SQLite format 3" ++ [x00].

Definition DIRECTORY_PLAN_MARKERS : list string :=
  ["SUMMARY.md"; "STATUS.md"; "IDEA.md"; "EXECUTION_PLAN.md"].

Fixpoint bytes_equal (a b : list byte) : bool :=
  match a, b with
  | [], [] => true
  | x :: a', y :: b' => andb (Byte.eqb x y) (bytes_equal a' b')
  | _, _ => false
  end.

Definition existsSync (fs : FileSystem) (p : string) : bool :=
  match fs p with
  | Some _ => true
  | None => false
  end.

(** [statSync(p).isDirectory()] *)
Definition isDirectory (fs : FileSystem) (p : string) : bool :=
  match fs p with
  | Some Directory => true
  | _ => false
  end.

(** [statSync(p).isFile()] *)
Definition isFile (fs : FileSystem) (p : string) : bool :=
  match fs p with
  | Some (RegularFile _) => true
  | _ => false
  end.

(** [readFileSync(p)]: [None] when it throws. *)
Definition readFileSync (fs : FileSystem) (p : string) : option (list byte) :=
  match fs p with
  | Some (RegularFile contents) => contents
  | _ => None
  end.

Definition hasSqliteHeader (fs : FileSystem) (filePath : string) : bool :=
  match readFileSync fs filePath with
  | Some fd =>
      if Nat.ltb (List.length fd) (List.length SQLITE_HEADER) then false
      else bytes_equal (firstn (List.length SQLITE_HEADER) fd) SQLITE_HEADER
  | None => false
  end.

Section FormatDetection.

(** [path.join] of Node.js: [join dir name] is a path of the entry
    [name] of the directory at [dir]. *)
Variable join : string -> string -> string.

(** [for (const marker of DIRECTORY_PLAN_MARKERS)
       if (existsSync(join(planPath, marker))) return 'directory'] *)
Fixpoint has_marker (fs : FileSystem) (planPath : string) (markers : list string) : bool :=
  match markers with
  | [] => false
  | marker :: rest =>
      if existsSync fs (join planPath marker) then true
      else has_marker fs planPath rest
  end.

Definition detectPlanFormat (fs : FileSystem) (planPath : string) : DetectedFormat :=
  if negb (existsSync fs planPath) then unknown
  else if isDirectory fs planPath then
    if has_marker fs planPath DIRECTORY_PLAN_MARKERS then detected directory
    else
      let planDir := join planPath "plan" in
      if andb (existsSync fs planDir) (isDirectory fs planDir) then detected directory
      else unknown
  else if isFile fs planPath then
    if hasSqliteHeader fs planPath then detected sqlite
    else if endsWith planPath ".plan" then unknown
    else unknown
  else unknown.

End FormatDetection.

(** [getFormatExtension], with the configured SQLite extension. *)
Definition getFormatExtension (fmt : StorageFormat) (extension : string) : string :=
  match fmt with
  | sqlite => extension
  | directory => ""
  end.

Definition ensureFormatExtension (planPath : string) (fmt : StorageFormat)
  (extension : string) : string :=
  match fmt with
  | sqlite =>
      if negb (endsWith planPath (getFormatExtension fmt extension))
      then (planPath ++ getFormatExtension fmt extension)%string
      else planPath
  | directory => planPath
  end.

(** [isSqlitePath], with the configured SQLite extension. *)
Definition isSqlitePath (planPath extension : string) : bool :=
  endsWith planPath extension.

(** The separators of [/[/\\]/]: a slash or a backslash. *)
Definition is_separator (c : ascii) : bool :=
  orb (Ascii.eqb c "/") (Ascii.eqb c (ascii_of_nat 92)).

(** [s.split(/[/\\]/)] *)
Fixpoint split_path (s : string) : list string :=
  match s with
  | EmptyString => [EmptyString]
  | String c rest =>
      if is_separator c then EmptyString :: split_path rest
      else
        match split_path rest with
        | part :: parts => String c part :: parts
        | [] => [String c EmptyString]
        end
  end.

(** [s.slice(0, -n)]: a negative end counts from the end of the string,
    and [-0] is [0]. *)
Definition slice_from_end (s : string) (n : nat) : string :=
  slice s 0 (if (n =? 0)%nat then 0 else String.length s - n).

Definition getPlanNameFromPath (planPath : string) (fmt : StorageFormat)
  (extension : string) : string :=
  let name :=
    match fmt with
    | sqlite =>
        if endsWith planPath (getFormatExtension fmt extension)
        then slice_from_end planPath (String.length (getFormatExtension fmt extension))
        else planPath
    | directory => planPath
    end in
  let parts := split_path name in
  match last parts EmptyString with
  | EmptyString => name
  | part => part
  end.

Definition abbreviateUuid (uuid : string) : string := substring 0 8 uuid.

Definition formatPlanFilename (uuid slug : string) : string :=
  (abbreviateUuid uuid ++ "-" ++ slug ++ ".plan")%string.

Section PathHeuristics.

Variable join : string -> string -> string.

(** [path.extname] of Node.js. *)
Variable extname : string -> string.

Definition isDirectoryPath (fs : FileSystem) (planPath : string) : bool :=
  if existsSync fs planPath then isDirectory fs planPath
  else
    let ext := extname planPath in
    orb (String.eqb ext "") (String.eqb ext ".").

(** [inferFormatFromPath], with the configured SQLite extension and
    default format. *)
Definition inferFormatFromPath (fs : FileSystem) (planPath extension : string)
  (defaultFormat : StorageFormat) : StorageFormat :=
  match (if existsSync fs planPath then detectPlanFormat join fs planPath else unknown) with
  | detected fmt => fmt
  | unknown =>
      if isSqlitePath planPath extension then sqlite
      else if isDirectoryPath fs planPath then directory
      else defaultFormat
  end.

(** [validatePlanPath]: an error message, or [None] for [null]. *)
Definition validatePlanPath (planPath : string) (fmt : StorageFormat) (extension : string)
  : option string :=
  if orb (String.eqb planPath "") (String.eqb (trim planPath) "")
  then Some "Plan path cannot be empty"
  else
    match fmt with
    | sqlite =>
        if negb (endsWith planPath (getFormatExtension fmt extension))
        then Some ("SQLite plan path must end with " ++ getFormatExtension fmt extension)%string
        else None
    | directory =>
        let ext := extname planPath in
        if andb (negb (String.eqb ext "")) (negb (String.eqb ext "."))
        then Some ("Directory plan path should not have a file extension (got "
                     ++ ext ++ ")")%string
        else None
    end.

(** *** The provider factory ([factory.ts])

    The factory holds the merged configuration; [extension] and
    [defaultFormat] are its [sqlite.extension] and [defaultFormat].
    [construct] is [new SqliteStorageProvider(path)]. *)

Definition determineFormat (fs : FileSystem) (planPath extension : string)
  (defaultFormat : StorageFormat) (forcedFormat : option StorageFormat) : StorageFormat :=
  match forcedFormat with
  | Some fmt => fmt
  | None =>
      match detectPlanFormat join fs planPath with
      | detected fmt => fmt
      | unknown => inferFormatFromPath fs planPath extension defaultFormat
      end
  end.

(** [createProvider(planPath, options)]: the provider, or the message of
    the error it throws. *)
Definition createProvider {P : Type} (construct : string -> P) (fs : FileSystem)
  (planPath extension : string) (defaultFormat : StorageFormat)
  (forcedFormat : option StorageFormat) : P + string :=
  match determineFormat fs planPath extension defaultFormat forcedFormat with
  | sqlite => inl (construct (ensureFormatExtension planPath sqlite extension))
  | directory =>
      inr ("Directory storage provider is not yet implemented in riotplan-format. "
             ++ "Use the main riotplan package for directory-based plans.")%string
  end.

Definition supportsPath (fs : FileSystem) (planPath extension : string) : bool :=
  match detectPlanFormat join fs planPath with
  | detected _ => true
  | unknown => orb (isSqlitePath planPath extension) (isDirectoryPath fs planPath)
  end.

End PathHeuristics.

(** *** Removing files ([node:fs]) *)

Definition fs_remove (fs : FileSystem) (p : string) : FileSystem :=
  fun q => if String.eqb q p then None else fs q.

(** [unlinkSync(p)]: removes a file, throws when nothing is there or when
    [p] is a directory. *)
Definition unlinkSync (fs : FileSystem) (p : string) : FileSystem + string :=
  match fs p with
  | None => inr ("ENOENT: no such file or directory, unlink '" ++ p ++ "'")%string
  | Some Directory => inr ("EISDIR: illegal operation on a directory, unlink '" ++ p ++ "'")%string
  | Some _ => inl (fs_remove fs p)
  end.

(** [rmSync(p, { recursive: true, force: true })]: removes [p] and
    everything below it. *)
Definition rmSync (fs : FileSystem) (p : string) : FileSystem :=
  fun q => if orb (String.eqb q p) (prefix (p ++ "/") q) then None else fs q.

(* ================================================================== *)
(** ** The migration validator ([validator.ts]) *)
(* ================================================================== *)

Inductive ValidationErrorType : Type :=
| missing_step
| content_mismatch
| metadata_difference
| missing_file
| missing_event.

(** The values stored in the [expected] and [actual] properties. *)
Inductive Detail : Type :=
| is_null
| is_text (s : string)
| is_step (s : PlanStep)
| is_file (f : PlanFile)
| is_evidence (e : EvidenceRecord)
| is_feedback (f : FeedbackRecord).

Record ValidationError : Type := {
  ve_type : ValidationErrorType;
  ve_path : string;
  ve_expected : Detail;
  ve_actual : Detail;
  ve_message : string }.

Record ValidationStats : Type := {
  stepsCompared : nat;
  filesCompared : nat;
  timelineEventsCompared : nat;
  evidenceCompared : nat;
  feedbackCompared : nat }.

Record ValidationResult : Type := {
  valid : bool;
  errors : list ValidationError;
  warnings : list string;
  stats : ValidationStats }.

(** The payload of a result unless [!result.success || !result.data]. *)
Definition payload {A : Type} (result : StorageResult A) : option A :=
  if success result then data result else None.

(** [result.data || []] *)
Definition data_or_empty {A : Type} (result : StorageResult (list A)) : list A :=
  match data result with
  | Some l => l
  | None => []
  end.

Definition metadata_error (path expected actual message : string) : ValidationError :=
  {| ve_type := metadata_difference; ve_path := path;
     ve_expected := is_text expected; ve_actual := is_text actual;
     ve_message := message |}.

Definition mismatch (field : string) (expected actual : string) : string :=
  (field ++ " mismatch: expected " ++ dquote ++ expected ++ dquote
         ++ ", got " ++ dquote ++ actual ++ dquote)%string.

(** The three comparisons at the end of [validateMetadata]. *)
Definition compare_metadata (sourceData targetData : PlanMetadata)
  (errors : list ValidationError) : list ValidationError :=
  let errors :=
    if negb (String.eqb (md_id sourceData) (md_id targetData))
    then errors ++ [metadata_error "metadata.id" (md_id sourceData) (md_id targetData)
                      (mismatch "Plan ID" (md_id sourceData) (md_id targetData))]
    else errors in
  let errors :=
    if negb (String.eqb (md_name sourceData) (md_name targetData))
    then errors ++ [metadata_error "metadata.name" (md_name sourceData) (md_name targetData)
                      (mismatch "Plan name" (md_name sourceData) (md_name targetData))]
    else errors in
  if negb (String.eqb (md_stage sourceData) (md_stage targetData))
  then errors ++ [metadata_error "metadata.stage" (md_stage sourceData) (md_stage targetData)
                    (mismatch "Plan stage" (md_stage sourceData) (md_stage targetData))]
  else errors.

(** The body of the first loop of [validateSteps]. *)
Definition check_step (targetSteps : list PlanStep) (errors : list ValidationError)
  (sourceStep : PlanStep) : list ValidationError :=
  let n := string_of_Z (st_number sourceStep) in
  match find (fun s => Z.eqb (st_number s) (st_number sourceStep)) targetSteps with
  | None =>
      errors ++ [{| ve_type := missing_step;
                    ve_path := "steps[" ++ n ++ "]";
                    ve_expected := is_step sourceStep;
                    ve_actual := is_null;
                    ve_message := "Step " ++ n ++ " is missing in target" |}]
  | Some targetStep =>
      let errors :=
        if negb (String.eqb (st_title sourceStep) (st_title targetStep))
        then errors ++ [{| ve_type := content_mismatch;
                           ve_path := "steps[" ++ n ++ "].title";
                           ve_expected := is_text (st_title sourceStep);
                           ve_actual := is_text (st_title targetStep);
                           ve_message := "Step " ++ n ++ " title mismatch" |}]
        else errors in
      let errors :=
        if negb (String.eqb (st_status sourceStep) (st_status targetStep))
        then errors ++ [{| ve_type := content_mismatch;
                           ve_path := "steps[" ++ n ++ "].status";
                           ve_expected := is_text (st_status sourceStep);
                           ve_actual := is_text (st_status targetStep);
                           ve_message := "Step " ++ n ++ " status mismatch" |}]
        else errors in
      let sourceContent := trim (st_content sourceStep) in
      let targetContent := trim (st_content targetStep) in
      if negb (String.eqb sourceContent targetContent)
      then errors ++ [{| ve_type := content_mismatch;
                         ve_path := "steps[" ++ n ++ "].content";
                         ve_expected :=
                           is_text (string_of_nat (String.length sourceContent) ++ " chars");
                         ve_actual :=
                           is_text (string_of_nat (String.length targetContent) ++ " chars");
                         ve_message := "Step " ++ n ++ " content mismatch" |}]
      else errors
  end.

(** The body of the second loop of [validateSteps]. *)
Definition check_extra_step (sourceSteps : list PlanStep) (errors : list ValidationError)
  (targetStep : PlanStep) : list ValidationError :=
  let n := string_of_Z (st_number targetStep) in
  match find (fun s => Z.eqb (st_number s) (st_number targetStep)) sourceSteps with
  | None =>
      errors ++ [{| ve_type := content_mismatch;
                    ve_path := "steps[" ++ n ++ "]";
                    ve_expected := is_null;
                    ve_actual := is_step targetStep;
                    ve_message := "Unexpected step " ++ n ++ " in target" |}]
  | Some _ => errors
  end.

(** The body of the loop of [validateFiles]. *)
Definition check_file (targetFiles : list PlanFile) (errors : list ValidationError)
  (sourceFile : PlanFile) : list ValidationError :=
  let key := (pf_type sourceFile ++ "/" ++ pf_filename sourceFile)%string in
  match find (fun f => andb (String.eqb (pf_type f) (pf_type sourceFile))
                            (String.eqb (pf_filename f) (pf_filename sourceFile)))
             targetFiles with
  | None =>
      errors ++ [{| ve_type := missing_file;
                    ve_path := "files[" ++ key ++ "]";
                    ve_expected := is_file sourceFile;
                    ve_actual := is_null;
                    ve_message := "File " ++ pf_filename sourceFile ++ " ("
                                    ++ pf_type sourceFile ++ ") is missing in target" |}]
  | Some targetFile =>
      let sourceContent := trim (pf_content sourceFile) in
      let targetContent := trim (pf_content targetFile) in
      if negb (String.eqb sourceContent targetContent)
      then errors ++ [{| ve_type := content_mismatch;
                         ve_path := "files[" ++ key ++ "].content";
                         ve_expected :=
                           is_text (string_of_nat (String.length sourceContent) ++ " chars");
                         ve_actual :=
                           is_text (string_of_nat (String.length targetContent) ++ " chars");
                         ve_message := "File " ++ pf_filename sourceFile ++ " content mismatch" |}]
      else errors
  end.

(** The body of the loop of [validateTimeline]. *)
Definition check_event (targetEvents : list TimelineEvent) (warnings : list string)
  (sourceEvent : TimelineEvent) : list string :=
  match find (fun e => andb (String.eqb (ev_type e) (ev_type sourceEvent))
                            (String.eqb (ev_timestamp e) (ev_timestamp sourceEvent)))
             targetEvents with
  | None =>
      warnings ++ [("Timeline event " ++ ev_type sourceEvent ++ " at "
                      ++ ev_timestamp sourceEvent ++ " not found in target")%string]
  | Some _ => warnings
  end.

(** The body of the loop of [validateEvidence]. *)
Definition check_evidence (targetEvidence : list EvidenceRecord)
  (errors : list ValidationError) (sourceItem : EvidenceRecord) : list ValidationError :=
  match find (fun e => String.eqb (er_description e) (er_description sourceItem))
             targetEvidence with
  | None =>
      errors ++ [{| ve_type := missing_file;
                    ve_path := "evidence[" ++ er_id sourceItem ++ "]";
                    ve_expected := is_evidence sourceItem;
                    ve_actual := is_null;
                    ve_message := "Evidence " ++ dquote ++ er_description sourceItem ++ dquote
                                    ++ " is missing in target" |}]
  | Some _ => errors
  end.

(** The body of the loop of [validateFeedback]. *)
Definition check_feedback (targetFeedback : list FeedbackRecord)
  (errors : list ValidationError) (sourceItem : FeedbackRecord) : list ValidationError :=
  match find (fun f => String.eqb (fb_content f) (fb_content sourceItem)) targetFeedback with
  | None =>
      errors ++ [{| ve_type := missing_file;
                    ve_path := "feedback[" ++ fb_id sourceItem ++ "]";
                    ve_expected := is_feedback sourceItem;
                    ve_actual := is_null;
                    ve_message := "Feedback " ++ dquote
                                    ++ or_else (fb_title sourceItem) (fb_id sourceItem)
                                    ++ dquote ++ " is missing in target" |}]
  | Some _ => errors
  end.

Module MigrationValidator.
Section Validator.

Context {S T : Type} {Source : StorageProvider S} {Target : StorageProvider T}.

Definition validateMetadata (source : S) (target : T) (errors : list ValidationError)
  : S * T * list ValidationError :=
  let (sourceResult, source') := getMetadata source in
  let (targetResult, target') := getMetadata target in
  match payload sourceResult with
  | None =>
      (source', target',
       errors ++ [metadata_error "metadata" "valid metadata" "failed to read source metadata"
                    "Could not read source metadata"])
  | Some sourceData =>
      match payload targetResult with
      | None =>
          (source', target',
           errors ++ [metadata_error "metadata" "valid metadata"
                        "failed to read target metadata" "Could not read target metadata"])
      | Some targetData => (source', target', compare_metadata sourceData targetData errors)
      end
  end.

Definition validateSteps (source : S) (target : T) (errors : list ValidationError)
  : nat * S * T * list ValidationError :=
  let (sourceResult, source') := getSteps source in
  let (targetResult, target') := getSteps target in
  match payload sourceResult with
  | None => (0, source', target', errors)
  | Some sourceSteps =>
      let targetSteps := data_or_empty targetResult in
      let errors := fold_left (check_step targetSteps) sourceSteps errors in
      let errors := fold_left (check_extra_step sourceSteps) targetSteps errors in
      (List.length sourceSteps, source', target', errors)
  end.

Definition validateFiles (source : S) (target : T) (errors : list ValidationError)
  : nat * S * T * list ValidationError :=
  let (sourceResult, source') := getFiles source in
  let (targetResult, target') := getFiles target in
  match payload sourceResult with
  | None => (0, source', target', errors)
  | Some sourceFiles =>
      let targetFiles := data_or_empty targetResult in
      (List.length sourceFiles, source', target',
       fold_left (check_file targetFiles) sourceFiles errors)
  end.

Definition validateTimeline (source : S) (target : T) (errors : list ValidationError)
  (warnings : list string) : nat * S * T * list ValidationError * list string :=
  let (sourceResult, source') := getTimelineEvents no_timeline_options source in
  let (targetResult, target') := getTimelineEvents no_timeline_options target in
  match payload sourceResult with
  | None => (0, source', target', errors, warnings)
  | Some sourceEvents =>
      let targetEvents := data_or_empty targetResult in
      (List.length sourceEvents, source', target', errors,
       fold_left (check_event targetEvents) sourceEvents warnings)
  end.

Definition validateEvidence (source : S) (target : T) (errors : list ValidationError)
  : nat * S * T * list ValidationError :=
  let (sourceResult, source') := getEvidence source in
  let (targetResult, target') := getEvidence target in
  match payload sourceResult with
  | None => (0, source', target', errors)
  | Some sourceEvidence =>
      let targetEvidence := data_or_empty targetResult in
      (List.length sourceEvidence, source', target',
       fold_left (check_evidence targetEvidence) sourceEvidence errors)
  end.

Definition validateFeedback (source : S) (target : T) (errors : list ValidationError)
  : nat * S * T * list ValidationError :=
  let (sourceResult, source') := getFeedback source in
  let (targetResult, target') := getFeedback target in
  match payload sourceResult with
  | None => (0, source', target', errors)
  | Some sourceFeedback =>
      let targetFeedback := data_or_empty targetResult in
      (List.length sourceFeedback, source', target',
       fold_left (check_feedback targetFeedback) sourceFeedback errors)
  end.

(** [validate(source, target)]; the providers are returned as the reads
    left them. *)
Definition validate (source : S) (target : T) : ValidationResult * S * T :=
  let errors := [] in
  let warnings := [] in
  let '(source, target, errors) := validateMetadata source target errors in
  let '(stepsResult, source, target, errors) := validateSteps source target errors in
  let '(filesResult, source, target, errors) := validateFiles source target errors in
  let '(timelineResult, source, target, errors, warnings) :=
    validateTimeline source target errors warnings in
  let '(evidenceResult, source, target, errors) := validateEvidence source target errors in
  let '(feedbackResult, source, target, errors) := validateFeedback source target errors in
  ({| valid := Nat.eqb (List.length errors) 0;
      errors := errors;
      warnings := warnings;
      stats := {| stepsCompared := stepsResult;
                  filesCompared := filesResult;
                  timelineEventsCompared := timelineResult;
                  evidenceCompared := evidenceResult;
                  feedbackCompared := feedbackResult |} |},
   source, target).

End Validator.
End MigrationValidator.

(* ================================================================== *)
(** ** The migrator ([migrator.ts], [migration/types.ts]) *)
(* ================================================================== *)

(** [MigrationOptions]: an absent flag is [false]; [onProgress] tells
    whether a callback was supplied. *)
Record MigrationOptions : Type := {
  force : bool;
  keepSource : bool;
  validate : bool;
  onProgress : bool }.

Inductive Phase : Type := reading | converting | writing | validating.

Record MigrationProgress : Type := {
  phase : Phase;
  percentage : nat;
  currentItem : option string }.

Record MigrationStats : Type := {
  stepsConverted : nat;
  filesConverted : nat;
  timelineEventsConverted : nat;
  evidenceConverted : nat;
  feedbackConverted : nat;
  checkpointsConverted : nat }.

(** [MigrationResult], without the wall-clock [duration]. *)
Record MigrationResult : Type := {
  mr_success : bool;
  mr_sourceFormat : StorageFormat;
  mr_targetFormat : StorageFormat;
  mr_sourcePath : string;
  mr_targetPath : string;
  mr_error : option string;
  mr_warnings : list string;
  mr_stats : MigrationStats }.

(** [deleteSource(sourcePath, format)]: the file system afterwards, or
    the message of the exception. *)
Definition deleteSource (fs : FileSystem) (sourcePath : string) (fmt : StorageFormat)
  : FileSystem + string :=
  if negb (existsSync fs sourcePath) then inl fs
  else
    match fmt with
    | sqlite =>
        match unlinkSync fs sourcePath with
        | inr e => inr e
        | inl fs1 =>
            let walPath := (sourcePath ++ "-wal")%string in
            let shmPath := (sourcePath ++ "-shm")%string in
            match (if existsSync fs1 walPath then unlinkSync fs1 walPath else inl fs1) with
            | inr e => inr e
            | inl fs2 => if existsSync fs2 shmPath then unlinkSync fs2 shmPath else inl fs2
            end
        end
    | directory => inl (rmSync fs sourcePath)
    end.

(** [inferTargetFormat] *)
Definition inferTargetFormat (sourceFormat : StorageFormat) : StorageFormat :=
  match sourceFormat with
  | sqlite => directory
  | directory => sqlite
  end.

(** [s.replace(/suffix$/, '')] for a literal suffix. *)
Definition strip_suffix (suffix s : string) : string :=
  if endsWith s suffix
  then substring 0 (String.length s - String.length suffix) s
  else s.

(** [generateTargetPath]; [ensureFormatExtension] is called without a
    configuration, so the extension is the default one. *)
Definition generateTargetPath (sourcePath : string) (sourceFormat targetFormat : StorageFormat)
  : string :=
  match targetFormat with
  | sqlite =>
      let basePath := strip_suffix "/" sourcePath in
      ensureFormatExtension basePath sqlite ".plan"
  | directory =>
      let basePath := strip_suffix ".plan" sourcePath in
      (basePath ++ "_migrated")%string
  end.

Module PlanMigrator.
Section Migrator.

Context {S T : Type} {Source : StorageProvider S} {Target : StorageProvider T}.

(** What a call of [migrate] leaves behind besides its result. *)
Record Run : Type := {
  result : MigrationResult;
  source_after : S;
  target_after : T;
  fs_after : FileSystem;
  reported : list MigrationProgress }.

(** [for (const x of items) await write(x)]: the result of each write is
    dropped. *)
Definition write_each {A : Type} (write : A -> T -> StorageResult unit * T)
  (items : list A) (target : T) : T :=
  fold_left (fun t x => snd (write x t)) items target.

Definition migrateSteps (source : S) (target : T) : nat * S * T :=
  let (result, source') := getSteps source in
  match payload result with
  | None => (0, source', target)
  | Some steps => (List.length steps, source', write_each addStep steps target)
  end.

Definition migrateFiles (source : S) (target : T) : nat * S * T :=
  let (result, source') := getFiles source in
  match payload result with
  | None => (0, source', target)
  | Some files => (List.length files, source', write_each saveFile files target)
  end.

Definition migrateTimeline (source : S) (target : T) : nat * S * T :=
  let (result, source') := getTimelineEvents no_timeline_options source in
  match payload result with
  | None => (0, source', target)
  | Some events => (List.length events, source', write_each addTimelineEvent events target)
  end.

Definition migrateEvidence (source : S) (target : T) : nat * S * T :=
  let (result, source') := getEvidence source in
  match payload result with
  | None => (0, source', target)
  | Some evidence => (List.length evidence, source', write_each addEvidence evidence target)
  end.

Definition migrateFeedback (source : S) (target : T) : nat * S * T :=
  let (result, source') := getFeedback source in
  match payload result with
  | None => (0, source', target)
  | Some feedback => (List.length feedback, source', write_each addFeedback feedback target)
  end.

Definition migrateCheckpoints (source : S) (target : T) : nat * S * T :=
  let (result, source') := getCheckpoints source in
  match payload result with
  | None => (0, source', target)
  | Some checkpoints =>
      (List.length checkpoints, source', write_each createCheckpoint checkpoints target)
  end.

(** [this.reportProgress(options.onProgress, progress)] *)
Definition reportProgress (options : MigrationOptions) (log : list MigrationProgress)
  (progress : MigrationProgress) : list MigrationProgress :=
  if onProgress options then log ++ [progress] else log.

Definition no_stats : MigrationStats :=
  {| stepsConverted := 0; filesConverted := 0; timelineEventsConverted := 0;
     evidenceConverted := 0; feedbackConverted := 0; checkpointsConverted := 0 |}.

(** [`${result.error}`] *)
Definition error_text {A : Type} (r : StorageResult A) : string :=
  match error r with
  | Some e => e
  | None => "undefined"
  end.

Definition migrate (sourcePath targetPath : string) (sourceProvider : S) (targetProvider : T)
  (options : MigrationOptions) (fs : FileSystem) : Run :=
  let sourceFormat := format sourceProvider in
  let targetFormat := format targetProvider in
  let outcome (ok : bool) (err : option string) (warnings : list string)
              (stats : MigrationStats) : MigrationResult :=
    {| mr_success := ok; mr_sourceFormat := sourceFormat; mr_targetFormat := targetFormat;
       mr_sourcePath := sourcePath; mr_targetPath := targetPath;
       mr_error := err; mr_warnings := warnings; mr_stats := stats |} in
  let (targetExists, target) := exists_ targetProvider in
  if andb targetExists (negb (force options)) then
    {| result := outcome false
                   (Some ("Target already exists: " ++ targetPath
                            ++ ". Use force option to overwrite.")%string)
                   [] no_stats;
       source_after := sourceProvider; target_after := target;
       fs_after := fs; reported := [] |}
  else
  let log := reportProgress options []
               {| phase := reading; percentage := 0; currentItem := None |} in
  let (metadataResult, source) := getMetadata sourceProvider in
  match payload metadataResult with
  | None =>
    {| result := outcome false
                   (Some ("Failed to read source metadata: " ++ error_text metadataResult)%string)
                   [] no_stats;
       source_after := source; target_after := target; fs_after := fs; reported := log |}
  | Some metadata =>
  let log := reportProgress options log
               {| phase := writing; percentage := 10; currentItem := Some "metadata" |} in
  let (initResult, target) := initialize metadata target in
  if negb (success initResult) then
    {| result := outcome false
                   (Some ("Failed to initialize target: " ++ error_text initResult)%string)
                   [] no_stats;
       source_after := source; target_after := target; fs_after := fs; reported := log |}
  else
  let log := reportProgress options log
               {| phase := converting; percentage := 20; currentItem := Some "steps" |} in
  let '(steps, source, target) := migrateSteps source target in
  let log := reportProgress options log
               {| phase := converting; percentage := 40; currentItem := Some "files" |} in
  let '(files, source, target) := migrateFiles source target in
  let log := reportProgress options log
               {| phase := converting; percentage := 60; currentItem := Some "timeline" |} in
  let '(events, source, target) := migrateTimeline source target in
  let log := reportProgress options log
               {| phase := converting; percentage := 70; currentItem := Some "evidence" |} in
  let '(evidence, source, target) := migrateEvidence source target in
  let log := reportProgress options log
               {| phase := converting; percentage := 80; currentItem := Some "feedback" |} in
  let '(feedback, source, target) := migrateFeedback source target in
  let log := reportProgress options log
               {| phase := converting; percentage := 90; currentItem := Some "checkpoints" |} in
  let '(checkpoints, source, target) := migrateCheckpoints source target in
  let stats :=
    {| stepsConverted := steps; filesConverted := files;
       timelineEventsConverted := events; evidenceConverted := evidence;
       feedbackConverted := feedback; checkpointsConverted := checkpoints |} in
  let '(validation, source, target, log) :=
    if validate options then
      let log := reportProgress options log
                   {| phase := validating; percentage := 95; currentItem := None |} in
      let '(validationResult, source, target) :=
        MigrationValidator.validate source target in
      (Some validationResult, source, target, log)
    else (None, source, target, log) in
  match validation with
  | Some {| valid := false; errors := errs; warnings := ws |} =>
    {| result := outcome false
                   (Some ("Validation failed: " ++ String.concat "; " (map ve_message errs))%string)
                   ws stats;
       source_after := source; target_after := target; fs_after := fs; reported := log |}
  | _ =>
  let warnings := match validation with Some v => warnings v | None => [] end in
  match (if negb (keepSource options) then deleteSource fs sourcePath sourceFormat
         else inl fs) with
  | inr message =>
    {| result := outcome false (Some message) warnings stats;
       source_after := source; target_after := target; fs_after := fs; reported := log |}
  | inl fs' =>
    {| result := outcome true None warnings stats;
       source_after := source; target_after := target; fs_after := fs';
       reported := reportProgress options log
                     {| phase := writing; percentage := 100; currentItem := None |} |}
  end end end.

End Migrator.
End PlanMigrator.

(* ================================================================== *)
(** ** Notions used to state the properties *)
(* ================================================================== *)

(** The number of occurrences of [q] in [s], read from left to right,
    each occurrence starting after the end of the one before it (the
    first [skip] characters of [s] belong to an occurrence already
    counted). *)
Fixpoint occurrences_from (skip : nat) (s q : string) : nat :=
  match s with
  | EmptyString => 0
  | String _ s' =>
      match skip with
      | S k => occurrences_from k s' q
      | O =>
          if prefix q s then S (occurrences_from (String.length q - 1) s' q)
          else occurrences_from 0 s' q
      end
  end.

(** The number of case-insensitive occurrences of [query] in [content]. *)
Definition occurrence_count (content query : string) : nat :=
  occurrences_from 0 (toLowerCase content) (toLowerCase query).

(** The search hit that a matching row gives rise to, with the score
    [min(1, occurrence_count / 10)]. *)
Definition hit_of (query : string) (row : Sqlite.Match) : SearchResult :=
  {| sr_type := Sqlite.m_type row;
     sr_id := Sqlite.m_id row;
     sr_snippet := Sqlite.extractSnippet (Sqlite.m_text row) query;
     sr_score := Qmin 1 (Z.of_nat (occurrence_count (Sqlite.m_text row) query) # 10)%Q |}.

(** The rows of plan [k] that [search] retrieves for [query]: steps, then
    files, then evidence. *)
Definition matching_rows (k : Z) (query : string) (d : Schema.Db) : list Sqlite.Match :=
  let pattern := ("%" ++ query ++ "%")%string in
  Sqlite.select_matching_steps k pattern d
    ++ Sqlite.select_matching_files k pattern d
    ++ Sqlite.select_matching_evidence k pattern d.

(** The length of the longest text that [search] can score. *)
Definition longest_text (d : Schema.Db) : nat :=
  fold_right Nat.max 0
    (map (fun r => String.length (Schema.steps_content r)) (Schema.plan_steps d)
     ++ map (fun r => String.length (Schema.files_content r)) (Schema.plan_files d)
     ++ map (fun r => String.length
                        (or_else (Schema.evr_content r) (Schema.evr_description r)))
            (Schema.evidence_records d)).

(** Results in descending order of score. *)
Definition score_descending (l : list SearchResult) : Prop :=
  StronglySorted (fun a b => (sr_score b <= sr_score a)%Q) l.

(** The warning about a source event that has no counterpart. *)
Definition not_found_warning (event : TimelineEvent) : string :=
  ("Timeline event " ++ ev_type event ++ " at " ++ ev_timestamp event
     ++ " not found in target")%string.

(** A value after a partial patch: the supplied one, else the old one. *)
Definition patched {A : Type} (supplied : option A) (old new : A) : Prop :=
  match supplied with
  | Some v => new = v
  | None => new = old
  end.

(** The same for a nullable column. *)
Definition patched_nullable {A : Type} (supplied : option A) (old new : option A) : Prop :=
  match supplied with
  | Some v => new = Some v
  | None => new = old
  end.

(** A row of [plan_steps] before and after [updateStep(number, updates)]
    on plan [k]: the row with that number takes the supplied fields and
    keeps the others, every other row is kept. *)
Definition step_row_updated (k number : Z) (updates : PlanStepPatch)
  (old new : Schema.StepRow) : Prop :=
  if andb (Z.eqb (Schema.steps_plan_id old) k) (Z.eqb (Schema.steps_number old) number)
  then Schema.steps_plan_id new = Schema.steps_plan_id old
       /\ Schema.steps_number new = Schema.steps_number old
       /\ patched (up_code updates) (Schema.steps_code old) (Schema.steps_code new)
       /\ patched (up_title updates) (Schema.steps_title old) (Schema.steps_title new)
       /\ patched_nullable (up_description updates)
            (Schema.steps_description old) (Schema.steps_description new)
       /\ patched (up_status updates) (Schema.steps_status old) (Schema.steps_status new)
       /\ patched_nullable (up_startedAt updates)
            (Schema.steps_started_at old) (Schema.steps_started_at new)
       /\ patched_nullable (up_completedAt updates)
            (Schema.steps_completed_at old) (Schema.steps_completed_at new)
       /\ patched (up_content updates) (Schema.steps_content old) (Schema.steps_content new)
  else new = old.

(** A row of [plans] before and after [updateMetadata(metadata)] on plan
    [k] at time [t]: the row of the plan takes the supplied name,
    description and stage, keeps the others of these three, keeps its id,
    code, creation time and schema version, and gets [t] as its update
    time; every other row is kept. *)
Definition plan_row_updated (k : Z) (metadata : PlanMetadataPatch) (t : string)
  (old new : Schema.PlanRow) : Prop :=
  if Z.eqb (Schema.plans_id old) k
  then Schema.plans_id new = Schema.plans_id old
       /\ Schema.plans_code new = Schema.plans_code old
       /\ patched (um_name metadata) (Schema.plans_name old) (Schema.plans_name new)
       /\ patched_nullable (um_description metadata)
            (Schema.plans_description old) (Schema.plans_description new)
       /\ patched (um_stage metadata) (Schema.plans_stage old) (Schema.plans_stage new)
       /\ Schema.plans_created_at new = Schema.plans_created_at old
       /\ Schema.plans_schema_version new = Schema.plans_schema_version old
       /\ Schema.plans_updated_at new = t
  else new = old.

(** A row of [plan_files] after a conflicting [saveFile(file)]: content
    and [updated_at] are those of [file], everything else is the row's
    own. *)
Definition file_row_replaced (file : PlanFile) (old : Schema.FileRow) : Schema.FileRow :=
  {| Schema.files_plan_id := Schema.files_plan_id old;
     Schema.files_file_type := Schema.files_file_type old;
     Schema.files_filename := Schema.files_filename old;
     Schema.files_content := pf_content file;
     Schema.files_created_at := Schema.files_created_at old;
     Schema.files_updated_at := pf_updatedAt file |}.

(** The number of rows of [plan_files] with the key [(k, type, filename)]. *)
Definition file_entries (k : Z) (type filename : string) (d : Schema.Db) : nat :=
  List.length (filter (Schema.file_key k type filename) (Schema.plan_files d)).

(** *** The writes of a checkpoint restore

    The statements that [restoreCheckpoint] runs inside its transaction
    for plan [k] and a snapshot, when the calls of [new Date()] return
    [clock start], [clock (start + 1)], ...: one update of the plan row,
    one update per snapshot step, one upsert per snapshot file. *)

Fixpoint restore_file_statements (k : Z) (files : list SnapshotFile)
  (clock : nat -> string) (i : nat) : list (Schema.Statement unit) :=
  match files with
  | [] => []
  | file :: rest =>
      Schema.upsert_plan_file
        {| Schema.files_plan_id := k;
           Schema.files_file_type := sf_type file;
           Schema.files_filename := sf_filename file;
           Schema.files_content := sf_content file;
           Schema.files_created_at := clock i;
           Schema.files_updated_at := clock (S i) |}
      :: restore_file_statements k rest clock (S (S i))
  end.

Definition restore_statements (k : Z) (snapshot : CheckpointSnapshot)
  (clock : nat -> string) (start : nat) : list (Schema.Statement unit) :=
  Schema.update_plans k (Sqlite.restore_plan_columns (snap_metadata snapshot) (clock start))
  :: map (fun step => Schema.update_plan_steps k (ss_number step)
                        (Sqlite.restore_step_columns step))
         (snap_steps snapshot)
  ++ restore_file_statements k (snap_files snapshot) clock (S start).

(** All the statements applied in a row; [None] when one of them fails. *)
Fixpoint run_all (statements : list (Schema.Statement unit)) (d : Schema.Db)
  : option Schema.Db :=
  match statements with
  | [] => Some d
  | s :: rest =>
      match s d with
      | inl (_, d') => run_all rest d'
      | inr _ => None
      end
  end.

(** *** Stores that the provider can have written

    The constraints that [schema.sql] declares on the rows that a
    migration copies and validates: [UNIQUE(plan_id, number)] on
    [plan_steps], [UNIQUE(plan_id, file_type, filename)] on [plan_files],
    and the primary keys of [evidence_records] and [feedback_records]. *)
Record constraints_hold (d : Schema.Db) : Prop := {
  steps_unique :
    NoDup (map (fun r => (Schema.steps_plan_id r, Schema.steps_number r))
               (Schema.plan_steps d));
  files_unique :
    NoDup (map (fun r => (Schema.files_plan_id r,
                          (Schema.files_file_type r, Schema.files_filename r)))
               (Schema.plan_files d));
  evidence_unique : NoDup (map Schema.evr_id (Schema.evidence_records d));
  feedback_unique : NoDup (map Schema.fbr_id (Schema.feedback_records d)) }.

(** The provider stores [id || randomUUID()]: no stored evidence or
    feedback identifier is the empty string. *)
Definition ids_present (d : Schema.Db) : Prop :=
  (forall r, In r (Schema.evidence_records d) -> Schema.evr_id r <> EmptyString)
  /\ (forall r, In r (Schema.feedback_records d) -> Schema.fbr_id r <> EmptyString).

(** The number of rows that plan [k] holds in each table. *)
Definition steps_held (k : Z) (d : Schema.Db) : nat :=
  List.length (filter (fun r => Z.eqb (Schema.steps_plan_id r) k) (Schema.plan_steps d)).

Definition files_held (k : Z) (d : Schema.Db) : nat :=
  List.length (filter (fun r => Z.eqb (Schema.files_plan_id r) k) (Schema.plan_files d)).

Definition events_held (k : Z) (d : Schema.Db) : nat :=
  List.length (filter (fun r => Z.eqb (Schema.tl_plan_id r) k) (Schema.timeline_events d)).

Definition evidence_held (k : Z) (d : Schema.Db) : nat :=
  List.length (filter (fun r => Z.eqb (Schema.evr_plan_id r) k) (Schema.evidence_records d)).

Definition feedback_held (k : Z) (d : Schema.Db) : nat :=
  List.length (filter (fun r => Z.eqb (Schema.fbr_plan_id r) k) (Schema.feedback_records d)).

(** A provider whose plan is [k], with its tables created, its plan row
    present, its plan id resolved and an engine that does not fail. *)
Definition ready (k : Z) (p : Sqlite.Provider) : Prop :=
  Schema.has_schema (Sqlite.db p) = true
  /\ Sqlite.planId p = Some k
  /\ Schema.plan_row_exists k (Sqlite.db p) = true
  /\ forall n, Sqlite.faults p n = None.

(** The database after a statement, whether it succeeded or failed. *)
Definition settle (s : Schema.Statement unit) (d : Schema.Db) : Schema.Db :=
  match s d with
  | inl (_, d') => d'
  | inr _ => d
  end.

(** The rows that [addEvidence] and [addFeedback] store for plan [k]
    when the record carries an identifier. *)
Definition evidence_row (k : Z) (evidence : EvidenceRecord) : Schema.EvidenceRow :=
  {| Schema.evr_id := er_id evidence;
     Schema.evr_plan_id := k;
     Schema.evr_description := er_description evidence;
     Schema.evr_source := or_null (er_source evidence);
     Schema.evr_source_url := or_null (er_sourceUrl evidence);
     Schema.evr_gathering_method := or_null (er_gatheringMethod evidence);
     Schema.evr_content := or_null (er_content evidence);
     Schema.evr_file_path := or_null (er_filePath evidence);
     Schema.evr_relevance_score := er_relevanceScore evidence;
     Schema.evr_original_query := or_null (er_originalQuery evidence);
     Schema.evr_summary := or_null (er_summary evidence);
     Schema.evr_created_at := er_createdAt evidence |}.

Definition feedback_row (k : Z) (feedback : FeedbackRecord) : Schema.FeedbackRow :=
  {| Schema.fbr_id := fb_id feedback;
     Schema.fbr_plan_id := k;
     Schema.fbr_title := or_null (fb_title feedback);
     Schema.fbr_platform := or_null (fb_platform feedback);
     Schema.fbr_content := fb_content feedback;
     Schema.fbr_participants := fb_participants feedback;
     Schema.fbr_created_at := fb_createdAt feedback |}.

(** Two databases that differ at most in [timeline_events] and
    [checkpoints]. *)
Definition same_content (d d' : Schema.Db) : Prop :=
  Schema.has_schema d' = Schema.has_schema d
  /\ Schema.plans d' = Schema.plans d
  /\ Schema.plan_steps d' = Schema.plan_steps d
  /\ Schema.plan_files d' = Schema.plan_files d
  /\ Schema.evidence_records d' = Schema.evidence_records d
  /\ Schema.feedback_records d' = Schema.feedback_records d.

(** The store [dt] holds, as plan [kt], a copy of what the store [ds]
    holds as plan [ks]: the plan rows agree on code, name and stage, and
    the step, file, evidence and feedback tables of [dt] are the rows that
    [addStep], [saveFile], [addEvidence] and [addFeedback] write for what
    the bulk reads of [ds] return. *)
Record copied (ks kt : Z) (ds dt : Schema.Db) : Prop := {
  copied_plan :
    exists rs rt,
      Schema.select_plan ks ds = Some rs /\ Schema.select_plan kt dt = Some rt
      /\ Schema.plans_code rt = Schema.plans_code rs
      /\ Schema.plans_name rt = Schema.plans_name rs
      /\ Schema.plans_stage rt = Schema.plans_stage rs;
  copied_steps :
    Schema.plan_steps dt
    = map (Sqlite.row_of_step kt) (map Sqlite.step_of_row (Schema.select_steps ks ds));
  copied_files :
    Schema.plan_files dt
    = map (Sqlite.row_of_file kt) (map Sqlite.file_of_row (Schema.select_files ks ds));
  copied_evidence :
    Schema.evidence_records dt
    = map (evidence_row kt) (map Sqlite.evidence_of_row (Schema.select_evidence ks ds));
  copied_feedback :
    Schema.feedback_records dt
    = map (feedback_row kt) (map Sqlite.feedback_of_row (Schema.select_feedback ks ds)) }.

(** [migrate] into a provider that was just constructed on a path where
    no file exists: the fresh, empty target of a migration. *)
Definition migrate_fresh (sourcePath targetPath : string) (source : Sqlite.Provider)
  (faults : nat -> option string) (uuids clock : nat -> string)
  (options : MigrationOptions) (fs : FileSystem) : PlanMigrator.Run :=
  PlanMigrator.migrate sourcePath targetPath source
    (Sqlite.create targetPath faults uuids clock) options fs.

(** *** The phases of [validate]

    [validate] runs six phases in a row, each reading both providers.
    [before_steps source target] are the providers as the step phase finds
    them, and so on; [steps_errors source target] are the errors that the
    step phase reports. *)

Section Phases.

Context {S T : Type} {Source : StorageProvider S} {Target : StorageProvider T}.

Definition before_steps (source : S) (target : T) : S * T :=
  let '(s, t, _) := MigrationValidator.validateMetadata source target [] in (s, t).

Definition before_files (source : S) (target : T) : S * T :=
  let '(s, t) := before_steps source target in
  let '(_, s', t', _) := MigrationValidator.validateSteps s t [] in (s', t').

Definition before_timeline (source : S) (target : T) : S * T :=
  let '(s, t) := before_files source target in
  let '(_, s', t', _) := MigrationValidator.validateFiles s t [] in (s', t').

Definition before_evidence (source : S) (target : T) : S * T :=
  let '(s, t) := before_timeline source target in
  let '(_, s', t', _, _) := MigrationValidator.validateTimeline s t [] [] in (s', t').

Definition before_feedback (source : S) (target : T) : S * T :=
  let '(s, t) := before_evidence source target in
  let '(_, s', t', _) := MigrationValidator.validateEvidence s t [] in (s', t').

Definition metadata_errors (source : S) (target : T) : list ValidationError :=
  snd (MigrationValidator.validateMetadata source target []).

Definition steps_errors (source : S) (target : T) : list ValidationError :=
  let '(s, t) := before_steps source target in
  snd (MigrationValidator.validateSteps s t []).

Definition files_errors (source : S) (target : T) : list ValidationError :=
  let '(s, t) := before_files source target in
  snd (MigrationValidator.validateFiles s t []).

Definition timeline_warnings (source : S) (target : T) : list string :=
  let '(s, t) := before_timeline source target in
  snd (MigrationValidator.validateTimeline s t [] []).

Definition evidence_errors (source : S) (target : T) : list ValidationError :=
  let '(s, t) := before_evidence source target in
  snd (MigrationValidator.validateEvidence s t []).

Definition feedback_errors (source : S) (target : T) : list ValidationError :=
  let '(s, t) := before_feedback source target in
  snd (MigrationValidator.validateFeedback s t []).

(** What a bulk read of the source gives when a phase begins, and what it
    is compared with: [result.data || []] of the target. *)
Definition source_steps (source : S) (target : T) : option (list PlanStep) :=
  payload (fst (getSteps (fst (before_steps source target)))).

Definition target_steps (source : S) (target : T) : list PlanStep :=
  data_or_empty (fst (getSteps (snd (before_steps source target)))).

Definition source_files (source : S) (target : T) : option (list PlanFile) :=
  payload (fst (getFiles (fst (before_files source target)))).

Definition target_files (source : S) (target : T) : list PlanFile :=
  data_or_empty (fst (getFiles (snd (before_files source target)))).

Definition source_events (source : S) (target : T) : option (list TimelineEvent) :=
  payload (fst (getTimelineEvents no_timeline_options (fst (before_timeline source target)))).

Definition target_events (source : S) (target : T) : list TimelineEvent :=
  data_or_empty
    (fst (getTimelineEvents no_timeline_options (snd (before_timeline source target)))).

Definition source_evidence (source : S) (target : T) : option (list EvidenceRecord) :=
  payload (fst (getEvidence (fst (before_evidence source target)))).

Definition target_evidence (source : S) (target : T) : list EvidenceRecord :=
  data_or_empty (fst (getEvidence (snd (before_evidence source target)))).

Definition source_feedback (source : S) (target : T) : option (list FeedbackRecord) :=
  payload (fst (getFeedback (fst (before_feedback source target)))).

Definition target_feedback (source : S) (target : T) : list FeedbackRecord :=
  data_or_empty (fst (getFeedback (snd (before_feedback source target)))).

(** The result of [validate] alone. *)
Definition validation (source : S) (target : T) : ValidationResult :=
  fst (fst (MigrationValidator.validate source target)).

End Phases.

(** *** What the provider gives back

    A step as [getStep] and [getSteps] return it after [addStep] stored
    it: the optional properties written with [x || null] and read with
    [x || undefined] come back [undefined] when they were empty. *)
Definition stored_step (step : PlanStep) : PlanStep :=
  {| st_number := st_number step;
     st_code := st_code step;
     st_title := st_title step;
     st_description := or_null (st_description step);
     st_status := st_status step;
     st_startedAt := or_null (st_startedAt step);
     st_completedAt := or_null (st_completedAt step);
     st_content := st_content step |}.

(** The metadata as [getMetadata] returns it after [initialize] stored
    it. *)
Definition stored_metadata (metadata : PlanMetadata) : PlanMetadata :=
  {| md_id := md_id metadata;
     md_name := md_name metadata;
     md_description := or_null (md_description metadata);
     md_createdAt := md_createdAt metadata;
     md_updatedAt := md_updatedAt metadata;
     md_stage := md_stage metadata;
     md_schemaVersion := md_schemaVersion metadata |}.

(** *** What a restore leaves alone

    The columns that no statement of [restoreCheckpoint] sets: of a step
    everything but its status and its two timestamps, of a plan its row
    id, code, creation time and schema version, of a file its key and its
    creation time. *)
Definition step_text (r : Schema.StepRow)
  : Z * Z * string * string * option string * string :=
  (Schema.steps_plan_id r, Schema.steps_number r, Schema.steps_code r,
   Schema.steps_title r, Schema.steps_description r, Schema.steps_content r).

Definition plan_identity (r : Schema.PlanRow) : Z * string * string * Z :=
  (Schema.plans_id r, Schema.plans_code r, Schema.plans_created_at r,
   Schema.plans_schema_version r).

Definition file_identity (r : Schema.FileRow) : Z * string * string * string :=
  (Schema.files_plan_id r, Schema.files_file_type r, Schema.files_filename r,
   Schema.files_created_at r).

(** [d'] holds the steps of [d], in their order and with their text; the
    plans of [d] with their identity; the files of [d], in their order
    and with their identity, and possibly more after them; and the
    timeline, evidence, feedback and checkpoints of [d]. *)
Record kept_by_restore (d d' : Schema.Db) : Prop := {
  steps_text_kept :
    map step_text (Schema.plan_steps d') = map step_text (Schema.plan_steps d);
  plans_identity_kept :
    map plan_identity (Schema.plans d') = map plan_identity (Schema.plans d);
  files_identity_kept :
    exists added,
      map file_identity (Schema.plan_files d')
      = map file_identity (Schema.plan_files d) ++ added;
  timeline_kept : Schema.timeline_events d' = Schema.timeline_events d;
  evidence_kept : Schema.evidence_records d' = Schema.evidence_records d;
  feedback_kept : Schema.feedback_records d' = Schema.feedback_records d;
  checkpoints_kept : Schema.checkpoints d' = Schema.checkpoints d }.

(** A step row after the updates of a restore for the snapshot steps
    [steps], in their order. *)
Definition restored_step_row (k : Z) (steps : list SnapshotStep) (r : Schema.StepRow)
  : Schema.StepRow :=
  fold_left (fun r step => if Schema.step_key k (ss_number step) r
                           then Sqlite.restore_step_columns step r else r)
            steps r.

(** *** Queries without wildcards

    A query in which neither [%] nor [_] occurs: the two characters that
    [LIKE] reads as wildcards. *)
Fixpoint wildcard_free (query : string) : bool :=
  match query with
  | EmptyString => true
  | String c rest =>
      andb (negb (orb (Ascii.eqb c "%"%char) (Ascii.eqb c "_"%char))) (wildcard_free rest)
  end.

(** *** Names without separators

    A name in which neither a slash nor a backslash occurs. *)
Fixpoint separator_free (name : string) : bool :=
  match name with
  | EmptyString => true
  | String c rest => andb (negb (is_separator c)) (separator_free rest)
  end.

(* ================================================================== *)
(** ** Sample plans and files *)
(* ================================================================== *)

(** An environment in which no statement fails. *)
Definition no_faults : nat -> option string := fun _ => None.

Definition sample_uuids (n : nat) : string := ("uuid-" ++ string_of_nat n)%string.

Definition sample_clock (n : nat) : string :=
  ("2026-02-12T00:00:" ++ string_of_nat (10 + n) ++ ".000Z")%string.

Definition sample_metadata : PlanMetadata :=
  {| md_id := "test-plan";
     md_name := "Test Plan";
     md_description := Some "A test plan";
     md_createdAt := "2026-02-12T00:00:00.000Z";
     md_updatedAt := "2026-02-12T00:00:00.000Z";
     md_stage := "built";
     md_schemaVersion := 1 |}.

Definition sample_step (number : Z) (title status content : string) : PlanStep :=
  {| st_number := number;
     st_code := ("step-" ++ string_of_Z number)%string;
     st_title := title;
     st_description := None;
     st_status := status;
     st_startedAt := None;
     st_completedAt := None;
     st_content := content |}.

Definition sample_file : PlanFile :=
  {| pf_type := "idea";
     pf_filename := "IDEA.md";
     pf_content := "# Idea: use JWT tokens";
     pf_createdAt := "2026-02-12T00:00:01.000Z";
     pf_updatedAt := "2026-02-12T00:00:01.000Z" |}.

Definition sample_event : TimelineEvent :=
  {| ev_id := "event-1";
     ev_timestamp := "2026-02-12T00:00:02.000Z";
     ev_type := "plan_created";
     ev_data := JObject [("code", JString "test-plan")] |}.

Definition sample_evidence : EvidenceRecord :=
  {| er_id := "evidence-1";
     er_description := "Research findings";
     er_source := Some "web search";
     er_sourceUrl := None;
     er_gatheringMethod := None;
     er_content := None;
     er_filePath := None;
     er_relevanceScore := None;
     er_originalQuery := None;
     er_summary := None;
     er_createdAt := "2026-02-12T00:00:03.000Z" |}.

Definition sample_feedback : FeedbackRecord :=
  {| fb_id := "feedback-1";
     fb_title := Some "Review notes";
     fb_platform := None;
     fb_content := "Looks good!";
     fb_participants := None;
     fb_createdAt := "2026-02-12T00:00:04.000Z" |}.

(** A provider on a new file, in an environment without faults. *)
Definition fresh_provider (planPath : string) : Sqlite.Provider :=
  Sqlite.create planPath no_faults sample_uuids sample_clock.

(** [await a(p); await b(p); ...] for calls whose results are dropped. *)
Definition after {A : Type} (calls : list (Sqlite.Provider -> A * Sqlite.Provider))
  (p : Sqlite.Provider) : Sqlite.Provider :=
  fold_left (fun q call => snd (call q)) calls p.

(** A plan with three steps that mention "jwt" once, five times and
    eleven times, a file, an event, an evidence record and a feedback
    record. *)
Definition sample_plan : Sqlite.Provider :=
  after [Sqlite.addStep (sample_step 1 "First Step" "completed" "Issue a JWT on login.");
         Sqlite.addStep (sample_step 2 "Second Step" "in_progress"
                           "jwt Jwt JWT jwT jWt: refresh and rotate");
         Sqlite.addStep (sample_step 3 "Third Step" "pending"
                           "jwt jwt jwt jwt jwt jwt jwt jwt jwt jwt jwt");
         Sqlite.saveFile sample_file;
         Sqlite.addTimelineEvent sample_event;
         Sqlite.addEvidence sample_evidence;
         Sqlite.addFeedback sample_feedback]
        (snd (Sqlite.initialize sample_metadata (fresh_provider "source.plan"))).

(** The same provider in an environment where every statement from the
    [n]-th on fails. *)
Definition failing_from (n : nat) (p : Sqlite.Provider) : Sqlite.Provider :=
  {| Sqlite.path := Sqlite.path p;
     Sqlite.db := Sqlite.db p;
     Sqlite.planId := Sqlite.planId p;
     Sqlite.faults := fun i => if Nat.leb n i then Some "disk I/O error" else None;
     Sqlite.statements := Sqlite.statements p;
     Sqlite.uuids := Sqlite.uuids p;
     Sqlite.uuid_calls := Sqlite.uuid_calls p;
     Sqlite.clock := Sqlite.clock p;
     Sqlite.clock_calls := Sqlite.clock_calls p |}.

(** The sample plan behind a handle that reads its metadata and then
    fails on every statement. *)
Definition unreadable_plan : Sqlite.Provider :=
  failing_from (S (Sqlite.statements sample_plan)) sample_plan.

(** A target that holds the metadata of the sample plan and nothing else. *)
Definition bare_plan : Sqlite.Provider :=
  snd (Sqlite.initialize sample_metadata (fresh_provider "target.plan")).

(** Metadata with another identity code. *)
Definition other_metadata : PlanMetadata :=
  {| md_id := "other-plan";
     md_name := "Other Plan";
     md_description := None;
     md_createdAt := "2026-03-01T00:00:00.000Z";
     md_updatedAt := "2026-03-01T00:00:00.000Z";
     md_stage := "idea";
     md_schemaVersion := 1 |}.

(** The patches [{}]. *)
Definition no_metadata_fields : PlanMetadataPatch :=
  {| um_id := None; um_name := None; um_description := None; um_createdAt := None;
     um_updatedAt := None; um_stage := None; um_schemaVersion := None |}.

Definition no_step_patch : PlanStepPatch :=
  {| up_number := None; up_code := None; up_title := None; up_description := None;
     up_status := None; up_startedAt := None; up_completedAt := None;
     up_content := None |}.

(** The patch [{ status: 'completed', completedAt: T }]. *)
Definition completion_patch : PlanStepPatch :=
  {| up_number := None; up_code := None; up_title := None; up_description := None;
     up_status := Some "completed"; up_startedAt := None;
     up_completedAt := Some "2026-02-12T00:00:09.000Z";
     up_content := None |}.

(** The sample file with a new content and update time, and an earlier
    creation time that must not replace the stored one. *)
Definition revised_file : PlanFile :=
  {| pf_type := "idea";
     pf_filename := "IDEA.md";
     pf_content := "# Idea: use opaque session tokens";
     pf_createdAt := "2020-01-01T00:00:00.000Z";
     pf_updatedAt := "2026-02-13T00:00:00.000Z" |}.

(** The snapshot of the sample plan, and a checkpoint that holds it. *)
Definition sample_snapshot : CheckpointSnapshot :=
  match fst (Sqlite.createSnapshot sample_plan) with
  | Sqlite.Returned snapshot => snapshot
  | Sqlite.Thrown _ =>
      {| snap_metadata := sample_metadata; snap_steps := []; snap_files := [] |}
  end.

Definition sample_checkpoint : Checkpoint :=
  {| cp_name := "before-review";
     cp_message := "State before the review";
     cp_createdAt := "2026-02-12T00:00:05.000Z";
     cp_snapshot := sample_snapshot |}.

(** The sample plan after the checkpoint was taken and then the stage of
    the plan, the status of two steps and the content of the file were
    changed. *)
Definition checkpointed_plan : Sqlite.Provider :=
  after [Sqlite.createCheckpoint sample_checkpoint;
         Sqlite.updateMetadata
           {| um_id := None; um_name := None; um_description := None;
              um_createdAt := None; um_updatedAt := None;
              um_stage := Some "executing"; um_schemaVersion := None |};
         Sqlite.updateStep 1 completion_patch;
         Sqlite.updateStep 2 completion_patch;
         Sqlite.saveFile revised_file]
        sample_plan.

(** The same plan behind a handle that fails at the fifth statement of
    the restore: after the checkpoint was read, the transaction begun, the
    plan row updated and the first step restored. *)
Definition interrupted_plan : Sqlite.Provider :=
  failing_from (4 + Sqlite.statements checkpointed_plan) checkpointed_plan.

(** The database file of [sample_plan] with its write-ahead log, and
    nothing else. *)
Definition source_files_fs : FileSystem := fun p =>
  if String.eqb p "source.plan" then
    Some (RegularFile (Some (SQLITE_HEADER ++ list_byte_of_string "pages")))
  else if String.eqb p "source.plan-wal" then Some (RegularFile (Some []))
  else None.

(** [{ validate: true, onProgress }]: validate, report progress, and
    remove the source. *)
Definition validating_options : MigrationOptions :=
  {| force := false; keepSource := false; validate := true; onProgress := true |}.

(** [path.join] on simple relative paths. *)
Definition sample_join (dir name : string) : string := (dir ++ "/" ++ name)%string.

(** A directory plan with a summary file, a database file, a file with
    the database extension that is no database, and a directory that is
    no plan. *)
Definition sample_fs : FileSystem := fun p =>
  if String.eqb p "plans/alpha" then Some Directory
  else if String.eqb p "plans/alpha/SUMMARY.md" then
    Some (RegularFile (Some (list_byte_of_string "# Summary")))
  else if String.eqb p "plans/beta.plan" then
    Some (RegularFile (Some (SQLITE_HEADER ++ list_byte_of_string "pages")))
  else if String.eqb p "plans/broken.plan" then
    Some (RegularFile (Some (list_byte_of_string "not a database at all")))
  else if String.eqb p "plans/notes" then Some Directory
  else None.

(* ================================================================== *)
(** * Properties *)
(* ================================================================== *)

(** ** Strings and sorting *)

Lemma toLowerCase_length (s : string) :
  String.length (toLowerCase s) = String.length s.
Proof. induction s as [|c s IH]; simpl; congruence. Qed.

Lemma toLowerCase_empty (s : string) : toLowerCase s = EmptyString -> s = EmptyString.
Proof. destruct s; simpl; [reflexivity | discriminate]. Qed.

Lemma prefix_length (q s : string) :
  prefix q s = true -> String.length q <= String.length s.
Proof.
  revert s; induction q as [|c q IH]; intros s H; simpl; [lia|].
  destruct s as [|d s]; simpl in H; [discriminate|].
  destruct (ascii_dec c d); [|discriminate].
  apply IH in H. simpl. lia.
Qed.

Lemma string_skip_empty (n : nat) : string_skip n EmptyString = EmptyString.
Proof. destruct n; reflexivity. Qed.

Lemma string_skip_length (n : nat) (s : string) :
  String.length (string_skip n s) = String.length s - n.
Proof.
  revert s; induction n as [|n IH]; intros s; simpl; [lia|].
  destruct s; simpl; auto.
Qed.

Lemma string_skip_add (a b : nat) (s : string) :
  string_skip a (string_skip b s) = string_skip (b + a) s.
Proof.
  revert s; induction b as [|b IH]; intros s; simpl; [reflexivity|].
  destruct s; simpl; [apply string_skip_empty | apply IH].
Qed.

Lemma string_skip_beyond (n : nat) (s : string) :
  String.length s <= n -> string_skip n s = EmptyString.
Proof.
  revert s; induction n as [|n IH]; intros s H.
  - destruct s; simpl in *; [reflexivity | lia].
  - destruct s; simpl in *; [reflexivity | apply IH; lia].
Qed.

Lemma string_skip_min (pos : nat) (s : string) :
  string_skip (Nat.min pos (String.length s)) s = string_skip pos s.
Proof.
  destruct (Nat.le_gt_cases pos (String.length s)) as [H|H].
  - now rewrite Nat.min_l.
  - rewrite Nat.min_r by lia.
    rewrite !string_skip_beyond by lia. reflexivity.
Qed.

Lemma indexOf_from_bounds (s q : string) :
  forall k i, indexOf_from s q k = Some i ->
              k <= i /\ i - k + String.length q <= String.length s.
Proof.
  induction s as [|c s IH]; intros k i H; cbn [indexOf_from] in H.
  - destruct (prefix q EmptyString) eqn:P; [|discriminate].
    injection H as <-. apply prefix_length in P. simpl in *. lia.
  - destruct (prefix q (String c s)) eqn:P.
    + injection H as <-. apply prefix_length in P. simpl in *. lia.
    + apply IH in H. simpl. lia.
Qed.

Lemma indexOf_bounds (s q : string) (pos i : nat) :
  indexOf s q pos = Some i ->
  Nat.min pos (String.length s) <= i /\ i + String.length q <= String.length s.
Proof.
  unfold indexOf. intros H. apply indexOf_from_bounds in H.
  rewrite string_skip_length in H. lia.
Qed.

Lemma occurrences_from_skip (q : string) :
  forall s k, occurrences_from k s q = occurrences_from 0 (string_skip k s) q.
Proof.
  induction s as [|c s IH]; intros k.
  - now rewrite string_skip_empty.
  - destruct k as [|k]; [reflexivity|]. simpl. apply IH.
Qed.

Lemma indexOf_from_none (q : string) :
  forall s k, indexOf_from s q k = None -> occurrences_from 0 s q = 0.
Proof.
  induction s as [|c s IH]; intros k H; [reflexivity|].
  cbn [indexOf_from occurrences_from] in *.
  destruct (prefix q (String c s)); [discriminate|].
  eapply IH; eassumption.
Qed.

Lemma indexOf_from_some (q : string) :
  q <> EmptyString ->
  forall s k i, indexOf_from s q k = Some i ->
    occurrences_from 0 s q
    = S (occurrences_from 0 (string_skip (i - k + String.length q) s) q).
Proof.
  intros Hq. induction s as [|c s IH]; intros k i H.
  - cbn [indexOf_from] in H. destruct q; [congruence | discriminate].
  - pose proof (indexOf_from_bounds _ _ _ _ H) as [Hk _].
    cbn [indexOf_from] in H. cbn [occurrences_from].
    destruct (prefix q (String c s)) eqn:P.
    + injection H as <-. rewrite Nat.sub_diag. cbn [Nat.add].
      destruct q as [|a q]; [congruence|].
      f_equal. rewrite occurrences_from_skip.
      change (String.length (String a q)) with (S (String.length q)).
      cbn [string_skip]. now rewrite Nat.sub_succ, Nat.sub_0_r.
    + pose proof (indexOf_from_bounds _ _ _ _ H) as [Hk' _].
      rewrite (IH _ _ H).
      replace (i - k + String.length q) with (S (i - S k + String.length q)) by lia.
      reflexivity.
Qed.

Section Sorting.

Context {A : Type} (before : A -> A -> bool).

Lemma insert_by_perm (x : A) (l : list A) : Permutation (x :: l) (insert_by before x l).
Proof.
  induction l as [|y l IH]; simpl; [reflexivity|].
  destruct (before x y); [reflexivity|].
  rewrite perm_swap. now apply perm_skip.
Qed.

Lemma sort_by_perm (l : list A) : Permutation l (sort_by before l).
Proof.
  induction l as [|x l IH]; simpl; [constructor|].
  etransitivity; [apply perm_skip, IH | apply insert_by_perm].
Qed.

Lemma sort_by_in (l : list A) (x : A) : In x (sort_by before l) <-> In x l.
Proof.
  split; apply Permutation_in; [symmetry|]; apply sort_by_perm.
Qed.

Lemma sort_by_length (l : list A) : List.length (sort_by before l) = List.length l.
Proof. symmetry. apply Permutation_length, sort_by_perm. Qed.

Hypothesis before_total : forall x y, before x y = true \/ before y x = true.
Hypothesis before_trans :
  forall x y z, before x y = true -> before y z = true -> before x z = true.

Lemma insert_by_sorted (x : A) (l : list A) :
  StronglySorted (fun a b => before a b = true) l ->
  StronglySorted (fun a b => before a b = true) (insert_by before x l).
Proof.
  induction 1 as [|y l Hs IH Hy]; simpl.
  - repeat constructor.
  - destruct (before x y) eqn:E.
    + constructor; [constructor; assumption|].
      constructor; [assumption|].
      eapply Forall_impl; [|exact Hy]. intros z Hz. eapply before_trans; eassumption.
    + constructor; [assumption|].
      eapply Permutation_Forall; [apply insert_by_perm|].
      constructor; [|assumption].
      destruct (before_total x y); congruence.
Qed.

Lemma sort_by_sorted (l : list A) :
  StronglySorted (fun a b => before a b = true) (sort_by before l).
Proof.
  induction l as [|x l IH]; simpl; [constructor | now apply insert_by_sorted].
Qed.

End Sorting.

(** ** The scoring loop *)

Lemma indexOf_empty_query (s : string) (pos : nat) :
  indexOf s EmptyString pos = Some (Nat.min pos (String.length s)).
Proof.
  unfold indexOf. destruct (string_skip _ s); reflexivity.
Qed.

(** With the empty query the loop never leaves: whatever the budget of
    iterations, it is exhausted. *)
Lemma count_loop_empty_query (lowerContent : string) :
  forall fuel pos count, Sqlite.count_loop fuel lowerContent EmptyString pos count = None.
Proof.
  induction fuel as [|fuel IH]; intros pos count; [reflexivity|].
  cbn [Sqlite.count_loop]. rewrite indexOf_empty_query. apply IH.
Qed.

Lemma count_loop_terminates (lowerContent lowerQuery : string) :
  lowerQuery <> EmptyString ->
  forall fuel pos count,
    String.length lowerContent - Nat.min pos (String.length lowerContent) < fuel ->
    exists n,
      Sqlite.count_loop fuel lowerContent lowerQuery pos count = Some n
      /\ count <= n
      /\ (n - count) * String.length lowerQuery
         <= String.length lowerContent - Nat.min pos (String.length lowerContent).
Proof.
  intros Hq.
  assert (Hlen : 1 <= String.length lowerQuery)
    by (destruct lowerQuery; [congruence | simpl; lia]).
  induction fuel as [|fuel IH]; intros pos count Hfuel; [lia|].
  cbn [Sqlite.count_loop].
  destruct (indexOf lowerContent lowerQuery pos) as [found|] eqn:E.
  - apply indexOf_bounds in E. destruct E as [Hlo Hhi].
    destruct (IH (found + String.length lowerQuery) (S count)) as (n & Hn & Hc & Hb).
    { rewrite Nat.min_l by lia. lia. }
    exists n. split; [exact Hn|]. split; [lia|].
    rewrite Nat.min_l in Hb by lia.
    replace (n - count) with (S (n - S count)) by lia.
    cbn [Nat.mul]. lia.
  - exists count. split; [reflexivity|]. split; [lia|].
    rewrite Nat.sub_diag. simpl. lia.
Qed.

Lemma count_loop_counts (lowerContent lowerQuery : string) :
  lowerQuery <> EmptyString ->
  forall fuel pos count n,
    Sqlite.count_loop fuel lowerContent lowerQuery pos count = Some n ->
    n = count + occurrences_from 0 (string_skip pos lowerContent) lowerQuery.
Proof.
  intros Hq. induction fuel as [|fuel IH]; intros pos count n H; [discriminate|].
  cbn [Sqlite.count_loop] in H.
  destruct (indexOf lowerContent lowerQuery pos) as [found|] eqn:E.
  - apply IH in H. rewrite H.
    pose proof (indexOf_bounds _ _ _ _ E) as [Hlo Hhi].
    unfold indexOf in E. rewrite string_skip_min in E.
    rewrite (indexOf_from_some _ Hq _ _ _ E).
    rewrite string_skip_add.
    destruct (Nat.le_gt_cases pos (String.length lowerContent)) as [Hp|Hp].
    + rewrite Nat.min_l by lia. rewrite Nat.min_l in Hlo by lia.
      replace (pos + (found - pos + String.length lowerQuery))
        with (found + String.length lowerQuery) by lia.
      lia.
    + rewrite Nat.min_r in Hlo by lia.
      destruct lowerQuery; [congruence | simpl in Hhi; lia].
  - injection H as <-.
    unfold indexOf in E. rewrite string_skip_min in E.
    rewrite (indexOf_from_none _ _ _ E). lia.
Qed.

Lemma calculateScore_counts (fuel : nat) (content query : string) (score : Q) :
  Sqlite.calculateScore fuel content query = Some score ->
  score = Qmin 1 (Z.of_nat (occurrence_count content query) # 10)%Q.
Proof.
  unfold Sqlite.calculateScore, Sqlite.normalize_score, occurrence_count.
  destruct (toLowerCase query) as [|c lq] eqn:Q.
  - rewrite count_loop_empty_query. discriminate.
  - destruct (Sqlite.count_loop _ _ _ _ _) as [n|] eqn:E; [|discriminate].
    intros H. injection H as <-.
    apply count_loop_counts in E; [|discriminate].
    simpl in E. now subst n.
Qed.

Lemma calculateScore_terminates (fuel : nat) (content query : string) :
  query <> EmptyString -> String.length content < fuel ->
  exists score, Sqlite.calculateScore fuel content query = Some score.
Proof.
  intros Hq Hfuel. unfold Sqlite.calculateScore.
  destruct (count_loop_terminates (toLowerCase content) (toLowerCase query))
    with (fuel := fuel) (pos := 0) (count := 0) as (n & Hn & _).
  - intros E. apply Hq. now apply toLowerCase_empty.
  - rewrite toLowerCase_length. simpl. lia.
  - rewrite Hn. eauto.
Qed.

Lemma push_results_hits (fuel : nat) (query : string) :
  forall rows results out,
    Sqlite.push_results fuel query rows results = Some out ->
    out = results ++ map (hit_of query) rows.
Proof.
  induction rows as [|row rows IH]; intros results out H; simpl in H.
  - injection H as <-. now rewrite app_nil_r.
  - destruct (Sqlite.calculateScore fuel (Sqlite.m_text row) query) as [score|] eqn:E;
      [|discriminate].
    apply calculateScore_counts in E. apply IH in H. subst out score.
    rewrite <- app_assoc. reflexivity.
Qed.

Lemma push_results_terminates (fuel : nat) (query : string) :
  query <> EmptyString ->
  forall rows results,
    (forall row, In row rows -> String.length (Sqlite.m_text row) < fuel) ->
    exists out, Sqlite.push_results fuel query rows results = Some out.
Proof.
  intros Hq. induction rows as [|row rows IH]; intros results Hrows; simpl.
  - eauto.
  - destruct (calculateScore_terminates fuel (Sqlite.m_text row) query Hq) as [score E].
    { apply Hrows. now left. }
    rewrite E. apply IH. intros r Hr. apply Hrows. now right.
Qed.

(** ** Statements of the provider *)

Lemma getPlanId_returned (p p' : Sqlite.Provider) (k : Z) :
  Sqlite.getPlanId p = (Sqlite.Returned k, p') ->
  Sqlite.db p' = Sqlite.db p /\ Sqlite.planId p' = Some k
  /\ Sqlite.faults p' = Sqlite.faults p.
Proof.
  unfold Sqlite.getPlanId.
  destruct (Sqlite.planId p) as [k0|] eqn:E.
  - intros H. injection H as <- <-. auto.
  - unfold Sqlite.bind, Sqlite.prepare, Sqlite.fetch, Sqlite.run, Sqlite.throw.
    destruct (Schema.has_schema (Sqlite.db p)); [|discriminate].
    destruct (Sqlite.faults p (Sqlite.statements p)); [discriminate|].
    destruct (Schema.select_first_plan_id (Sqlite.db p)); [|discriminate].
    intros H. injection H as <- <-. auto.
Qed.

Lemma getPlanId_thrown (p p' : Sqlite.Provider) (e : string) :
  Sqlite.getPlanId p = (Sqlite.Thrown e, p') ->
  Sqlite.db p' = Sqlite.db p /\ Sqlite.planId p' = Sqlite.planId p.
Proof.
  unfold Sqlite.getPlanId.
  destruct (Sqlite.planId p) as [k0|] eqn:E; [discriminate|].
  unfold Sqlite.bind, Sqlite.prepare, Sqlite.fetch, Sqlite.run, Sqlite.throw.
  destruct (Schema.has_schema (Sqlite.db p)).
  - destruct (Sqlite.faults p (Sqlite.statements p)).
    + intros H. injection H as _ <-. auto.
    + destruct (Schema.select_first_plan_id (Sqlite.db p)); [discriminate|].
      intros H. injection H as _ <-. auto.
  - intros H. injection H as _ <-. auto.
Qed.

Lemma prepare_fetch_returned {A : Type} (table : string) (q : Schema.Db -> A)
  (p p' : Sqlite.Provider) (a : A) :
  Sqlite.bind (Sqlite.prepare table) (fun _ => Sqlite.fetch q) p = (Sqlite.Returned a, p') ->
  a = q (Sqlite.db p) /\ Sqlite.db p' = Sqlite.db p /\ Sqlite.planId p' = Sqlite.planId p.
Proof.
  unfold Sqlite.bind, Sqlite.prepare, Sqlite.fetch, Sqlite.run.
  destruct (Schema.has_schema (Sqlite.db p)); [|discriminate].
  destruct (Sqlite.faults p (Sqlite.statements p)); [discriminate|].
  intros H. injection H as <- <-. auto.
Qed.

Lemma prepare_fetch_total {A : Type} (table : string) (q : Schema.Db -> A)
  (p : Sqlite.Provider) :
  exists o p', Sqlite.bind (Sqlite.prepare table) (fun _ => Sqlite.fetch q) p = (o, p')
               /\ Sqlite.db p' = Sqlite.db p.
Proof.
  unfold Sqlite.bind, Sqlite.prepare, Sqlite.fetch, Sqlite.run.
  destruct (Schema.has_schema (Sqlite.db p)); [|eauto].
  destruct (Sqlite.faults p (Sqlite.statements p)); eauto.
Qed.

(** ** Search *)

Lemma Qle_bool_total (x y : Q) : Qle_bool x y = true \/ Qle_bool y x = true.
Proof.
  rewrite !Qle_bool_iff. destruct (Qlt_le_dec x y) as [H|H]; [left|right]; auto.
  now apply Qlt_le_weak.
Qed.

Lemma StronglySorted_weaken {A : Type} (R R' : A -> A -> Prop) (l : list A) :
  (forall a b, R a b -> R' a b) -> StronglySorted R l -> StronglySorted R' l.
Proof.
  intros HR. induction 1 as [|x l Hs IH Hx]; constructor; [assumption|].
  eapply Forall_impl; [|exact Hx]. intros b. apply HR.
Qed.

Lemma by_score_descending_sorted (l : list SearchResult) :
  score_descending (sort_by Sqlite.by_score_descending l).
Proof.
  unfold score_descending.
  eapply StronglySorted_weaken; cycle 1.
  - apply (sort_by_sorted Sqlite.by_score_descending).
    + intros x y. apply Qle_bool_total.
    + unfold Sqlite.by_score_descending. intros x y z.
      rewrite !Qle_bool_iff. intros. eapply Qle_trans; eassumption.
  - intros a b. unfold Sqlite.by_score_descending. now rewrite Qle_bool_iff.
Qed.

Lemma saturated_score (n : nat) : 10 <= n -> Qmin 1 (Z.of_nat n # 10)%Q = 1%Q.
Proof.
  intros H. unfold Qmin, GenericMinMax.gmin, Qcompare. cbn [Qnum Qden].
  destruct (Z.compare_spec (1 * Z.pos 10) (Z.of_nat n * 1)); try reflexivity. lia.
Qed.

Lemma search_returns (fuel : nat) (query : string) (p p' : Sqlite.Provider)
  (r : StorageResult (list SearchResult)) (hits : list SearchResult) :
  Sqlite.search fuel query p = Some (r, p') ->
  data r = Some hits ->
  exists k, Sqlite.planId p' = Some k
    /\ hits = sort_by Sqlite.by_score_descending
                (map (hit_of query) (matching_rows k query (Sqlite.db p))).
Proof.
  unfold Sqlite.search, matching_rows. intros H Hd.
  destruct (Sqlite.getPlanId p) as [[k|e] p0] eqn:Ek;
    [|injection H as <- _; discriminate].
  apply getPlanId_returned in Ek. destruct Ek as (Hdb0 & Hk0 & _).
  destruct (Sqlite.bind (Sqlite.prepare "plan_steps") _ p0) as [[rows1|e] p1] eqn:E1;
    [|injection H as <- _; discriminate].
  apply prepare_fetch_returned in E1. destruct E1 as (-> & Hdb1 & Hk1).
  destruct (Sqlite.push_results fuel query _ []) as [res1|] eqn:R1; [|discriminate].
  apply push_results_hits in R1.
  destruct (Sqlite.bind (Sqlite.prepare "plan_files") _ p1) as [[rows2|e] p2] eqn:E2;
    [|injection H as <- _; discriminate].
  apply prepare_fetch_returned in E2. destruct E2 as (-> & Hdb2 & Hk2).
  destruct (Sqlite.push_results fuel query _ res1) as [res2|] eqn:R2; [|discriminate].
  apply push_results_hits in R2.
  destruct (Sqlite.bind (Sqlite.prepare "evidence_records") _ p2) as [[rows3|e] p3] eqn:E3;
    [|injection H as <- _; discriminate].
  apply prepare_fetch_returned in E3. destruct E3 as (-> & Hdb3 & Hk3).
  destruct (Sqlite.push_results fuel query _ res2) as [res3|] eqn:R3; [|discriminate].
  apply push_results_hits in R3.
  injection H as <- <-. simpl in Hd. injection Hd as <-.
  exists k. split; [congruence|].
  subst res3 res2 res1. rewrite Hdb2, Hdb1, Hdb0.
  simpl. rewrite !map_app, <- app_assoc. reflexivity.
Qed.

(** C6.  Every hit that [search] returns carries the score
    [min(1, occurrence_count / 10)], where [occurrence_count] counts the
    case-insensitive occurrences of the query in the text of the matched
    row (one after the other, without overlap); the hits are exactly the
    matching steps, files and evidence of the plan, pooled and in
    descending order of score.  One occurrence scores less than five, and
    ten or more occurrences score exactly 1. *)
Theorem search_scores_by_occurrences (fuel : nat) (query : string)
  (p p' : Sqlite.Provider) (r : StorageResult (list SearchResult))
  (hits : list SearchResult) :
  Sqlite.search fuel query p = Some (r, p') ->
  data r = Some hits ->
  (exists k, Sqlite.planId p' = Some k
     /\ Permutation hits (map (hit_of query) (matching_rows k query (Sqlite.db p)))
     /\ forall hit, In hit hits ->
          exists row, In row (matching_rows k query (Sqlite.db p))
            /\ sr_type hit = Sqlite.m_type row /\ sr_id hit = Sqlite.m_id row
            /\ sr_score hit
               = Qmin 1 (Z.of_nat (occurrence_count (Sqlite.m_text row) query) # 10)%Q)
  /\ score_descending hits
  /\ (forall once five,
        occurrence_count (Sqlite.m_text once) query = 1 ->
        occurrence_count (Sqlite.m_text five) query = 5 ->
        (sr_score (hit_of query once) < sr_score (hit_of query five))%Q)
  /\ (forall many,
        10 <= occurrence_count (Sqlite.m_text many) query ->
        sr_score (hit_of query many) = 1%Q).
Proof.
  intros H Hd.
  destruct (search_returns _ _ _ _ _ _ H Hd) as (k & Hk & ->).
  split; [|split; [|split]].
  - exists k. split; [exact Hk|]. split.
    + symmetry. apply sort_by_perm.
    + intros hit Hin. apply sort_by_in in Hin. apply in_map_iff in Hin.
      destruct Hin as (row & <- & Hrow). exists row. auto.
  - apply by_score_descending_sorted.
  - intros once five H1 H5. simpl. rewrite H1, H5. reflexivity.
  - intros many Hmany. simpl. now apply saturated_score.
Qed.

(** C9.  With a non-empty query the counting loop of [calculateScore]
    comes to an end: on a content of length [n] it finds at most [n]
    occurrences (each one moves the position forward by the length of the
    query), so [n + 1] evaluations of its condition are enough; and
    [search] returns as soon as the loop is given more iterations than the
    longest stored text has characters. *)
Theorem search_terminates (query : string) :
  query <> EmptyString ->
  (forall content fuel,
     String.length content < fuel ->
     exists iterations,
       Sqlite.count_loop fuel (toLowerCase content) (toLowerCase query) 0 0
       = Some iterations
       /\ iterations * String.length query <= String.length content
       /\ iterations <= String.length content)
  /\ (forall p fuel,
        longest_text (Sqlite.db p) < fuel ->
        exists out, Sqlite.search fuel query p = Some out).
Proof.
  intros Hq. split.
  - intros content fuel Hfuel.
    destruct (count_loop_terminates (toLowerCase content) (toLowerCase query))
      with (fuel := fuel) (pos := 0) (count := 0) as (n & Hn & _ & Hb).
    + intros E. apply Hq. now apply toLowerCase_empty.
    + rewrite toLowerCase_length. simpl. lia.
    + exists n. split; [exact Hn|].
      rewrite !toLowerCase_length in Hb. simpl in Hb. rewrite Nat.sub_0_r in Hb.
      split; [lia|].
      assert (1 <= String.length query) by (destruct query; [congruence | simpl; lia]).
      nia.
  - intros p fuel Hfuel. unfold Sqlite.search.
    assert (Hmax : forall l n, In n l -> n <= fold_right Nat.max 0 l).
    { induction l as [|m l IH]; intros n Hn; simpl in *; [contradiction|].
      destruct Hn as [->|Hn]; [lia|]. specialize (IH _ Hn). lia. }
    assert (Hrows : forall k pattern row,
               In row (Sqlite.select_matching_steps k pattern (Sqlite.db p)
                         ++ Sqlite.select_matching_files k pattern (Sqlite.db p)
                         ++ Sqlite.select_matching_evidence k pattern (Sqlite.db p)) ->
               String.length (Sqlite.m_text row) < fuel).
    { intros k pattern row Hin.
      eapply Nat.le_lt_trans; [|exact Hfuel]. apply Hmax. unfold longest_text.
      rewrite !in_app_iff in *.
      unfold Sqlite.select_matching_steps, Sqlite.select_matching_files,
        Sqlite.select_matching_evidence in Hin.
      rewrite !in_map_iff in *.
      destruct Hin as [(x & <- & Hx)|[(x & <- & Hx)|(x & <- & Hx)]];
        apply filter_In in Hx; destruct Hx as [Hx _]; [left|right;left|right;right];
        exists x; auto. }
    destruct (Sqlite.getPlanId p) as [[k|e] p0] eqn:Ek; [|eauto].
    apply getPlanId_returned in Ek. destruct Ek as (Hdb0 & _).
    destruct (Sqlite.bind (Sqlite.prepare "plan_steps") _ p0) as [[rows1|e] p1] eqn:E1;
      [|eauto].
    apply prepare_fetch_returned in E1. destruct E1 as (-> & Hdb1 & _).
    destruct (push_results_terminates fuel query Hq
                (Sqlite.select_matching_steps k ("%" ++ query ++ "%") (Sqlite.db p0)) [])
      as [res1 R1].
    { intros row Hrow. apply (Hrows k ("%" ++ query ++ "%")%string).
      rewrite Hdb0 in Hrow. apply in_or_app. now left. }
    rewrite R1.
    destruct (Sqlite.bind (Sqlite.prepare "plan_files") _ p1) as [[rows2|e] p2] eqn:E2;
      [|eauto].
    apply prepare_fetch_returned in E2. destruct E2 as (-> & Hdb2 & _).
    destruct (push_results_terminates fuel query Hq
                (Sqlite.select_matching_files k ("%" ++ query ++ "%") (Sqlite.db p1)) res1)
      as [res2 R2].
    { intros row Hrow. apply (Hrows k ("%" ++ query ++ "%")%string).
      rewrite Hdb1, Hdb0 in Hrow. apply in_or_app. right. apply in_or_app. now left. }
    rewrite R2.
    destruct (Sqlite.bind (Sqlite.prepare "evidence_records") _ p2) as [[rows3|e] p3] eqn:E3;
      [|eauto].
    apply prepare_fetch_returned in E3. destruct E3 as (-> & Hdb3 & _).
    destruct (push_results_terminates fuel query Hq
                (Sqlite.select_matching_evidence k ("%" ++ query ++ "%") (Sqlite.db p2)) res2)
      as [res3 R3].
    { intros row Hrow. apply (Hrows k ("%" ++ query ++ "%")%string).
      rewrite Hdb2, Hdb1, Hdb0 in Hrow. apply in_or_app. right. apply in_or_app. now right. }
    rewrite R3. eauto.
Qed.

(** Witness of C6 on the sample plan and the query "jwt". *)
Lemma search_scores_by_occurrences_witness :
  exists hits p',
    Sqlite.search 64 "jwt" sample_plan = Some (ok_data hits, p')
    /\ map sr_score hits = [1; 5 # 10; 1 # 10; 1 # 10]%Q
    /\ score_descending hits.
Proof.
  eexists. eexists. split; [vm_compute; reflexivity|]. split; [reflexivity|].
  eapply (search_scores_by_occurrences 64 "jwt" sample_plan);
    [vm_compute; reflexivity | reflexivity].
Defined.

(** Witness of C9 on the sample plan and the query "jwt". *)
Lemma search_terminates_witness :
  (exists iterations,
     Sqlite.count_loop 40 (toLowerCase "jwt Jwt JWT jwT jWt: refresh and rotate")
       (toLowerCase "jwt") 0 0 = Some iterations
     /\ iterations * 3 <= 39 /\ iterations <= 39)
  /\ exists out, Sqlite.search 64 "jwt" sample_plan = Some out.
Proof.
  destruct (search_terminates "jwt") as [Hloop Hsearch]; [discriminate|].
  split.
  - apply (Hloop "jwt Jwt JWT jwT jWt: refresh and rotate" 40).
    apply Nat.ltb_lt. reflexivity.
  - apply Hsearch. apply Nat.ltb_lt. vm_compute. reflexivity.
Defined.

(** ** Format detection *)

Lemma bytes_equal_eq (a b : list byte) : bytes_equal a b = true <-> a = b.
Proof.
  revert b; induction a as [|x a IH]; intros [|y b]; simpl; split; intros H;
    try reflexivity; try discriminate.
  - apply andb_true_iff in H. destruct H as [Hx Hab].
    apply Byte.byte_dec_bl in Hx. apply IH in Hab. congruence.
  - injection H as -> ->. apply andb_true_iff. split.
    + now apply Byte.byte_dec_lb.
    + now apply IH.
Qed.

Lemma hasSqliteHeader_iff (fs : FileSystem) (filePath : string) :
  hasSqliteHeader fs filePath = true <->
  exists bytes, fs filePath = Some (RegularFile (Some bytes))
                /\ firstn 16 bytes = SQLITE_HEADER.
Proof.
  unfold hasSqliteHeader, readFileSync.
  change (List.length SQLITE_HEADER) with 16.
  destruct (fs filePath) as [[[bytes|]| |]|]; split; intros H;
    try discriminate; try (destruct H as (b & Hb & _); discriminate).
  - destruct (Nat.ltb (List.length bytes) 16); [discriminate|].
    apply bytes_equal_eq in H. eauto.
  - destruct H as (b & Hb & Hh). injection Hb as <-.
    destruct (Nat.ltb (List.length bytes) 16) eqn:L.
    + apply Nat.ltb_lt in L.
      assert (List.length (firstn 16 bytes) = 16) by (rewrite Hh; reflexivity).
      rewrite length_firstn in H. lia.
    + now apply bytes_equal_eq.
Qed.

Lemma has_marker_iff (join : string -> string -> string) (fs : FileSystem)
  (planPath : string) (markers : list string) :
  has_marker join fs planPath markers = true <->
  exists marker, In marker markers /\ fs (join planPath marker) <> None.
Proof.
  induction markers as [|m ms IH]; simpl.
  - split; [discriminate | intros (x & [] & _)].
  - unfold existsSync at 1. destruct (fs (join planPath m)) eqn:E.
    + split; [|reflexivity]. intros _. exists m. split; [now left | congruence].
    + rewrite IH. split.
      * intros (x & Hx & Hn). exists x. auto.
      * intros (x & [<-|Hx] & Hn); [congruence|]. exists x. auto.
Qed.

(** C7.  [detectPlanFormat] classifies a path as follows.  Nothing at the
    path: 'unknown'.  A directory: 'directory' exactly when one of the
    four marker names exists in it or its entry [plan] is a directory, and
    'unknown' otherwise.  A regular file: 'sqlite' exactly when it can be
    read and its first 16 bytes are the SQLite magic header, and 'unknown'
    otherwise, whatever extension the path carries. *)
Theorem detectPlanFormat_classifies (join : string -> string -> string)
  (fs : FileSystem) (planPath : string) :
  (fs planPath = None -> detectPlanFormat join fs planPath = unknown)
  /\ (fs planPath = Some Directory ->
      (detectPlanFormat join fs planPath = detected directory <->
       (exists marker, In marker DIRECTORY_PLAN_MARKERS
                       /\ fs (join planPath marker) <> None)
       \/ fs (join planPath "plan") = Some Directory)
      /\ (detectPlanFormat join fs planPath <> detected directory ->
          detectPlanFormat join fs planPath = unknown))
  /\ (forall contents, fs planPath = Some (RegularFile contents) ->
      (detectPlanFormat join fs planPath = detected sqlite <->
       exists bytes, contents = Some bytes /\ firstn 16 bytes = SQLITE_HEADER)
      /\ (forall extension,
            endsWith planPath extension = true ->
            hasSqliteHeader fs planPath = false ->
            detectPlanFormat join fs planPath = unknown)
      /\ (detectPlanFormat join fs planPath <> detected sqlite ->
          detectPlanFormat join fs planPath = unknown)).
Proof.
  split; [|split].
  - intros H. unfold detectPlanFormat, existsSync. now rewrite H.
  - intros H.
    assert (D : detectPlanFormat join fs planPath
                = if has_marker join fs planPath DIRECTORY_PLAN_MARKERS
                  then detected directory
                  else match fs (join planPath "plan") with
                       | Some Directory => detected directory
                       | _ => unknown
                       end).
    { unfold detectPlanFormat, existsSync, isDirectory. rewrite H. cbn [negb].
      destruct (has_marker join fs planPath DIRECTORY_PLAN_MARKERS); [reflexivity|].
      destruct (fs (join planPath "plan")) as [[c| |]|]; reflexivity. }
    rewrite D.
    destruct (has_marker join fs planPath DIRECTORY_PLAN_MARKERS) eqn:M.
    + split; [|congruence]. split; [|reflexivity].
      intros _. left. now apply has_marker_iff.
    + destruct (fs (join planPath "plan")) as [[c| |]|] eqn:P;
        (split; [|congruence]); split; intros G; try discriminate; try reflexivity;
        try (now right);
        (destruct G as [G|G]; [apply has_marker_iff in G; congruence | discriminate]).
  - intros contents H.
    assert (D : detectPlanFormat join fs planPath
                = if hasSqliteHeader fs planPath then detected sqlite else unknown).
    { unfold detectPlanFormat, existsSync, isDirectory, isFile. rewrite H. cbn [negb].
      destruct (hasSqliteHeader fs planPath); [reflexivity|].
      destruct (endsWith planPath ".plan"); reflexivity. }
    rewrite D. split; [|split].
    + destruct (hasSqliteHeader fs planPath) eqn:E.
      * apply hasSqliteHeader_iff in E. destruct E as (bytes & Hb & Hh).
        split; [|reflexivity]. intros _. exists bytes. split; [congruence | exact Hh].
      * split; [discriminate|]. intros (bytes & -> & Hh).
        assert (hasSqliteHeader fs planPath = true) by (apply hasSqliteHeader_iff; eauto).
        congruence.
    + intros extension _ ->. reflexivity.
    + destruct (hasSqliteHeader fs planPath); congruence.
Qed.

(** Witness of C7 on the sample file system. *)
Lemma detectPlanFormat_classifies_witness :
  detectPlanFormat sample_join sample_fs "plans/missing" = unknown
  /\ detectPlanFormat sample_join sample_fs "plans/alpha" = detected directory
  /\ detectPlanFormat sample_join sample_fs "plans/notes" = unknown
  /\ detectPlanFormat sample_join sample_fs "plans/beta.plan" = detected sqlite
  /\ detectPlanFormat sample_join sample_fs "plans/broken.plan" = unknown.
Proof.
  split; [|split; [|split; [|split]]].
  - destruct (detectPlanFormat_classifies sample_join sample_fs "plans/missing")
      as (Hnone & _ & _).
    apply Hnone. reflexivity.
  - destruct (detectPlanFormat_classifies sample_join sample_fs "plans/alpha")
      as (_ & Hdir & _).
    destruct (Hdir eq_refl) as [Hiff _]. apply Hiff.
    left. exists "SUMMARY.md". split; [now left | discriminate].
  - destruct (detectPlanFormat_classifies sample_join sample_fs "plans/notes")
      as (_ & Hdir & _).
    destruct (Hdir eq_refl) as [Hiff Helse]. apply Helse.
    intros Hd. apply Hiff in Hd. destruct Hd as [(marker & Hin & Hex)|Hplan].
    + apply Hex. simpl in Hin.
      destruct Hin as [<-|[<-|[<-|[<-|[]]]]]; reflexivity.
    + discriminate.
  - destruct (detectPlanFormat_classifies sample_join sample_fs "plans/beta.plan")
      as (_ & _ & Hfile).
    destruct (Hfile _ eq_refl) as [Hiff _]. apply Hiff.
    eexists. split; reflexivity.
  - destruct (detectPlanFormat_classifies sample_join sample_fs "plans/broken.plan")
      as (_ & _ & Hfile).
    destruct (Hfile _ eq_refl) as (_ & Hext & _).
    apply (Hext ".plan"); reflexivity.
Defined.

(** ** The validator *)

Lemma fold_left_appending {A B : Type} (f : list B -> A -> list B) (l : list A) :
  (forall acc x, f acc x = acc ++ f [] x) ->
  forall acc, fold_left f l acc = acc ++ flat_map (f []) l.
Proof.
  intros Hf. induction l as [|x l IH]; intros acc; simpl.
  - now rewrite app_nil_r.
  - rewrite IH, Hf, <- app_assoc. reflexivity.
Qed.

Lemma find_none_of {A : Type} (f : A -> bool) (l : list A) :
  (forall x, In x l -> f x = false) -> find f l = None.
Proof.
  induction l as [|y l IH]; intros H; simpl; [reflexivity|].
  rewrite (H y) by now left. apply IH. intros x Hx. apply H. now right.
Qed.

Ltac appending :=
  repeat match goal with
         | |- context [if ?c then _ else _] => destruct c
         end;
  simpl; rewrite <- ?app_assoc, ?app_nil_r; reflexivity.

Lemma compare_metadata_appends (a b : PlanMetadata) (acc : list ValidationError) :
  compare_metadata a b acc = acc ++ compare_metadata a b [].
Proof. unfold compare_metadata. appending. Qed.

Lemma check_step_appends (targetSteps : list PlanStep) (acc : list ValidationError)
  (step : PlanStep) :
  check_step targetSteps acc step = acc ++ check_step targetSteps [] step.
Proof. unfold check_step. destruct (find _ targetSteps); [appending | reflexivity]. Qed.

Lemma check_extra_step_appends (sourceSteps : list PlanStep) (acc : list ValidationError)
  (step : PlanStep) :
  check_extra_step sourceSteps acc step = acc ++ check_extra_step sourceSteps [] step.
Proof.
  unfold check_extra_step. destruct (find _ sourceSteps); [|reflexivity].
  now rewrite app_nil_r.
Qed.

Lemma check_file_appends (targetFiles : list PlanFile) (acc : list ValidationError)
  (file : PlanFile) :
  check_file targetFiles acc file = acc ++ check_file targetFiles [] file.
Proof. unfold check_file. destruct (find _ targetFiles); [appending | reflexivity]. Qed.

Lemma check_event_appends (targetEvents : list TimelineEvent) (acc : list string)
  (event : TimelineEvent) :
  check_event targetEvents acc event = acc ++ check_event targetEvents [] event.
Proof.
  unfold check_event. destruct (find _ targetEvents); [|reflexivity].
  now rewrite app_nil_r.
Qed.

Lemma check_evidence_appends (targetEvidence : list EvidenceRecord)
  (acc : list ValidationError) (item : EvidenceRecord) :
  check_evidence targetEvidence acc item = acc ++ check_evidence targetEvidence [] item.
Proof.
  unfold check_evidence. destruct (find _ targetEvidence); [|reflexivity].
  now rewrite app_nil_r.
Qed.

Lemma check_feedback_appends (targetFeedback : list FeedbackRecord)
  (acc : list ValidationError) (item : FeedbackRecord) :
  check_feedback targetFeedback acc item = acc ++ check_feedback targetFeedback [] item.
Proof.
  unfold check_feedback. destruct (find _ targetFeedback); [|reflexivity].
  now rewrite app_nil_r.
Qed.

Section ValidatorFacts.

Context {S T : Type} {Source : StorageProvider S} {Target : StorageProvider T}.

Lemma validateMetadata_appends (source : S) (target : T) (acc : list ValidationError) :
  MigrationValidator.validateMetadata source target acc
  = (fst (MigrationValidator.validateMetadata source target []),
     acc ++ snd (MigrationValidator.validateMetadata source target [])).
Proof.
  unfold MigrationValidator.validateMetadata.
  destruct (getMetadata source) as [rs s']. destruct (getMetadata target) as [rt t'].
  destruct (payload rs); [destruct (payload rt)|]; simpl; try reflexivity.
  now rewrite compare_metadata_appends.
Qed.

Lemma validateSteps_appends (source : S) (target : T) (acc : list ValidationError) :
  MigrationValidator.validateSteps source target acc
  = (fst (MigrationValidator.validateSteps source target []),
     acc ++ snd (MigrationValidator.validateSteps source target [])).
Proof.
  unfold MigrationValidator.validateSteps.
  destruct (getSteps source) as [rs s']. destruct (getSteps target) as [rt t'].
  destruct (payload rs) as [steps|]; simpl; [|now rewrite app_nil_r].
  rewrite !(fold_left_appending (check_extra_step steps))
    by apply check_extra_step_appends.
  rewrite !(fold_left_appending (check_step (data_or_empty rt)))
    by apply check_step_appends.
  simpl. now rewrite app_assoc.
Qed.

Lemma validateFiles_appends (source : S) (target : T) (acc : list ValidationError) :
  MigrationValidator.validateFiles source target acc
  = (fst (MigrationValidator.validateFiles source target []),
     acc ++ snd (MigrationValidator.validateFiles source target [])).
Proof.
  unfold MigrationValidator.validateFiles.
  destruct (getFiles source) as [rs s']. destruct (getFiles target) as [rt t'].
  destruct (payload rs) as [files|]; simpl; [|now rewrite app_nil_r].
  rewrite !(fold_left_appending (check_file (data_or_empty rt)))
    by apply check_file_appends.
  reflexivity.
Qed.

Lemma validateTimeline_appends (source : S) (target : T)
  (acc : list ValidationError) (warn : list string) :
  MigrationValidator.validateTimeline source target acc warn
  = (fst (fst (MigrationValidator.validateTimeline source target [] [])), acc,
     warn ++ snd (MigrationValidator.validateTimeline source target [] []))
  /\ snd (fst (MigrationValidator.validateTimeline source target [] [])) = [].
Proof.
  unfold MigrationValidator.validateTimeline.
  destruct (getTimelineEvents no_timeline_options source) as [rs s'].
  destruct (getTimelineEvents no_timeline_options target) as [rt t'].
  destruct (payload rs) as [events|]; simpl; [|now rewrite app_nil_r].
  rewrite !(fold_left_appending (check_event (data_or_empty rt)))
    by apply check_event_appends.
  split; reflexivity.
Qed.

Lemma validateEvidence_appends (source : S) (target : T) (acc : list ValidationError) :
  MigrationValidator.validateEvidence source target acc
  = (fst (MigrationValidator.validateEvidence source target []),
     acc ++ snd (MigrationValidator.validateEvidence source target [])).
Proof.
  unfold MigrationValidator.validateEvidence.
  destruct (getEvidence source) as [rs s']. destruct (getEvidence target) as [rt t'].
  destruct (payload rs) as [items|]; simpl; [|now rewrite app_nil_r].
  rewrite !(fold_left_appending (check_evidence (data_or_empty rt)))
    by apply check_evidence_appends.
  reflexivity.
Qed.

Lemma validateFeedback_appends (source : S) (target : T) (acc : list ValidationError) :
  MigrationValidator.validateFeedback source target acc
  = (fst (MigrationValidator.validateFeedback source target []),
     acc ++ snd (MigrationValidator.validateFeedback source target [])).
Proof.
  unfold MigrationValidator.validateFeedback.
  destruct (getFeedback source) as [rs s']. destruct (getFeedback target) as [rt t'].
  destruct (payload rs) as [items|]; simpl; [|now rewrite app_nil_r].
  rewrite !(fold_left_appending (check_feedback (data_or_empty rt)))
    by apply check_feedback_appends.
  reflexivity.
Qed.

(** The result of [validate], phase by phase. *)
Lemma validate_by_phase (source : S) (target : T) :
  errors (validation source target)
  = metadata_errors source target ++ steps_errors source target
      ++ files_errors source target ++ evidence_errors source target
      ++ feedback_errors source target
  /\ warnings (validation source target) = timeline_warnings source target
  /\ valid (validation source target)
     = Nat.eqb (List.length (errors (validation source target))) 0
  /\ stepsCompared (stats (validation source target))
     = (let '(s, t) := before_steps source target in
        fst (fst (fst (MigrationValidator.validateSteps s t []))))
  /\ filesCompared (stats (validation source target))
     = (let '(s, t) := before_files source target in
        fst (fst (fst (MigrationValidator.validateFiles s t []))))
  /\ timelineEventsCompared (stats (validation source target))
     = (let '(s, t) := before_timeline source target in
        fst (fst (fst (fst (MigrationValidator.validateTimeline s t [] [])))))
  /\ evidenceCompared (stats (validation source target))
     = (let '(s, t) := before_evidence source target in
        fst (fst (fst (MigrationValidator.validateEvidence s t []))))
  /\ feedbackCompared (stats (validation source target))
     = (let '(s, t) := before_feedback source target in
        fst (fst (fst (MigrationValidator.validateFeedback s t [])))).
Proof.
  unfold validation, MigrationValidator.validate,
    metadata_errors, steps_errors, files_errors, timeline_warnings, evidence_errors,
    feedback_errors, before_feedback, before_evidence, before_timeline, before_files,
    before_steps.
  destruct (MigrationValidator.validateMetadata source target []) as [[s1 t1] e1].
  rewrite (validateSteps_appends s1 t1 e1).
  destruct (MigrationValidator.validateSteps s1 t1 []) as [[[n2 s2] t2] e2].
  cbn [fst snd].
  rewrite (validateFiles_appends s2 t2 (e1 ++ e2)).
  destruct (MigrationValidator.validateFiles s2 t2 []) as [[[n3 s3] t3] e3].
  cbn [fst snd].
  destruct (validateTimeline_appends s3 t3 (e1 ++ e2 ++ e3) []) as [Htl Hnil].
  rewrite <- !app_assoc. rewrite Htl.
  destruct (MigrationValidator.validateTimeline s3 t3 [] []) as [[[[n4 s4] t4] e4] w4].
  cbn [fst snd].
  rewrite (validateEvidence_appends s4 t4 (e1 ++ e2 ++ e3)).
  destruct (MigrationValidator.validateEvidence s4 t4 []) as [[[n5 s5] t5] e5].
  cbn [fst snd].
  rewrite (validateFeedback_appends s5 t5 ((e1 ++ e2 ++ e3) ++ e5)).
  destruct (MigrationValidator.validateFeedback s5 t5 []) as [[[n6 s6] t6] e6].
  cbn [fst snd errors warnings valid stats stepsCompared filesCompared
         timelineEventsCompared evidenceCompared feedbackCompared app].
  rewrite <- !app_assoc. repeat split; reflexivity.
Qed.

End ValidatorFacts.

Section ValidatorVerdict.

Context {S T : Type} {Source : StorageProvider S} {Target : StorageProvider T}.

Lemma missing_step_reported (source : S) (target : T) (steps : list PlanStep)
  (step : PlanStep) :
  source_steps source target = Some steps -> In step steps ->
  (forall s, In s (target_steps source target) -> st_number s <> st_number step) ->
  exists e, In e (steps_errors source target)
            /\ ve_type e = missing_step /\ ve_expected e = is_step step
            /\ ve_actual e = is_null.
Proof.
  unfold source_steps, target_steps, steps_errors, MigrationValidator.validateSteps.
  destruct (before_steps source target) as [s t]. cbn [fst snd].
  destruct (getSteps s) as [rs s']. destruct (getSteps t) as [rt t']. cbn [fst snd].
  intros -> Hin Hnone.
  rewrite (fold_left_appending (check_extra_step steps)) by apply check_extra_step_appends.
  rewrite (fold_left_appending (check_step (data_or_empty rt))) by apply check_step_appends.
  eexists. split.
  - cbn [snd app]. apply in_or_app. left. apply in_flat_map. exists step. split; [exact Hin|].
    unfold check_step. rewrite find_none_of.
    + now left.
    + intros x Hx. apply Z.eqb_neq. now apply Hnone.
  - auto.
Qed.

Lemma missing_file_reported (source : S) (target : T) (files : list PlanFile)
  (file : PlanFile) :
  source_files source target = Some files -> In file files ->
  (forall f, In f (target_files source target) ->
             ~ (pf_type f = pf_type file /\ pf_filename f = pf_filename file)) ->
  exists e, In e (files_errors source target)
            /\ ve_type e = missing_file /\ ve_expected e = is_file file
            /\ ve_actual e = is_null.
Proof.
  unfold source_files, target_files, files_errors, MigrationValidator.validateFiles.
  destruct (before_files source target) as [s t]. cbn [fst snd].
  destruct (getFiles s) as [rs s']. destruct (getFiles t) as [rt t']. cbn [fst snd].
  intros -> Hin Hnone.
  rewrite (fold_left_appending (check_file (data_or_empty rt))) by apply check_file_appends.
  eexists. split.
  - cbn [snd app]. apply in_flat_map. exists file. split; [exact Hin|].
    unfold check_file. rewrite find_none_of.
    + now left.
    + intros x Hx. apply andb_false_iff.
      destruct (String.eqb_spec (pf_type x) (pf_type file)) as [E1|]; [|now left].
      destruct (String.eqb_spec (pf_filename x) (pf_filename file)) as [E2|]; [|now right].
      exfalso. apply (Hnone x Hx). auto.
  - auto.
Qed.

Lemma missing_event_warned (source : S) (target : T) (events : list TimelineEvent)
  (event : TimelineEvent) :
  source_events source target = Some events -> In event events ->
  (forall e, In e (target_events source target) ->
             ~ (ev_type e = ev_type event /\ ev_timestamp e = ev_timestamp event)) ->
  In (not_found_warning event) (timeline_warnings source target).
Proof.
  unfold source_events, target_events, timeline_warnings,
    MigrationValidator.validateTimeline.
  destruct (before_timeline source target) as [s t]. cbn [fst snd].
  destruct (getTimelineEvents no_timeline_options s) as [rs s'].
  destruct (getTimelineEvents no_timeline_options t) as [rt t']. cbn [fst snd].
  intros -> Hin Hnone.
  rewrite (fold_left_appending (check_event (data_or_empty rt))) by apply check_event_appends.
  cbn [snd app]. apply in_flat_map. exists event. split; [exact Hin|].
  unfold check_event. rewrite find_none_of.
  - now left.
  - intros x Hx. apply andb_false_iff.
    destruct (String.eqb_spec (ev_type x) (ev_type event)) as [E1|]; [|now left].
    destruct (String.eqb_spec (ev_timestamp x) (ev_timestamp event)) as [E2|]; [|now right].
    exfalso. apply (Hnone x Hx). auto.
Qed.

Lemma missing_evidence_reported (source : S) (target : T) (items : list EvidenceRecord)
  (item : EvidenceRecord) :
  source_evidence source target = Some items -> In item items ->
  (forall e, In e (target_evidence source target) ->
             er_description e <> er_description item) ->
  exists e, In e (evidence_errors source target)
            /\ ve_type e = missing_file /\ ve_expected e = is_evidence item
            /\ ve_actual e = is_null.
Proof.
  unfold source_evidence, target_evidence, evidence_errors,
    MigrationValidator.validateEvidence.
  destruct (before_evidence source target) as [s t]. cbn [fst snd].
  destruct (getEvidence s) as [rs s']. destruct (getEvidence t) as [rt t']. cbn [fst snd].
  intros -> Hin Hnone.
  rewrite (fold_left_appending (check_evidence (data_or_empty rt)))
    by apply check_evidence_appends.
  eexists. split.
  - cbn [snd app]. apply in_flat_map. exists item. split; [exact Hin|].
    unfold check_evidence. rewrite find_none_of.
    + now left.
    + intros x Hx. apply String.eqb_neq. now apply Hnone.
  - auto.
Qed.

Lemma missing_feedback_reported (source : S) (target : T) (items : list FeedbackRecord)
  (item : FeedbackRecord) :
  source_feedback source target = Some items -> In item items ->
  (forall f, In f (target_feedback source target) -> fb_content f <> fb_content item) ->
  exists e, In e (feedback_errors source target)
            /\ ve_type e = missing_file /\ ve_expected e = is_feedback item
            /\ ve_actual e = is_null.
Proof.
  unfold source_feedback, target_feedback, feedback_errors,
    MigrationValidator.validateFeedback.
  destruct (before_feedback source target) as [s t]. cbn [fst snd].
  destruct (getFeedback s) as [rs s']. destruct (getFeedback t) as [rt t']. cbn [fst snd].
  intros -> Hin Hnone.
  rewrite (fold_left_appending (check_feedback (data_or_empty rt)))
    by apply check_feedback_appends.
  eexists. split.
  - cbn [snd app]. apply in_flat_map. exists item. split; [exact Hin|].
    unfold check_feedback. rewrite find_none_of.
    + now left.
    + intros x Hx. apply String.eqb_neq. now apply Hnone.
  - auto.
Qed.

(** C8.  [validate] answers [valid = true] exactly when its list of
    errors is empty.  That list is made of the errors of the metadata,
    step, file, evidence and feedback phases; the timeline phase adds
    none.  A source event with no target event of the same type and
    timestamp yields the warning about it; a source step with no target
    step of its number, a source file with no target file of its type and
    name, an evidence record with no target record of its description and
    a feedback record with no target record of its content each yield an
    error.  (The source lists are those the bulk reads of [validate]
    return.) *)
Theorem validate_verdict (source : S) (target : T) :
  (valid (validation source target) = true <-> errors (validation source target) = [])
  /\ errors (validation source target)
     = metadata_errors source target ++ steps_errors source target
         ++ files_errors source target ++ evidence_errors source target
         ++ feedback_errors source target
  /\ (forall events event,
        source_events source target = Some events -> In event events ->
        (forall e, In e (target_events source target) ->
                   ~ (ev_type e = ev_type event /\ ev_timestamp e = ev_timestamp event)) ->
        In (not_found_warning event) (warnings (validation source target)))
  /\ (forall steps step,
        source_steps source target = Some steps -> In step steps ->
        (forall s, In s (target_steps source target) -> st_number s <> st_number step) ->
        exists e, In e (errors (validation source target))
                  /\ ve_type e = missing_step /\ ve_expected e = is_step step
                  /\ ve_actual e = is_null)
  /\ (forall files file,
        source_files source target = Some files -> In file files ->
        (forall f, In f (target_files source target) ->
                   ~ (pf_type f = pf_type file /\ pf_filename f = pf_filename file)) ->
        exists e, In e (errors (validation source target))
                  /\ ve_type e = missing_file /\ ve_expected e = is_file file
                  /\ ve_actual e = is_null)
  /\ (forall items item,
        source_evidence source target = Some items -> In item items ->
        (forall e, In e (target_evidence source target) ->
                   er_description e <> er_description item) ->
        exists e, In e (errors (validation source target))
                  /\ ve_type e = missing_file /\ ve_expected e = is_evidence item
                  /\ ve_actual e = is_null)
  /\ (forall items item,
        source_feedback source target = Some items -> In item items ->
        (forall f, In f (target_feedback source target) ->
                   fb_content f <> fb_content item) ->
        exists e, In e (errors (validation source target))
                  /\ ve_type e = missing_file /\ ve_expected e = is_feedback item
                  /\ ve_actual e = is_null).
Proof.
  destruct (validate_by_phase source target) as (He & Hw & Hv & _).
  split; [|split; [exact He|]].
  - rewrite Hv. destruct (errors (validation source target)); simpl; split;
      intros; congruence.
  - rewrite He, Hw. repeat split.
    + intros events event H1 H2 H3. eapply missing_event_warned; eassumption.
    + intros steps step H1 H2 H3.
      destruct (missing_step_reported _ _ _ _ H1 H2 H3) as (e & Hin & Hrest).
      exists e. split; [|exact Hrest]. rewrite !in_app_iff. auto.
    + intros files file H1 H2 H3.
      destruct (missing_file_reported _ _ _ _ H1 H2 H3) as (e & Hin & Hrest).
      exists e. split; [|exact Hrest]. rewrite !in_app_iff. auto.
    + intros items item H1 H2 H3.
      destruct (missing_evidence_reported _ _ _ _ H1 H2 H3) as (e & Hin & Hrest).
      exists e. split; [|exact Hrest]. rewrite !in_app_iff. auto.
    + intros items item H1 H2 H3.
      destruct (missing_feedback_reported _ _ _ _ H1 H2 H3) as (e & Hin & Hrest).
      exists e. split; [|exact Hrest]. rewrite !in_app_iff. auto.
Qed.

End ValidatorVerdict.

(** Witness of C8: the sample plan against a target that holds its
    metadata only. *)
Lemma validate_verdict_witness :
  valid (validation sample_plan bare_plan) = false
  /\ In (not_found_warning sample_event) (warnings (validation sample_plan bare_plan))
  /\ (exists e, In e (errors (validation sample_plan bare_plan))
                /\ ve_type e = missing_step
                /\ ve_expected e = is_step (sample_step 1 "First Step" "completed"
                                              "Issue a JWT on login.")
                /\ ve_actual e = is_null)
  /\ (exists e, In e (errors (validation sample_plan bare_plan))
                /\ ve_type e = missing_file /\ ve_expected e = is_file sample_file
                /\ ve_actual e = is_null).
Proof.
  destruct (validate_verdict sample_plan bare_plan)
    as (Hvalid & _ & Hevents & Hsteps & Hfiles & _).
  split; [|split; [|split]].
  - apply Bool.not_true_is_false. intros E.
    apply Hvalid in E. vm_compute in E. discriminate.
  - eapply Hevents.
    + vm_compute. reflexivity.
    + left. reflexivity.
    + intros e He. vm_compute in He. contradiction.
  - eapply Hsteps.
    + vm_compute. reflexivity.
    + left. reflexivity.
    + intros s Hs. vm_compute in Hs. contradiction.
  - eapply Hfiles.
    + vm_compute. reflexivity.
    + left. reflexivity.
    + intros f Hf. vm_compute in Hf. contradiction.
Defined.

Section UnreadableSource.

Context {S T : Type} {Source : StorageProvider S} {Target : StorageProvider T}.

Lemma unreadable_steps (source : S) (target : T) :
  source_steps source target = None ->
  steps_errors source target = []
  /\ stepsCompared (stats (validation source target)) = 0.
Proof.
  destruct (validate_by_phase source target) as (_ & _ & _ & -> & _).
  unfold source_steps, steps_errors, MigrationValidator.validateSteps.
  destruct (before_steps source target) as [s t]. cbn [fst snd].
  destruct (getSteps s) as [rs s']. destruct (getSteps t) as [rt t']. cbn [fst].
  intros ->. split; reflexivity.
Qed.

Lemma unreadable_files (source : S) (target : T) :
  source_files source target = None ->
  files_errors source target = []
  /\ filesCompared (stats (validation source target)) = 0.
Proof.
  destruct (validate_by_phase source target) as (_ & _ & _ & _ & -> & _).
  unfold source_files, files_errors, MigrationValidator.validateFiles.
  destruct (before_files source target) as [s t]. cbn [fst snd].
  destruct (getFiles s) as [rs s']. destruct (getFiles t) as [rt t']. cbn [fst].
  intros ->. split; reflexivity.
Qed.

Lemma unreadable_events (source : S) (target : T) :
  source_events source target = None ->
  timeline_warnings source target = []
  /\ timelineEventsCompared (stats (validation source target)) = 0.
Proof.
  destruct (validate_by_phase source target) as (_ & _ & _ & _ & _ & -> & _).
  unfold source_events, timeline_warnings, MigrationValidator.validateTimeline.
  destruct (before_timeline source target) as [s t]. cbn [fst snd].
  destruct (getTimelineEvents no_timeline_options s) as [rs s'].
  destruct (getTimelineEvents no_timeline_options t) as [rt t']. cbn [fst].
  intros ->. split; reflexivity.
Qed.

Lemma unreadable_evidence (source : S) (target : T) :
  source_evidence source target = None ->
  evidence_errors source target = []
  /\ evidenceCompared (stats (validation source target)) = 0.
Proof.
  destruct (validate_by_phase source target) as (_ & _ & _ & _ & _ & _ & -> & _).
  unfold source_evidence, evidence_errors, MigrationValidator.validateEvidence.
  destruct (before_evidence source target) as [s t]. cbn [fst snd].
  destruct (getEvidence s) as [rs s']. destruct (getEvidence t) as [rt t']. cbn [fst].
  intros ->. split; reflexivity.
Qed.

Lemma unreadable_feedback (source : S) (target : T) :
  source_feedback source target = None ->
  feedback_errors source target = []
  /\ feedbackCompared (stats (validation source target)) = 0.
Proof.
  destruct (validate_by_phase source target) as (_ & _ & _ & _ & _ & _ & _ & ->).
  unfold source_feedback, feedback_errors, MigrationValidator.validateFeedback.
  destruct (before_feedback source target) as [s t]. cbn [fst snd].
  destruct (getFeedback s) as [rs s']. destruct (getFeedback t) as [rt t']. cbn [fst].
  intros ->. split; reflexivity.
Qed.

End UnreadableSource.

(** C10.  For steps, files, timeline events, evidence and feedback: when
    the bulk read of the source fails or returns no data, that phase of
    [validate] reports no error (no warning, for the timeline) and counts
    0 items compared.  Consequently [validate] can answer [valid = true]
    although the steps, files, evidence and feedback of the source could
    not be read: it does so for the sample plan behind a handle that fails
    after the metadata read, against a target that holds none of its
    steps, files, evidence or feedback. *)
Theorem unreadable_source_passes :
  (forall (S T : Type) (Source : StorageProvider S) (Target : StorageProvider T)
          (source : S) (target : T),
     (source_steps source target = None ->
      steps_errors source target = []
      /\ stepsCompared (stats (validation source target)) = 0)
     /\ (source_files source target = None ->
         files_errors source target = []
         /\ filesCompared (stats (validation source target)) = 0)
     /\ (source_events source target = None ->
         timeline_warnings source target = []
         /\ warnings (validation source target) = []
         /\ timelineEventsCompared (stats (validation source target)) = 0)
     /\ (source_evidence source target = None ->
         evidence_errors source target = []
         /\ evidenceCompared (stats (validation source target)) = 0)
     /\ (source_feedback source target = None ->
         feedback_errors source target = []
         /\ feedbackCompared (stats (validation source target)) = 0)
     /\ errors (validation source target)
        = metadata_errors source target ++ steps_errors source target
            ++ files_errors source target ++ evidence_errors source target
            ++ feedback_errors source target)
  /\ (Schema.plan_steps (Sqlite.db unreadable_plan) <> []
      /\ Schema.plan_steps (Sqlite.db bare_plan) = []
      /\ source_steps unreadable_plan bare_plan = None
      /\ source_files unreadable_plan bare_plan = None
      /\ source_evidence unreadable_plan bare_plan = None
      /\ source_feedback unreadable_plan bare_plan = None
      /\ valid (validation unreadable_plan bare_plan) = true
      /\ errors (validation unreadable_plan bare_plan) = []).
Proof.
  split.
  - intros S T Source Target source target.
    destruct (validate_by_phase source target) as (He & Hw & _).
    split; [apply unreadable_steps|].
    split; [apply unreadable_files|].
    split.
    { intros H. destruct (unreadable_events source target H) as [Hnone Hcount].
      rewrite Hw. auto. }
    split; [apply unreadable_evidence|].
    split; [apply unreadable_feedback | exact He].
  - split; [vm_compute; discriminate|].
    repeat split; vm_compute; reflexivity.
Qed.

(** Witness of C10: the phases of [validate] on the unreadable sample
    plan report nothing and compare nothing. *)
Lemma unreadable_source_passes_witness :
  steps_errors unreadable_plan bare_plan = []
  /\ stepsCompared (stats (validation unreadable_plan bare_plan)) = 0
  /\ evidence_errors unreadable_plan bare_plan = []
  /\ evidenceCompared (stats (validation unreadable_plan bare_plan)) = 0.
Proof.
  destruct unreadable_source_passes as [Hphases _].
  destruct (Hphases _ _ _ _ unreadable_plan bare_plan)
    as (Hsteps & _ & _ & Hevidence & _).
  destruct Hsteps as [H1 H2]; [vm_compute; reflexivity|].
  destruct Hevidence as [H3 H4]; [vm_compute; reflexivity|].
  auto.
Defined.

(** ** Writes of the provider *)

Lemma run_without_fault {A : Type} (s : Schema.Statement A) (p : Sqlite.Provider) :
  Sqlite.faults p (Sqlite.statements p) = None ->
  Sqlite.run s p
  = match s (Sqlite.db p) with
    | inl (a, d') => (Sqlite.Returned a, Sqlite.with_db d' (Sqlite.count_statement p))
    | inr e => (Sqlite.Thrown e, Sqlite.count_statement p)
    end.
Proof. unfold Sqlite.run. now intros ->. Qed.

Lemma run_outcome {A : Type} (s : Schema.Statement A) (p p' : Sqlite.Provider)
  (o : Sqlite.Outcome A) :
  Sqlite.run s p = (o, p') ->
  Sqlite.planId p' = Sqlite.planId p
  /\ Sqlite.faults p' = Sqlite.faults p
  /\ match o with
     | Sqlite.Returned a => s (Sqlite.db p) = inl (a, Sqlite.db p')
     | Sqlite.Thrown _ => Sqlite.db p' = Sqlite.db p
     end.
Proof.
  unfold Sqlite.run.
  destruct (Sqlite.faults p (Sqlite.statements p)).
  - intros H. injection H as <- <-. auto.
  - destruct (s (Sqlite.db p)) as [[a d']|e]; intros H; injection H as <- <-; auto.
Qed.

(** C5 (amended).  [initialize] inserts at most one row into [plans].
    When the store already holds a plan with the identity code of the
    metadata, it fails and leaves [plans] as it was, with the UNIQUE
    conflict on [plans.code] as its error unless the engine failed before
    the insertion.  When no row has that code (in particular when the
    store is empty) and the engine does not fail, it succeeds, appends
    exactly one row that carries the metadata, and caches its id.  In
    every case a failure inserts nothing and a success inserts one row. *)
Theorem initialize_conflicts_on_code (metadata : PlanMetadata) (p : Sqlite.Provider) :
  let r := fst (Sqlite.initialize metadata p) in
  let p' := snd (Sqlite.initialize metadata p) in
  let taken := existsb (fun row => String.eqb (Schema.plans_code row) (md_id metadata))
                 (Schema.plans (Sqlite.db p)) in
  (taken = true ->
   success r = false
   /\ Schema.plans (Sqlite.db p') = Schema.plans (Sqlite.db p)
   /\ (Sqlite.faults p (Sqlite.statements p) = None ->
       Sqlite.faults p (S (Sqlite.statements p)) = None ->
       error r = Some "UNIQUE constraint failed: plans.code"))
  /\ (taken = false ->
      Sqlite.faults p (Sqlite.statements p) = None ->
      Sqlite.faults p (S (Sqlite.statements p)) = None ->
      success r = true
      /\ exists id,
           Sqlite.planId p' = Some id
           /\ ~ In id (map Schema.plans_id (Schema.plans (Sqlite.db p)))
           /\ Schema.plans (Sqlite.db p')
              = Schema.plans (Sqlite.db p)
                  ++ [{| Schema.plans_id := id;
                         Schema.plans_code := md_id metadata;
                         Schema.plans_name := md_name metadata;
                         Schema.plans_description := or_null (md_description metadata);
                         Schema.plans_stage := md_stage metadata;
                         Schema.plans_created_at := md_createdAt metadata;
                         Schema.plans_updated_at := md_updatedAt metadata;
                         Schema.plans_schema_version := md_schemaVersion metadata |}])
  /\ (success r = false -> Schema.plans (Sqlite.db p') = Schema.plans (Sqlite.db p))
  /\ (success r = true ->
      List.length (Schema.plans (Sqlite.db p'))
      = S (List.length (Schema.plans (Sqlite.db p)))).
Proof.
  assert (Hmax : forall l, ~ In (Z.max (Schema.plans_seq (Sqlite.db p))
                                    (Schema.max_plan_id l) + 1)%Z
                             (map Schema.plans_id l)).
  { intros l Hin.
    assert (Hle : forall x, In x (map Schema.plans_id l) -> (x <= Schema.max_plan_id l)%Z).
    { clear Hin. induction l as [|row l IH]; intros x Hx; simpl in *; [contradiction|].
      destruct Hx as [<-|Hx]; [lia|]. specialize (IH _ Hx). lia. }
    apply Hle in Hin. lia. }
  cbv zeta.
  unfold Sqlite.initialize, Sqlite.try_catch, Sqlite.initializeSchema, Sqlite.bind,
    Sqlite.prepare, Sqlite.run, Sqlite.ret, Schema.insert_plan.
  destruct (Sqlite.faults p (Sqlite.statements p)) as [e0|]; cbn;
    [repeat split; intros; try congruence; discriminate|].
  destruct (Sqlite.faults p (S (Sqlite.statements p))) as [e1|]; cbn;
    [repeat split; intros; try congruence; discriminate|].
  destruct (existsb _ (Schema.plans (Sqlite.db p))) eqn:E; cbn.
  - repeat split; intros; try congruence; discriminate.
  - repeat split; intros; try congruence; try discriminate.
    + eexists. split; [reflexivity|]. split; [apply Hmax | reflexivity].
    + rewrite length_app. simpl. lia.
Qed.

(** Witness of C5 (amended): a second [initialize] with the code of the
    sample plan, and a first one on a new file. *)
Lemma initialize_conflicts_on_code_witness :
  (success (fst (Sqlite.initialize sample_metadata sample_plan)) = false
   /\ Schema.plans (Sqlite.db (snd (Sqlite.initialize sample_metadata sample_plan)))
      = Schema.plans (Sqlite.db sample_plan)
   /\ error (fst (Sqlite.initialize sample_metadata sample_plan))
      = Some "UNIQUE constraint failed: plans.code")
  /\ success (fst (Sqlite.initialize sample_metadata (fresh_provider "new.plan"))) = true.
Proof.
  split.
  - destruct (initialize_conflicts_on_code sample_metadata sample_plan) as (Htaken & _).
    destruct Htaken as (H1 & H2 & H3); [reflexivity|].
    split; [exact H1|]. split; [exact H2|]. apply H3; reflexivity.
  - destruct (initialize_conflicts_on_code sample_metadata (fresh_provider "new.plan"))
      as (_ & Hfree & _).
    apply Hfree; reflexivity.
Defined.

(** Counterexample to C5 as stated: the store holds the sample plan, and
    [initialize] with another identity code does not fail; it inserts a
    second plan row. *)
Lemma initialize_second_plan_accepted :
  Schema.plans (Sqlite.db sample_plan) <> []
  /\ success (fst (Sqlite.initialize other_metadata sample_plan)) <> false
  /\ List.length (Schema.plans (Sqlite.db sample_plan)) = 1
  /\ List.length
       (Schema.plans (Sqlite.db (snd (Sqlite.initialize other_metadata sample_plan)))) = 2.
Proof.
  split; [vm_compute; discriminate|].
  split; [vm_compute; discriminate|].
  split; vm_compute; reflexivity.
Qed.

(** ** Partial updates *)

Lemma Forall2_map_right {A : Type} (R : A -> A -> Prop) (f : A -> A) (l : list A) :
  (forall x, R x (f x)) -> Forall2 R l (map f l).
Proof. intros H. induction l; simpl; constructor; auto. Qed.

Lemma set_step_columns_updated (k number : Z) (updates : PlanStepPatch)
  (row : Schema.StepRow) :
  step_row_updated k number updates row
    (if Schema.step_key k number row then Sqlite.set_step_columns updates row else row).
Proof.
  unfold step_row_updated, Schema.step_key.
  destruct (andb _ _); [|reflexivity].
  unfold Sqlite.set_step_columns, patched, patched_nullable. cbn.
  destruct (up_code updates), (up_title updates), (up_description updates),
    (up_status updates), (up_startedAt updates), (up_completedAt updates),
    (up_content updates); repeat split; reflexivity.
Qed.

Lemma set_plan_columns_updated (k : Z) (metadata : PlanMetadataPatch) (t : string)
  (row : Schema.PlanRow) :
  plan_row_updated k metadata t row
    (if Z.eqb (Schema.plans_id row) k then Sqlite.set_plan_columns metadata t row else row).
Proof.
  unfold plan_row_updated.
  destruct (Z.eqb _ _); [|reflexivity].
  unfold Sqlite.set_plan_columns, patched, patched_nullable. cbn.
  destruct (um_name metadata), (um_description metadata), (um_stage metadata);
    repeat split; reflexivity.
Qed.

Lemma updateStep_effect (number : Z) (updates : PlanStepPatch) (p : Sqlite.Provider) :
  let r := fst (Sqlite.updateStep number updates p) in
  let p' := snd (Sqlite.updateStep number updates p) in
  (Sqlite.no_step_fields updates = true -> r = ok_void /\ p' = p)
  /\ (success r = false -> Sqlite.db p' = Sqlite.db p)
  /\ (Sqlite.no_step_fields updates = false -> success r = true ->
      exists k,
        Sqlite.planId p' = Some k
        /\ Forall2 (step_row_updated k number updates)
             (Schema.plan_steps (Sqlite.db p)) (Schema.plan_steps (Sqlite.db p'))
        /\ Sqlite.db p' = Schema.with_plan_steps (Schema.plan_steps (Sqlite.db p'))
                            (Sqlite.db p)).
Proof.
  cbv zeta. unfold Sqlite.updateStep, Sqlite.try_catch.
  destruct (Sqlite.no_step_fields updates) eqn:N.
  - cbn. repeat split; intros; congruence.
  - unfold Sqlite.bind.
    destruct (Sqlite.getPlanId p) as [[k|e] p0] eqn:G.
    + apply getPlanId_returned in G. destruct G as (Hdb & Hk & Hf).
      unfold Sqlite.prepare. destruct (Schema.has_schema (Sqlite.db p0)).
      * destruct (Sqlite.run _ p0) as [[[]|e] p1] eqn:R;
          apply run_outcome in R; destruct R as (Hk1 & Hf1 & Hd); cbn.
        -- unfold Schema.update_plan_steps in Hd. injection Hd as Hd.
           split; [intros; discriminate|]. split; [intros; discriminate|].
           intros _ _. exists k. split; [congruence|].
           rewrite <- Hd, Hdb. cbn. split; [|reflexivity].
           apply Forall2_map_right. apply set_step_columns_updated.
        -- split; [intros; discriminate|]. split; [intros; congruence|].
           intros; discriminate.
      * cbn. split; [intros; discriminate|]. split; [intros; congruence|].
        intros; discriminate.
    + apply getPlanId_thrown in G. destruct G as (Hdb & _). cbn.
      split; [intros; discriminate|]. split; [intros; congruence|].
      intros; discriminate.
Qed.

Lemma updateMetadata_effect (metadata : PlanMetadataPatch) (p : Sqlite.Provider) :
  let r := fst (Sqlite.updateMetadata metadata p) in
  let p' := snd (Sqlite.updateMetadata metadata p) in
  (success r = false -> Sqlite.db p' = Sqlite.db p)
  /\ (success r = true ->
      exists k,
        Sqlite.planId p' = Some k
        /\ Forall2 (plan_row_updated k metadata (Sqlite.clock p (Sqlite.clock_calls p)))
             (Schema.plans (Sqlite.db p)) (Schema.plans (Sqlite.db p'))
        /\ Sqlite.db p' = Schema.with_plans (Schema.plans (Sqlite.db p'))
                            (Schema.plans_seq (Sqlite.db p)) (Sqlite.db p))
  /\ (forall k,
        Sqlite.planId p = Some k -> Schema.has_schema (Sqlite.db p) = true ->
        Sqlite.faults p (Sqlite.statements p) = None ->
        success r = true).
Proof.
  cbv zeta. unfold Sqlite.updateMetadata, Sqlite.try_catch, Sqlite.bind, Sqlite.now.
  destruct (Sqlite.getPlanId (Sqlite.count_clock p)) as [[k|e] p0] eqn:G.
  - pose proof G as G'. apply getPlanId_returned in G. destruct G as (Hdb & Hk & Hf).
    cbn in Hdb, Hf.
    unfold Sqlite.prepare. destruct (Schema.has_schema (Sqlite.db p0)) eqn:Hs.
    + destruct (Sqlite.run _ p0) as [[[]|e] p1] eqn:R.
      * pose proof R as R'. apply run_outcome in R. destruct R as (Hk1 & Hf1 & Hd). cbn.
        unfold Schema.update_plans in Hd. injection Hd as Hd.
        split; [intros; discriminate|]. split; [|reflexivity].
        intros _. exists k. split; [congruence|].
        rewrite <- Hd, Hdb. cbn. split; [|reflexivity].
        apply Forall2_map_right. apply set_plan_columns_updated.
      * pose proof R as R'. apply run_outcome in R. destruct R as (Hk1 & Hf1 & Hd). cbn.
        split; [intros; congruence|]. split; [intros; discriminate|].
        intros k0 Hk0 _ Hfault. exfalso.
        unfold Sqlite.getPlanId in G'. cbn in G'. rewrite Hk0 in G'.
        injection G' as <- <-.
        unfold Sqlite.run in R'. cbn in R'. rewrite Hfault in R'. discriminate.
    + cbn. split; [intros; congruence|]. split; [intros; discriminate|].
      intros k0 _ Hs0 _. rewrite Hdb in Hs. congruence.
  - pose proof G as G'. apply getPlanId_thrown in G. destruct G as (Hdb & _).
    cbn in Hdb. cbn.
    split; [intros; congruence|]. split; [intros; discriminate|].
    intros k0 Hk0 _ _. unfold Sqlite.getPlanId in G'. cbn in G'. rewrite Hk0 in G'.
    discriminate.
Qed.

(** C4 (amended).  [updateStep] is a partial patch: of the columns
    [code], [title], [description], [status], [started_at], [completed_at]
    and [content] of the step with the given number it writes the ones
    supplied and keeps the others, it changes no other row and no other
    table, and with none of these fields supplied it returns success
    without touching the provider.  [updateMetadata] writes the supplied
    ones of [name], [description] and [stage], keeps the others of these
    three together with the code, the creation time and the schema
    version, and always sets [updated_at] to the current time; it
    changes no other row and no other table, and with a plan present and
    no engine failure it succeeds whatever fields are supplied.  A failed
    call changes nothing. *)
Theorem partial_updates :
  (forall (number : Z) (updates : PlanStepPatch) (p : Sqlite.Provider),
     let r := fst (Sqlite.updateStep number updates p) in
     let p' := snd (Sqlite.updateStep number updates p) in
     (Sqlite.no_step_fields updates = true -> r = ok_void /\ p' = p)
     /\ (success r = false -> Sqlite.db p' = Sqlite.db p)
     /\ (Sqlite.no_step_fields updates = false -> success r = true ->
         exists k,
           Sqlite.planId p' = Some k
           /\ Forall2 (step_row_updated k number updates)
                (Schema.plan_steps (Sqlite.db p)) (Schema.plan_steps (Sqlite.db p'))
           /\ Sqlite.db p' = Schema.with_plan_steps (Schema.plan_steps (Sqlite.db p'))
                               (Sqlite.db p)))
  /\ (forall (metadata : PlanMetadataPatch) (p : Sqlite.Provider),
        let r := fst (Sqlite.updateMetadata metadata p) in
        let p' := snd (Sqlite.updateMetadata metadata p) in
        (success r = false -> Sqlite.db p' = Sqlite.db p)
        /\ (success r = true ->
            exists k,
              Sqlite.planId p' = Some k
              /\ Forall2
                   (plan_row_updated k metadata (Sqlite.clock p (Sqlite.clock_calls p)))
                   (Schema.plans (Sqlite.db p)) (Schema.plans (Sqlite.db p'))
              /\ Sqlite.db p' = Schema.with_plans (Schema.plans (Sqlite.db p'))
                                  (Schema.plans_seq (Sqlite.db p)) (Sqlite.db p))
        /\ (forall k,
              Sqlite.planId p = Some k -> Schema.has_schema (Sqlite.db p) = true ->
              Sqlite.faults p (Sqlite.statements p) = None ->
              success r = true)).
Proof.
  split.
  - intros number updates p. apply updateStep_effect.
  - intros metadata p. apply updateMetadata_effect.
Qed.

(** Witness of C4 (amended) on the sample plan: completing step 1,
    patching nothing, and updating the metadata with no field. *)
Lemma partial_updates_witness :
  (exists k,
     Sqlite.planId (snd (Sqlite.updateStep 1 completion_patch sample_plan)) = Some k
     /\ Forall2 (step_row_updated k 1 completion_patch)
          (Schema.plan_steps (Sqlite.db sample_plan))
          (Schema.plan_steps (Sqlite.db (snd (Sqlite.updateStep 1 completion_patch
                                                sample_plan)))))
  /\ Sqlite.updateStep 1 no_step_patch sample_plan = (ok_void, sample_plan)
  /\ success (fst (Sqlite.updateMetadata no_metadata_fields sample_plan)) = true.
Proof.
  destruct partial_updates as [Hstep Hmeta].
  split; [|split].
  - destruct (Hstep 1%Z completion_patch sample_plan) as (_ & _ & Hpatch).
    destruct Hpatch as (k & Hk & Hrows & _); [reflexivity | reflexivity |].
    exists k. split; assumption.
  - destruct (Hstep 1%Z no_step_patch sample_plan) as (Hnone & _).
    destruct Hnone as [Hr Hp]; [reflexivity|].
    rewrite (surjective_pairing (Sqlite.updateStep 1 no_step_patch sample_plan)).
    now rewrite Hr, Hp.
  - destruct (Hmeta no_metadata_fields sample_plan) as (_ & _ & Hsucc).
    apply (Hsucc 1%Z); reflexivity.
Defined.

(** Counterexample to C4 as stated: [updateMetadata] with no field
    succeeds on the sample plan and is not a no-op: the [updated_at] of the
    plan row is overwritten with the current time. *)
Lemma updateMetadata_without_fields_changes_record :
  success (fst (Sqlite.updateMetadata no_metadata_fields sample_plan)) = true
  /\ map Schema.plans_updated_at (Schema.plans (Sqlite.db sample_plan))
     = ["2026-02-12T00:00:00.000Z"]
  /\ map Schema.plans_updated_at
       (Schema.plans (Sqlite.db (snd (Sqlite.updateMetadata no_metadata_fields
                                        sample_plan))))
     = ["2026-02-12T00:00:10.000Z"]
  /\ Sqlite.db (snd (Sqlite.updateMetadata no_metadata_fields sample_plan))
     <> Sqlite.db sample_plan.
Proof.
  split; [reflexivity|]. split; [reflexivity|]. split; [reflexivity|].
  intros H. apply (f_equal (fun d => map Schema.plans_updated_at (Schema.plans d))) in H.
  vm_compute in H. discriminate.
Qed.

(** ** Files *)

(** The methods of the shape
    [try { this.db.prepare(sql).run(this.getPlanId(), ...); return { success: true } }]. *)
Lemma write_method_effect (table : string) (stmt : Z -> Schema.Statement unit)
  (p p' : Sqlite.Provider) (r : StorageResult unit) :
  Sqlite.try_catch
    (Sqlite.bind (Sqlite.prepare table) (fun _ =>
     Sqlite.bind Sqlite.getPlanId (fun k =>
     Sqlite.bind (Sqlite.run (stmt k)) (fun _ => Sqlite.ret ok_void)))) p = (r, p') ->
  (success r = true ->
   exists k, Sqlite.planId p' = Some k
             /\ (forall k0, Sqlite.planId p = Some k0 -> k0 = k)
             /\ stmt k (Sqlite.db p) = inl (tt, Sqlite.db p'))
  /\ (success r = false -> Sqlite.db p' = Sqlite.db p).
Proof.
  unfold Sqlite.try_catch, Sqlite.bind, Sqlite.prepare.
  destruct (Schema.has_schema (Sqlite.db p)).
  - destruct (Sqlite.getPlanId p) as [[k|e] p0] eqn:G.
    + assert (Hcached : forall k0, Sqlite.planId p = Some k0 -> k0 = k).
      { intros k0 Hk0. unfold Sqlite.getPlanId in G. rewrite Hk0 in G. congruence. }
      apply getPlanId_returned in G. destruct G as (Hdb & Hk & Hf).
      destruct (Sqlite.run (stmt k) p0) as [[[]|e] p1] eqn:R;
        apply run_outcome in R; destruct R as (Hk1 & Hf1 & Hd);
        intros H; injection H as <- <-; cbn.
      * split; [|discriminate]. intros _. exists k.
        split; [congruence|]. split; [exact Hcached|]. now rewrite <- Hdb.
      * split; [discriminate|]. intros _. congruence.
    + apply getPlanId_thrown in G. destruct G as (Hdb & _).
      intros H. injection H as <- <-. cbn. split; [discriminate | auto].
  - intros H. injection H as <- <-. cbn. split; [discriminate | auto].
Qed.

(** The methods of the shape
    [try { row = this.db.prepare(sql).get(this.getPlanId(), ...);
           return { success: true, data: row ? convert(row) : null } }]. *)
Lemma lookup_method_effect {Row A : Type} (table : string)
  (select : Z -> Schema.Db -> option Row) (convert : Row -> A)
  (p p' : Sqlite.Provider) (r : StorageResult A) :
  Sqlite.try_catch
    (Sqlite.bind (Sqlite.prepare table) (fun _ =>
     Sqlite.bind Sqlite.getPlanId (fun k =>
     Sqlite.bind (Sqlite.fetch (select k)) (fun row =>
       match row with
       | None => Sqlite.ret ok_null
       | Some x => Sqlite.ret (ok_data (convert x))
       end)))) p = (r, p') ->
  Sqlite.db p' = Sqlite.db p
  /\ (success r = true ->
      exists k, Sqlite.planId p' = Some k
                /\ (forall k0, Sqlite.planId p = Some k0 -> k0 = k)
                /\ data r = option_map convert (select k (Sqlite.db p))).
Proof.
  unfold Sqlite.try_catch, Sqlite.bind, Sqlite.prepare, Sqlite.fetch.
  destruct (Schema.has_schema (Sqlite.db p)).
  - destruct (Sqlite.getPlanId p) as [[k|e] p0] eqn:G.
    + assert (Hcached : forall k0, Sqlite.planId p = Some k0 -> k0 = k).
      { intros k0 Hk0. unfold Sqlite.getPlanId in G. rewrite Hk0 in G. congruence. }
      apply getPlanId_returned in G. destruct G as (Hdb & Hk & Hf).
      destruct (Sqlite.run _ p0) as [[row|e] p1] eqn:R;
        apply run_outcome in R; destruct R as (Hk1 & Hf1 & Hd).
      * injection Hd as Hrow Hd1.
        destruct row as [x|]; intros H; injection H as <- <-; cbn;
          (split; [congruence|]); intros _; exists k;
          (split; [congruence|]); (split; [exact Hcached|]);
          rewrite <- Hdb, Hrow; reflexivity.
      * intros H. injection H as <- <-. cbn. split; [congruence | discriminate].
    + apply getPlanId_thrown in G. destruct G as (Hdb & _).
      intros H. injection H as <- <-. cbn. split; [assumption | discriminate].
  - intros H. injection H as <- <-. cbn. split; [reflexivity | discriminate].
Qed.

Lemma find_map_preserving {A : Type} (f : A -> bool) (g : A -> A) (l : list A) :
  (forall x, f (g x) = f x) -> find f (map g l) = option_map g (find f l).
Proof.
  intros H. induction l as [|x l IH]; simpl; [reflexivity|].
  rewrite H. destruct (f x); [reflexivity | exact IH].
Qed.

Lemma filter_map_preserving {A : Type} (f : A -> bool) (g : A -> A) (l : list A) :
  (forall x, f (g x) = f x) -> filter f (map g l) = map g (filter f l).
Proof.
  intros H. induction l as [|x l IH]; simpl; [reflexivity|].
  rewrite H. destruct (f x); simpl; now rewrite IH.
Qed.

Lemma existsb_find {A : Type} (f : A -> bool) (l : list A) :
  existsb f l = match find f l with Some _ => true | None => false end.
Proof.
  induction l as [|x l IH]; simpl; [reflexivity|].
  destruct (f x); [reflexivity | exact IH].
Qed.

Lemma existsb_filter {A : Type} (f : A -> bool) (l : list A) :
  existsb f l = false -> filter f l = [].
Proof.
  induction l as [|x l IH]; simpl; [reflexivity|].
  destruct (f x); [discriminate | exact IH].
Qed.

Lemma existsb_filter_length {A : Type} (f : A -> bool) (l : list A) :
  existsb f l = true -> 1 <= List.length (filter f l).
Proof.
  induction l as [|x l IH]; simpl; [discriminate|].
  destruct (f x); simpl; [lia | exact IH].
Qed.

Lemma with_plan_files_same (d : Schema.Db) :
  Schema.with_plan_files (Schema.plan_files d) d = d.
Proof. destruct d; reflexivity. Qed.

Lemma map_fixed {A : Type} (g : A -> A) (l : list A) :
  (forall x, In x l -> g x = x) -> map g l = l.
Proof.
  induction l as [|x l IH]; intros H; simpl; [reflexivity|].
  rewrite H by now left. f_equal. apply IH. intros y Hy. apply H. now right.
Qed.

Lemma file_key_replaced (k : Z) (type filename : string) (file : PlanFile)
  (row : Schema.FileRow) :
  Schema.file_key k type filename
    (if Schema.file_key k type filename row then file_row_replaced file row else row)
  = Schema.file_key k type filename row.
Proof. destruct (Schema.file_key k type filename row) eqn:E; [|exact E]. exact E. Qed.

(** What a successful upsert of [file] for plan [k] does to the database. *)
Lemma upsert_plan_file_effect (k : Z) (file : PlanFile) (d d' : Schema.Db) :
  Schema.upsert_plan_file (Sqlite.row_of_file k file) d = inl (tt, d') ->
  let hit := Schema.file_key k (pf_type file) (pf_filename file) in
  d' = Schema.with_plan_files (Schema.plan_files d') d
  /\ match find hit (Schema.plan_files d) with
     | Some _ =>
         Schema.plan_files d'
         = map (fun r => if hit r then file_row_replaced file r else r) (Schema.plan_files d)
     | None => Schema.plan_files d' = Schema.plan_files d ++ [Sqlite.row_of_file k file]
     end.
Proof.
  unfold Schema.upsert_plan_file. cbn [Sqlite.row_of_file Schema.files_plan_id
    Schema.files_file_type Schema.files_filename Schema.files_content Schema.files_updated_at].
  rewrite existsb_find.
  destruct (find _ (Schema.plan_files d)) as [old|].
  - intros H. injection H as <-. cbn. split; reflexivity.
  - destruct (negb _); [discriminate|].
    intros H. injection H as <-. cbn. split; reflexivity.
Qed.

Lemma file_key_row_of_file (k : Z) (file : PlanFile) :
  Schema.file_key k (pf_type file) (pf_filename file) (Sqlite.row_of_file k file) = true.
Proof.
  unfold Schema.file_key. cbn. now rewrite Z.eqb_refl, !String.eqb_refl.
Qed.

(** After a successful upsert every row with the key carries the content
    and the update time of [file], and there is one. *)
Lemma upsert_plan_file_stored (k : Z) (file : PlanFile) (d d' : Schema.Db) :
  Schema.upsert_plan_file (Sqlite.row_of_file k file) d = inl (tt, d') ->
  let hit := Schema.file_key k (pf_type file) (pf_filename file) in
  existsb hit (Schema.plan_files d') = true
  /\ forall r, In r (Schema.plan_files d') -> hit r = true ->
               Schema.files_content r = pf_content file
               /\ Schema.files_updated_at r = pf_updatedAt file.
Proof.
  intros H. apply upsert_plan_file_effect in H. destruct H as [_ H]. cbv zeta.
  destruct (find _ (Schema.plan_files d)) as [old|] eqn:F; rewrite H.
  - split.
    + rewrite existsb_find.
      rewrite (find_map_preserving _ _ _ (file_key_replaced k _ _ file)), F. reflexivity.
    + intros r Hr Hhit. apply in_map_iff in Hr. destruct Hr as (x & <- & Hx).
      rewrite file_key_replaced in Hhit. rewrite Hhit. split; reflexivity.
  - assert (Hnone : existsb (Schema.file_key k (pf_type file) (pf_filename file))
                      (Schema.plan_files d) = false)
      by (rewrite existsb_find, F; reflexivity).
    split.
    + rewrite existsb_app. cbn [existsb]. rewrite file_key_row_of_file.
      now rewrite orb_true_r.
    + intros r Hr Hhit. apply in_app_or in Hr. destruct Hr as [Hr|[<-|[]]].
      * exfalso. apply existsb_filter in Hnone.
        assert (In r (filter (Schema.file_key k (pf_type file) (pf_filename file))
                        (Schema.plan_files d))) by (apply filter_In; auto).
        rewrite Hnone in H0. contradiction.
      * split; reflexivity.
Qed.



(** ** Checkpoint restore *)

Lemma run_environment {A : Type} (s : Schema.Statement A) (p p' : Sqlite.Provider)
  (o : Sqlite.Outcome A) :
  Sqlite.run s p = (o, p') ->
  Sqlite.clock p' = Sqlite.clock p /\ Sqlite.clock_calls p' = Sqlite.clock_calls p.
Proof.
  unfold Sqlite.run.
  destruct (Sqlite.faults p (Sqlite.statements p)).
  - intros H. injection H as <- <-. auto.
  - destruct (s (Sqlite.db p)) as [[a d']|e]; intros H; injection H as <- <-; auto.
Qed.

Lemma run_all_app (l1 l2 : list (Schema.Statement unit)) (d d1 : Schema.Db) :
  run_all l1 d = Some d1 -> run_all (l1 ++ l2) d = run_all l2 d1.
Proof.
  revert d. induction l1 as [|s l1 IH]; intros d H; simpl in *.
  - now injection H as <-.
  - destruct (s d) as [[[] d']|e]; [now apply IH | discriminate].
Qed.

(** The loop over the snapshot steps, when it returns. *)
Lemma restore_steps_returned (k : Z) (steps : list SnapshotStep) :
  forall q q',
    Sqlite.for_each steps (fun step =>
      Sqlite.bind (Sqlite.prepare "plan_steps") (fun _ =>
        Sqlite.run (Schema.update_plan_steps k (ss_number step)
                      (Sqlite.restore_step_columns step)))) q
    = (Sqlite.Returned tt, q') ->
    run_all (map (fun step => Schema.update_plan_steps k (ss_number step)
                                (Sqlite.restore_step_columns step)) steps)
            (Sqlite.db q) = Some (Sqlite.db q')
    /\ Sqlite.clock q' = Sqlite.clock q /\ Sqlite.clock_calls q' = Sqlite.clock_calls q
    /\ Sqlite.planId q' = Sqlite.planId q.
Proof.
  induction steps as [|step steps IH]; intros q q' H.
  - cbn in H. injection H as <-. cbn. auto.
  - cbn [Sqlite.for_each] in H. unfold Sqlite.bind at 1 2 in H. unfold Sqlite.prepare in H.
    destruct (Schema.has_schema (Sqlite.db q)); [|discriminate].
    destruct (Sqlite.run _ q) as [[[]|e] q1] eqn:R; [|discriminate].
    pose proof (run_environment _ _ _ _ R) as [Hc Hn].
    apply run_outcome in R. destruct R as (Hk & _ & Hd).
    apply IH in H. destruct H as (Hrun & Hc' & Hn' & Hk').
    cbn [map run_all]. rewrite Hd. repeat split; congruence.
Qed.

(** The loop over the snapshot files, when it returns. *)
Lemma restore_files_returned (k : Z) (files : list SnapshotFile) :
  forall q q',
    Sqlite.for_each files (fun file =>
      Sqlite.bind (Sqlite.prepare "plan_files") (fun _ =>
      Sqlite.bind Sqlite.now (fun created =>
      Sqlite.bind Sqlite.now (fun updated =>
        Sqlite.run (Schema.upsert_plan_file
                      {| Schema.files_plan_id := k;
                         Schema.files_file_type := sf_type file;
                         Schema.files_filename := sf_filename file;
                         Schema.files_content := sf_content file;
                         Schema.files_created_at := created;
                         Schema.files_updated_at := updated |}))))) q
    = (Sqlite.Returned tt, q') ->
    run_all (restore_file_statements k files (Sqlite.clock q) (Sqlite.clock_calls q))
            (Sqlite.db q) = Some (Sqlite.db q')
    /\ Sqlite.planId q' = Sqlite.planId q.
Proof.
  induction files as [|file files IH]; intros q q' H.
  - cbn in H. injection H as <-. cbn. auto.
  - cbn [Sqlite.for_each] in H. unfold Sqlite.bind at 1 2 3 4 in H.
    unfold Sqlite.prepare, Sqlite.now in H.
    destruct (Schema.has_schema (Sqlite.db q)); [|discriminate].
    destruct (Sqlite.run _ (Sqlite.count_clock (Sqlite.count_clock q)))
      as [[[]|e] q1] eqn:R; [|discriminate].
    pose proof (run_environment _ _ _ _ R) as [Hc Hn].
    apply run_outcome in R. destruct R as (Hk & _ & Hd).
    apply IH in H. destruct H as (Hrun & Hk').
    cbn in Hc, Hn, Hd, Hk.
    cbn [restore_file_statements run_all]. rewrite Hd.
    rewrite Hc, Hn in Hrun. split; [exact Hrun | congruence].
Qed.

(** The function passed to [this.db.transaction], when it returns. *)
Lemma restore_body_returned (k : Z) (snapshot : CheckpointSnapshot)
  (q q' : Sqlite.Provider) :
  Sqlite.restore_body k snapshot q = (Sqlite.Returned tt, q') ->
  run_all (restore_statements k snapshot (Sqlite.clock q) (Sqlite.clock_calls q))
          (Sqlite.db q) = Some (Sqlite.db q')
  /\ Sqlite.planId q' = Sqlite.planId q.
Proof.
  unfold Sqlite.restore_body, restore_statements.
  unfold Sqlite.bind at 1 2 3 4. unfold Sqlite.prepare at 1. unfold Sqlite.now at 1.
  destruct (Schema.has_schema (Sqlite.db q)); [|discriminate].
  destruct (Sqlite.run _ (Sqlite.count_clock q)) as [[[]|e] q1] eqn:R; [|discriminate].
  pose proof (run_environment _ _ _ _ R) as [Hc Hn].
  apply run_outcome in R. destruct R as (Hk & _ & Hd). cbn in Hc, Hn, Hd, Hk.
  destruct (Sqlite.for_each (snap_steps snapshot) _ q1) as [[[]|e] q2] eqn:Rs;
    [|discriminate].
  apply restore_steps_returned in Rs. destruct Rs as (Hsteps & Hc2 & Hn2 & Hk2).
  intros Rf. apply restore_files_returned in Rf. destruct Rf as (Hfiles & Hk3).
  cbn [run_all]. rewrite Hd.
  rewrite (run_all_app _ _ _ _ Hsteps).
  rewrite Hc2, Hn2, Hc, Hn in Hfiles. split; [exact Hfiles | congruence].
Qed.

(** [this.db.transaction(body)()] either returns with the database as
    the body left it, or throws with the database as it was. *)
Lemma transaction_all_or_nothing {A : Type} (body : Sqlite.M A)
  (q q' : Sqlite.Provider) (o : Sqlite.Outcome A) :
  Sqlite.transaction body q = (o, q') ->
  match o with
  | Sqlite.Returned a =>
      exists qb, body (Sqlite.count_statement q) = (Sqlite.Returned a, qb)
                 /\ Sqlite.db q' = Sqlite.db qb /\ Sqlite.planId q' = Sqlite.planId qb
  | Sqlite.Thrown _ => Sqlite.db q' = Sqlite.db q
  end.
Proof.
  unfold Sqlite.transaction.
  destruct (Sqlite.run _ q) as [[[]|e] q1] eqn:B.
  - assert (Hq1 : q1 = Sqlite.count_statement q).
    { unfold Sqlite.run in B. destruct (Sqlite.faults q (Sqlite.statements q));
        [discriminate|]. injection B as <-. reflexivity. }
    subst q1. unfold Sqlite.bind.
    destruct (body (Sqlite.count_statement q)) as [[a|e] qb] eqn:E.
    + destruct (Sqlite.run _ qb) as [[[]|e] qc] eqn:C;
        apply run_outcome in C; destruct C as (Hk & _ & Hd).
      * intros H. injection H as <- <-. exists qb. injection Hd as Hd. auto.
      * intros H. injection H as <- <-. reflexivity.
    + intros H. injection H as <- <-. reflexivity.
  - apply run_outcome in B. destruct B as (_ & _ & Hd).
    intros H. injection H as <- <-. exact Hd.
Qed.



(** The transaction is what makes the restore atomic: run on its own, the
    body interrupted at its second statement has already restored the
    stage of the plan. *)
Example restore_body_alone_is_partial :
  let q := failing_from (1 + Sqlite.statements checkpointed_plan) checkpointed_plan in
  fst (Sqlite.restore_body 1 sample_snapshot q) = Sqlite.Thrown "disk I/O error"
  /\ map Schema.plans_stage (Schema.plans (Sqlite.db q)) = ["executing"]
  /\ map Schema.plans_stage
       (Schema.plans (Sqlite.db (snd (Sqlite.restore_body 1 sample_snapshot q))))
     = ["built"].
Proof. cbv zeta. repeat split; vm_compute; reflexivity. Qed.

(** The checkpoint round trip on the sample plan: stage and step statuses
    are those of the checkpoint again. *)
Example restoreCheckpoint_round_trip :
  let p' := snd (Sqlite.restoreCheckpoint "before-review" checkpointed_plan) in
  map Schema.plans_stage (Schema.plans (Sqlite.db checkpointed_plan)) = ["executing"]
  /\ map Schema.plans_stage (Schema.plans (Sqlite.db p')) = ["built"]
  /\ map Schema.steps_status (Schema.plan_steps (Sqlite.db checkpointed_plan))
     = ["completed"; "completed"; "pending"]
  /\ map Schema.steps_status (Schema.plan_steps (Sqlite.db p'))
     = ["completed"; "in_progress"; "pending"].
Proof. cbv zeta. repeat split; vm_compute; reflexivity. Qed.

(** ** Providers that are ready *)

Lemma ready_count_statement (k : Z) (p : Sqlite.Provider) :
  ready k p -> ready k (Sqlite.count_statement p).
Proof. intros H. exact H. Qed.

Lemma ready_getPlanId (k : Z) (p : Sqlite.Provider) :
  Sqlite.planId p = Some k -> Sqlite.getPlanId p = (Sqlite.Returned k, p).
Proof. unfold Sqlite.getPlanId. now intros ->. Qed.

(** The methods of the shape
    [try { rows = this.db.prepare(sql).all(this.getPlanId());
           return { success: true, data: rows.map(convert) } }]. *)
Lemma ready_list_method {Row A : Type} (table : string)
  (select : Z -> Schema.Db -> list Row) (convert : Row -> A)
  (k : Z) (p : Sqlite.Provider) :
  ready k p ->
  Sqlite.try_catch
    (Sqlite.bind (Sqlite.prepare table) (fun _ =>
     Sqlite.bind Sqlite.getPlanId (fun k =>
     Sqlite.bind (Sqlite.fetch (select k)) (fun rows =>
       Sqlite.ret (ok_data (map convert rows)))))) p
  = (ok_data (map convert (select k (Sqlite.db p))), Sqlite.count_statement p).
Proof.
  intros (Hs & Hk & _ & Hf).
  unfold Sqlite.try_catch, Sqlite.bind, Sqlite.prepare, Sqlite.fetch.
  rewrite Hs, (ready_getPlanId _ _ Hk), run_without_fault by apply Hf.
  reflexivity.
Qed.

Lemma ready_getTimelineEvents (k : Z) (p : Sqlite.Provider) :
  ready k p ->
  Sqlite.getTimelineEvents no_timeline_options p
  = (ok_data (map Sqlite.event_of_row
                (Schema.select_timeline_events k None None None (Sqlite.db p))),
     Sqlite.count_statement p).
Proof.
  intros (Hs & Hk & _ & Hf).
  unfold Sqlite.getTimelineEvents, Sqlite.try_catch, Sqlite.bind, Sqlite.prepare,
    Sqlite.fetch.
  rewrite (ready_getPlanId _ _ Hk), Hs, run_without_fault by apply Hf.
  reflexivity.
Qed.

Lemma plan_row_exists_select (k : Z) (d : Schema.Db) :
  Schema.plan_row_exists k d = true ->
  exists row, Schema.select_plan k d = Some row /\ Schema.plans_id row = k.
Proof.
  unfold Schema.plan_row_exists, Schema.select_plan. rewrite existsb_find.
  destruct (find _ (Schema.plans d)) as [row|] eqn:F; [|discriminate].
  intros _. exists row. split; [reflexivity|].
  apply find_some in F. destruct F as [_ F]. now apply Z.eqb_eq.
Qed.

Lemma ready_getMetadata (k : Z) (p : Sqlite.Provider) :
  ready k p ->
  exists row,
    Schema.select_plan k (Sqlite.db p) = Some row
    /\ Sqlite.getMetadata p
       = (ok_data (Sqlite.metadata_of_row row), Sqlite.count_statement p).
Proof.
  intros (Hs & Hk & Hrow & Hf).
  destruct (plan_row_exists_select _ _ Hrow) as (row & Hsel & _).
  exists row. split; [exact Hsel|].
  unfold Sqlite.getMetadata, Sqlite.try_catch, Sqlite.bind, Sqlite.prepare, Sqlite.fetch.
  rewrite Hs, (ready_getPlanId _ _ Hk), run_without_fault by apply Hf.
  rewrite Hsel. reflexivity.
Qed.

(** A successful read of the metadata leaves a provider that is ready. *)
Lemma getMetadata_ready (p p' : Sqlite.Provider) (r : StorageResult PlanMetadata)
  (metadata : PlanMetadata) :
  (forall n, Sqlite.faults p n = None) ->
  Sqlite.getMetadata p = (r, p') -> payload r = Some metadata ->
  exists k row,
    ready k p' /\ Sqlite.db p' = Sqlite.db p
    /\ Schema.select_plan k (Sqlite.db p) = Some row
    /\ metadata = Sqlite.metadata_of_row row
    /\ fst (Sqlite.getPlanId p) = Sqlite.Returned k.
Proof.
  intros Hf. unfold Sqlite.getMetadata, Sqlite.try_catch, Sqlite.bind, Sqlite.prepare.
  destruct (Schema.has_schema (Sqlite.db p)) eqn:Hs;
    [|intros H; injection H as <- _; discriminate].
  destruct (Sqlite.getPlanId p) as [[k|e] p0] eqn:G;
    [|intros H; injection H as <- _; discriminate].
  pose proof (f_equal fst G) as Hplan.
  apply getPlanId_returned in G. destruct G as (Hdb & Hk & Hf0).
  unfold Sqlite.fetch.
  rewrite run_without_fault by (rewrite Hf0; apply Hf).
  destruct (Schema.select_plan k (Sqlite.db p0)) as [row|] eqn:Hsel;
    intros H; injection H as <- <-; intros Hp; [|discriminate].
  cbn in Hp. injection Hp as <-.
  exists k, row. rewrite Hdb in Hsel. split.
  - unfold ready. cbn. rewrite Hdb, Hf0. repeat split; auto.
    unfold Schema.plan_row_exists. rewrite existsb_find.
    unfold Schema.select_plan in Hsel. now rewrite Hsel.
  - cbn. auto.
Qed.

(** The writes of the shape
    [try { this.db.prepare(sql).run(this.getPlanId(), ...) }] on a
    provider that is ready. *)
Lemma ready_write_method (table : string) (stmt : Z -> Schema.Statement unit)
  (k : Z) (p : Sqlite.Provider) :
  ready k p ->
  Sqlite.db
    (snd (Sqlite.try_catch
            (Sqlite.bind (Sqlite.prepare table) (fun _ =>
             Sqlite.bind Sqlite.getPlanId (fun k =>
             Sqlite.bind (Sqlite.run (stmt k)) (fun _ => Sqlite.ret ok_void)))) p))
  = settle (stmt k) (Sqlite.db p)
  /\ Sqlite.planId
       (snd (Sqlite.try_catch
               (Sqlite.bind (Sqlite.prepare table) (fun _ =>
                Sqlite.bind Sqlite.getPlanId (fun k =>
                Sqlite.bind (Sqlite.run (stmt k)) (fun _ => Sqlite.ret ok_void)))) p))
     = Some k
  /\ Sqlite.faults
       (snd (Sqlite.try_catch
               (Sqlite.bind (Sqlite.prepare table) (fun _ =>
                Sqlite.bind Sqlite.getPlanId (fun k =>
                Sqlite.bind (Sqlite.run (stmt k)) (fun _ => Sqlite.ret ok_void)))) p))
     = Sqlite.faults p.
Proof.
  intros (Hs & Hk & _ & Hf).
  unfold Sqlite.try_catch, Sqlite.bind, Sqlite.prepare, settle.
  rewrite Hs, (ready_getPlanId _ _ Hk), run_without_fault by apply Hf.
  destruct (stmt k (Sqlite.db p)) as [[[] d']|e]; cbn; auto.
Qed.

Lemma id_or_uuid_returns (id : string) (p : Sqlite.Provider) :
  exists id' p1,
    Sqlite.id_or_uuid id p = (Sqlite.Returned id', p1)
    /\ (id <> EmptyString -> id' = id)
    /\ Sqlite.db p1 = Sqlite.db p /\ Sqlite.planId p1 = Sqlite.planId p
    /\ Sqlite.faults p1 = Sqlite.faults p /\ Sqlite.statements p1 = Sqlite.statements p.
Proof.
  destruct id as [|c id]; cbn.
  - eexists. eexists. split; [reflexivity|]. cbn. repeat split; congruence.
  - eexists. eexists. split; [reflexivity|]. repeat split; reflexivity.
Qed.

(** The writes of the shape
    [try { this.db.prepare(sql).run(x.id || randomUUID(), this.getPlanId(), ...) }]
    on a provider that is ready. *)
Lemma ready_write_with_id (table : string) (id : string)
  (stmt : string -> Z -> Schema.Statement unit) (k : Z) (p : Sqlite.Provider) :
  ready k p ->
  exists id',
    (id <> EmptyString -> id' = id)
    /\ Sqlite.db
         (snd (Sqlite.try_catch
                 (Sqlite.bind (Sqlite.prepare table) (fun _ =>
                  Sqlite.bind (Sqlite.id_or_uuid id) (fun i =>
                  Sqlite.bind Sqlite.getPlanId (fun k =>
                  Sqlite.bind (Sqlite.run (stmt i k)) (fun _ => Sqlite.ret ok_void))))) p))
       = settle (stmt id' k) (Sqlite.db p)
    /\ Sqlite.planId
         (snd (Sqlite.try_catch
                 (Sqlite.bind (Sqlite.prepare table) (fun _ =>
                  Sqlite.bind (Sqlite.id_or_uuid id) (fun i =>
                  Sqlite.bind Sqlite.getPlanId (fun k =>
                  Sqlite.bind (Sqlite.run (stmt i k)) (fun _ => Sqlite.ret ok_void))))) p))
       = Some k
    /\ Sqlite.faults
         (snd (Sqlite.try_catch
                 (Sqlite.bind (Sqlite.prepare table) (fun _ =>
                  Sqlite.bind (Sqlite.id_or_uuid id) (fun i =>
                  Sqlite.bind Sqlite.getPlanId (fun k =>
                  Sqlite.bind (Sqlite.run (stmt i k)) (fun _ => Sqlite.ret ok_void))))) p))
       = Sqlite.faults p.
Proof.
  intros (Hs & Hk & _ & Hf).
  destruct (id_or_uuid_returns id p) as (id' & p1 & Hid & Hsame & Hdb & Hk1 & Hf1 & Hn1).
  exists id'. split; [exact Hsame|].
  unfold Sqlite.try_catch, Sqlite.bind, Sqlite.prepare, settle.
  rewrite Hs, Hid, (ready_getPlanId k p1) by congruence.
  rewrite run_without_fault by (rewrite Hf1; apply Hf).
  rewrite Hdb.
  destruct (stmt id' k (Sqlite.db p)) as [[[] d']|e]; cbn; rewrite ?Hf1;
    repeat split; congruence.
Qed.

(** ** Copying a collection into a target that is ready *)

Lemma write_each_ready {A : Type}
  (write : A -> Sqlite.Provider -> StorageResult unit * Sqlite.Provider)
  (k : Z) (step : A -> Schema.Db -> Schema.Db) (P : A -> Prop) :
  (forall x p, P x -> ready k p ->
     Sqlite.db (snd (write x p)) = step x (Sqlite.db p)
     /\ Sqlite.planId (snd (write x p)) = Some k
     /\ Sqlite.faults (snd (write x p)) = Sqlite.faults p) ->
  (forall x d, P x ->
     Schema.has_schema (step x d) = Schema.has_schema d
     /\ Schema.plan_row_exists k (step x d) = Schema.plan_row_exists k d) ->
  forall items p,
    Forall P items -> ready k p ->
    ready k (PlanMigrator.write_each write items p)
    /\ Sqlite.db (PlanMigrator.write_each write items p)
       = fold_left (fun d x => step x d) items (Sqlite.db p).
Proof.
  intros Hwrite Hstep. unfold PlanMigrator.write_each.
  induction items as [|x items IH]; intros p HP Hp; cbn [fold_left]; [auto|].
  inversion HP as [|? ? Hx HP']; subst.
  destruct (Hwrite x p Hx Hp) as (Hdb & Hk & Hf).
  destruct (Hstep x (Sqlite.db p) Hx) as (Hs & Hrow).
  assert (Hp' : ready k (snd (write x p))).
  { destruct Hp as (H1 & H2 & H3 & H4). unfold ready.
    rewrite Hdb, Hs, Hrow, Hf. auto. }
  destruct (IH _ HP' Hp') as (Hready & Hfold).
  split; [exact Hready|]. now rewrite Hfold, Hdb.
Qed.

Lemma write_each_same_content {A : Type}
  (write : A -> Sqlite.Provider -> StorageResult unit * Sqlite.Provider) (k : Z) :
  (forall x p, ready k p ->
     same_content (Sqlite.db p) (Sqlite.db (snd (write x p)))
     /\ Sqlite.planId (snd (write x p)) = Some k
     /\ Sqlite.faults (snd (write x p)) = Sqlite.faults p) ->
  forall items p,
    ready k p ->
    ready k (PlanMigrator.write_each write items p)
    /\ same_content (Sqlite.db p) (Sqlite.db (PlanMigrator.write_each write items p)).
Proof.
  intros Hwrite. unfold PlanMigrator.write_each.
  induction items as [|x items IH]; intros p Hp; cbn [fold_left].
  - split; [exact Hp|]. unfold same_content. repeat split; reflexivity.
  - destruct (Hwrite x p Hp) as (Hsame & Hk & Hf).
    assert (Hp' : ready k (snd (write x p))).
    { destruct Hp as (H1 & H2 & H3 & H4). destruct Hsame as (S1 & S2 & _).
      unfold ready, Schema.plan_row_exists in *. rewrite S1, S2, Hf. auto. }
    destruct (IH _ Hp') as (Hready & Hsame').
    split; [exact Hready|].
    unfold same_content in *. intuition congruence.
Qed.

Lemma settle_insert_steps (k : Z) (steps : list PlanStep) :
  forall d,
    Schema.plan_row_exists k d = true ->
    NoDup (map st_number steps) ->
    (forall s, In s steps ->
               existsb (Schema.step_key k (st_number s)) (Schema.plan_steps d) = false) ->
    fold_left (fun d s => settle (Schema.insert_plan_step (Sqlite.row_of_step k s)) d)
              steps d
    = Schema.with_plan_steps (Schema.plan_steps d ++ map (Sqlite.row_of_step k) steps) d.
Proof.
  induction steps as [|s steps IH]; intros d Hrow Hnd Hfresh; cbn [fold_left map].
  - rewrite app_nil_r. destruct d; reflexivity.
  - inversion Hnd as [|? ? Hnotin Hnd']; subst.
    unfold settle at 2, Schema.insert_plan_step.
    cbn [Sqlite.row_of_step Schema.steps_plan_id Schema.steps_number].
    rewrite (Hfresh s) by now left. rewrite Hrow. cbn [negb].
    rewrite IH.
    + cbn. rewrite <- app_assoc. reflexivity.
    + exact Hrow.
    + exact Hnd'.
    + intros s' Hs'. cbn. rewrite existsb_app, (Hfresh s') by now right.
      cbn. unfold Schema.step_key. cbn. rewrite Z.eqb_refl. cbn.
      rewrite orb_false_r. apply Z.eqb_neq. intros E. apply Hnotin.
      rewrite E. now apply in_map.
Qed.

Lemma settle_upsert_files (k : Z) (files : list PlanFile) :
  forall d,
    Schema.plan_row_exists k d = true ->
    NoDup (map (fun f => (pf_type f, pf_filename f)) files) ->
    (forall f, In f files ->
               existsb (Schema.file_key k (pf_type f) (pf_filename f))
                       (Schema.plan_files d) = false) ->
    fold_left (fun d f => settle (Schema.upsert_plan_file (Sqlite.row_of_file k f)) d)
              files d
    = Schema.with_plan_files (Schema.plan_files d ++ map (Sqlite.row_of_file k) files) d.
Proof.
  induction files as [|f files IH]; intros d Hrow Hnd Hfresh; cbn [fold_left map].
  - rewrite app_nil_r. destruct d; reflexivity.
  - inversion Hnd as [|? ? Hnotin Hnd']; subst.
    unfold settle at 2, Schema.upsert_plan_file.
    cbn [Sqlite.row_of_file Schema.files_plan_id Schema.files_file_type
           Schema.files_filename].
    rewrite (Hfresh f) by now left. rewrite Hrow. cbn [negb].
    rewrite IH.
    + cbn. rewrite <- app_assoc. reflexivity.
    + exact Hrow.
    + exact Hnd'.
    + intros f' Hf'. cbn. rewrite existsb_app, (Hfresh f') by now right.
      cbn. unfold Schema.file_key. cbn. rewrite Z.eqb_refl. cbn.
      rewrite orb_false_r. apply andb_false_iff.
      destruct (String.eqb_spec (pf_type f) (pf_type f')) as [E1|]; [|now left].
      destruct (String.eqb_spec (pf_filename f) (pf_filename f')) as [E2|]; [|now right].
      exfalso. apply Hnotin. apply in_map_iff. exists f'. split; [congruence | exact Hf'].
Qed.

Lemma settle_insert_evidence (k : Z) (items : list EvidenceRecord) :
  forall d,
    Schema.plan_row_exists k d = true ->
    NoDup (map er_id items) ->
    (forall e, In e items ->
               existsb (fun r => String.eqb (Schema.evr_id r) (er_id e))
                       (Schema.evidence_records d) = false) ->
    fold_left (fun d e => settle (Schema.insert_evidence_record (evidence_row k e)) d)
              items d
    = Schema.with_evidence_records
        (Schema.evidence_records d ++ map (evidence_row k) items) d.
Proof.
  induction items as [|e items IH]; intros d Hrow Hnd Hfresh; cbn [fold_left map].
  - rewrite app_nil_r. destruct d; reflexivity.
  - inversion Hnd as [|? ? Hnotin Hnd']; subst.
    unfold settle at 2, Schema.insert_evidence_record.
    cbn [evidence_row Schema.evr_id Schema.evr_plan_id].
    rewrite (Hfresh e) by now left. rewrite Hrow. cbn [negb].
    rewrite IH.
    + cbn. rewrite <- app_assoc. reflexivity.
    + exact Hrow.
    + exact Hnd'.
    + intros e' He'. cbn. rewrite existsb_app, (Hfresh e') by now right.
      cbn. rewrite orb_false_r. apply String.eqb_neq. intros E. apply Hnotin.
      rewrite E. now apply in_map.
Qed.

Lemma settle_insert_feedback (k : Z) (items : list FeedbackRecord) :
  forall d,
    Schema.plan_row_exists k d = true ->
    NoDup (map fb_id items) ->
    (forall f, In f items ->
               existsb (fun r => String.eqb (Schema.fbr_id r) (fb_id f))
                       (Schema.feedback_records d) = false) ->
    fold_left (fun d f => settle (Schema.insert_feedback_record (feedback_row k f)) d)
              items d
    = Schema.with_feedback_records
        (Schema.feedback_records d ++ map (feedback_row k) items) d.
Proof.
  induction items as [|f items IH]; intros d Hrow Hnd Hfresh; cbn [fold_left map].
  - rewrite app_nil_r. destruct d; reflexivity.
  - inversion Hnd as [|? ? Hnotin Hnd']; subst.
    unfold settle at 2, Schema.insert_feedback_record.
    cbn [feedback_row Schema.fbr_id Schema.fbr_plan_id].
    rewrite (Hfresh f) by now left. rewrite Hrow. cbn [negb].
    rewrite IH.
    + cbn. rewrite <- app_assoc. reflexivity.
    + exact Hrow.
    + exact Hnd'.
    + intros f' Hf'. cbn. rewrite existsb_app, (Hfresh f') by now right.
      cbn. rewrite orb_false_r. apply String.eqb_neq. intros E. apply Hnotin.
      rewrite E. now apply in_map.
Qed.

Lemma NoDup_map_filter {A B : Type} (f : A -> B) (keep : A -> bool) (l : list A) :
  NoDup (map f l) -> NoDup (map f (filter keep l)).
Proof.
  induction l as [|x l IH]; intros H; cbn; [constructor|].
  inversion H as [|? ? Hnotin Hnd]; subst.
  destruct (keep x); cbn; [|now apply IH].
  constructor; [|now apply IH].
  intros Hin. apply Hnotin. apply in_map_iff in Hin. destruct Hin as (y & Hy & Hin).
  apply filter_In in Hin. apply in_map_iff. exists y. tauto.
Qed.

Lemma NoDup_map_coarser {A B C : Type} (f : A -> B) (g : A -> C) (l : list A) :
  (forall x y, In x l -> In y l -> g x = g y -> f x = f y) ->
  NoDup (map f l) -> NoDup (map g l).
Proof.
  induction l as [|x l IH]; intros Hfg H; cbn; [constructor|].
  inversion H as [|? ? Hnotin Hnd]; subst.
  constructor.
  - intros Hin. apply Hnotin. apply in_map_iff in Hin. destruct Hin as (y & Hy & Hin).
    apply in_map_iff. exists y. split; [|exact Hin].
    symmetry. apply Hfg; [now left | now right | congruence].
  - apply IH; [|exact Hnd]. intros a b Ha Hb. apply Hfg; now right.
Qed.

Lemma NoDup_map_unique {A B : Type} (f : A -> B) (l : list A) (x y : A) :
  NoDup (map f l) -> In x l -> In y l -> f x = f y -> x = y.
Proof.
  induction l as [|z l IH]; intros H Hx Hy E; [contradiction|].
  inversion H as [|? ? Hnotin Hnd]; subst.
  destruct Hx as [<-|Hx], Hy as [<-|Hy]; auto.
  - exfalso. apply Hnotin. rewrite E. now apply in_map.
  - exfalso. apply Hnotin. rewrite <- E. now apply in_map.
Qed.

(** ** The constraints of the schema are kept

    Every statement that succeeds leaves a database that satisfies the
    uniqueness constraints if the one it ran on did. *)

Lemma NoDup_map_snoc {A B : Type} (key : A -> B) (l : list A) (x : A) :
  NoDup (map key l) -> (forall y, In y l -> key y <> key x) ->
  NoDup (map key (l ++ [x])).
Proof.
  intros Hnd Hfresh. rewrite map_app. cbn.
  eapply Permutation_NoDup; [apply Permutation_cons_append|].
  constructor; [|exact Hnd].
  intros Hin. apply in_map_iff in Hin. destruct Hin as (y & Hy & Hin).
  now apply (Hfresh y Hin).
Qed.

Lemma NoDup_map_same_keys {A B : Type} (key : A -> B) (g : A -> A) (l : list A) :
  (forall r, key (g r) = key r) -> NoDup (map key l) -> NoDup (map key (map g l)).
Proof.
  intros Hg. rewrite map_map. now rewrite (map_ext _ key Hg).
Qed.

Lemma existsb_false_all {A : Type} (f : A -> bool) (l : list A) :
  existsb f l = false -> forall y, In y l -> f y = false.
Proof.
  intros H y Hy. destruct (f y) eqn:E; [|reflexivity].
  rewrite <- H. symmetry. apply existsb_exists. now exists y.
Qed.

Lemma insert_plan_keeps (m : PlanMetadata) (d d' : Schema.Db) (k : Z) :
  Schema.insert_plan m d = inl (k, d') -> constraints_hold d -> constraints_hold d'.
Proof.
  unfold Schema.insert_plan. destruct (existsb _ _); [discriminate|].
  intros H. injection H as _ <-. intros [H1 H2 H3 H4]. constructor; assumption.
Qed.

Lemma update_plans_keeps (k : Z) (f : Schema.PlanRow -> Schema.PlanRow)
  (d d' : Schema.Db) :
  Schema.update_plans k f d = inl (tt, d') -> constraints_hold d -> constraints_hold d'.
Proof.
  unfold Schema.update_plans. intros H. injection H as <-.
  intros [H1 H2 H3 H4]. constructor; assumption.
Qed.

Lemma insert_plan_step_keeps (row : Schema.StepRow) (d d' : Schema.Db) :
  Schema.insert_plan_step row d = inl (tt, d') ->
  constraints_hold d -> constraints_hold d'.
Proof.
  unfold Schema.insert_plan_step. destruct (existsb _ _) eqn:E; [discriminate|].
  destruct (negb _); [discriminate|].
  intros H. injection H as <-. intros [H1 H2 H3 H4]. constructor; try assumption.
  cbn. apply NoDup_map_snoc; [exact H1|].
  intros y Hy Hkey. apply (existsb_false_all _ _ E) in Hy.
  unfold Schema.step_key in Hy. injection Hkey as E1 E2.
  rewrite E1, E2, !Z.eqb_refl in Hy. discriminate.
Qed.

Lemma update_plan_steps_keeps (k n : Z) (f : Schema.StepRow -> Schema.StepRow)
  (d d' : Schema.Db) :
  (forall r, Schema.steps_plan_id (f r) = Schema.steps_plan_id r
             /\ Schema.steps_number (f r) = Schema.steps_number r) ->
  Schema.update_plan_steps k n f d = inl (tt, d') ->
  constraints_hold d -> constraints_hold d'.
Proof.
  intros Hf. unfold Schema.update_plan_steps. intros H. injection H as <-.
  intros [H1 H2 H3 H4]. constructor; try assumption.
  cbn. apply NoDup_map_same_keys; [|exact H1].
  intros r. destruct (Schema.step_key k n r); [|reflexivity].
  destruct (Hf r) as [-> ->]. reflexivity.
Qed.

Lemma set_step_columns_keeps_key (updates : PlanStepPatch) (r : Schema.StepRow) :
  Schema.steps_plan_id (Sqlite.set_step_columns updates r) = Schema.steps_plan_id r
  /\ Schema.steps_number (Sqlite.set_step_columns updates r) = Schema.steps_number r.
Proof. split; reflexivity. Qed.

Lemma delete_plan_steps_keeps (k n : Z) (d d' : Schema.Db) :
  Schema.delete_plan_steps k n d = inl (tt, d') ->
  constraints_hold d -> constraints_hold d'.
Proof.
  unfold Schema.delete_plan_steps. intros H. injection H as <-.
  intros [H1 H2 H3 H4]. constructor; try assumption.
  cbn. now apply NoDup_map_filter.
Qed.

Lemma upsert_plan_file_keeps (row : Schema.FileRow) (d d' : Schema.Db) :
  Schema.upsert_plan_file row d = inl (tt, d') ->
  constraints_hold d -> constraints_hold d'.
Proof.
  unfold Schema.upsert_plan_file. destruct (existsb _ _) eqn:E.
  - intros H. injection H as <-. intros [H1 H2 H3 H4]. constructor; try assumption.
    cbn. apply NoDup_map_same_keys; [|exact H2].
    intros r. now destruct (Schema.file_key _ _ _ r).
  - destruct (negb _); [discriminate|].
    intros H. injection H as <-. intros [H1 H2 H3 H4]. constructor; try assumption.
    cbn. apply NoDup_map_snoc; [exact H2|].
    intros y Hy Hkey. apply (existsb_false_all _ _ E) in Hy.
    unfold Schema.file_key in Hy. injection Hkey as E1 E2 E3.
    rewrite E1, E2, E3, Z.eqb_refl, !String.eqb_refl in Hy. discriminate.
Qed.

Lemma delete_plan_files_keeps (k : Z) (ty name : string) (d d' : Schema.Db) :
  Schema.delete_plan_files k ty name d = inl (tt, d') ->
  constraints_hold d -> constraints_hold d'.
Proof.
  unfold Schema.delete_plan_files. intros H. injection H as <-.
  intros [H1 H2 H3 H4]. constructor; try assumption.
  cbn. now apply NoDup_map_filter.
Qed.

Lemma insert_timeline_event_keeps (row : Schema.EventRow) (d d' : Schema.Db) :
  Schema.insert_timeline_event row d = inl (tt, d') ->
  constraints_hold d -> constraints_hold d'.
Proof.
  unfold Schema.insert_timeline_event. destruct (existsb _ _); [discriminate|].
  destruct (negb _); [discriminate|].
  intros H. injection H as <-. intros [H1 H2 H3 H4]. constructor; assumption.
Qed.

Lemma insert_evidence_record_keeps (row : Schema.EvidenceRow) (d d' : Schema.Db) :
  Schema.insert_evidence_record row d = inl (tt, d') ->
  constraints_hold d -> constraints_hold d'.
Proof.
  unfold Schema.insert_evidence_record. destruct (existsb _ _) eqn:E; [discriminate|].
  destruct (negb _); [discriminate|].
  intros H. injection H as <-. intros [H1 H2 H3 H4]. constructor; try assumption.
  cbn. apply NoDup_map_snoc; [exact H3|].
  intros y Hy Hkey. apply (existsb_false_all _ _ E) in Hy. cbn in Hy.
  rewrite Hkey, String.eqb_refl in Hy. discriminate.
Qed.

Lemma insert_feedback_record_keeps (row : Schema.FeedbackRow) (d d' : Schema.Db) :
  Schema.insert_feedback_record row d = inl (tt, d') ->
  constraints_hold d -> constraints_hold d'.
Proof.
  unfold Schema.insert_feedback_record. destruct (existsb _ _) eqn:E; [discriminate|].
  destruct (negb _); [discriminate|].
  intros H. injection H as <-. intros [H1 H2 H3 H4]. constructor; try assumption.
  cbn. apply NoDup_map_snoc; [exact H4|].
  intros y Hy Hkey. apply (existsb_false_all _ _ E) in Hy. cbn in Hy.
  rewrite Hkey, String.eqb_refl in Hy. discriminate.
Qed.

Lemma upsert_checkpoint_keeps (row : Schema.CheckpointRow) (d d' : Schema.Db) :
  Schema.upsert_checkpoint row d = inl (tt, d') ->
  constraints_hold d -> constraints_hold d'.
Proof.
  unfold Schema.upsert_checkpoint. destruct (existsb _ _).
  - intros H. injection H as <-. intros [H1 H2 H3 H4]. constructor; assumption.
  - destruct (negb _); [discriminate|].
    intros H. injection H as <-. intros [H1 H2 H3 H4]. constructor; assumption.
Qed.

(** A database without rows satisfies them, and so does every database
    that [run] leaves when the statement keeps them. *)
Lemma empty_db_constraints : constraints_hold Schema.empty_db.
Proof. constructor; constructor. Qed.

Lemma run_keeps_constraints {A : Type} (s : Schema.Statement A) (p : Sqlite.Provider) :
  (forall a d', s (Sqlite.db p) = inl (a, d') -> constraints_hold d') ->
  constraints_hold (Sqlite.db p) ->
  constraints_hold (Sqlite.db (snd (Sqlite.run s p))).
Proof.
  intros Hs Hc. unfold Sqlite.run.
  destruct (Sqlite.faults p (Sqlite.statements p)); [exact Hc|].
  destruct (s (Sqlite.db p)) as [[a d']|e]; [|exact Hc].
  cbn. now apply (Hs a).
Qed.

(** Identifiers stay present when the inserted row carries one, as every
    row does that the provider writes with [id || randomUUID()] and an
    identifier source that never yields the empty string. *)
Lemma insert_evidence_record_keeps_ids (row : Schema.EvidenceRow) (d d' : Schema.Db) :
  Schema.evr_id row <> EmptyString ->
  Schema.insert_evidence_record row d = inl (tt, d') -> ids_present d -> ids_present d'.
Proof.
  intros Hid. unfold Schema.insert_evidence_record. destruct (existsb _ _); [discriminate|].
  destruct (negb _); [discriminate|].
  intros H. injection H as <-. intros [He Hf]. split; [|exact Hf].
  cbn. intros r Hr. apply in_app_or in Hr. destruct Hr as [Hr|[<-|[]]]; auto.
Qed.

Lemma insert_feedback_record_keeps_ids (row : Schema.FeedbackRow) (d d' : Schema.Db) :
  Schema.fbr_id row <> EmptyString ->
  Schema.insert_feedback_record row d = inl (tt, d') -> ids_present d -> ids_present d'.
Proof.
  intros Hid. unfold Schema.insert_feedback_record. destruct (existsb _ _); [discriminate|].
  destruct (negb _); [discriminate|].
  intros H. injection H as <-. intros [He Hf]. split; [exact He|].
  cbn. intros r Hr. apply in_app_or in Hr. destruct Hr as [Hr|[<-|[]]]; auto.
Qed.

Lemma id_or_uuid_present (id : string) (p : Sqlite.Provider) :
  (forall n, Sqlite.uuids p n <> EmptyString) ->
  exists id' p', Sqlite.id_or_uuid id p = (Sqlite.Returned id', p') /\ id' <> EmptyString.
Proof.
  intros Hu. destruct id as [|c id]; cbn.
  - eexists. eexists. split; [reflexivity|]. apply Hu.
  - eexists. eexists. split; [reflexivity|]. discriminate.
Qed.

(** What the source returns for plan [k] under the constraints of the
    schema: steps with distinct numbers, files with distinct keys, and
    evidence and feedback with distinct identifiers. *)
Lemma selected_steps_distinct (k : Z) (d : Schema.Db) :
  constraints_hold d ->
  NoDup (map st_number (map Sqlite.step_of_row (Schema.select_steps k d))).
Proof.
  intros [H _ _ _]. rewrite map_map. cbn.
  unfold Schema.select_steps.
  eapply Permutation_NoDup; [apply Permutation_map, sort_by_perm|].
  apply (NoDup_map_coarser
           (fun r => (Schema.steps_plan_id r, Schema.steps_number r))).
  - intros x y Hx Hy E. apply filter_In in Hx, Hy.
    destruct Hx as [_ Hx], Hy as [_ Hy]. apply Z.eqb_eq in Hx, Hy. congruence.
  - now apply NoDup_map_filter.
Qed.

Lemma selected_files_distinct (k : Z) (d : Schema.Db) :
  constraints_hold d ->
  NoDup (map (fun f => (pf_type f, pf_filename f))
             (map Sqlite.file_of_row (Schema.select_files k d))).
Proof.
  intros [_ H _ _]. rewrite map_map. cbn.
  unfold Schema.select_files.
  apply (NoDup_map_coarser
           (fun r => (Schema.files_plan_id r,
                      (Schema.files_file_type r, Schema.files_filename r)))).
  - intros x y Hx Hy E. apply filter_In in Hx, Hy.
    destruct Hx as [_ Hx], Hy as [_ Hy]. apply Z.eqb_eq in Hx, Hy. congruence.
  - now apply NoDup_map_filter.
Qed.

Lemma selected_evidence_distinct (k : Z) (d : Schema.Db) :
  constraints_hold d -> ids_present d ->
  NoDup (map er_id (map Sqlite.evidence_of_row (Schema.select_evidence k d)))
  /\ Forall (fun e => er_id e <> EmptyString)
            (map Sqlite.evidence_of_row (Schema.select_evidence k d)).
Proof.
  intros [_ _ H _] [Hids _]. rewrite map_map. cbn. unfold Schema.select_evidence. split.
  - now apply NoDup_map_filter.
  - apply Forall_forall. intros e He. apply in_map_iff in He.
    destruct He as (r & <- & Hr). apply filter_In in Hr. cbn. apply Hids. tauto.
Qed.

Lemma selected_feedback_distinct (k : Z) (d : Schema.Db) :
  constraints_hold d -> ids_present d ->
  NoDup (map fb_id (map Sqlite.feedback_of_row (Schema.select_feedback k d)))
  /\ Forall (fun f => fb_id f <> EmptyString)
            (map Sqlite.feedback_of_row (Schema.select_feedback k d)).
Proof.
  intros [_ _ _ H] [_ Hids]. rewrite map_map. cbn. unfold Schema.select_feedback. split.
  - now apply NoDup_map_filter.
  - apply Forall_forall. intros f Hf. apply in_map_iff in Hf.
    destruct Hf as (r & <- & Hr). apply filter_In in Hr. cbn. apply Hids. tauto.
Qed.

(** The reads and writes of a migration on providers that are ready. *)
Lemma ready_getSteps (k : Z) (p : Sqlite.Provider) :
  ready k p ->
  Sqlite.getSteps p
  = (ok_data (map Sqlite.step_of_row (Schema.select_steps k (Sqlite.db p))),
     Sqlite.count_statement p).
Proof. apply ready_list_method. Qed.

Lemma ready_getFiles (k : Z) (p : Sqlite.Provider) :
  ready k p ->
  Sqlite.getFiles p
  = (ok_data (map Sqlite.file_of_row (Schema.select_files k (Sqlite.db p))),
     Sqlite.count_statement p).
Proof. apply ready_list_method. Qed.

Lemma ready_getEvidence (k : Z) (p : Sqlite.Provider) :
  ready k p ->
  Sqlite.getEvidence p
  = (ok_data (map Sqlite.evidence_of_row (Schema.select_evidence k (Sqlite.db p))),
     Sqlite.count_statement p).
Proof. apply ready_list_method. Qed.

Lemma ready_getFeedback (k : Z) (p : Sqlite.Provider) :
  ready k p ->
  Sqlite.getFeedback p
  = (ok_data (map Sqlite.feedback_of_row (Schema.select_feedback k (Sqlite.db p))),
     Sqlite.count_statement p).
Proof. apply ready_list_method. Qed.

Lemma ready_getCheckpoints (k : Z) (p : Sqlite.Provider) :
  ready k p ->
  Sqlite.getCheckpoints p
  = (ok_data (map Sqlite.checkpoint_of_row (Schema.select_checkpoints k (Sqlite.db p))),
     Sqlite.count_statement p).
Proof. apply ready_list_method. Qed.

Lemma ready_addStep (k : Z) (step : PlanStep) (p : Sqlite.Provider) :
  ready k p ->
  Sqlite.db (snd (Sqlite.addStep step p))
  = settle (Schema.insert_plan_step (Sqlite.row_of_step k step)) (Sqlite.db p)
  /\ Sqlite.planId (snd (Sqlite.addStep step p)) = Some k
  /\ Sqlite.faults (snd (Sqlite.addStep step p)) = Sqlite.faults p.
Proof.
  apply (ready_write_method "plan_steps"
           (fun k => Schema.insert_plan_step (Sqlite.row_of_step k step))).
Qed.

Lemma ready_saveFile (k : Z) (file : PlanFile) (p : Sqlite.Provider) :
  ready k p ->
  Sqlite.db (snd (Sqlite.saveFile file p))
  = settle (Schema.upsert_plan_file (Sqlite.row_of_file k file)) (Sqlite.db p)
  /\ Sqlite.planId (snd (Sqlite.saveFile file p)) = Some k
  /\ Sqlite.faults (snd (Sqlite.saveFile file p)) = Sqlite.faults p.
Proof.
  apply (ready_write_method "plan_files"
           (fun k => Schema.upsert_plan_file (Sqlite.row_of_file k file))).
Qed.

Lemma ready_addEvidence (k : Z) (evidence : EvidenceRecord) (p : Sqlite.Provider) :
  er_id evidence <> EmptyString -> ready k p ->
  Sqlite.db (snd (Sqlite.addEvidence evidence p))
  = settle (Schema.insert_evidence_record (evidence_row k evidence)) (Sqlite.db p)
  /\ Sqlite.planId (snd (Sqlite.addEvidence evidence p)) = Some k
  /\ Sqlite.faults (snd (Sqlite.addEvidence evidence p)) = Sqlite.faults p.
Proof.
  intros Hid Hp.
  destruct (ready_write_with_id "evidence_records" (er_id evidence)
              (fun i k =>
                 Schema.insert_evidence_record
                   {| Schema.evr_id := i;
                      Schema.evr_plan_id := k;
                      Schema.evr_description := er_description evidence;
                      Schema.evr_source := or_null (er_source evidence);
                      Schema.evr_source_url := or_null (er_sourceUrl evidence);
                      Schema.evr_gathering_method := or_null (er_gatheringMethod evidence);
                      Schema.evr_content := or_null (er_content evidence);
                      Schema.evr_file_path := or_null (er_filePath evidence);
                      Schema.evr_relevance_score := er_relevanceScore evidence;
                      Schema.evr_original_query := or_null (er_originalQuery evidence);
                      Schema.evr_summary := or_null (er_summary evidence);
                      Schema.evr_created_at := er_createdAt evidence |}) k p Hp)
    as (id' & Hsame & Hdb & Hk & Hf).
  rewrite (Hsame Hid) in Hdb. auto.
Qed.

Lemma ready_addFeedback (k : Z) (feedback : FeedbackRecord) (p : Sqlite.Provider) :
  fb_id feedback <> EmptyString -> ready k p ->
  Sqlite.db (snd (Sqlite.addFeedback feedback p))
  = settle (Schema.insert_feedback_record (feedback_row k feedback)) (Sqlite.db p)
  /\ Sqlite.planId (snd (Sqlite.addFeedback feedback p)) = Some k
  /\ Sqlite.faults (snd (Sqlite.addFeedback feedback p)) = Sqlite.faults p.
Proof.
  intros Hid Hp.
  destruct (ready_write_with_id "feedback_records" (fb_id feedback)
              (fun i k =>
                 Schema.insert_feedback_record
                   {| Schema.fbr_id := i;
                      Schema.fbr_plan_id := k;
                      Schema.fbr_title := or_null (fb_title feedback);
                      Schema.fbr_platform := or_null (fb_platform feedback);
                      Schema.fbr_content := fb_content feedback;
                      Schema.fbr_participants := fb_participants feedback;
                      Schema.fbr_created_at := fb_createdAt feedback |}) k p Hp)
    as (id' & Hsame & Hdb & Hk & Hf).
  rewrite (Hsame Hid) in Hdb. auto.
Qed.

Lemma ready_addTimelineEvent (k : Z) (event : TimelineEvent) (p : Sqlite.Provider) :
  ready k p ->
  same_content (Sqlite.db p) (Sqlite.db (snd (Sqlite.addTimelineEvent event p)))
  /\ Sqlite.planId (snd (Sqlite.addTimelineEvent event p)) = Some k
  /\ Sqlite.faults (snd (Sqlite.addTimelineEvent event p)) = Sqlite.faults p.
Proof.
  intros Hp.
  destruct (ready_write_with_id "timeline_events" (ev_id event)
              (fun i k =>
                 Schema.insert_timeline_event
                   {| Schema.tl_id := i;
                      Schema.tl_plan_id := k;
                      Schema.tl_timestamp := ev_timestamp event;
                      Schema.tl_event_type := ev_type event;
                      Schema.tl_data := ev_data event |}) k p Hp)
    as (id' & _ & Hdb & Hk & Hf).
  split; [|auto].
  change (Sqlite.db (snd (Sqlite.addTimelineEvent event p)))
    with (Sqlite.db
            (snd (Sqlite.try_catch
                    (Sqlite.bind (Sqlite.prepare "timeline_events") (fun _ =>
                     Sqlite.bind (Sqlite.id_or_uuid (ev_id event)) (fun i =>
                     Sqlite.bind Sqlite.getPlanId (fun k =>
                     Sqlite.bind
                       (Sqlite.run
                          (Schema.insert_timeline_event
                             {| Schema.tl_id := i;
                                Schema.tl_plan_id := k;
                                Schema.tl_timestamp := ev_timestamp event;
                                Schema.tl_event_type := ev_type event;
                                Schema.tl_data := ev_data event |}))
                       (fun _ => Sqlite.ret ok_void))))) p))).
  rewrite Hdb. unfold settle, Schema.insert_timeline_event, same_content.
  destruct (existsb _ _); [repeat split; reflexivity|].
  destruct (negb _); repeat split; reflexivity.
Qed.

Lemma ready_createCheckpoint (k : Z) (checkpoint : Checkpoint) (p : Sqlite.Provider) :
  ready k p ->
  same_content (Sqlite.db p) (Sqlite.db (snd (Sqlite.createCheckpoint checkpoint p)))
  /\ Sqlite.planId (snd (Sqlite.createCheckpoint checkpoint p)) = Some k
  /\ Sqlite.faults (snd (Sqlite.createCheckpoint checkpoint p)) = Sqlite.faults p.
Proof.
  intros Hp.
  destruct (ready_write_method "checkpoints"
              (fun k =>
                 Schema.upsert_checkpoint
                   {| Schema.ck_plan_id := k;
                      Schema.ck_name := cp_name checkpoint;
                      Schema.ck_message := cp_message checkpoint;
                      Schema.ck_created_at := cp_createdAt checkpoint;
                      Schema.ck_snapshot := cp_snapshot checkpoint |}) k p Hp)
    as (Hdb & Hk & Hf).
  split; [|auto].
  change (Sqlite.db (snd (Sqlite.createCheckpoint checkpoint p)))
    with (Sqlite.db
            (snd (Sqlite.try_catch
                    (Sqlite.bind (Sqlite.prepare "checkpoints") (fun _ =>
                     Sqlite.bind Sqlite.getPlanId (fun k =>
                     Sqlite.bind
                       (Sqlite.run
                          (Schema.upsert_checkpoint
                             {| Schema.ck_plan_id := k;
                                Schema.ck_name := cp_name checkpoint;
                                Schema.ck_message := cp_message checkpoint;
                                Schema.ck_created_at := cp_createdAt checkpoint;
                                Schema.ck_snapshot := cp_snapshot checkpoint |}))
                       (fun _ => Sqlite.ret ok_void)))) p))).
  rewrite Hdb. unfold settle, Schema.upsert_checkpoint, same_content.
  cbn [Schema.ck_plan_id Schema.ck_name].
  destruct (existsb _ _); [repeat split; reflexivity|].
  destruct (negb _); repeat split; reflexivity.
Qed.

(** ** Validating a copy *)

Lemma fold_left_fixed {A B : Type} (f : B -> A -> B) (l : list A) (acc : B) :
  (forall x, In x l -> f acc x = acc) -> fold_left f l acc = acc.
Proof.
  induction l as [|x l IH]; intros H; cbn; [reflexivity|].
  rewrite (H x) by now left. apply IH. intros y Hy. apply H. now right.
Qed.

Lemma find_present {A : Type} (f : A -> bool) (l : list A) (x : A) :
  In x l -> f x = true -> find f l <> None.
Proof.
  intros Hin Hx Hnone. rewrite (find_none _ _ Hnone x Hin) in Hx. discriminate.
Qed.

(** The steps, files, evidence and feedback that the target of a copy
    returns. *)
Lemma copied_target_steps (ks kt : Z) (ds dt : Schema.Db) (t : PlanStep) :
  copied ks kt ds dt ->
  In t (map Sqlite.step_of_row (Schema.select_steps kt dt)) <->
  exists s, In s (map Sqlite.step_of_row (Schema.select_steps ks ds))
            /\ t = Sqlite.step_of_row (Sqlite.row_of_step kt s).
Proof.
  intros [_ H _ _ _]. unfold Schema.select_steps at 1. rewrite H. split.
  - intros Ht. apply in_map_iff in Ht. destruct Ht as (r & <- & Hr).
    apply sort_by_in, filter_In in Hr. destruct Hr as [Hr _].
    apply in_map_iff in Hr. destruct Hr as (s & <- & Hs). now exists s.
  - intros (s & Hs & ->). apply in_map, sort_by_in, filter_In. split.
    + now apply in_map.
    + cbn. apply Z.eqb_refl.
Qed.

Lemma copied_target_files (ks kt : Z) (ds dt : Schema.Db) (t : PlanFile) :
  copied ks kt ds dt ->
  In t (map Sqlite.file_of_row (Schema.select_files kt dt)) <->
  In t (map Sqlite.file_of_row (Schema.select_files ks ds)).
Proof.
  intros [_ _ H _ _]. unfold Schema.select_files at 1. rewrite H. split.
  - intros Ht. apply in_map_iff in Ht. destruct Ht as (r & <- & Hr).
    apply filter_In in Hr. destruct Hr as [Hr _].
    apply in_map_iff in Hr. destruct Hr as (f & <- & Hf).
    now destruct f.
  - intros Ht. apply in_map_iff. exists (Sqlite.row_of_file kt t). split.
    + now destruct t.
    + apply filter_In. split; [now apply in_map | cbn; apply Z.eqb_refl].
Qed.

Lemma copied_target_evidence (ks kt : Z) (ds dt : Schema.Db) (e : EvidenceRecord) :
  copied ks kt ds dt ->
  In e (map Sqlite.evidence_of_row (Schema.select_evidence ks ds)) ->
  In (Sqlite.evidence_of_row (evidence_row kt e))
     (map Sqlite.evidence_of_row (Schema.select_evidence kt dt)).
Proof.
  intros [_ _ _ H _] He. unfold Schema.select_evidence at 1. rewrite H.
  apply in_map, filter_In. split; [now apply in_map | cbn; apply Z.eqb_refl].
Qed.

Lemma copied_target_feedback (ks kt : Z) (ds dt : Schema.Db) (f : FeedbackRecord) :
  copied ks kt ds dt ->
  In f (map Sqlite.feedback_of_row (Schema.select_feedback ks ds)) ->
  In (Sqlite.feedback_of_row (feedback_row kt f))
     (map Sqlite.feedback_of_row (Schema.select_feedback kt dt)).
Proof.
  intros [_ _ _ _ H] Hf. unfold Schema.select_feedback at 1. rewrite H.
  apply in_map, filter_In. split; [now apply in_map | cbn; apply Z.eqb_refl].
Qed.

(** Each loop of the validator leaves the errors as they were when the
    target is a copy. *)
Lemma check_step_copied (ks kt : Z) (ds dt : Schema.Db) (errors : list ValidationError)
  (s : PlanStep) :
  constraints_hold ds -> copied ks kt ds dt ->
  In s (map Sqlite.step_of_row (Schema.select_steps ks ds)) ->
  check_step (map Sqlite.step_of_row (Schema.select_steps kt dt)) errors s = errors.
Proof.
  intros Hc Hcopy Hs. unfold check_step.
  destruct (find _ _) as [t|] eqn:F.
  - apply find_some in F. destruct F as [Ht Hn]. apply Z.eqb_eq in Hn.
    apply (copied_target_steps ks kt ds dt t Hcopy) in Ht.
    destruct Ht as (s' & Hs' & ->). cbn in Hn.
    assert (s' = s) as ->.
    { apply (NoDup_map_unique st_number _ _ _ (selected_steps_distinct ks ds Hc));
        assumption. }
    cbn. now rewrite !String.eqb_refl.
  - exfalso. revert F. apply (find_present _ _ (Sqlite.step_of_row (Sqlite.row_of_step kt s))).
    + apply (copied_target_steps ks kt ds dt _ Hcopy). now exists s.
    + cbn. apply Z.eqb_refl.
Qed.

Lemma check_extra_step_copied (ks kt : Z) (ds dt : Schema.Db)
  (errors : list ValidationError) (t : PlanStep) :
  copied ks kt ds dt ->
  In t (map Sqlite.step_of_row (Schema.select_steps kt dt)) ->
  check_extra_step (map Sqlite.step_of_row (Schema.select_steps ks ds)) errors t = errors.
Proof.
  intros Hcopy Ht. unfold check_extra_step.
  destruct (find _ _) as [s|] eqn:F; [reflexivity|].
  exfalso. apply (copied_target_steps ks kt ds dt t Hcopy) in Ht.
  destruct Ht as (s & Hs & ->). revert F. apply (find_present _ _ s Hs).
  cbn. apply Z.eqb_refl.
Qed.

Lemma check_file_copied (ks kt : Z) (ds dt : Schema.Db) (errors : list ValidationError)
  (f : PlanFile) :
  constraints_hold ds -> copied ks kt ds dt ->
  In f (map Sqlite.file_of_row (Schema.select_files ks ds)) ->
  check_file (map Sqlite.file_of_row (Schema.select_files kt dt)) errors f = errors.
Proof.
  intros Hc Hcopy Hf. unfold check_file.
  destruct (find _ _) as [t|] eqn:F.
  - apply find_some in F. destruct F as [Ht Hkey].
    apply andb_true_iff in Hkey. destruct Hkey as [H1 H2].
    apply String.eqb_eq in H1, H2.
    apply (copied_target_files ks kt ds dt t Hcopy) in Ht.
    assert (t = f) as ->.
    { apply (NoDup_map_unique (fun f => (pf_type f, pf_filename f)) _ _ _
               (selected_files_distinct ks ds Hc)); [assumption..|congruence]. }
    now rewrite String.eqb_refl.
  - exfalso. revert F. apply (find_present _ _ f).
    + now apply (copied_target_files ks kt ds dt f Hcopy).
    + now rewrite !String.eqb_refl.
Qed.

Lemma check_evidence_copied (ks kt : Z) (ds dt : Schema.Db)
  (errors : list ValidationError) (e : EvidenceRecord) :
  copied ks kt ds dt ->
  In e (map Sqlite.evidence_of_row (Schema.select_evidence ks ds)) ->
  check_evidence (map Sqlite.evidence_of_row (Schema.select_evidence kt dt)) errors e
  = errors.
Proof.
  intros Hcopy He. unfold check_evidence.
  destruct (find _ _) as [t|] eqn:F; [reflexivity|].
  exfalso. revert F.
  apply (find_present _ _ _ (copied_target_evidence ks kt ds dt e Hcopy He)).
  cbn. apply String.eqb_refl.
Qed.

Lemma check_feedback_copied (ks kt : Z) (ds dt : Schema.Db)
  (errors : list ValidationError) (f : FeedbackRecord) :
  copied ks kt ds dt ->
  In f (map Sqlite.feedback_of_row (Schema.select_feedback ks ds)) ->
  check_feedback (map Sqlite.feedback_of_row (Schema.select_feedback kt dt)) errors f
  = errors.
Proof.
  intros Hcopy Hf. unfold check_feedback.
  destruct (find _ _) as [t|] eqn:F; [reflexivity|].
  exfalso. revert F.
  apply (find_present _ _ _ (copied_target_feedback ks kt ds dt f Hcopy Hf)).
  cbn. apply String.eqb_refl.
Qed.

(** The phases of [validate] on a source that is ready and a target that
    is ready and holds a copy. *)
Lemma validateMetadata_copied (ks kt : Z) (s t : Sqlite.Provider)
  (errors : list ValidationError) :
  ready ks s -> ready kt t -> copied ks kt (Sqlite.db s) (Sqlite.db t) ->
  MigrationValidator.validateMetadata s t errors
  = (Sqlite.count_statement s, Sqlite.count_statement t, errors).
Proof.
  intros Hs Ht [(rs & rt & Hrs & Hrt & Hcode & Hname & Hstage) _ _ _ _].
  destruct (ready_getMetadata ks s Hs) as (rs' & Hrs' & Es).
  destruct (ready_getMetadata kt t Ht) as (rt' & Hrt' & Et).
  assert (rs' = rs) as -> by congruence. assert (rt' = rt) as -> by congruence.
  unfold MigrationValidator.validateMetadata.
  change (getMetadata s) with (Sqlite.getMetadata s).
  change (getMetadata t) with (Sqlite.getMetadata t).
  rewrite Es, Et. cbn [payload ok_data success data].
  unfold compare_metadata. cbn [Sqlite.metadata_of_row md_id md_name md_stage].
  now rewrite Hcode, Hname, Hstage, !String.eqb_refl.
Qed.

Lemma validateSteps_copied (ks kt : Z) (s t : Sqlite.Provider)
  (errors : list ValidationError) :
  ready ks s -> ready kt t -> constraints_hold (Sqlite.db s) ->
  copied ks kt (Sqlite.db s) (Sqlite.db t) ->
  MigrationValidator.validateSteps s t errors
  = (steps_held ks (Sqlite.db s), Sqlite.count_statement s, Sqlite.count_statement t,
     errors).
Proof.
  intros Hs Ht Hc Hcopy. unfold MigrationValidator.validateSteps.
  change (getSteps s) with (Sqlite.getSteps s).
  change (getSteps t) with (Sqlite.getSteps t).
  rewrite (ready_getSteps ks s Hs), (ready_getSteps kt t Ht).
  cbn [payload data_or_empty ok_data success data].
  rewrite (fold_left_fixed (check_step _))
    by (intros x Hx; now apply (check_step_copied ks kt (Sqlite.db s))).
  rewrite (fold_left_fixed (check_extra_step _))
    by (intros x Hx; now apply (check_extra_step_copied ks kt (Sqlite.db s) (Sqlite.db t))).
  unfold Schema.select_steps, steps_held. now rewrite length_map, sort_by_length.
Qed.

Lemma validateFiles_copied (ks kt : Z) (s t : Sqlite.Provider)
  (errors : list ValidationError) :
  ready ks s -> ready kt t -> constraints_hold (Sqlite.db s) ->
  copied ks kt (Sqlite.db s) (Sqlite.db t) ->
  MigrationValidator.validateFiles s t errors
  = (files_held ks (Sqlite.db s), Sqlite.count_statement s, Sqlite.count_statement t,
     errors).
Proof.
  intros Hs Ht Hc Hcopy. unfold MigrationValidator.validateFiles.
  change (getFiles s) with (Sqlite.getFiles s).
  change (getFiles t) with (Sqlite.getFiles t).
  rewrite (ready_getFiles ks s Hs), (ready_getFiles kt t Ht).
  cbn [payload data_or_empty ok_data success data].
  rewrite (fold_left_fixed (check_file _))
    by (intros x Hx; now apply (check_file_copied ks kt (Sqlite.db s))).
  unfold Schema.select_files, files_held. now rewrite length_map.
Qed.

Lemma selected_events_length (k : Z) (d : Schema.Db) :
  List.length (map Sqlite.event_of_row (Schema.select_timeline_events k None None None d))
  = events_held k d.
Proof.
  unfold Schema.select_timeline_events, events_held.
  rewrite length_map, sort_by_length. f_equal. apply filter_ext.
  intros r. now rewrite !andb_true_r.
Qed.

Lemma validateTimeline_ready (ks kt : Z) (s t : Sqlite.Provider)
  (errors : list ValidationError) (warnings : list string) :
  ready ks s -> ready kt t ->
  exists warnings',
    MigrationValidator.validateTimeline s t errors warnings
    = (events_held ks (Sqlite.db s), Sqlite.count_statement s, Sqlite.count_statement t,
       errors, warnings').
Proof.
  intros Hs Ht. unfold MigrationValidator.validateTimeline.
  change (getTimelineEvents no_timeline_options s)
    with (Sqlite.getTimelineEvents no_timeline_options s).
  change (getTimelineEvents no_timeline_options t)
    with (Sqlite.getTimelineEvents no_timeline_options t).
  rewrite (ready_getTimelineEvents ks s Hs), (ready_getTimelineEvents kt t Ht).
  cbn [payload data_or_empty ok_data success data].
  rewrite selected_events_length. eexists. reflexivity.
Qed.

Lemma validateEvidence_copied (ks kt : Z) (s t : Sqlite.Provider)
  (errors : list ValidationError) :
  ready ks s -> ready kt t -> copied ks kt (Sqlite.db s) (Sqlite.db t) ->
  MigrationValidator.validateEvidence s t errors
  = (evidence_held ks (Sqlite.db s), Sqlite.count_statement s, Sqlite.count_statement t,
     errors).
Proof.
  intros Hs Ht Hcopy. unfold MigrationValidator.validateEvidence.
  change (getEvidence s) with (Sqlite.getEvidence s).
  change (getEvidence t) with (Sqlite.getEvidence t).
  rewrite (ready_getEvidence ks s Hs), (ready_getEvidence kt t Ht).
  cbn [payload data_or_empty ok_data success data].
  rewrite (fold_left_fixed (check_evidence _))
    by (intros x Hx; now apply (check_evidence_copied ks kt (Sqlite.db s))).
  unfold Schema.select_evidence, evidence_held. now rewrite length_map.
Qed.

Lemma validateFeedback_copied (ks kt : Z) (s t : Sqlite.Provider)
  (errors : list ValidationError) :
  ready ks s -> ready kt t -> copied ks kt (Sqlite.db s) (Sqlite.db t) ->
  MigrationValidator.validateFeedback s t errors
  = (feedback_held ks (Sqlite.db s), Sqlite.count_statement s, Sqlite.count_statement t,
     errors).
Proof.
  intros Hs Ht Hcopy. unfold MigrationValidator.validateFeedback.
  change (getFeedback s) with (Sqlite.getFeedback s).
  change (getFeedback t) with (Sqlite.getFeedback t).
  rewrite (ready_getFeedback ks s Hs), (ready_getFeedback kt t Ht).
  cbn [payload data_or_empty ok_data success data].
  rewrite (fold_left_fixed (check_feedback _))
    by (intros x Hx; now apply (check_feedback_copied ks kt (Sqlite.db s))).
  unfold Schema.select_feedback, feedback_held. now rewrite length_map.
Qed.

(** [validate] accepts a copy: it reports no error, and it leaves both
    providers as they were up to the count of the statements they ran. *)
Lemma validate_copied (ks kt : Z) (s t : Sqlite.Provider) :
  ready ks s -> ready kt t -> constraints_hold (Sqlite.db s) ->
  copied ks kt (Sqlite.db s) (Sqlite.db t) ->
  exists (v : ValidationResult) (s' t' : Sqlite.Provider),
    MigrationValidator.validate s t = (v, s', t')
    /\ valid v = true /\ errors v = []
    /\ ready ks s' /\ ready kt t'
    /\ Sqlite.db s' = Sqlite.db s /\ Sqlite.db t' = Sqlite.db t.
Proof.
  intros Hs Ht Hc Hcopy. unfold MigrationValidator.validate.
  rewrite (validateMetadata_copied ks kt s t [] Hs Ht Hcopy).
  cbv beta iota.
  set (s1 := Sqlite.count_statement s). set (t1 := Sqlite.count_statement t).
  rewrite (validateSteps_copied ks kt s1 t1 [] Hs Ht Hc Hcopy).
  cbv beta iota.
  set (s2 := Sqlite.count_statement s1). set (t2 := Sqlite.count_statement t1).
  rewrite (validateFiles_copied ks kt s2 t2 [] Hs Ht Hc Hcopy).
  cbv beta iota.
  set (s3 := Sqlite.count_statement s2). set (t3 := Sqlite.count_statement t2).
  destruct (validateTimeline_ready ks kt s3 t3 [] [] Hs Ht) as (ws & ->).
  cbv beta iota.
  set (s4 := Sqlite.count_statement s3). set (t4 := Sqlite.count_statement t3).
  rewrite (validateEvidence_copied ks kt s4 t4 [] Hs Ht Hcopy).
  cbv beta iota.
  set (s5 := Sqlite.count_statement s4). set (t5 := Sqlite.count_statement t4).
  rewrite (validateFeedback_copied ks kt s5 t5 [] Hs Ht Hcopy).
  cbv beta iota.
  eexists. eexists. eexists. split; [reflexivity|].
  repeat split; try reflexivity; first [apply Hs | apply Ht].
Qed.

(** ** Migrating into a fresh target *)

Lemma exists_fresh (planPath : string) (faults : nat -> option string)
  (uuids clock : nat -> string) :
  Sqlite.exists_ (Sqlite.create planPath faults uuids clock)
  = (false, Sqlite.create planPath faults uuids clock).
Proof. reflexivity. Qed.

(** [initialize] on a fresh target creates the tables and the plan row,
    and leaves every other table empty. *)
Lemma initialize_fresh (metadata : PlanMetadata) (planPath : string)
  (faults : nat -> option string) (uuids clock : nat -> string) :
  (forall n, faults n = None) ->
  exists (k : Z) (t : Sqlite.Provider),
    Sqlite.initialize metadata (Sqlite.create planPath faults uuids clock) = (ok_void, t)
    /\ ready k t
    /\ (exists row, Schema.select_plan k (Sqlite.db t) = Some row
                    /\ Schema.plans_code row = md_id metadata
                    /\ Schema.plans_name row = md_name metadata
                    /\ Schema.plans_stage row = md_stage metadata)
    /\ Schema.plan_steps (Sqlite.db t) = []
    /\ Schema.plan_files (Sqlite.db t) = []
    /\ Schema.evidence_records (Sqlite.db t) = []
    /\ Schema.feedback_records (Sqlite.db t) = [].
Proof.
  intros Hf. exists 1%Z.
  unfold Sqlite.initialize, Sqlite.try_catch, Sqlite.bind, Sqlite.initializeSchema,
    Sqlite.prepare, Sqlite.run, Sqlite.create.
  cbn [Sqlite.faults Sqlite.statements Sqlite.db Sqlite.count_statement Sqlite.with_db
         Schema.with_schema Schema.has_schema Schema.empty_db].
  rewrite !Hf. cbn. rewrite !Hf.
  eexists. split; [reflexivity|].
  unfold ready. cbn. repeat split; try reflexivity; try apply Hf.
  eexists. split; [reflexivity|]. cbn. auto.
Qed.

Lemma settle_frame (k : Z) (s : Schema.Statement unit) (d : Schema.Db) :
  (forall d', s d = inl (tt, d') ->
     Schema.has_schema d' = Schema.has_schema d /\ Schema.plans d' = Schema.plans d) ->
  Schema.has_schema (settle s d) = Schema.has_schema d
  /\ Schema.plan_row_exists k (settle s d) = Schema.plan_row_exists k d.
Proof.
  intros H. unfold settle, Schema.plan_row_exists.
  destruct (s d) as [[[] d']|e]; [|auto].
  destruct (H d' eq_refl) as [-> ->]. auto.
Qed.

Lemma migrateSteps_copies (ks kt : Z) (s t : Sqlite.Provider) :
  ready ks s -> ready kt t -> constraints_hold (Sqlite.db s) ->
  Schema.plan_steps (Sqlite.db t) = [] ->
  exists t',
    PlanMigrator.migrateSteps s t
    = (steps_held ks (Sqlite.db s), Sqlite.count_statement s, t')
    /\ ready kt t'
    /\ Sqlite.db t'
       = Schema.with_plan_steps
           (map (Sqlite.row_of_step kt)
                (map Sqlite.step_of_row (Schema.select_steps ks (Sqlite.db s))))
           (Sqlite.db t).
Proof.
  intros Hs Ht Hc Hempty. unfold PlanMigrator.migrateSteps.
  change (getSteps s) with (Sqlite.getSteps s).
  change (@addStep _ _) with Sqlite.addStep.
  rewrite (ready_getSteps ks s Hs). cbn [payload ok_data success data].
  eexists. split.
  { f_equal. f_equal. unfold Schema.select_steps, steps_held.
    now rewrite length_map, sort_by_length. }
  destruct (write_each_ready Sqlite.addStep kt
              (fun x d => settle (Schema.insert_plan_step (Sqlite.row_of_step kt x)) d)
              (fun _ => True)) with
    (items := map Sqlite.step_of_row (Schema.select_steps ks (Sqlite.db s))) (p := t)
    as (Hready & Hdb).
  - intros x p _. apply ready_addStep.
  - intros x d _. apply settle_frame. unfold Schema.insert_plan_step.
    intros d'. destruct (existsb _ _); [discriminate|].
    destruct (negb _); [discriminate|]. intros H. injection H as <-. auto.
  - apply Forall_forall. auto.
  - exact Ht.
  - split; [exact Hready|]. rewrite Hdb, settle_insert_steps.
    + now rewrite Hempty.
    + apply Ht.
    + now apply selected_steps_distinct.
    + intros x _. now rewrite Hempty.
Qed.

Lemma migrateFiles_copies (ks kt : Z) (s t : Sqlite.Provider) :
  ready ks s -> ready kt t -> constraints_hold (Sqlite.db s) ->
  Schema.plan_files (Sqlite.db t) = [] ->
  exists t',
    PlanMigrator.migrateFiles s t
    = (files_held ks (Sqlite.db s), Sqlite.count_statement s, t')
    /\ ready kt t'
    /\ Sqlite.db t'
       = Schema.with_plan_files
           (map (Sqlite.row_of_file kt)
                (map Sqlite.file_of_row (Schema.select_files ks (Sqlite.db s))))
           (Sqlite.db t).
Proof.
  intros Hs Ht Hc Hempty. unfold PlanMigrator.migrateFiles.
  change (getFiles s) with (Sqlite.getFiles s).
  change (@saveFile _ _) with Sqlite.saveFile.
  rewrite (ready_getFiles ks s Hs). cbn [payload ok_data success data].
  eexists. split.
  { f_equal. f_equal. unfold Schema.select_files, files_held. now rewrite length_map. }
  destruct (write_each_ready Sqlite.saveFile kt
              (fun x d => settle (Schema.upsert_plan_file (Sqlite.row_of_file kt x)) d)
              (fun _ => True)) with
    (items := map Sqlite.file_of_row (Schema.select_files ks (Sqlite.db s))) (p := t)
    as (Hready & Hdb).
  - intros x p _. apply ready_saveFile.
  - intros x d _. apply settle_frame. unfold Schema.upsert_plan_file.
    intros d'. destruct (existsb _ _); [intros H; injection H as <-; auto|].
    destruct (negb _); [discriminate|]. intros H. injection H as <-. auto.
  - apply Forall_forall. auto.
  - exact Ht.
  - split; [exact Hready|]. rewrite Hdb, settle_upsert_files.
    + now rewrite Hempty.
    + apply Ht.
    + now apply selected_files_distinct.
    + intros x _. now rewrite Hempty.
Qed.

Lemma migrateEvidence_copies (ks kt : Z) (s t : Sqlite.Provider) :
  ready ks s -> ready kt t -> constraints_hold (Sqlite.db s) -> ids_present (Sqlite.db s) ->
  Schema.evidence_records (Sqlite.db t) = [] ->
  exists t',
    PlanMigrator.migrateEvidence s t
    = (evidence_held ks (Sqlite.db s), Sqlite.count_statement s, t')
    /\ ready kt t'
    /\ Sqlite.db t'
       = Schema.with_evidence_records
           (map (evidence_row kt)
                (map Sqlite.evidence_of_row (Schema.select_evidence ks (Sqlite.db s))))
           (Sqlite.db t).
Proof.
  intros Hs Ht Hc Hids Hempty. unfold PlanMigrator.migrateEvidence.
  change (getEvidence s) with (Sqlite.getEvidence s).
  change (@addEvidence _ _) with Sqlite.addEvidence.
  rewrite (ready_getEvidence ks s Hs). cbn [payload ok_data success data].
  eexists. split.
  { f_equal. f_equal. unfold Schema.select_evidence, evidence_held.
    now rewrite length_map. }
  destruct (selected_evidence_distinct ks (Sqlite.db s) Hc Hids) as (Hnd & Hpresent).
  destruct (write_each_ready Sqlite.addEvidence kt
              (fun x d => settle (Schema.insert_evidence_record (evidence_row kt x)) d)
              (fun e => er_id e <> EmptyString)) with
    (items := map Sqlite.evidence_of_row (Schema.select_evidence ks (Sqlite.db s)))
    (p := t) as (Hready & Hdb).
  - intros x p. apply ready_addEvidence.
  - intros x d _. apply settle_frame. unfold Schema.insert_evidence_record.
    intros d'. destruct (existsb _ _); [discriminate|].
    destruct (negb _); [discriminate|]. intros H. injection H as <-. auto.
  - exact Hpresent.
  - exact Ht.
  - split; [exact Hready|]. rewrite Hdb, settle_insert_evidence.
    + now rewrite Hempty.
    + apply Ht.
    + exact Hnd.
    + intros x _. now rewrite Hempty.
Qed.

Lemma migrateFeedback_copies (ks kt : Z) (s t : Sqlite.Provider) :
  ready ks s -> ready kt t -> constraints_hold (Sqlite.db s) -> ids_present (Sqlite.db s) ->
  Schema.feedback_records (Sqlite.db t) = [] ->
  exists t',
    PlanMigrator.migrateFeedback s t
    = (feedback_held ks (Sqlite.db s), Sqlite.count_statement s, t')
    /\ ready kt t'
    /\ Sqlite.db t'
       = Schema.with_feedback_records
           (map (feedback_row kt)
                (map Sqlite.feedback_of_row (Schema.select_feedback ks (Sqlite.db s))))
           (Sqlite.db t).
Proof.
  intros Hs Ht Hc Hids Hempty. unfold PlanMigrator.migrateFeedback.
  change (getFeedback s) with (Sqlite.getFeedback s).
  change (@addFeedback _ _) with Sqlite.addFeedback.
  rewrite (ready_getFeedback ks s Hs). cbn [payload ok_data success data].
  eexists. split.
  { f_equal. f_equal. unfold Schema.select_feedback, feedback_held.
    now rewrite length_map. }
  destruct (selected_feedback_distinct ks (Sqlite.db s) Hc Hids) as (Hnd & Hpresent).
  destruct (write_each_ready Sqlite.addFeedback kt
              (fun x d => settle (Schema.insert_feedback_record (feedback_row kt x)) d)
              (fun f => fb_id f <> EmptyString)) with
    (items := map Sqlite.feedback_of_row (Schema.select_feedback ks (Sqlite.db s)))
    (p := t) as (Hready & Hdb).
  - intros x p. apply ready_addFeedback.
  - intros x d _. apply settle_frame. unfold Schema.insert_feedback_record.
    intros d'. destruct (existsb _ _); [discriminate|].
    destruct (negb _); [discriminate|]. intros H. injection H as <-. auto.
  - exact Hpresent.
  - exact Ht.
  - split; [exact Hready|]. rewrite Hdb, settle_insert_feedback.
    + now rewrite Hempty.
    + apply Ht.
    + exact Hnd.
    + intros x _. now rewrite Hempty.
Qed.

Lemma migrateTimeline_copies (ks kt : Z) (s t : Sqlite.Provider) :
  ready ks s -> ready kt t ->
  exists t',
    PlanMigrator.migrateTimeline s t
    = (events_held ks (Sqlite.db s), Sqlite.count_statement s, t')
    /\ ready kt t' /\ same_content (Sqlite.db t) (Sqlite.db t').
Proof.
  intros Hs Ht. unfold PlanMigrator.migrateTimeline.
  change (getTimelineEvents no_timeline_options s)
    with (Sqlite.getTimelineEvents no_timeline_options s).
  change (@addTimelineEvent _ _) with Sqlite.addTimelineEvent.
  rewrite (ready_getTimelineEvents ks s Hs). cbn [payload ok_data success data].
  eexists. split.
  { f_equal. f_equal. apply selected_events_length. }
  apply (write_each_same_content Sqlite.addTimelineEvent kt); [|exact Ht].
  intros x p. apply ready_addTimelineEvent.
Qed.

Lemma migrateCheckpoints_copies (ks kt : Z) (s t : Sqlite.Provider) :
  ready ks s -> ready kt t ->
  exists n t',
    PlanMigrator.migrateCheckpoints s t = (n, Sqlite.count_statement s, t')
    /\ ready kt t' /\ same_content (Sqlite.db t) (Sqlite.db t').
Proof.
  intros Hs Ht. unfold PlanMigrator.migrateCheckpoints.
  change (getCheckpoints s) with (Sqlite.getCheckpoints s).
  change (@createCheckpoint _ _) with Sqlite.createCheckpoint.
  rewrite (ready_getCheckpoints ks s Hs). cbn [payload ok_data success data].
  eexists. eexists. split; [reflexivity|].
  apply (write_each_same_content Sqlite.createCheckpoint kt); [|exact Ht].
  intros x p. apply ready_createCheckpoint.
Qed.

(** What the six copying phases leave in a target that [initialize] has
    just created is a copy. *)
Lemma copied_after_phases (ks kt : Z) (ds : Schema.Db) (row : Schema.PlanRow)
  (d1 d2 d3 d4 d5 d6 d7 : Schema.Db) :
  Schema.select_plan ks ds = Some row ->
  (exists rt, Schema.select_plan kt d1 = Some rt
              /\ Schema.plans_code rt = Schema.plans_code row
              /\ Schema.plans_name rt = Schema.plans_name row
              /\ Schema.plans_stage rt = Schema.plans_stage row) ->
  d2 = Schema.with_plan_steps
         (map (Sqlite.row_of_step kt) (map Sqlite.step_of_row (Schema.select_steps ks ds)))
         d1 ->
  d3 = Schema.with_plan_files
         (map (Sqlite.row_of_file kt) (map Sqlite.file_of_row (Schema.select_files ks ds)))
         d2 ->
  same_content d3 d4 ->
  d5 = Schema.with_evidence_records
         (map (evidence_row kt) (map Sqlite.evidence_of_row (Schema.select_evidence ks ds)))
         d4 ->
  d6 = Schema.with_feedback_records
         (map (feedback_row kt) (map Sqlite.feedback_of_row (Schema.select_feedback ks ds)))
         d5 ->
  same_content d6 d7 ->
  copied ks kt ds d7.
Proof.
  intros Hrow (rt & Hrt & Hcode & Hname & Hstage) -> -> C4 -> -> C7.
  destruct C4 as (_ & P4 & S4 & F4 & V4 & B4). cbn in P4, S4, F4, V4, B4.
  destruct C7 as (_ & P7 & S7 & F7 & V7 & B7). cbn in P7, S7, F7, V7, B7.
  constructor.
  - exists row, rt. unfold Schema.select_plan in *. rewrite P7, P4. auto.
  - now rewrite S7, S4.
  - now rewrite F7, F4.
  - exact V7.
  - exact B7.
Qed.

(** The run of a migration into a fresh target: it succeeds, it counts
    what the source holds, and it leaves a source that is ready and a
    target that is ready and holds a copy. *)
Lemma migrate_fresh_run (sourcePath targetPath : string) (source : Sqlite.Provider)
  (faults : nat -> option string) (uuids clock : nat -> string)
  (options : MigrationOptions) (fs : FileSystem) :
  (forall n, Sqlite.faults source n = None) ->
  (forall n, faults n = None) ->
  (exists metadata, payload (fst (Sqlite.getMetadata source)) = Some metadata) ->
  constraints_hold (Sqlite.db source) ->
  ids_present (Sqlite.db source) ->
  (keepSource options = false ->
   exists fs', deleteSource fs sourcePath sqlite = inl fs') ->
  exists (k kt : Z) (res : MigrationResult) (s' t' : Sqlite.Provider)
         (fs' : FileSystem) (log : list MigrationProgress),
    migrate_fresh sourcePath targetPath source faults uuids clock options fs
    = {| PlanMigrator.result := res;
         PlanMigrator.source_after := s';
         PlanMigrator.target_after := t';
         PlanMigrator.fs_after := fs';
         PlanMigrator.reported := log |}
    /\ fst (Sqlite.getPlanId source) = Sqlite.Returned k
    /\ mr_success res = true
    /\ stepsConverted (mr_stats res) = steps_held k (Sqlite.db source)
    /\ filesConverted (mr_stats res) = files_held k (Sqlite.db source)
    /\ timelineEventsConverted (mr_stats res) = events_held k (Sqlite.db source)
    /\ evidenceConverted (mr_stats res) = evidence_held k (Sqlite.db source)
    /\ feedbackConverted (mr_stats res) = feedback_held k (Sqlite.db source)
    /\ ready k s' /\ ready kt t'
    /\ constraints_hold (Sqlite.db s')
    /\ copied k kt (Sqlite.db s') (Sqlite.db t').
Proof.
  intros Hfs Hft (metadata & Hmeta) Hc Hids Hdel.
  unfold migrate_fresh, PlanMigrator.migrate.
  change (exists_ (Sqlite.create targetPath faults uuids clock))
    with (Sqlite.exists_ (Sqlite.create targetPath faults uuids clock)).
  rewrite exists_fresh. cbn [andb].
  change (getMetadata source) with (Sqlite.getMetadata source).
  change (@initialize _ _) with Sqlite.initialize.
  change (format source) with sqlite.
  destruct (Sqlite.getMetadata source) as [r s1] eqn:Gm. cbn [fst] in Hmeta.
  destruct (getMetadata_ready source s1 r metadata Hfs Gm Hmeta)
    as (ks & row & Hs1 & Hdb1 & Hsel & Hrow & Hplan).
  destruct (initialize_fresh metadata targetPath faults uuids clock Hft)
    as (kt & t1 & Hinit & Ht1 & Hplanrow & E1 & E2 & E3 & E4).
  rewrite <- Hdb1 in Hc, Hids, Hsel. rewrite <- Hdb1.
  destruct (migrateSteps_copies ks kt s1 t1 Hs1 Ht1 Hc E1) as (t2 & M2 & Ht2 & D2).
  destruct (migrateFiles_copies ks kt (Sqlite.count_statement s1) t2 Hs1 Ht2 Hc)
    as (t3 & M3 & Ht3 & D3); [rewrite D2; exact E2|].
  destruct (migrateTimeline_copies ks kt
              (Sqlite.count_statement (Sqlite.count_statement s1)) t3 Hs1 Ht3)
    as (t4 & M4 & Ht4 & C4).
  destruct (migrateEvidence_copies ks kt
              (Sqlite.count_statement
                 (Sqlite.count_statement (Sqlite.count_statement s1))) t4 Hs1 Ht4 Hc Hids)
    as (t5 & M5 & Ht5 & D5).
  { destruct C4 as (_ & _ & _ & _ & V4 & _). rewrite V4, D3. cbn. rewrite D2. exact E3. }
  destruct (migrateFeedback_copies ks kt
              (Sqlite.count_statement
                 (Sqlite.count_statement
                    (Sqlite.count_statement (Sqlite.count_statement s1)))) t5
              Hs1 Ht5 Hc Hids)
    as (t6 & M6 & Ht6 & D6).
  { destruct C4 as (_ & _ & _ & _ & _ & B4). rewrite D5. cbn. rewrite B4, D3. cbn.
    rewrite D2. exact E4. }
  destruct (migrateCheckpoints_copies ks kt
              (Sqlite.count_statement
                 (Sqlite.count_statement
                    (Sqlite.count_statement
                       (Sqlite.count_statement (Sqlite.count_statement s1))))) t6
              Hs1 Ht6)
    as (n7 & t7 & M7 & Ht7 & C7).
  assert (Hcopy : copied ks kt (Sqlite.db s1) (Sqlite.db t7)).
  { apply (copied_after_phases ks kt (Sqlite.db s1) row (Sqlite.db t1) (Sqlite.db t2)
             (Sqlite.db t3) (Sqlite.db t4) (Sqlite.db t5) (Sqlite.db t6) (Sqlite.db t7));
      try assumption.
    destruct Hplanrow as (rt & Hrt & H1 & H2 & H3). exists rt. subst metadata. auto. }
  rewrite Hmeta, Hinit. cbn [success ok_void negb].
  rewrite M2. cbv beta iota zeta. rewrite M3. cbv beta iota zeta.
  rewrite M4. cbv beta iota zeta. rewrite M5. cbv beta iota zeta.
  rewrite M6. cbv beta iota zeta. rewrite M7. cbv beta iota zeta.
  set (s7 := Sqlite.count_statement
               (Sqlite.count_statement
                  (Sqlite.count_statement
                     (Sqlite.count_statement
                        (Sqlite.count_statement (Sqlite.count_statement s1)))))).
  assert (Hs7 : ready ks s7) by exact Hs1.
  assert (Hc7 : constraints_hold (Sqlite.db s7)) by exact Hc.
  assert (Hcopy7 : copied ks kt (Sqlite.db s7) (Sqlite.db t7)) by exact Hcopy.
  exists ks, kt.
  destruct (validate options).
  - destruct (validate_copied ks kt s7 t7 Hs7 Ht7 Hc7 Hcopy7)
      as (v & s' & t' & V & Hv & He & Hs' & Ht' & Ds & Dt).
    rewrite <- Ds, <- Dt in Hcopy7. rewrite <- Ds in Hc7.
    rewrite V. cbv beta iota. destruct v as [vl er ws st]. cbn in Hv, He. subst vl.
    cbv beta iota.
    destruct (keepSource options) eqn:K; cbn [negb].
    + do 5 eexists. split; [reflexivity|]. cbn.
      repeat match goal with |- _ /\ _ => split end; first [reflexivity | assumption].
    + destruct (Hdel eq_refl) as (fs' & ->).
      do 5 eexists. split; [reflexivity|]. cbn.
      repeat match goal with |- _ /\ _ => split end; first [reflexivity | assumption].
  - cbv beta iota.
    destruct (keepSource options) eqn:K; cbn [negb].
    + do 5 eexists. split; [reflexivity|]. cbn.
      repeat match goal with |- _ /\ _ => split end; first [reflexivity | assumption].
    + destruct (Hdel eq_refl) as (fs' & ->).
      do 5 eexists. split; [reflexivity|]. cbn.
      repeat match goal with |- _ /\ _ => split end; first [reflexivity | assumption].
Qed.



(** The sample plan holds three steps, one file, one event, one evidence
    record and one feedback record; the migration counts them, and the
    validator compares as many. *)
Example migrate_round_trip_sample :
  mr_stats
    (PlanMigrator.result
       (migrate_fresh "source.plan" "target.plan" sample_plan no_faults sample_uuids
          sample_clock validating_options source_files_fs))
  = {| stepsConverted := 3; filesConverted := 1; timelineEventsConverted := 1;
       evidenceConverted := 1; feedbackConverted := 1; checkpointsConverted := 0 |}
  /\ stats
       (validation
          (PlanMigrator.source_after
             (migrate_fresh "source.plan" "target.plan" sample_plan no_faults
                sample_uuids sample_clock validating_options source_files_fs))
          (PlanMigrator.target_after
             (migrate_fresh "source.plan" "target.plan" sample_plan no_faults
                sample_uuids sample_clock validating_options source_files_fs)))
     = {| stepsCompared := 3; filesCompared := 1; timelineEventsCompared := 1;
          evidenceCompared := 1; feedbackCompared := 1 |}
  /\ existsSync
       (PlanMigrator.fs_after
          (migrate_fresh "source.plan" "target.plan" sample_plan no_faults sample_uuids
             sample_clock validating_options source_files_fs))
       "source.plan"
     = false.
Proof. repeat split; vm_compute; reflexivity. Qed.

(** The removal of the source is part of the call: when it throws, here
    because the source path names a directory, [migrate] reports the
    failure although the copy is complete and validates. *)
Example migrate_reports_failed_removal :
  mr_success
    (PlanMigrator.result
       (migrate_fresh "plans/notes" "target.plan" sample_plan no_faults sample_uuids
          sample_clock validating_options sample_fs))
  = false
  /\ mr_error
       (PlanMigrator.result
          (migrate_fresh "plans/notes" "target.plan" sample_plan no_faults sample_uuids
             sample_clock validating_options sample_fs))
     = Some "EISDIR: illegal operation on a directory, unlink 'plans/notes'"
  /\ valid
       (validation
          (PlanMigrator.source_after
             (migrate_fresh "plans/notes" "target.plan" sample_plan no_faults
                sample_uuids sample_clock validating_options sample_fs))
          (PlanMigrator.target_after
             (migrate_fresh "plans/notes" "target.plan" sample_plan no_faults
                sample_uuids sample_clock validating_options sample_fs)))
     = true.
Proof. repeat split; vm_compute; reflexivity. Qed.

(* ================================================================== *)
(** * Further properties of the provider *)
(* ================================================================== *)

(** ** Calls on a provider that is ready *)

Lemma or_null_idempotent (x : option string) : or_null (or_null x) = or_null x.
Proof. destruct x as [[|c s]|]; reflexivity. Qed.

Lemma or_null_present (x : option string) : x <> Some EmptyString -> or_null x = x.
Proof. destruct x as [[|c s]|]; [congruence | reflexivity | reflexivity]. Qed.

Lemma step_of_row_of_step (k : Z) (step : PlanStep) :
  Sqlite.step_of_row (Sqlite.row_of_step k step) = stored_step step.
Proof.
  unfold Sqlite.step_of_row, Sqlite.row_of_step, stored_step. cbn.
  now rewrite !or_null_idempotent.
Qed.

(** The writes of the shape
    [try { this.db.prepare(sql).run(this.getPlanId(), ...); return { success: true } }]
    on a provider that is ready: the result and the provider afterwards. *)
Lemma ready_write_outcome (table : string) (stmt : Z -> Schema.Statement unit)
  (k : Z) (p : Sqlite.Provider) :
  ready k p ->
  Sqlite.try_catch
    (Sqlite.bind (Sqlite.prepare table) (fun _ =>
     Sqlite.bind Sqlite.getPlanId (fun k =>
     Sqlite.bind (Sqlite.run (stmt k)) (fun _ => Sqlite.ret ok_void)))) p
  = (match stmt k (Sqlite.db p) with
     | inl _ => ok_void
     | inr e => failure e
     end,
     Sqlite.with_db (settle (stmt k) (Sqlite.db p)) (Sqlite.count_statement p)).
Proof.
  intros (Hs & Hk & _ & Hf).
  unfold Sqlite.try_catch, Sqlite.bind, Sqlite.prepare, settle.
  rewrite Hs, (ready_getPlanId _ _ Hk), run_without_fault by apply Hf.
  destruct (stmt k (Sqlite.db p)) as [[[] d']|e]; reflexivity.
Qed.

(** The reads of the shape
    [try { row = this.db.prepare(sql).get(this.getPlanId(), ...);
           return { success: true, data: row ? convert(row) : null } }]. *)
Lemma ready_lookup_method {Row A : Type} (table : string)
  (select : Z -> Schema.Db -> option Row) (convert : Row -> A)
  (k : Z) (p : Sqlite.Provider) :
  ready k p ->
  Sqlite.try_catch
    (Sqlite.bind (Sqlite.prepare table) (fun _ =>
     Sqlite.bind Sqlite.getPlanId (fun k =>
     Sqlite.bind (Sqlite.fetch (select k)) (fun row =>
       match row with
       | None => Sqlite.ret ok_null
       | Some r => Sqlite.ret (ok_data (convert r))
       end)))) p
  = (match select k (Sqlite.db p) with
     | None => ok_null
     | Some r => ok_data (convert r)
     end,
     Sqlite.count_statement p).
Proof.
  intros (Hs & Hk & _ & Hf).
  unfold Sqlite.try_catch, Sqlite.bind, Sqlite.prepare, Sqlite.fetch.
  rewrite Hs, (ready_getPlanId _ _ Hk), run_without_fault by apply Hf.
  destruct (select k (Sqlite.db p)); reflexivity.
Qed.

Lemma ready_with_db (k : Z) (d : Schema.Db) (p : Sqlite.Provider) :
  ready k p -> Schema.has_schema d = true -> Schema.plan_row_exists k d = true ->
  ready k (Sqlite.with_db d (Sqlite.count_statement p)).
Proof. intros (_ & Hk & _ & Hf) Hs Hrow. repeat split; assumption. Qed.

Lemma ready_getStep (k n : Z) (p : Sqlite.Provider) :
  ready k p ->
  Sqlite.getStep n p
  = (match Schema.select_step k n (Sqlite.db p) with
     | None => ok_null
     | Some r => ok_data (Sqlite.step_of_row r)
     end,
     Sqlite.count_statement p).
Proof.
  apply (ready_lookup_method "plan_steps" (fun k => Schema.select_step k n)
           Sqlite.step_of_row).
Qed.

Lemma find_app_none {A : Type} (f : A -> bool) (l l' : list A) :
  find f l = None -> find f (l ++ l') = find f l'.
Proof.
  induction l as [|x l IH]; cbn; [reflexivity|].
  destruct (f x); [discriminate | exact IH].
Qed.

Lemma find_snoc_miss {A : Type} (f : A -> bool) (l : list A) (x : A) :
  f x = false -> find f (l ++ [x]) = find f l.
Proof.
  intros Hx. induction l as [|y l IH]; cbn; [now rewrite Hx|].
  destruct (f y); [reflexivity | exact IH].
Qed.

Lemma find_none_existsb {A : Type} (f : A -> bool) (l : list A) :
  find f l = None -> existsb f l = false.
Proof. intros H. rewrite existsb_find, H. reflexivity. Qed.

Lemma sample_plan_ready : ready 1 sample_plan.
Proof. repeat split; vm_compute; reflexivity. Qed.

(** ** Steps *)

(** X1.  [addStep] followed by [getStep].  On a provider that is ready,
    adding a step whose number the plan does not hold yet succeeds;
    [getStep] of that number then returns the step as stored (its empty
    optional properties come back [undefined], and the step itself when it
    has none), and [getStep] of every other number returns what it
    returned before. *)
Theorem addStep_then_getStep (k : Z) (step : PlanStep) (p : Sqlite.Provider) :
  ready k p ->
  Schema.select_step k (st_number step) (Sqlite.db p) = None ->
  fst (Sqlite.addStep step p) = ok_void
  /\ ready k (snd (Sqlite.addStep step p))
  /\ fst (Sqlite.getStep (st_number step) (snd (Sqlite.addStep step p)))
     = ok_data (stored_step step)
  /\ (forall n, n <> st_number step ->
        fst (Sqlite.getStep n (snd (Sqlite.addStep step p))) = fst (Sqlite.getStep n p))
  /\ (st_description step <> Some EmptyString ->
      st_startedAt step <> Some EmptyString ->
      st_completedAt step <> Some EmptyString ->
      stored_step step = step).
Proof.
  intros Hp Hfree.
  assert (Hadd : Sqlite.addStep step p
                 = (ok_void,
                    Sqlite.with_db
                      (Schema.with_plan_steps
                         (Schema.plan_steps (Sqlite.db p) ++ [Sqlite.row_of_step k step])
                         (Sqlite.db p))
                      (Sqlite.count_statement p))).
  { unfold Sqlite.addStep.
    rewrite (ready_write_outcome "plan_steps"
               (fun k => Schema.insert_plan_step (Sqlite.row_of_step k step)) k p Hp).
    unfold settle, Schema.insert_plan_step.
    cbn [Sqlite.row_of_step Schema.steps_plan_id Schema.steps_number].
    rewrite (find_none_existsb _ _ Hfree).
    destruct Hp as (_ & _ & -> & _). reflexivity. }
  rewrite Hadd. cbn [fst snd].
  assert (Hp' : ready k (Sqlite.with_db
                           (Schema.with_plan_steps
                              (Schema.plan_steps (Sqlite.db p) ++ [Sqlite.row_of_step k step])
                              (Sqlite.db p))
                           (Sqlite.count_statement p))).
  { apply ready_with_db; [exact Hp | apply Hp | apply Hp]. }
  split; [reflexivity|]. split; [exact Hp'|]. split; [|split].
  - rewrite (ready_getStep k _ _ Hp'). cbn [fst Sqlite.db Sqlite.with_db].
    unfold Schema.select_step in *. cbn [Schema.plan_steps Schema.with_plan_steps].
    rewrite (find_app_none _ _ _ Hfree). cbn. unfold Schema.step_key. cbn.
    rewrite !Z.eqb_refl. cbn. now rewrite step_of_row_of_step.
  - intros n Hn. rewrite (ready_getStep k _ _ Hp'), (ready_getStep k _ _ Hp).
    cbn [fst Sqlite.db Sqlite.with_db].
    unfold Schema.select_step. cbn [Schema.plan_steps Schema.with_plan_steps].
    rewrite find_snoc_miss; [reflexivity|].
    unfold Schema.step_key. cbn. apply andb_false_iff. right.
    apply Z.eqb_neq. congruence.
  - intros H1 H2 H3. unfold stored_step. rewrite !or_null_present by assumption.
    now destruct step.
Qed.

Lemma addStep_then_getStep_witness :
  fst (Sqlite.addStep (sample_step 4 "Fourth Step" "pending" "Rotate the keys.") sample_plan)
  = ok_void
  /\ fst (Sqlite.getStep 4
            (snd (Sqlite.addStep (sample_step 4 "Fourth Step" "pending" "Rotate the keys.")
                    sample_plan)))
     = ok_data (sample_step 4 "Fourth Step" "pending" "Rotate the keys.").
Proof.
  destruct (addStep_then_getStep 1
              (sample_step 4 "Fourth Step" "pending" "Rotate the keys.") sample_plan
              sample_plan_ready)
    as (H1 & _ & H2 & _ & H3).
  - vm_compute. reflexivity.
  - split; [exact H1|]. refine (eq_trans H2 _).
    rewrite H3; [reflexivity | discriminate..].
Defined.

(** X2.  [addStep] with a number that is taken.  On a provider that is
    ready, adding a step whose number the plan already holds returns the
    failure of the [UNIQUE(plan_id, number)] constraint and changes
    nothing in the database. *)
Theorem addStep_number_taken (k : Z) (step : PlanStep) (p : Sqlite.Provider)
  (row : Schema.StepRow) :
  ready k p ->
  Schema.select_step k (st_number step) (Sqlite.db p) = Some row ->
  fst (Sqlite.addStep step p)
  = failure "UNIQUE constraint failed: plan_steps.plan_id, plan_steps.number"
  /\ Sqlite.db (snd (Sqlite.addStep step p)) = Sqlite.db p
  /\ fst (Sqlite.getStep (st_number step) (snd (Sqlite.addStep step p)))
     = ok_data (Sqlite.step_of_row row).
Proof.
  intros Hp Htaken.
  assert (Hadd : Sqlite.addStep step p
                 = (failure "UNIQUE constraint failed: plan_steps.plan_id, plan_steps.number",
                    Sqlite.count_statement p)).
  { unfold Sqlite.addStep.
    rewrite (ready_write_outcome "plan_steps"
               (fun k => Schema.insert_plan_step (Sqlite.row_of_step k step)) k p Hp).
    unfold settle, Schema.insert_plan_step.
    cbn [Sqlite.row_of_step Schema.steps_plan_id Schema.steps_number].
    unfold Schema.select_step in Htaken. rewrite existsb_find, Htaken. reflexivity. }
  rewrite Hadd. cbn [fst snd]. split; [reflexivity|]. split; [reflexivity|].
  rewrite (ready_getStep k _ (Sqlite.count_statement p) Hp). cbn [fst Sqlite.db].
  change (Sqlite.db (Sqlite.count_statement p)) with (Sqlite.db p).
  now rewrite Htaken.
Qed.

Lemma addStep_number_taken_witness :
  fst (Sqlite.addStep (sample_step 2 "Another Second Step" "pending" "") sample_plan)
  = failure "UNIQUE constraint failed: plan_steps.plan_id, plan_steps.number"
  /\ Sqlite.db (snd (Sqlite.addStep (sample_step 2 "Another Second Step" "pending" "")
                       sample_plan))
     = Sqlite.db sample_plan.
Proof.
  destruct (addStep_number_taken 1 (sample_step 2 "Another Second Step" "pending" "")
              sample_plan
              (Sqlite.row_of_step 1
                 (sample_step 2 "Second Step" "in_progress"
                    "jwt Jwt JWT jwT jWt: refresh and rotate"))
              sample_plan_ready)
    as (H1 & H2 & _).
  - vm_compute. reflexivity.
  - split; [exact H1 | exact H2].
Defined.

Lemma find_filter_miss {A : Type} (f g : A -> bool) (l : list A) :
  (forall x, f x = true -> g x = true) -> find f (filter g l) = find f l.
Proof.
  intros H. induction l as [|x l IH]; cbn; [reflexivity|].
  destruct (g x) eqn:G; cbn.
  - destruct (f x); [reflexivity | exact IH].
  - destruct (f x) eqn:F; [|exact IH]. apply H in F. congruence.
Qed.

Lemma find_filter_out {A : Type} (f : A -> bool) (l : list A) :
  find f (filter (fun x => negb (f x)) l) = None.
Proof.
  induction l as [|x l IH]; cbn; [reflexivity|].
  destruct (f x) eqn:F; cbn; [exact IH|]. now rewrite F.
Qed.

Lemma filter_all {A : Type} (g : A -> bool) (l : list A) :
  (forall x, In x l -> g x = true) -> filter g l = l.
Proof.
  induction l as [|x l IH]; intros H; cbn; [reflexivity|].
  rewrite (H x) by now left. f_equal. apply IH. intros y Hy. apply H. now right.
Qed.

(** X3.  [deleteStep].  On a provider that is ready, [deleteStep] always
    succeeds; afterwards [getStep] of that number returns [null], and
    [getStep] of every other number returns what it returned before.
    Deleting a number that the plan does not hold changes nothing in the
    database. *)
Theorem deleteStep_removes_that_step (k n : Z) (p : Sqlite.Provider) :
  ready k p ->
  fst (Sqlite.deleteStep n p) = ok_void
  /\ ready k (snd (Sqlite.deleteStep n p))
  /\ fst (Sqlite.getStep n (snd (Sqlite.deleteStep n p))) = ok_null
  /\ (forall m, m <> n ->
        fst (Sqlite.getStep m (snd (Sqlite.deleteStep n p))) = fst (Sqlite.getStep m p))
  /\ (Schema.select_step k n (Sqlite.db p) = None ->
      Sqlite.db (snd (Sqlite.deleteStep n p)) = Sqlite.db p).
Proof.
  intros Hp.
  assert (Hdel : Sqlite.deleteStep n p
                 = (ok_void,
                    Sqlite.with_db
                      (Schema.with_plan_steps
                         (filter (fun r => negb (Schema.step_key k n r))
                                 (Schema.plan_steps (Sqlite.db p)))
                         (Sqlite.db p))
                      (Sqlite.count_statement p))).
  { unfold Sqlite.deleteStep.
    now rewrite (ready_write_outcome "plan_steps"
                   (fun k => Schema.delete_plan_steps k n) k p Hp). }
  rewrite Hdel. cbn [fst snd].
  assert (Hp' : ready k (Sqlite.with_db
                           (Schema.with_plan_steps
                              (filter (fun r => negb (Schema.step_key k n r))
                                      (Schema.plan_steps (Sqlite.db p)))
                              (Sqlite.db p))
                           (Sqlite.count_statement p))).
  { apply ready_with_db; [exact Hp | apply Hp | apply Hp]. }
  split; [reflexivity|]. split; [exact Hp'|]. split; [|split].
  - rewrite (ready_getStep k _ _ Hp'). cbn [fst Sqlite.db Sqlite.with_db].
    unfold Schema.select_step. cbn [Schema.plan_steps Schema.with_plan_steps].
    now rewrite find_filter_out.
  - intros m Hm. rewrite (ready_getStep k _ _ Hp'), (ready_getStep k _ _ Hp).
    cbn [fst Sqlite.db Sqlite.with_db].
    unfold Schema.select_step. cbn [Schema.plan_steps Schema.with_plan_steps].
    rewrite find_filter_miss; [reflexivity|].
    intros x Hx. unfold Schema.step_key in *.
    apply andb_true_iff in Hx. destruct Hx as [_ Hx]. apply Z.eqb_eq in Hx.
    apply negb_true_iff, andb_false_iff. right. apply Z.eqb_neq. congruence.
  - intros Habsent. cbn [Sqlite.db Sqlite.with_db].
    rewrite filter_all; [now destruct (Sqlite.db p)|].
    intros x Hx. apply negb_true_iff.
    unfold Schema.select_step in Habsent. now apply (find_none _ _ Habsent).
Qed.

Lemma deleteStep_removes_that_step_witness :
  fst (Sqlite.getStep 2 (snd (Sqlite.deleteStep 2 sample_plan))) = ok_null
  /\ fst (Sqlite.getStep 3 (snd (Sqlite.deleteStep 2 sample_plan)))
     = fst (Sqlite.getStep 3 sample_plan).
Proof.
  destruct (deleteStep_removes_that_step 1 2 sample_plan sample_plan_ready)
    as (_ & _ & H1 & H2 & _).
  split; [exact H1 | apply H2; discriminate].
Defined.

(** ** Timeline *)

Lemma in_firstn {A : Type} (n : nat) (l : list A) (x : A) :
  In x (firstn n l) -> In x l.
Proof.
  revert l. induction n as [|n IH]; intros [|y l] H; cbn in *; try contradiction.
  destruct H as [->|H]; [now left | right; now apply IH].
Qed.

Lemma ready_getTimelineEvents_options (k : Z) (options : TimelineOptions)
  (p : Sqlite.Provider) :
  ready k p ->
  Sqlite.getTimelineEvents options p
  = (ok_data
       (map Sqlite.event_of_row
          (Schema.select_timeline_events k
             (or_null (opt_since options)) (or_null (opt_type options))
             (match opt_limit options with Some O => None | l => l end)
             (Sqlite.db p))),
     Sqlite.count_statement p).
Proof.
  intros (Hs & Hk & _ & Hf).
  unfold Sqlite.getTimelineEvents, Sqlite.try_catch, Sqlite.bind, Sqlite.prepare,
    Sqlite.fetch.
  rewrite (ready_getPlanId _ _ Hk), Hs, run_without_fault by apply Hf.
  reflexivity.
Qed.



(** ** Checkpoints *)

Lemma ready_getCheckpoint (k : Z) (name : string) (p : Sqlite.Provider) :
  ready k p ->
  Sqlite.getCheckpoint name p
  = (match Schema.select_checkpoint k name (Sqlite.db p) with
     | None => ok_null
     | Some r => ok_data (Sqlite.checkpoint_of_row r)
     end,
     Sqlite.count_statement p).
Proof.
  apply (ready_lookup_method "checkpoints" (fun k => Schema.select_checkpoint k name)
           Sqlite.checkpoint_of_row).
Qed.

Lemma checkpoint_key_same (k : Z) (name name' : string) (row r : Schema.CheckpointRow) :
  Schema.ck_plan_id row = k -> Schema.ck_name row = name ->
  Schema.checkpoint_key k name' (if Schema.checkpoint_key k name r then row else r)
  = Schema.checkpoint_key k name' r.
Proof.
  intros Hk Hn. destruct (Schema.checkpoint_key k name r) eqn:E; [|reflexivity].
  unfold Schema.checkpoint_key in *. apply andb_true_iff in E. destruct E as [E1 E2].
  apply Z.eqb_eq in E1. apply String.eqb_eq in E2. now rewrite Hk, Hn, E1, E2.
Qed.

(** X5.  [createCheckpoint] followed by [getCheckpoint].  On a provider
    that is ready, [createCheckpoint] succeeds whether or not the plan
    already holds a checkpoint of that name; [getCheckpoint] of the name
    then returns the checkpoint just given, and [getCheckpoint] of every
    other name returns what it returned before.  A checkpoint of a name
    that exists is replaced: the table keeps its number of rows;
    otherwise it grows by one. *)
Theorem createCheckpoint_then_getCheckpoint (k : Z) (checkpoint : Checkpoint)
  (p : Sqlite.Provider) :
  ready k p ->
  fst (Sqlite.createCheckpoint checkpoint p) = ok_void
  /\ ready k (snd (Sqlite.createCheckpoint checkpoint p))
  /\ fst (Sqlite.getCheckpoint (cp_name checkpoint)
            (snd (Sqlite.createCheckpoint checkpoint p)))
     = ok_data checkpoint
  /\ (forall name, name <> cp_name checkpoint ->
        fst (Sqlite.getCheckpoint name (snd (Sqlite.createCheckpoint checkpoint p)))
        = fst (Sqlite.getCheckpoint name p))
  /\ List.length (Schema.checkpoints (Sqlite.db (snd (Sqlite.createCheckpoint checkpoint p))))
     = match Schema.select_checkpoint k (cp_name checkpoint) (Sqlite.db p) with
       | Some _ => List.length (Schema.checkpoints (Sqlite.db p))
       | None => S (List.length (Schema.checkpoints (Sqlite.db p)))
       end.
Proof.
  intros Hp.
  pose (row := {| Schema.ck_plan_id := k;
                  Schema.ck_name := cp_name checkpoint;
                  Schema.ck_message := cp_message checkpoint;
                  Schema.ck_created_at := cp_createdAt checkpoint;
                  Schema.ck_snapshot := cp_snapshot checkpoint |}).
  pose (hit := Schema.checkpoint_key k (cp_name checkpoint)).
  pose (rows := match find hit (Schema.checkpoints (Sqlite.db p)) with
                | Some _ => map (fun r => if hit r then row else r)
                                (Schema.checkpoints (Sqlite.db p))
                | None => Schema.checkpoints (Sqlite.db p) ++ [row]
                end).
  assert (Hcreate : Sqlite.createCheckpoint checkpoint p
                    = (ok_void,
                       Sqlite.with_db (Schema.with_checkpoints rows (Sqlite.db p))
                         (Sqlite.count_statement p))).
  { unfold Sqlite.createCheckpoint.
    rewrite (ready_write_outcome "checkpoints"
               (fun k => Schema.upsert_checkpoint
                           {| Schema.ck_plan_id := k;
                              Schema.ck_name := cp_name checkpoint;
                              Schema.ck_message := cp_message checkpoint;
                              Schema.ck_created_at := cp_createdAt checkpoint;
                              Schema.ck_snapshot := cp_snapshot checkpoint |}) k p Hp).
    unfold settle, Schema.upsert_checkpoint, rows, hit, row.
    cbn [Schema.ck_plan_id Schema.ck_name].
    rewrite existsb_find.
    destruct (find _ (Schema.checkpoints (Sqlite.db p))); [reflexivity|].
    destruct Hp as (_ & _ & -> & _). reflexivity. }
  rewrite Hcreate. cbn [fst snd].
  assert (Hp' : ready k (Sqlite.with_db (Schema.with_checkpoints rows (Sqlite.db p))
                           (Sqlite.count_statement p))).
  { apply ready_with_db; [exact Hp | apply Hp | apply Hp]. }
  assert (Hrow : hit row = true).
  { unfold hit, Schema.checkpoint_key, row. cbn.
    now rewrite Z.eqb_refl, String.eqb_refl. }
  split; [reflexivity|]. split; [exact Hp'|]. split; [|split].
  - rewrite (ready_getCheckpoint k _ _ Hp'). cbn [fst Sqlite.db Sqlite.with_db].
    unfold Schema.select_checkpoint. cbn [Schema.checkpoints Schema.with_checkpoints].
    fold hit. unfold rows.
    destruct (find hit (Schema.checkpoints (Sqlite.db p))) as [r|] eqn:F.
    + rewrite find_map_preserving
        by (intros x; apply checkpoint_key_same; reflexivity).
      rewrite F. cbn. apply find_some in F. destruct F as [_ F]. rewrite F.
      now destruct checkpoint.
    + rewrite (find_app_none _ _ _ F). cbn. rewrite Hrow. now destruct checkpoint.
  - intros name Hname.
    rewrite (ready_getCheckpoint k _ _ Hp'), (ready_getCheckpoint k _ _ Hp).
    cbn [fst Sqlite.db Sqlite.with_db].
    unfold Schema.select_checkpoint. cbn [Schema.checkpoints Schema.with_checkpoints].
    assert (Hmiss : forall r, Schema.checkpoint_key k name r = true -> hit r = false).
    { intros r Hr. unfold hit, Schema.checkpoint_key in *.
      apply andb_true_iff in Hr. destruct Hr as [_ Hr]. apply String.eqb_eq in Hr.
      apply andb_false_iff. right. apply String.eqb_neq. congruence. }
    unfold rows. destruct (find hit (Schema.checkpoints (Sqlite.db p))) as [r|] eqn:F.
    + rewrite find_map_preserving
        by (intros x; apply checkpoint_key_same; reflexivity).
      destruct (find (Schema.checkpoint_key k name) _) as [r'|] eqn:F'; [|reflexivity].
      cbn. apply find_some in F'. destruct F' as [_ F']. now rewrite (Hmiss r' F').
    + rewrite find_snoc_miss; [reflexivity|].
      unfold Schema.checkpoint_key, row. cbn.
      apply andb_false_iff. right. apply String.eqb_neq. congruence.
  - cbn [Sqlite.db Sqlite.with_db Schema.checkpoints Schema.with_checkpoints].
    unfold Schema.select_checkpoint. fold hit. unfold rows.
    destruct (find hit (Schema.checkpoints (Sqlite.db p))).
    + apply length_map.
    + rewrite length_app. cbn. apply Nat.add_1_r.
Qed.

Lemma createCheckpoint_then_getCheckpoint_witness :
  fst (Sqlite.getCheckpoint "before-review"
         (snd (Sqlite.createCheckpoint sample_checkpoint sample_plan)))
  = ok_data sample_checkpoint.
Proof.
  destruct (createCheckpoint_then_getCheckpoint 1 sample_checkpoint sample_plan
              sample_plan_ready)
    as (_ & _ & H & _).
  exact H.
Defined.

(** X6.  A checkpoint that does not exist.  On a provider that is ready,
    [getCheckpoint] of a name the plan holds no checkpoint for returns
    success with [null], and [restoreCheckpoint] of that name returns
    the failure [Checkpoint not found: name] and changes nothing in the
    database. *)
Theorem restoreCheckpoint_not_found (k : Z) (name : string) (p : Sqlite.Provider) :
  ready k p ->
  Schema.select_checkpoint k name (Sqlite.db p) = None ->
  fst (Sqlite.getCheckpoint name p) = ok_null
  /\ fst (Sqlite.restoreCheckpoint name p) = failure ("Checkpoint not found: " ++ name)
  /\ Sqlite.db (snd (Sqlite.restoreCheckpoint name p)) = Sqlite.db p.
Proof.
  intros Hp Hnone. unfold Sqlite.restoreCheckpoint, Sqlite.try_catch.
  rewrite (ready_getCheckpoint k name p Hp), Hnone. cbn. auto.
Qed.

Lemma restoreCheckpoint_not_found_witness :
  fst (Sqlite.restoreCheckpoint "never-taken" sample_plan)
  = failure "Checkpoint not found: never-taken"
  /\ Sqlite.db (snd (Sqlite.restoreCheckpoint "never-taken" sample_plan))
     = Sqlite.db sample_plan.
Proof.
  destruct (restoreCheckpoint_not_found 1 "never-taken" sample_plan sample_plan_ready)
    as (_ & H1 & H2).
  - vm_compute. reflexivity.
  - split; [exact H1 | exact H2].
Defined.

(** What a call of [restoreCheckpoint] has done to the database: nothing
    when it fails, and the statements of the restore when it succeeds. *)
Lemma restoreCheckpoint_effect (name : string) (p p' : Sqlite.Provider)
  (r : StorageResult unit) :
  Sqlite.restoreCheckpoint name p = (r, p') ->
  (success r = false -> Sqlite.db p' = Sqlite.db p)
  /\ (success r = true ->
      exists k row clock start,
        Sqlite.planId p' = Some k
        /\ Schema.select_checkpoint k name (Sqlite.db p) = Some row
        /\ run_all (restore_statements k (Schema.ck_snapshot row) clock start)
                   (Sqlite.db p) = Some (Sqlite.db p')).
Proof.
  unfold Sqlite.restoreCheckpoint, Sqlite.try_catch.
  destruct (Sqlite.getCheckpoint name p) as [cr p1] eqn:G.
  apply (lookup_method_effect "checkpoints"
           (fun k => Schema.select_checkpoint k name) Sqlite.checkpoint_of_row) in G.
  destruct G as [Hdb1 Hfound].
  destruct (success cr) eqn:Scr; cycle 1.
  { intros H. injection H as <- <-. cbn. split; [auto | discriminate]. }
  destruct (Hfound eq_refl) as (k & Hk1 & _ & Hdata).
  destruct (data cr) as [checkpoint|] eqn:Dcr; cycle 1.
  { intros H. injection H as <- <-. cbn. split; [auto | discriminate]. }
  destruct (Schema.select_checkpoint k name (Sqlite.db p)) as [row|] eqn:Srow;
    [|discriminate].
  cbn in Hdata. injection Hdata as ->.
  unfold Sqlite.bind at 1. unfold Sqlite.getPlanId. rewrite Hk1.
  unfold Sqlite.bind.
  destruct (Sqlite.transaction _ p1) as [[[]|e] p2] eqn:Tx;
    apply transaction_all_or_nothing in Tx.
  - destruct Tx as (qb & Hbody & Hdb2 & Hk2).
    apply restore_body_returned in Hbody. destruct Hbody as [Hrun Hkb].
    cbn [Sqlite.db Sqlite.clock Sqlite.clock_calls Sqlite.planId Sqlite.count_statement]
      in Hrun, Hkb.
    intros H. injection H as <- <-. cbn. split; [discriminate|].
    intros _. exists k, row, (Sqlite.clock p1), (Sqlite.clock_calls p1).
    split; [congruence|]. split; [exact Srow|].
    rewrite Hdb1 in Hrun. now rewrite Hdb2.
  - intros H. injection H as <- <-. cbn. split; [intros _; congruence | discriminate].
Qed.

Lemma kept_by_restore_refl (d : Schema.Db) : kept_by_restore d d.
Proof. constructor; try reflexivity. exists []. now rewrite app_nil_r. Qed.

Lemma kept_by_restore_trans (a b c : Schema.Db) :
  kept_by_restore a b -> kept_by_restore b c -> kept_by_restore a c.
Proof.
  intros [S1 P1 (x & F1) T1 E1 B1 C1] [S2 P2 (y & F2) T2 E2 B2 C2].
  constructor; try congruence.
  exists (x ++ y). now rewrite F2, F1, app_assoc.
Qed.

Lemma run_all_kept (statements : list (Schema.Statement unit)) :
  Forall (fun s => forall d d', s d = inl (tt, d') -> kept_by_restore d d') statements ->
  forall d d', run_all statements d = Some d' -> kept_by_restore d d'.
Proof.
  induction 1 as [|s l Hs _ IH]; intros d d' H; cbn in H.
  - injection H as <-. apply kept_by_restore_refl.
  - destruct (s d) as [[[] d1]|e] eqn:E; [|discriminate].
    eapply kept_by_restore_trans; [apply (Hs _ _ E) | now apply IH].
Qed.

Lemma restore_plan_kept (k : Z) (metadata : PlanMetadata) (t : string)
  (d d' : Schema.Db) :
  Schema.update_plans k (Sqlite.restore_plan_columns metadata t) d = inl (tt, d') ->
  kept_by_restore d d'.
Proof.
  unfold Schema.update_plans. intros H. injection H as <-.
  constructor; try reflexivity.
  - cbn. rewrite map_map. apply map_ext. intros r.
    now destruct (Z.eqb (Schema.plans_id r) k).
  - exists []. now rewrite app_nil_r.
Qed.

Lemma restore_step_kept (k : Z) (step : SnapshotStep) (d d' : Schema.Db) :
  Schema.update_plan_steps k (ss_number step) (Sqlite.restore_step_columns step) d
  = inl (tt, d') ->
  kept_by_restore d d'.
Proof.
  unfold Schema.update_plan_steps. intros H. injection H as <-.
  constructor; try reflexivity.
  - cbn. rewrite map_map. apply map_ext. intros r.
    now destruct (Schema.step_key k (ss_number step) r).
  - exists []. now rewrite app_nil_r.
Qed.

Lemma upsert_file_kept (row : Schema.FileRow) (d d' : Schema.Db) :
  Schema.upsert_plan_file row d = inl (tt, d') -> kept_by_restore d d'.
Proof.
  unfold Schema.upsert_plan_file. destruct (existsb _ _).
  - intros H. injection H as <-. constructor; try reflexivity.
    exists []. cbn. rewrite app_nil_r, map_map. apply map_ext. intros r.
    now destruct (Schema.file_key _ _ _ r).
  - destruct (negb _); [discriminate|]. intros H. injection H as <-.
    constructor; try reflexivity.
    exists [file_identity row]. cbn. now rewrite map_app.
Qed.

Lemma restore_file_statements_kept (k : Z) (files : list SnapshotFile)
  (clock : nat -> string) :
  forall i,
    Forall (fun s => forall d d', s d = inl (tt, d') -> kept_by_restore d d')
           (restore_file_statements k files clock i).
Proof.
  induction files as [|file files IH]; intros i; cbn; constructor.
  - intros d d'. apply upsert_file_kept.
  - apply IH.
Qed.

(** X7.  What [restoreCheckpoint] never touches.  Whatever the call
    returns, the database afterwards holds the same steps in the same
    order with the same number, code, title, description and content (a
    restore neither adds nor removes a step, nor brings back its text);
    the same plan rows with their code and creation time; every file it
    held, with its key and creation time (a restore removes no file); and
    the same timeline, evidence, feedback and checkpoints. *)
Theorem restoreCheckpoint_keeps (name : string) (p : Sqlite.Provider) :
  kept_by_restore (Sqlite.db p) (Sqlite.db (snd (Sqlite.restoreCheckpoint name p))).
Proof.
  destruct (Sqlite.restoreCheckpoint name p) as [r p'] eqn:R.
  apply restoreCheckpoint_effect in R. destruct R as [Hfail Hok]. cbn [snd].
  destruct (success r).
  - destruct (Hok eq_refl) as (k & row & clock & start & _ & _ & Hrun).
    revert Hrun. apply run_all_kept. unfold restore_statements.
    constructor; [intros d d'; apply restore_plan_kept|].
    apply Forall_app. split.
    + apply Forall_forall. intros s Hs. apply in_map_iff in Hs.
      destruct Hs as (step & <- & _). intros d d'. apply restore_step_kept.
    + apply restore_file_statements_kept.
  - rewrite (Hfail eq_refl). apply kept_by_restore_refl.
Qed.

Lemma with_plan_steps_same (d : Schema.Db) :
  Schema.with_plan_steps (Schema.plan_steps d) d = d.
Proof. now destruct d. Qed.

Lemma run_all_restore_steps (k : Z) (steps : list SnapshotStep) :
  forall d,
    run_all (map (fun step => Schema.update_plan_steps k (ss_number step)
                                (Sqlite.restore_step_columns step)) steps) d
    = Some (Schema.with_plan_steps
              (map (restored_step_row k steps) (Schema.plan_steps d)) d).
Proof.
  induction steps as [|step steps IH]; intros d; cbn [map run_all].
  - unfold restored_step_row. cbn. now rewrite map_id, with_plan_steps_same.
  - unfold Schema.update_plan_steps at 1. rewrite IH. cbn. now rewrite map_map.
Qed.

Lemma restored_step_row_key (k : Z) (steps : list SnapshotStep) :
  forall r,
    Schema.steps_plan_id (restored_step_row k steps r) = Schema.steps_plan_id r
    /\ Schema.steps_number (restored_step_row k steps r) = Schema.steps_number r.
Proof.
  unfold restored_step_row.
  induction steps as [|step steps IH]; intros r; cbn [fold_left]; [auto|].
  destruct (IH (if Schema.step_key k (ss_number step) r
                then Sqlite.restore_step_columns step r else r)) as [-> ->].
  now destruct (Schema.step_key k (ss_number step) r).
Qed.

Lemma restored_step_row_untouched (k n : Z) (steps : list SnapshotStep) :
  forall r,
    Schema.steps_number r = n ->
    (forall step, In step steps -> ss_number step <> n) ->
    restored_step_row k steps r = r.
Proof.
  unfold restored_step_row.
  induction steps as [|step steps IH]; intros r Hn Hother; cbn [fold_left]; [reflexivity|].
  assert (Hmiss : Schema.step_key k (ss_number step) r = false).
  { unfold Schema.step_key. apply andb_false_iff. right. apply Z.eqb_neq.
    rewrite Hn. intros E. apply (Hother step); [now left | congruence]. }
  rewrite Hmiss. apply IH; [exact Hn|]. intros s Hs. apply Hother. now right.
Qed.

Lemma restored_step_row_status (k : Z) (steps : list SnapshotStep) (step : SnapshotStep) :
  NoDup (map ss_number steps) -> In step steps ->
  forall r,
    Schema.step_key k (ss_number step) r = true ->
    Schema.steps_status (restored_step_row k steps r) = ss_status step
    /\ Schema.steps_started_at (restored_step_row k steps r) = or_null (ss_startedAt step)
    /\ Schema.steps_completed_at (restored_step_row k steps r)
       = or_null (ss_completedAt step).
Proof.
  induction steps as [|s steps IH]; intros Hnd Hin r Hkey; [contradiction|].
  inversion Hnd as [|? ? Hnotin Hnd']; subst.
  assert (Hnum : Schema.steps_number r = ss_number step).
  { unfold Schema.step_key in Hkey. apply andb_true_iff in Hkey.
    destruct Hkey as [_ Hkey]. now apply Z.eqb_eq. }
  change (restored_step_row k (s :: steps) r)
    with (restored_step_row k steps
            (if Schema.step_key k (ss_number s) r
             then Sqlite.restore_step_columns s r else r)).
  destruct Hin as [->|Hin].
  - rewrite Hkey.
    rewrite (restored_step_row_untouched k (ss_number step)); [cbn; auto | exact Hnum |].
    intros s' Hs' E. apply Hnotin. rewrite <- E. now apply in_map.
  - apply IH; [exact Hnd' | exact Hin |].
    destruct (Schema.step_key k (ss_number s) r); [|exact Hkey].
    exact Hkey.
Qed.

(** An upsert of a file leaves the plan rows and the steps as they are. *)
Lemma upsert_file_elsewhere (row : Schema.FileRow) (d d' : Schema.Db) :
  Schema.upsert_plan_file row d = inl (tt, d') ->
  Schema.plans d' = Schema.plans d /\ Schema.plan_steps d' = Schema.plan_steps d.
Proof.
  unfold Schema.upsert_plan_file. destruct (existsb _ _).
  - intros H. injection H as <-. auto.
  - destruct (negb _); [discriminate|]. intros H. injection H as <-. auto.
Qed.

Lemma restore_files_elsewhere (k : Z) (files : list SnapshotFile) (clock : nat -> string) :
  forall i d d',
    run_all (restore_file_statements k files clock i) d = Some d' ->
    Schema.plans d' = Schema.plans d /\ Schema.plan_steps d' = Schema.plan_steps d.
Proof.
  induction files as [|file files IH]; intros i d d' H; cbn in H.
  - injection H as <-. auto.
  - destruct (Schema.upsert_plan_file _ d) as [[[] d1]|e] eqn:E; [|discriminate].
    apply upsert_file_elsewhere in E. destruct E as [E1 E2].
    apply IH in H. destruct H as [H1 H2]. split; congruence.
Qed.

(** An upsert under another key leaves the rows of a key as they are. *)
Lemma upsert_file_other_key (row : Schema.FileRow) (d d' : Schema.Db)
  (k : Z) (type filename content : string) :
  Schema.upsert_plan_file row d = inl (tt, d') ->
  Schema.file_key k type filename row = false ->
  existsb (Schema.file_key k type filename) (Schema.plan_files d) = true
  /\ (forall r, In r (Schema.plan_files d) -> Schema.file_key k type filename r = true ->
                Schema.files_content r = content) ->
  existsb (Schema.file_key k type filename) (Schema.plan_files d') = true
  /\ (forall r, In r (Schema.plan_files d') -> Schema.file_key k type filename r = true ->
                Schema.files_content r = content).
Proof.
  intros Hup Hrow [Hex Hall].
  assert (Hother : forall x,
            Schema.file_key (Schema.files_plan_id row) (Schema.files_file_type row)
              (Schema.files_filename row) x = true ->
            Schema.file_key k type filename x = false).
  { intros x Hx. unfold Schema.file_key in *.
    apply andb_true_iff in Hx. destruct Hx as [H1 Hx].
    apply andb_true_iff in Hx. destruct Hx as [H2 H3].
    apply Z.eqb_eq in H1. apply String.eqb_eq in H2, H3.
    now rewrite H1, H2, H3. }
  unfold Schema.upsert_plan_file in Hup.
  set (hit := Schema.file_key (Schema.files_plan_id row) (Schema.files_file_type row)
                (Schema.files_filename row)) in *.
  cbv zeta in Hup. destruct (existsb hit (Schema.plan_files d)).
  - injection Hup as <-. cbn. split.
    + apply existsb_exists in Hex. destruct Hex as (x & Hx & Hkey).
      apply existsb_exists. exists x. split; [|exact Hkey].
      apply in_map_iff. exists x. split; [|exact Hx].
      destruct (hit x) eqn:E; [|reflexivity].
      apply Hother in E. congruence.
    + intros r Hr Hkey. apply in_map_iff in Hr. destruct Hr as (x & <- & Hx).
      destruct (hit x) eqn:E.
      * exfalso. apply Hother in E. unfold Schema.file_key in *. cbn in Hkey. congruence.
      * now apply Hall.
  - destruct (negb _); [discriminate|]. injection Hup as <-. cbn. split.
    + rewrite existsb_app, Hex. reflexivity.
    + intros r Hr Hkey. apply in_app_or in Hr. destruct Hr as [Hr|[<-|[]]].
      * now apply Hall.
      * congruence.
Qed.

Lemma restore_files_other_keys (k : Z) (files : list SnapshotFile) (clock : nat -> string)
  (type filename content : string) :
  (forall f, In f files -> (sf_type f, sf_filename f) <> (type, filename)) ->
  forall i d d',
    run_all (restore_file_statements k files clock i) d = Some d' ->
    existsb (Schema.file_key k type filename) (Schema.plan_files d) = true
    /\ (forall r, In r (Schema.plan_files d) -> Schema.file_key k type filename r = true ->
                  Schema.files_content r = content) ->
    existsb (Schema.file_key k type filename) (Schema.plan_files d') = true
    /\ (forall r, In r (Schema.plan_files d') -> Schema.file_key k type filename r = true ->
                  Schema.files_content r = content).
Proof.
  induction files as [|file files IH]; intros Hother i d d' H Q; cbn in H.
  - now injection H as <-.
  - destruct (Schema.upsert_plan_file _ d) as [[[] d1]|e] eqn:E; [|discriminate].
    apply (IH (fun f Hf => Hother f (or_intror Hf)) _ _ _ H).
    apply (upsert_file_other_key _ _ _ _ _ _ _ E); [|exact Q].
    unfold Schema.file_key. cbn. rewrite Z.eqb_refl. cbn. apply andb_false_iff.
    destruct (String.eqb_spec (sf_type file) type) as [E1|]; [|now left].
    destruct (String.eqb_spec (sf_filename file) filename) as [E2|]; [|now right].
    exfalso. apply (Hother file (or_introl eq_refl)). now rewrite E1, E2.
Qed.

Lemma restore_files_stored (k : Z) (files : list SnapshotFile) (clock : nat -> string) :
  NoDup (map (fun f => (sf_type f, sf_filename f)) files) ->
  forall i d d',
    run_all (restore_file_statements k files clock i) d = Some d' ->
    forall file, In file files ->
      existsb (Schema.file_key k (sf_type file) (sf_filename file)) (Schema.plan_files d')
      = true
      /\ (forall r, In r (Schema.plan_files d') ->
                    Schema.file_key k (sf_type file) (sf_filename file) r = true ->
                    Schema.files_content r = sf_content file).
Proof.
  induction files as [|f files IH]; intros Hnd i d d' H file Hin; [contradiction|].
  inversion Hnd as [|? ? Hnotin Hnd']; subst. cbn in H.
  destruct (Schema.upsert_plan_file _ d) as [[[] d1]|e] eqn:E; [|discriminate].
  destruct Hin as [->|Hin]; [|now apply (IH Hnd' _ _ _ H)].
  apply (restore_files_other_keys k files clock _ _ (sf_content file)) with (i := S (S i))
                                                                            (d := d1).
  - intros f' Hf' Ekey. apply Hnotin. apply in_map_iff. exists f'. auto.
  - exact H.
  - pose proof (upsert_plan_file_stored k
                  {| pf_type := sf_type file; pf_filename := sf_filename file;
                     pf_content := sf_content file; pf_createdAt := clock i;
                     pf_updatedAt := clock (S i) |} d d1 E) as [Hex Hall].
    split; [exact Hex|]. intros r Hr Hkey. now apply Hall.
Qed.

(** What the statements of a restore leave in the database. *)
Lemma restore_statements_effect (k : Z) (snapshot : CheckpointSnapshot)
  (clock : nat -> string) (start : nat) (d d' : Schema.Db) :
  run_all (restore_statements k snapshot clock start) d = Some d' ->
  (forall plan,
     Schema.select_plan k d' = Some plan ->
     Schema.plans_name plan = md_name (snap_metadata snapshot)
     /\ Schema.plans_description plan = or_null (md_description (snap_metadata snapshot))
     /\ Schema.plans_stage plan = md_stage (snap_metadata snapshot))
  /\ (NoDup (map ss_number (snap_steps snapshot)) ->
      forall step stored,
        In step (snap_steps snapshot) ->
        Schema.select_step k (ss_number step) d' = Some stored ->
        Schema.steps_status stored = ss_status step
        /\ Schema.steps_started_at stored = or_null (ss_startedAt step)
        /\ Schema.steps_completed_at stored = or_null (ss_completedAt step))
  /\ (NoDup (map (fun f => (sf_type f, sf_filename f)) (snap_files snapshot)) ->
      forall file,
        In file (snap_files snapshot) ->
        exists stored,
          Schema.select_file k (sf_type file) (sf_filename file) d' = Some stored
          /\ Schema.files_content stored = sf_content file).
Proof.
  intros Hrun.
  unfold restore_statements in Hrun. cbn [run_all] in Hrun.
  unfold Schema.update_plans at 1 in Hrun.
  rewrite (run_all_app _ _ _ _ (run_all_restore_steps k _ _)) in Hrun.
  cbn [Schema.plan_steps Schema.with_plans] in Hrun.
  pose proof (restore_files_elsewhere _ _ _ _ _ _ Hrun) as [Hplans Hsteps].
  cbn in Hplans, Hsteps.
  split; [|split].
  - intros plan Hplan. unfold Schema.select_plan in Hplan. rewrite Hplans in Hplan.
    rewrite find_map_preserving in Hplan
      by (intros x; cbn; destruct (Z.eqb (Schema.plans_id x) k) eqn:E; cbn; assumption).
    destruct (find _ (Schema.plans d)) as [old|] eqn:F; [|discriminate].
    apply find_some in F. destruct F as [_ F]. cbn in Hplan. rewrite F in Hplan.
    injection Hplan as <-. cbn. auto.
  - intros Hnd step stored Hin Hstored.
    unfold Schema.select_step in Hstored. rewrite Hsteps in Hstored.
    rewrite find_map_preserving in Hstored.
    + destruct (find _ (Schema.plan_steps d)) as [old|] eqn:F; [|discriminate].
      apply find_some in F. destruct F as [_ F]. cbn in Hstored.
      injection Hstored as <-. now apply restored_step_row_status.
    + intros x. unfold Schema.step_key.
      now destruct (restored_step_row_key k (snap_steps snapshot) x)
        as [-> ->].
  - intros Hnd file Hin.
    destruct (restore_files_stored k _ clock Hnd _ _ _ Hrun file Hin) as [Hex Hall].
    unfold Schema.select_file. rewrite existsb_find in Hex.
    destruct (find _ (Schema.plan_files d')) as [stored|] eqn:F;
      [|discriminate].
    exists stored. split; [reflexivity|].
    apply find_some in F. destruct F as [Hin' Hkey]. now apply Hall.
Qed.

(** X8.  What a successful [restoreCheckpoint] establishes.  The
    checkpoint of that name was found; the plan row then carries the
    name, description and stage of its snapshot; every step that the
    snapshot lists carries the status and the two timestamps recorded for
    it (the snapshot listing each step number once); and for every file
    that the snapshot lists (each key once) [plan_files] holds a row of
    that key, and every such row carries the recorded content. *)
Theorem restoreCheckpoint_restores (name : string) (p p' : Sqlite.Provider)
  (r : StorageResult unit) :
  Sqlite.restoreCheckpoint name p = (r, p') ->
  success r = true ->
  exists k row,
    Sqlite.planId p' = Some k
    /\ Schema.select_checkpoint k name (Sqlite.db p) = Some row
    /\ (forall plan,
          Schema.select_plan k (Sqlite.db p') = Some plan ->
          Schema.plans_name plan = md_name (snap_metadata (Schema.ck_snapshot row))
          /\ Schema.plans_description plan
             = or_null (md_description (snap_metadata (Schema.ck_snapshot row)))
          /\ Schema.plans_stage plan = md_stage (snap_metadata (Schema.ck_snapshot row)))
    /\ (NoDup (map ss_number (snap_steps (Schema.ck_snapshot row))) ->
        forall step stored,
          In step (snap_steps (Schema.ck_snapshot row)) ->
          Schema.select_step k (ss_number step) (Sqlite.db p') = Some stored ->
          Schema.steps_status stored = ss_status step
          /\ Schema.steps_started_at stored = or_null (ss_startedAt step)
          /\ Schema.steps_completed_at stored = or_null (ss_completedAt step))
    /\ (NoDup (map (fun f => (sf_type f, sf_filename f))
                   (snap_files (Schema.ck_snapshot row))) ->
        forall file,
          In file (snap_files (Schema.ck_snapshot row)) ->
          exists stored,
            Schema.select_file k (sf_type file) (sf_filename file) (Sqlite.db p')
            = Some stored
            /\ Schema.files_content stored = sf_content file).
Proof.
  intros R Hok. apply restoreCheckpoint_effect in R. destruct R as [_ R].
  destruct (R Hok) as (k & row & clock & start & Hk & Hrow & Hrun).
  exists k, row. split; [exact Hk|]. split; [exact Hrow|].
  exact (restore_statements_effect _ _ _ _ _ _ Hrun).
Qed.

Lemma restoreCheckpoint_restores_witness :
  exists k row,
    Sqlite.planId (snd (Sqlite.restoreCheckpoint "before-review" checkpointed_plan))
    = Some k
    /\ Schema.select_checkpoint k "before-review" (Sqlite.db checkpointed_plan) = Some row
    /\ forall plan,
         Schema.select_plan k
           (Sqlite.db (snd (Sqlite.restoreCheckpoint "before-review" checkpointed_plan)))
         = Some plan ->
         Schema.plans_stage plan = md_stage (snap_metadata (Schema.ck_snapshot row)).
Proof.
  destruct (restoreCheckpoint_restores "before-review" checkpointed_plan
              (snd (Sqlite.restoreCheckpoint "before-review" checkpointed_plan))
              (fst (Sqlite.restoreCheckpoint "before-review" checkpointed_plan)))
    as (k & row & Hk & Hrow & Hplan & _).
  - apply surjective_pairing.
  - vm_compute. reflexivity.
  - exists k, row. split; [exact Hk|]. split; [exact Hrow|].
    intros plan H. now apply Hplan.
Defined.

(** ** A checkpoint of the current state *)

(** A successful [restoreCheckpoint] ran the statements of the snapshot
    that [getCheckpoint] returns for that name. *)
Lemma restoreCheckpoint_effect_found (name : string) (p p' : Sqlite.Provider)
  (r : StorageResult unit) :
  Sqlite.restoreCheckpoint name p = (r, p') -> success r = true ->
  exists k checkpoint clock start,
    Sqlite.planId p' = Some k
    /\ data (fst (Sqlite.getCheckpoint name p)) = Some checkpoint
    /\ run_all (restore_statements k (cp_snapshot checkpoint) clock start) (Sqlite.db p)
       = Some (Sqlite.db p').
Proof.
  unfold Sqlite.restoreCheckpoint, Sqlite.try_catch.
  destruct (Sqlite.getCheckpoint name p) as [cr p1] eqn:G.
  apply (lookup_method_effect "checkpoints"
           (fun k => Schema.select_checkpoint k name) Sqlite.checkpoint_of_row) in G.
  destruct G as [Hdb1 Hfound].
  destruct (success cr) eqn:Scr; cycle 1.
  { intros H. injection H as <- <-. discriminate. }
  destruct (Hfound eq_refl) as (k & Hk1 & _ & Hdata).
  destruct (data cr) as [checkpoint|] eqn:Dcr; cycle 1.
  { intros H. injection H as <- <-. discriminate. }
  unfold Sqlite.bind at 1. unfold Sqlite.getPlanId. rewrite Hk1.
  unfold Sqlite.bind.
  destruct (Sqlite.transaction _ p1) as [[[]|e] p2] eqn:Tx;
    apply transaction_all_or_nothing in Tx.
  - destruct Tx as (qb & Hbody & Hdb2 & Hk2).
    apply restore_body_returned in Hbody. destruct Hbody as [Hrun Hkb].
    cbn [Sqlite.db Sqlite.clock Sqlite.clock_calls Sqlite.planId Sqlite.count_statement]
      in Hrun, Hkb.
    intros H. injection H as <- <-. intros _.
    exists k, checkpoint, (Sqlite.clock p1), (Sqlite.clock_calls p1).
    split; [cbn; congruence|]. split; [exact Dcr|].
    rewrite Hdb1 in Hrun. cbn. now rewrite Hdb2.
  - intros H. injection H as <- <-. discriminate.
Qed.

(** [createSnapshot] on a provider that is ready. *)
Lemma ready_createSnapshot (k : Z) (p : Sqlite.Provider) :
  ready k p ->
  exists snapshot,
    fst (Sqlite.createSnapshot p) = Sqlite.Returned snapshot
    /\ fst (Sqlite.getMetadata p) = ok_data (snap_metadata snapshot)
    /\ snap_steps snapshot
       = map (fun s => {| ss_number := st_number s;
                          ss_status := st_status s;
                          ss_startedAt := st_startedAt s;
                          ss_completedAt := st_completedAt s |})
             (map Sqlite.step_of_row (Schema.select_steps k (Sqlite.db p)))
    /\ snap_files snapshot
       = map (fun f => {| sf_type := pf_type f;
                          sf_filename := pf_filename f;
                          sf_content := pf_content f |})
             (map Sqlite.file_of_row (Schema.select_files k (Sqlite.db p))).
Proof.
  intros Hp. unfold Sqlite.createSnapshot.
  destruct (ready_getMetadata k p Hp) as (row & _ & ->).
  rewrite (ready_getSteps k _ (ready_count_statement k p Hp)).
  rewrite (ready_getFiles k _ (ready_count_statement k _ (ready_count_statement k p Hp))).
  eexists. cbn. repeat split; reflexivity.
Qed.

Lemma sample_plan_constraints : constraints_hold (Sqlite.db sample_plan).
Proof.
  constructor; vm_compute;
    repeat (constructor; [intros H; simpl in H; intuition discriminate|]);
    constructor.
Qed.

(** X23.  A checkpoint of the current state, restored later.  Take the
    snapshot that [createSnapshot] returns for a plan, and restore, at any
    later time and through any handle, a checkpoint that holds it.  When
    the restore succeeds, every step that the plan had when the snapshot
    was taken and that is still stored has the status and the two
    timestamps it had then, and every file that the plan had then is
    stored with the content it had then. *)
Theorem createSnapshot_then_restore (k k' : Z) (name : string)
  (p later p' : Sqlite.Provider) (checkpoint : Checkpoint) (r : StorageResult unit) :
  ready k p -> constraints_hold (Sqlite.db p) ->
  data (fst (Sqlite.getCheckpoint name later)) = Some checkpoint ->
  fst (Sqlite.createSnapshot p) = Sqlite.Returned (cp_snapshot checkpoint) ->
  Sqlite.restoreCheckpoint name later = (r, p') -> success r = true ->
  Sqlite.planId p' = Some k' ->
  (forall steps step stored,
     fst (Sqlite.getSteps p) = ok_data steps -> In step steps ->
     Schema.select_step k' (st_number step) (Sqlite.db p') = Some stored ->
     st_status (Sqlite.step_of_row stored) = st_status step
     /\ st_startedAt (Sqlite.step_of_row stored) = st_startedAt step
     /\ st_completedAt (Sqlite.step_of_row stored) = st_completedAt step)
  /\ (forall files file,
        fst (Sqlite.getFiles p) = ok_data files -> In file files ->
        exists stored,
          Schema.select_file k' (pf_type file) (pf_filename file) (Sqlite.db p')
          = Some stored
          /\ pf_content (Sqlite.file_of_row stored) = pf_content file).
Proof.
  intros Hp Hc Hcp Hsnap R Hok Hk'.
  destruct (restoreCheckpoint_effect_found _ _ _ _ R Hok)
    as (k0 & checkpoint0 & clock & start & Hk0 & Hcp0 & Hrun).
  assert (k0 = k') by congruence. subst k0.
  assert (checkpoint0 = checkpoint) by congruence. subst checkpoint0.
  destruct (ready_createSnapshot k p Hp) as (snapshot & Hs & _ & Hsteps & Hfiles).
  assert (snapshot = cp_snapshot checkpoint) by congruence. subst snapshot.
  destruct (restore_statements_effect _ _ _ _ _ _ Hrun) as (_ & Hst & Hfl).
  split.
  - intros steps step stored Hget Hin Hstored.
    rewrite (ready_getSteps k p Hp) in Hget. cbn in Hget. injection Hget as <-.
    destruct (Hst) with
      (step := {| ss_number := st_number step; ss_status := st_status step;
                  ss_startedAt := st_startedAt step;
                  ss_completedAt := st_completedAt step |})
      (stored := stored) as (H1 & H2 & H3).
    + rewrite Hsteps, map_map. exact (selected_steps_distinct k _ Hc).
    + rewrite Hsteps. apply in_map_iff. exists step. split; [reflexivity | exact Hin].
    + exact Hstored.
    + cbn in H1, H2, H3. unfold Sqlite.step_of_row. cbn. rewrite H1, H2, H3.
      apply in_map_iff in Hin. destruct Hin as (row & <- & _). cbn.
      now rewrite !or_null_idempotent.
  - intros files file Hget Hin.
    rewrite (ready_getFiles k p Hp) in Hget. cbn in Hget. injection Hget as <-.
    destruct (Hfl) with
      (file := {| sf_type := pf_type file; sf_filename := pf_filename file;
                  sf_content := pf_content file |})
      as (stored & H1 & H2).
    + rewrite Hfiles, map_map. exact (selected_files_distinct k _ Hc).
    + rewrite Hfiles. apply in_map_iff. exists file. split; [reflexivity | exact Hin].
    + exists stored. split; [exact H1 | exact H2].
Qed.

Lemma createSnapshot_then_restore_witness :
  exists stored,
    Schema.select_step 1 2
      (Sqlite.db (snd (Sqlite.restoreCheckpoint "before-review" checkpointed_plan)))
    = Some stored
    /\ st_status (Sqlite.step_of_row stored) = "in_progress"%string.
Proof.
  destruct (Schema.select_step 1 2
              (Sqlite.db (snd (Sqlite.restoreCheckpoint "before-review"
                                 checkpointed_plan))))
    as [stored|] eqn:Hstored; [|vm_compute in Hstored; discriminate].
  exists stored. split; [reflexivity|].
  destruct (createSnapshot_then_restore 1 1 "before-review" sample_plan checkpointed_plan
              (snd (Sqlite.restoreCheckpoint "before-review" checkpointed_plan))
              sample_checkpoint
              (fst (Sqlite.restoreCheckpoint "before-review" checkpointed_plan)))
    as (Hsteps & _).
  - exact sample_plan_ready.
  - apply sample_plan_constraints.
  - vm_compute. reflexivity.
  - vm_compute. reflexivity.
  - apply surjective_pairing.
  - vm_compute. reflexivity.
  - vm_compute. reflexivity.
  - destruct (Hsteps _ (sample_step 2 "Second Step" "in_progress"
                          "jwt Jwt JWT jwT jWt: refresh and rotate")
                stored (f_equal fst (ready_getSteps 1 sample_plan sample_plan_ready)))
      as (H & _).
    + vm_compute. auto.
    + exact Hstored.
    + exact H.
Defined.

(** ** Files, steps in order, evidence and feedback *)

Lemma ready_getFile (k : Z) (type filename : string) (p : Sqlite.Provider) :
  ready k p ->
  Sqlite.getFile type filename p
  = (match Schema.select_file k type filename (Sqlite.db p) with
     | None => ok_null
     | Some r => ok_data (Sqlite.file_of_row r)
     end,
     Sqlite.count_statement p).
Proof.
  apply (ready_lookup_method "plan_files" (fun k => Schema.select_file k type filename)
           Sqlite.file_of_row).
Qed.

Lemma files_without_key (k : Z) (type filename : string) (l : list Schema.FileRow) :
  map Sqlite.file_of_row
    (filter (fun r => Z.eqb (Schema.files_plan_id r) k)
            (filter (fun r => negb (Schema.file_key k type filename r)) l))
  = filter (fun f => negb (andb (String.eqb (pf_type f) type)
                                (String.eqb (pf_filename f) filename)))
           (map Sqlite.file_of_row
                (filter (fun r => Z.eqb (Schema.files_plan_id r) k) l)).
Proof.
  induction l as [|x l IH]; [reflexivity|].
  cbn [filter]. unfold Schema.file_key at 1.
  destruct (Z.eqb (Schema.files_plan_id x) k) eqn:E; cbn [andb negb map filter].
  - cbn [Sqlite.file_of_row pf_type pf_filename].
    destruct (andb (String.eqb (Schema.files_file_type x) type)
                   (String.eqb (Schema.files_filename x) filename));
      cbn [negb filter map]; rewrite ?E; cbn [map]; rewrite IH; reflexivity.
  - rewrite E. exact IH.
Qed.

(** X24.  [deleteFile].  On a provider that is ready, [deleteFile] always
    succeeds; afterwards [getFile] of that type and name returns [null],
    [getFile] of every other type or name returns what it returned
    before, and [getFiles] returns the files it returned before without
    the deleted one.  Deleting a file that the plan does not hold changes
    nothing in the database. *)
Theorem deleteFile_removes_that_file (k : Z) (type filename : string)
  (p : Sqlite.Provider) :
  ready k p ->
  fst (Sqlite.deleteFile type filename p) = ok_void
  /\ ready k (snd (Sqlite.deleteFile type filename p))
  /\ fst (Sqlite.getFile type filename (snd (Sqlite.deleteFile type filename p))) = ok_null
  /\ (forall type' filename', (type', filename') <> (type, filename) ->
        fst (Sqlite.getFile type' filename' (snd (Sqlite.deleteFile type filename p)))
        = fst (Sqlite.getFile type' filename' p))
  /\ (forall files,
        fst (Sqlite.getFiles p) = ok_data files ->
        fst (Sqlite.getFiles (snd (Sqlite.deleteFile type filename p)))
        = ok_data (filter (fun f => negb (andb (String.eqb (pf_type f) type)
                                               (String.eqb (pf_filename f) filename)))
                          files))
  /\ (Schema.select_file k type filename (Sqlite.db p) = None ->
      Sqlite.db (snd (Sqlite.deleteFile type filename p)) = Sqlite.db p).
Proof.
  intros Hp.
  assert (Hdel : Sqlite.deleteFile type filename p
                 = (ok_void,
                    Sqlite.with_db
                      (Schema.with_plan_files
                         (filter (fun r => negb (Schema.file_key k type filename r))
                                 (Schema.plan_files (Sqlite.db p)))
                         (Sqlite.db p))
                      (Sqlite.count_statement p))).
  { unfold Sqlite.deleteFile.
    now rewrite (ready_write_outcome "plan_files"
                   (fun k => Schema.delete_plan_files k type filename) k p Hp). }
  rewrite Hdel. cbn [fst snd].
  assert (Hp' : ready k (Sqlite.with_db
                           (Schema.with_plan_files
                              (filter (fun r => negb (Schema.file_key k type filename r))
                                      (Schema.plan_files (Sqlite.db p)))
                              (Sqlite.db p))
                           (Sqlite.count_statement p))).
  { apply ready_with_db; [exact Hp | apply Hp | apply Hp]. }
  split; [reflexivity|]. split; [exact Hp'|]. split; [|split; [|split]].
  - rewrite (ready_getFile k _ _ _ Hp'). cbn [fst Sqlite.db Sqlite.with_db].
    unfold Schema.select_file. cbn [Schema.plan_files Schema.with_plan_files].
    now rewrite find_filter_out.
  - intros type' filename' Hne.
    rewrite (ready_getFile k _ _ _ Hp'), (ready_getFile k _ _ _ Hp).
    cbn [fst Sqlite.db Sqlite.with_db].
    unfold Schema.select_file. cbn [Schema.plan_files Schema.with_plan_files].
    rewrite find_filter_miss; [reflexivity|].
    intros x Hx. unfold Schema.file_key in *.
    apply andb_true_iff in Hx. destruct Hx as [_ Hx].
    apply andb_true_iff in Hx. destruct Hx as [Hx1 Hx2].
    apply String.eqb_eq in Hx1, Hx2.
    apply negb_true_iff, andb_false_iff. right. apply andb_false_iff.
    destruct (String.eqb_spec (Schema.files_file_type x) type) as [E1|]; [|now left].
    destruct (String.eqb_spec (Schema.files_filename x) filename) as [E2|]; [|now right].
    exfalso. apply Hne. congruence.
  - intros files Hget. rewrite (ready_getFiles k _ Hp) in Hget. cbn in Hget.
    injection Hget as <-. rewrite (ready_getFiles k _ Hp').
    cbn [fst Sqlite.db Sqlite.with_db]. f_equal.
    unfold Schema.select_files. cbn [Schema.plan_files Schema.with_plan_files].
    apply files_without_key.
  - intros Habsent. cbn [Sqlite.db Sqlite.with_db].
    rewrite filter_all; [now destruct (Sqlite.db p)|].
    intros x Hx. apply negb_true_iff.
    unfold Schema.select_file in Habsent. now apply (find_none _ _ Habsent).
Qed.

Lemma deleteFile_removes_that_file_witness :
  fst (Sqlite.getFile "idea" "IDEA.md" (snd (Sqlite.deleteFile "idea" "IDEA.md" sample_plan)))
  = ok_null.
Proof.
  exact (proj1 (proj2 (proj2
           (deleteFile_removes_that_file 1 "idea" "IDEA.md" sample_plan
              sample_plan_ready)))).
Defined.

Lemma sorted_distinct_increasing (l : list Z) :
  StronglySorted Z.le l -> NoDup l -> StronglySorted Z.lt l.
Proof.
  induction 1 as [|a l Hs IH Hall]; intros Hnd; constructor.
  - apply IH. now inversion Hnd.
  - inversion Hnd as [|? ? Hnotin _]; subst.
    rewrite Forall_forall in *. intros x Hx. specialize (Hall x Hx).
    assert (a <> x) by (intros ->; contradiction). lia.
Qed.

Lemma sorted_map {A B : Type} (R : A -> A -> Prop) (R' : B -> B -> Prop) (f : A -> B)
  (l : list A) :
  (forall x y, R x y -> R' (f x) (f y)) ->
  StronglySorted R l -> StronglySorted R' (map f l).
Proof.
  intros HR. induction 1 as [|a l Hs IH Hall]; cbn; constructor; [exact IH|].
  rewrite Forall_forall in *. intros y Hy. apply in_map_iff in Hy.
  destruct Hy as (x & <- & Hx). apply HR. now apply Hall.
Qed.

(** X25.  [getSteps] and [getStep].  On a provider that is ready, over a
    database that keeps the uniqueness constraint of [plan_steps],
    [getSteps] returns the steps of the plan by strictly increasing
    number, one for each stored row of the plan, and a step is in that
    list exactly when [getStep] of its number returns it. *)
Theorem getSteps_in_order (k : Z) (p : Sqlite.Provider) :
  ready k p -> constraints_hold (Sqlite.db p) ->
  exists steps,
    fst (Sqlite.getSteps p) = ok_data steps
    /\ StronglySorted Z.lt (map st_number steps)
    /\ List.length steps
       = List.length (filter (fun r => Z.eqb (Schema.steps_plan_id r) k)
                             (Schema.plan_steps (Sqlite.db p)))
    /\ (forall step,
          In step steps <-> fst (Sqlite.getStep (st_number step) p) = ok_data step).
Proof.
  intros Hp Hc. rewrite (ready_getSteps k p Hp). cbn [fst].
  eexists. split; [reflexivity|]. split; [|split].
  - apply sorted_distinct_increasing; [|now apply selected_steps_distinct].
    rewrite map_map. unfold Schema.select_steps.
    apply (sorted_map (fun a b => Z.leb (Schema.steps_number a) (Schema.steps_number b)
                                  = true)).
    + intros x y H. cbn. now apply Z.leb_le.
    + apply sort_by_sorted.
      * intros x y. rewrite !Z.leb_le. lia.
      * intros x y z. rewrite !Z.leb_le. lia.
  - rewrite length_map. unfold Schema.select_steps. apply sort_by_length.
  - intros step. rewrite (ready_getStep k _ p Hp). cbn [fst].
    unfold Schema.select_steps, Schema.select_step. split.
    + intros Hin. apply in_map_iff in Hin. destruct Hin as (row & <- & Hin).
      apply sort_by_in, filter_In in Hin. destruct Hin as [Hin Hk].
      cbn [Sqlite.step_of_row st_number].
      destruct (find (Schema.step_key k (Schema.steps_number row))
                     (Schema.plan_steps (Sqlite.db p))) as [row'|] eqn:F.
      * apply find_some in F. destruct F as [Hin' Hkey].
        unfold Schema.step_key in Hkey. apply andb_true_iff in Hkey.
        destruct Hkey as [H1 H2]. apply Z.eqb_eq in H1, H2, Hk.
        destruct Hc as [Hu _ _ _].
        rewrite (NoDup_map_unique _ _ row' row Hu Hin' Hin); [reflexivity|].
        congruence.
      * exfalso. apply (find_present _ _ row Hin) in F; [exact F|].
        unfold Schema.step_key. now rewrite Hk, Z.eqb_refl.
    + destruct (find _ (Schema.plan_steps (Sqlite.db p))) as [row|] eqn:F;
        [|discriminate].
      intros H. injection H as <-. apply find_some in F. destruct F as [Hin Hkey].
      unfold Schema.step_key in Hkey. apply andb_true_iff in Hkey.
      apply in_map, sort_by_in, filter_In. split; [exact Hin | apply Hkey].
Qed.

Lemma getSteps_in_order_witness :
  exists steps,
    fst (Sqlite.getSteps sample_plan) = ok_data steps
    /\ StronglySorted Z.lt (map st_number steps).
Proof.
  destruct (getSteps_in_order 1 sample_plan sample_plan_ready sample_plan_constraints)
    as (steps & H1 & H2 & _).
  exists steps. split; assumption.
Defined.

(** The writes of the shape
    [try { this.db.prepare(sql).run(x.id || randomUUID(), this.getPlanId(), ...);
           return { success: true } }]
    on a provider that is ready: the identifier used, the result, and the
    provider afterwards. *)
Lemma ready_write_with_id_outcome (table : string) (id : string)
  (stmt : string -> Z -> Schema.Statement unit) (k : Z) (p : Sqlite.Provider) :
  ready k p ->
  fst (Sqlite.try_catch
         (Sqlite.bind (Sqlite.prepare table) (fun _ =>
          Sqlite.bind (Sqlite.id_or_uuid id) (fun i =>
          Sqlite.bind Sqlite.getPlanId (fun k =>
          Sqlite.bind (Sqlite.run (stmt i k)) (fun _ => Sqlite.ret ok_void))))) p)
  = match stmt (match id with
                | EmptyString => Sqlite.uuids p (Sqlite.uuid_calls p)
                | _ => id
                end) k (Sqlite.db p) with
    | inl _ => ok_void
    | inr e => failure e
    end
  /\ Sqlite.db
       (snd (Sqlite.try_catch
               (Sqlite.bind (Sqlite.prepare table) (fun _ =>
                Sqlite.bind (Sqlite.id_or_uuid id) (fun i =>
                Sqlite.bind Sqlite.getPlanId (fun k =>
                Sqlite.bind (Sqlite.run (stmt i k)) (fun _ => Sqlite.ret ok_void))))) p))
     = settle (stmt (match id with
                     | EmptyString => Sqlite.uuids p (Sqlite.uuid_calls p)
                     | _ => id
                     end) k) (Sqlite.db p)
  /\ Sqlite.planId
       (snd (Sqlite.try_catch
               (Sqlite.bind (Sqlite.prepare table) (fun _ =>
                Sqlite.bind (Sqlite.id_or_uuid id) (fun i =>
                Sqlite.bind Sqlite.getPlanId (fun k =>
                Sqlite.bind (Sqlite.run (stmt i k)) (fun _ => Sqlite.ret ok_void))))) p))
     = Some k
  /\ Sqlite.faults
       (snd (Sqlite.try_catch
               (Sqlite.bind (Sqlite.prepare table) (fun _ =>
                Sqlite.bind (Sqlite.id_or_uuid id) (fun i =>
                Sqlite.bind Sqlite.getPlanId (fun k =>
                Sqlite.bind (Sqlite.run (stmt i k)) (fun _ => Sqlite.ret ok_void))))) p))
     = Sqlite.faults p.
Proof.
  intros (Hs & Hk & _ & Hf).
  unfold Sqlite.try_catch, Sqlite.bind, Sqlite.prepare, settle.
  rewrite Hs.
  destruct id as [|c id]; cbn [Sqlite.id_or_uuid].
  - unfold Sqlite.randomUUID. cbv beta iota.
    rewrite (ready_getPlanId k (Sqlite.count_uuid p)) by exact Hk.
    rewrite run_without_fault by apply Hf.
    cbn [Sqlite.db Sqlite.count_uuid].
    destruct (stmt _ k (Sqlite.db p)) as [[[] d']|e]; cbn; auto.
  - change (Sqlite.ret (String c id) p) with (Sqlite.Returned (String c id), p).
    cbv beta iota.
    rewrite (ready_getPlanId k p) by exact Hk.
    rewrite run_without_fault by apply Hf.
    destruct (stmt _ k (Sqlite.db p)) as [[[] d']|e]; cbn; auto.
Qed.

Lemma filter_snoc {A : Type} (f : A -> bool) (l : list A) (x : A) :
  f x = true -> filter f (l ++ [x]) = filter f l ++ [x].
Proof. intros H. rewrite filter_app. cbn. now rewrite H. Qed.

(** X26.  The identifiers of evidence and feedback.  [addEvidence] stores
    a record under its identifier, or under a fresh UUID when the
    identifier is empty.  On a provider that is ready it succeeds exactly
    when no evidence record of the database has that identifier yet:
    then [getEvidence] returns the records it returned before followed
    by the new one, and otherwise the call fails with the message of the
    primary key and changes nothing.  [addFeedback] and [getFeedback]
    behave the same way. *)
Theorem records_are_keyed_by_identifier (k : Z) (evidence : EvidenceRecord)
  (feedback : FeedbackRecord) (p : Sqlite.Provider) :
  ready k p ->
  (let id := match er_id evidence with
             | EmptyString => Sqlite.uuids p (Sqlite.uuid_calls p)
             | _ => er_id evidence
             end in
   if existsb (fun r => String.eqb (Schema.evr_id r) id)
              (Schema.evidence_records (Sqlite.db p))
   then fst (Sqlite.addEvidence evidence p)
        = failure "UNIQUE constraint failed: evidence_records.id"
        /\ Sqlite.db (snd (Sqlite.addEvidence evidence p)) = Sqlite.db p
   else fst (Sqlite.addEvidence evidence p) = ok_void
        /\ exists before stored,
             fst (Sqlite.getEvidence p) = ok_data before
             /\ fst (Sqlite.getEvidence (snd (Sqlite.addEvidence evidence p)))
                = ok_data (before ++ [stored])
             /\ er_id stored = id
             /\ er_description stored = er_description evidence
             /\ er_content stored = or_null (er_content evidence)
             /\ er_source stored = or_null (er_source evidence)
             /\ er_createdAt stored = er_createdAt evidence)
  /\ (let id := match fb_id feedback with
                | EmptyString => Sqlite.uuids p (Sqlite.uuid_calls p)
                | _ => fb_id feedback
                end in
      if existsb (fun r => String.eqb (Schema.fbr_id r) id)
                 (Schema.feedback_records (Sqlite.db p))
      then fst (Sqlite.addFeedback feedback p)
           = failure "UNIQUE constraint failed: feedback_records.id"
           /\ Sqlite.db (snd (Sqlite.addFeedback feedback p)) = Sqlite.db p
      else fst (Sqlite.addFeedback feedback p) = ok_void
           /\ exists before stored,
                fst (Sqlite.getFeedback p) = ok_data before
                /\ fst (Sqlite.getFeedback (snd (Sqlite.addFeedback feedback p)))
                   = ok_data (before ++ [stored])
                /\ fb_id stored = id
                /\ fb_content stored = fb_content feedback
                /\ fb_title stored = or_null (fb_title feedback)
                /\ fb_createdAt stored = fb_createdAt feedback).
Proof.
  intros Hp. pose proof Hp as (Hs & Hk & Hrow & Hf). split.
  - cbv zeta.
    destruct (ready_write_with_id_outcome "evidence_records" (er_id evidence)
                (fun i k =>
                   Schema.insert_evidence_record
                     {| Schema.evr_id := i;
                        Schema.evr_plan_id := k;
                        Schema.evr_description := er_description evidence;
                        Schema.evr_source := or_null (er_source evidence);
                        Schema.evr_source_url := or_null (er_sourceUrl evidence);
                        Schema.evr_gathering_method :=
                          or_null (er_gatheringMethod evidence);
                        Schema.evr_content := or_null (er_content evidence);
                        Schema.evr_file_path := or_null (er_filePath evidence);
                        Schema.evr_relevance_score := er_relevanceScore evidence;
                        Schema.evr_original_query := or_null (er_originalQuery evidence);
                        Schema.evr_summary := or_null (er_summary evidence);
                        Schema.evr_created_at := er_createdAt evidence |}) k p Hp)
      as (Hres & Hdb & Hk' & Hf').
    change (Sqlite.try_catch _ p) with (Sqlite.addEvidence evidence p) in Hres, Hdb, Hk', Hf'.
    set (id := match er_id evidence with
               | EmptyString => Sqlite.uuids p (Sqlite.uuid_calls p)
               | _ => er_id evidence
               end) in *.
    unfold settle, Schema.insert_evidence_record in Hres, Hdb.
    cbn [Schema.evr_id Schema.evr_plan_id] in Hres, Hdb.
    destruct (existsb _ (Schema.evidence_records (Sqlite.db p))) eqn:E.
    + split; assumption.
    + rewrite Hrow in Hres, Hdb. cbn [negb] in Hres, Hdb.
      split; [exact Hres|].
      assert (Hp' : ready k (snd (Sqlite.addEvidence evidence p))).
      { split; [|split; [|split]].
        - now rewrite Hdb.
        - exact Hk'.
        - now rewrite Hdb.
        - intros n. rewrite Hf'. apply Hf. }
      rewrite (ready_getEvidence k _ Hp), (ready_getEvidence k _ Hp'), Hdb.
      cbn [fst]. unfold Schema.select_evidence.
      cbn [Schema.evidence_records Schema.with_evidence_records].
      rewrite filter_snoc by (cbn; apply Z.eqb_refl).
      rewrite map_app. cbn [map].
      eexists. eexists. split; [reflexivity|]. split; [reflexivity|].
      cbn. repeat split; now rewrite ?or_null_idempotent.
  - cbv zeta.
    destruct (ready_write_with_id_outcome "feedback_records" (fb_id feedback)
                (fun i k =>
                   Schema.insert_feedback_record
                     {| Schema.fbr_id := i;
                        Schema.fbr_plan_id := k;
                        Schema.fbr_title := or_null (fb_title feedback);
                        Schema.fbr_platform := or_null (fb_platform feedback);
                        Schema.fbr_content := fb_content feedback;
                        Schema.fbr_participants := fb_participants feedback;
                        Schema.fbr_created_at := fb_createdAt feedback |}) k p Hp)
      as (Hres & Hdb & Hk' & Hf').
    change (Sqlite.try_catch _ p) with (Sqlite.addFeedback feedback p) in Hres, Hdb, Hk', Hf'.
    set (id := match fb_id feedback with
               | EmptyString => Sqlite.uuids p (Sqlite.uuid_calls p)
               | _ => fb_id feedback
               end) in *.
    unfold settle, Schema.insert_feedback_record in Hres, Hdb.
    cbn [Schema.fbr_id Schema.fbr_plan_id] in Hres, Hdb.
    destruct (existsb _ (Schema.feedback_records (Sqlite.db p))) eqn:E.
    + split; assumption.
    + rewrite Hrow in Hres, Hdb. cbn [negb] in Hres, Hdb.
      split; [exact Hres|].
      assert (Hp' : ready k (snd (Sqlite.addFeedback feedback p))).
      { split; [|split; [|split]].
        - now rewrite Hdb.
        - exact Hk'.
        - now rewrite Hdb.
        - intros n. rewrite Hf'. apply Hf. }
      rewrite (ready_getFeedback k _ Hp), (ready_getFeedback k _ Hp'), Hdb.
      cbn [fst]. unfold Schema.select_feedback.
      cbn [Schema.feedback_records Schema.with_feedback_records].
      rewrite filter_snoc by (cbn; apply Z.eqb_refl).
      rewrite map_app. cbn [map].
      eexists. eexists. split; [reflexivity|]. split; [reflexivity|].
      cbn. repeat split; now rewrite ?or_null_idempotent.
Qed.

Lemma records_are_keyed_by_identifier_witness :
  fst (Sqlite.addEvidence sample_evidence sample_plan)
  = failure "UNIQUE constraint failed: evidence_records.id"
  /\ fst (Sqlite.addFeedback
            {| fb_id := EmptyString; fb_title := None; fb_platform := None;
               fb_content := "Looks good"; fb_participants := None;
               fb_createdAt := "2026-02-14T00:00:00.000Z" |}
            sample_plan)
     = ok_void.
Proof.
  destruct (records_are_keyed_by_identifier 1 sample_evidence
              {| fb_id := EmptyString; fb_title := None; fb_platform := None;
                 fb_content := "Looks good"; fb_participants := None;
                 fb_createdAt := "2026-02-14T00:00:00.000Z" |}
              sample_plan sample_plan_ready) as (He & Hb).
  vm_compute in He, Hb. vm_compute.
  split; [exact (proj1 He) | exact (proj1 Hb)].
Defined.

(** ** Creating a plan *)

Lemma max_plan_id_bound (l : list Schema.PlanRow) (r : Schema.PlanRow) :
  In r l -> (Schema.plans_id r <= Schema.max_plan_id l)%Z.
Proof.
  induction l as [|x l IH]; intros H; [contradiction|].
  change (Schema.max_plan_id (x :: l))
    with (Z.max (Schema.plans_id x) (Schema.max_plan_id l)).
  destruct H as [->|H]; [lia|]. specialize (IH H). lia.
Qed.

(** X9.  [initialize] followed by [getMetadata].  When the engine does
    not fail and the database holds no plan of the identity code of
    [metadata], [initialize] succeeds and adds one plan row; afterwards
    [exists] answers [true] and [getMetadata] returns the metadata as
    stored (an empty description comes back [undefined]), whatever other
    plans the database holds. *)
Theorem initialize_then_getMetadata (metadata : PlanMetadata) (p : Sqlite.Provider) :
  (forall n, Sqlite.faults p n = None) ->
  (forall row, In row (Schema.plans (Sqlite.db p)) ->
               Schema.plans_code row <> md_id metadata) ->
  fst (Sqlite.initialize metadata p) = ok_void
  /\ List.length (Schema.plans (Sqlite.db (snd (Sqlite.initialize metadata p))))
     = S (List.length (Schema.plans (Sqlite.db p)))
  /\ fst (Sqlite.exists_ (snd (Sqlite.initialize metadata p))) = true
  /\ fst (Sqlite.getMetadata (snd (Sqlite.initialize metadata p)))
     = ok_data (stored_metadata metadata).
Proof.
  intros Hf Hcode.
  pose (id := (Z.max (Schema.plans_seq (Sqlite.db p))
                 (Schema.max_plan_id (Schema.plans (Sqlite.db p))) + 1)%Z).
  pose (row := {| Schema.plans_id := id;
                  Schema.plans_code := md_id metadata;
                  Schema.plans_name := md_name metadata;
                  Schema.plans_description := or_null (md_description metadata);
                  Schema.plans_stage := md_stage metadata;
                  Schema.plans_created_at := md_createdAt metadata;
                  Schema.plans_updated_at := md_updatedAt metadata;
                  Schema.plans_schema_version := md_schemaVersion metadata |}).
  pose (d' := Schema.with_plans (Schema.plans (Sqlite.db p) ++ [row]) id
                (Schema.with_schema (Sqlite.db p))).
  assert (Hfree : existsb (fun r => String.eqb (Schema.plans_code r) (md_id metadata))
                    (Schema.plans (Sqlite.db p)) = false).
  { destruct (existsb _ _) eqn:E; [|reflexivity].
    apply existsb_exists in E. destruct E as (r & Hr & E).
    apply String.eqb_eq in E. now apply Hcode in Hr. }
  assert (Hinit : Sqlite.initialize metadata p
                  = (ok_void,
                     Sqlite.with_planId (Some id)
                       (Sqlite.with_db d'
                          (Sqlite.count_statement (Sqlite.count_statement p))))).
  { unfold Sqlite.initialize, Sqlite.try_catch, Sqlite.initializeSchema.
    unfold Sqlite.bind at 1. rewrite run_without_fault by apply Hf.
    unfold Sqlite.bind at 1. unfold Sqlite.prepare. cbn [Sqlite.db Sqlite.with_db
      Schema.has_schema Schema.with_schema].
    unfold Sqlite.bind at 1. rewrite run_without_fault by apply Hf.
    unfold Schema.insert_plan.
    cbn [Sqlite.db Sqlite.with_db Schema.plans Schema.plans_seq Schema.with_schema].
    rewrite Hfree. reflexivity. }
  rewrite Hinit. cbn [fst snd].
  assert (Hp' : ready id (Sqlite.with_planId (Some id)
                            (Sqlite.with_db d'
                               (Sqlite.count_statement (Sqlite.count_statement p))))).
  { repeat split; try reflexivity; [|apply Hf].
    cbn. unfold Schema.plan_row_exists. cbn. rewrite existsb_app. cbn.
    now rewrite Z.eqb_refl, orb_true_r. }
  split; [reflexivity|]. split; [|split].
  - cbn. rewrite length_app. cbn. apply Nat.add_1_r.
  - unfold Sqlite.exists_, Sqlite.bind, Sqlite.prepare, Sqlite.fetch.
    cbn [Sqlite.db Sqlite.with_db Sqlite.with_planId d' Schema.has_schema
           Schema.with_plans Schema.with_schema].
    rewrite run_without_fault by apply Hf. cbn. rewrite length_app. cbn.
    now rewrite Nat.add_1_r.
  - destruct (ready_getMetadata id _ Hp') as (found & Hfound & ->). cbn [fst].
    unfold Schema.select_plan in Hfound. cbn in Hfound.
    rewrite find_app_none in Hfound.
    + cbn in Hfound. rewrite Z.eqb_refl in Hfound. injection Hfound as <-.
      unfold Sqlite.metadata_of_row, stored_metadata. cbn.
      now rewrite or_null_idempotent.
    + apply find_none_of. intros x Hx. apply Z.eqb_neq.
      pose proof (max_plan_id_bound _ _ Hx). unfold id. lia.
Qed.

Lemma initialize_then_getMetadata_witness :
  fst (Sqlite.getMetadata (snd (Sqlite.initialize other_metadata sample_plan)))
  = ok_data other_metadata
  /\ List.length (Schema.plans (Sqlite.db (snd (Sqlite.initialize other_metadata
                                                   sample_plan))))
     = 2.
Proof.
  destruct (initialize_then_getMetadata other_metadata sample_plan)
    as (_ & H1 & _ & H2).
  - intros n. vm_compute. reflexivity.
  - intros row Hrow. vm_compute in Hrow. destruct Hrow as [<-|[]]. discriminate.
  - split; [refine (eq_trans H2 _); reflexivity | refine (eq_trans H1 _); reflexivity].
Defined.

(** ** Calls before a plan exists *)

Lemma getPlanId_without_plan (p : Sqlite.Provider) :
  Sqlite.planId p = None -> Schema.plans (Sqlite.db p) = [] ->
  exists e p', Sqlite.getPlanId p = (Sqlite.Thrown e, p') /\ Sqlite.db p' = Sqlite.db p.
Proof.
  intros Hk Hplans. unfold Sqlite.getPlanId. rewrite Hk.
  unfold Sqlite.bind, Sqlite.prepare, Sqlite.fetch, Sqlite.run, Sqlite.throw.
  destruct (Schema.has_schema (Sqlite.db p)); [|eexists; eexists; split; reflexivity].
  destruct (Sqlite.faults p (Sqlite.statements p));
    [eexists; eexists; split; reflexivity|].
  unfold Schema.select_first_plan_id. rewrite Hplans.
  eexists. eexists. split; reflexivity.
Qed.

Lemma method_without_plan {A : Type} (table : string)
  (body : Z -> Sqlite.M (StorageResult A)) (p : Sqlite.Provider) :
  Sqlite.planId p = None -> Schema.plans (Sqlite.db p) = [] ->
  success (fst (Sqlite.try_catch
                  (Sqlite.bind (Sqlite.prepare table) (fun _ =>
                   Sqlite.bind Sqlite.getPlanId body)) p)) = false
  /\ Sqlite.db (snd (Sqlite.try_catch
                       (Sqlite.bind (Sqlite.prepare table) (fun _ =>
                        Sqlite.bind Sqlite.getPlanId body)) p)) = Sqlite.db p.
Proof.
  intros Hk Hplans. unfold Sqlite.try_catch, Sqlite.bind, Sqlite.prepare.
  destruct (Schema.has_schema (Sqlite.db p)); [|split; reflexivity].
  destruct (getPlanId_without_plan p Hk Hplans) as (e & p' & -> & Hdb).
  split; [reflexivity | exact Hdb].
Qed.

Lemma method_with_id_without_plan {A : Type} (table id : string)
  (body : string -> Z -> Sqlite.M (StorageResult A)) (p : Sqlite.Provider) :
  Sqlite.planId p = None -> Schema.plans (Sqlite.db p) = [] ->
  success (fst (Sqlite.try_catch
                  (Sqlite.bind (Sqlite.prepare table) (fun _ =>
                   Sqlite.bind (Sqlite.id_or_uuid id) (fun i =>
                   Sqlite.bind Sqlite.getPlanId (body i)))) p)) = false
  /\ Sqlite.db (snd (Sqlite.try_catch
                       (Sqlite.bind (Sqlite.prepare table) (fun _ =>
                        Sqlite.bind (Sqlite.id_or_uuid id) (fun i =>
                        Sqlite.bind Sqlite.getPlanId (body i)))) p)) = Sqlite.db p.
Proof.
  intros Hk Hplans.
  assert (H : exists e q,
            Sqlite.try_catch
              (Sqlite.bind (Sqlite.prepare table) (fun _ =>
               Sqlite.bind (Sqlite.id_or_uuid id) (fun i =>
               Sqlite.bind Sqlite.getPlanId (body i)))) p = (failure e, q)
            /\ Sqlite.db q = Sqlite.db p).
  { unfold Sqlite.try_catch, Sqlite.bind, Sqlite.prepare.
    destruct (Schema.has_schema (Sqlite.db p));
      [|eexists; eexists; split; reflexivity].
    destruct (id_or_uuid_returns id p) as (id' & p1 & -> & _ & Hdb1 & Hk1 & _).
    destruct (getPlanId_without_plan p1) as (e & p' & -> & Hdb); [congruence..|].
    exists e, p'. split; [reflexivity | congruence]. }
  destruct H as (e & q & -> & Hdb). split; [reflexivity | exact Hdb].
Qed.

(** X10.  Calls before a plan exists.  On a provider that has resolved no
    plan and whose database holds no plan row (a file that was just
    created, or one whose [initialize] failed), [getMetadata],
    [getSteps], [addStep], [saveFile], [addTimelineEvent], [addEvidence],
    [addFeedback] and [createCheckpoint] all return a failure, and none of
    them changes the database; this holds whether or not the tables
    exist and whether or not the engine fails. *)
Theorem calls_without_plan_fail (p : Sqlite.Provider) (step : PlanStep) (file : PlanFile)
  (event : TimelineEvent) (evidence : EvidenceRecord) (feedback : FeedbackRecord)
  (checkpoint : Checkpoint) :
  Sqlite.planId p = None -> Schema.plans (Sqlite.db p) = [] ->
  (success (fst (Sqlite.getMetadata p)) = false
   /\ Sqlite.db (snd (Sqlite.getMetadata p)) = Sqlite.db p)
  /\ (success (fst (Sqlite.getSteps p)) = false
      /\ Sqlite.db (snd (Sqlite.getSteps p)) = Sqlite.db p)
  /\ (success (fst (Sqlite.addStep step p)) = false
      /\ Sqlite.db (snd (Sqlite.addStep step p)) = Sqlite.db p)
  /\ (success (fst (Sqlite.saveFile file p)) = false
      /\ Sqlite.db (snd (Sqlite.saveFile file p)) = Sqlite.db p)
  /\ (success (fst (Sqlite.addTimelineEvent event p)) = false
      /\ Sqlite.db (snd (Sqlite.addTimelineEvent event p)) = Sqlite.db p)
  /\ (success (fst (Sqlite.addEvidence evidence p)) = false
      /\ Sqlite.db (snd (Sqlite.addEvidence evidence p)) = Sqlite.db p)
  /\ (success (fst (Sqlite.addFeedback feedback p)) = false
      /\ Sqlite.db (snd (Sqlite.addFeedback feedback p)) = Sqlite.db p)
  /\ (success (fst (Sqlite.createCheckpoint checkpoint p)) = false
      /\ Sqlite.db (snd (Sqlite.createCheckpoint checkpoint p)) = Sqlite.db p).
Proof.
  intros Hk Hplans.
  repeat match goal with |- (_ /\ _) /\ _ => split end.
  - now apply (method_without_plan "plans").
  - now apply (method_without_plan "plan_steps").
  - now apply (method_without_plan "plan_steps").
  - now apply (method_without_plan "plan_files").
  - now apply (method_with_id_without_plan "timeline_events").
  - now apply (method_with_id_without_plan "evidence_records").
  - now apply (method_with_id_without_plan "feedback_records").
  - now apply (method_without_plan "checkpoints").
Qed.

Lemma calls_without_plan_fail_witness :
  fst (Sqlite.addStep (sample_step 1 "First Step" "pending" "") (fresh_provider "new.plan"))
  = failure "no such table: plan_steps"
  /\ Sqlite.db (snd (Sqlite.addStep (sample_step 1 "First Step" "pending" "")
                       (fresh_provider "new.plan")))
     = Schema.empty_db.
Proof.
  destruct (calls_without_plan_fail (fresh_provider "new.plan")
              (sample_step 1 "First Step" "pending" "") sample_file sample_event
              sample_evidence sample_feedback sample_checkpoint eq_refl eq_refl)
    as (_ & _ & (_ & H) & _).
  split; [reflexivity | exact H].
Defined.

(** ** Snippets and scores *)

Lemma indexOf_from_found (q : string) :
  forall s k i, indexOf_from s q k = Some i -> prefix q (string_skip (i - k) s) = true.
Proof.
  induction s as [|c s IH]; intros k i H; cbn [indexOf_from] in H.
  - destruct (prefix q EmptyString) eqn:P; [|discriminate].
    injection H as <-. now rewrite Nat.sub_diag.
  - destruct (prefix q (String c s)) eqn:P.
    + injection H as <-. now rewrite Nat.sub_diag.
    + pose proof (indexOf_from_bounds _ _ _ _ H) as [Hle _].
      apply IH in H. replace (i - k) with (S (i - S k)) by lia. exact H.
Qed.

Lemma indexOf_from_absent (q : string) :
  forall s k, indexOf_from s q k = None -> forall n, prefix q (string_skip n s) = false.
Proof.
  induction s as [|c s IH]; intros k H n; cbn [indexOf_from] in H.
  - destruct (prefix q EmptyString) eqn:P; [discriminate|].
    now rewrite string_skip_empty.
  - destruct (prefix q (String c s)) eqn:P; [discriminate|].
    destruct n as [|n]; [exact P|]. cbn. now apply (IH (S k)).
Qed.

Lemma substring_skip (i n : nat) (s : string) :
  substring i n s = substring 0 n (string_skip i s).
Proof.
  revert s. induction i as [|i IH]; intros s; [reflexivity|].
  destruct s as [|c s]; [now destruct n | apply IH].
Qed.

Lemma substring_split (a m n : nat) (s : string) :
  substring a (m + n) s = (substring a m s ++ substring (a + m) n s)%string.
Proof.
  revert s m. induction a as [|a IHa]; intros s m.
  - revert s. induction m as [|m IHm]; intros s; [now destruct s|].
    destruct s as [|c s]; [now destruct n|]. cbn. f_equal. apply IHm.
  - destruct s as [|c s]; [now destruct m, n|]. cbn. apply IHa.
Qed.

Lemma substring_length_le (a n : nat) (s : string) :
  String.length (substring a n s) <= n.
Proof.
  revert s n. induction a as [|a IHa]; intros s n.
  - revert s. induction n as [|n IHn]; intros [|c s]; cbn; try lia.
    specialize (IHn s). lia.
  - destruct s as [|c s]; [destruct n; cbn; lia | apply IHa].
Qed.

Lemma toLowerCase_skip (n : nat) (s : string) :
  toLowerCase (string_skip n s) = string_skip n (toLowerCase s).
Proof.
  revert s. induction n as [|n IH]; intros [|c s]; cbn; auto.
Qed.

Lemma toLowerCase_substring0 (n : nat) (s : string) :
  toLowerCase (substring 0 n s) = substring 0 n (toLowerCase s).
Proof.
  revert s. induction n as [|n IH]; intros [|c s]; cbn; try reflexivity.
  now rewrite IH.
Qed.

Lemma string_app_assoc (a b c : string) : ((a ++ b) ++ c = a ++ (b ++ c))%string.
Proof. induction a as [|x a IH]; cbn; [reflexivity | now rewrite IH]. Qed.

Lemma string_app_empty_r (a : string) : (a ++ "" = a)%string.
Proof. induction a as [|x a IH]; cbn; [reflexivity | now rewrite IH]. Qed.

Lemma append_length (a b : string) :
  String.length (a ++ b) = String.length a + String.length b.
Proof. induction a as [|c a IH]; cbn; [reflexivity | now rewrite IH]. Qed.


(** [LIKE] with a leading [%]: the rest of the pattern matches here or
    further on. *)
Lemma like_percent (pattern s : string) :
  Schema.like (String "%"%char pattern) s
  = orb (Schema.like pattern s)
        (match s with
         | EmptyString => false
         | String _ s' => Schema.like (String "%"%char pattern) s'
         end).
Proof. destruct s; reflexivity. Qed.

Lemma like_percent_skip (pattern : string) :
  forall s,
    Schema.like (String "%"%char pattern) s = true <->
    exists n, Schema.like pattern (string_skip n s) = true.
Proof.
  induction s as [|c s IH]; rewrite like_percent.
  - rewrite orb_false_r. split.
    + intros H. now exists 0.
    + intros (n & H). now rewrite string_skip_empty in H.
  - rewrite orb_true_iff, IH. split.
    + intros [H|(n & H)]; [now exists 0 | now exists (S n)].
    + intros ([|n] & H); [now left | right; now exists n].
Qed.

Lemma like_only_percent (s : string) : Schema.like "%" s = true.
Proof. apply like_percent_skip. exists (String.length s). now rewrite string_skip_beyond. Qed.

Lemma prefix_lower (a b : ascii) (q s : string) :
  prefix (String a q) (String b s) = andb (Ascii.eqb a b) (prefix q s).
Proof.
  cbn. destruct (ascii_dec a b) as [->|Hne].
  - now rewrite Ascii.eqb_refl.
  - apply Ascii.eqb_neq in Hne. now rewrite Hne.
Qed.

(** A pattern without wildcards followed by [%] matches what begins with
    it, without regard to case. *)
Lemma like_prefix (query : string) :
  wildcard_free query = true ->
  forall s,
    Schema.like (query ++ "%") s = prefix (toLowerCase query) (toLowerCase s).
Proof.
  induction query as [|c query IH]; intros Hfree s.
  - cbn [append toLowerCase]. rewrite like_only_percent. now destruct (toLowerCase s).
  - cbn [wildcard_free] in Hfree. apply andb_true_iff in Hfree.
    destruct Hfree as [Hc Hfree]. apply negb_true_iff, orb_false_iff in Hc.
    destruct Hc as [Hpercent Hunderscore].
    cbn [append Schema.like]. rewrite Hpercent.
    destruct s as [|x s]; [reflexivity|].
    rewrite Hunderscore, (IH Hfree). cbn [toLowerCase orb].
    now rewrite prefix_lower.
Qed.

Lemma like_contains (query s : string) :
  wildcard_free query = true ->
  Schema.like ("%" ++ query ++ "%") s
  = match indexOf (toLowerCase s) (toLowerCase query) 0 with
    | Some _ => true
    | None => false
    end.
Proof.
  intros Hfree. unfold indexOf. cbn [Nat.min string_skip append].
  destruct (indexOf_from (toLowerCase s) (toLowerCase query) 0) as [i|] eqn:E.
  - apply like_percent_skip. exists i. rewrite (like_prefix query Hfree).
    apply indexOf_from_found in E. now rewrite Nat.sub_0_r, <- toLowerCase_skip in E.
  - apply not_true_is_false. intros H. apply like_percent_skip in H.
    destruct H as (n & H). rewrite (like_prefix query Hfree), toLowerCase_skip in H.
    now rewrite (indexOf_from_absent _ _ _ E n) in H.
Qed.



Lemma occurrence_count_found (content query : string) (index : nat) :
  query <> EmptyString ->
  indexOf (toLowerCase content) (toLowerCase query) 0 = Some index ->
  1 <= occurrence_count content query.
Proof.
  intros Hq H. unfold occurrence_count. unfold indexOf in H.
  cbn [Nat.min string_skip] in H.
  rewrite (indexOf_from_some (toLowerCase query)) with (k := 0) (i := index);
    [lia | | exact H].
  intros E. apply Hq. now apply toLowerCase_empty.
Qed.

Lemma occurrence_count_absent (content query : string) :
  indexOf (toLowerCase content) (toLowerCase query) 0 = None ->
  occurrence_count content query = 0.
Proof.
  unfold indexOf, occurrence_count. cbn [Nat.min string_skip].
  apply indexOf_from_none.
Qed.



(* ================================================================== *)
(** * Further properties of the migrator *)
(* ================================================================== *)

Lemma with_schema_same (d : Schema.Db) :
  Schema.has_schema d = true -> Schema.with_schema d = d.
Proof. destruct d. cbn. now intros ->. Qed.

Lemma ready_exists (k : Z) (p : Sqlite.Provider) :
  ready k p -> Sqlite.exists_ p = (true, Sqlite.count_statement p).
Proof.
  intros (Hs & _ & Hrow & Hf).
  unfold Sqlite.exists_, Sqlite.bind, Sqlite.prepare, Sqlite.fetch.
  rewrite Hs, run_without_fault by apply Hf.
  unfold Schema.plan_row_exists in Hrow.
  change (Sqlite.with_db (Sqlite.db p) (Sqlite.count_statement p))
    with (Sqlite.count_statement p).
  destruct (Schema.plans (Sqlite.db p)) as [|row rows]; [discriminate | reflexivity].
Qed.

Section MigratingIntoExistingTarget.

Context {S : Type} {Source : StorageProvider S}.

(** X14.  An existing target is not overwritten.  When the target is a
    SQLite provider that already holds a plan and [force] is not set,
    [migrate] returns the failure [Target already exists], with all
    counts 0; it has not read the source, written to the target, touched
    the file system or reported any progress. *)
Theorem migrate_refuses_existing_target (sourcePath targetPath : string) (source : S)
  (target : Sqlite.Provider) (options : MigrationOptions) (fs : FileSystem) (k : Z) :
  ready k target ->
  force options = false ->
  mr_success (PlanMigrator.result
                (PlanMigrator.migrate sourcePath targetPath source target options fs))
  = false
  /\ mr_error (PlanMigrator.result
                 (PlanMigrator.migrate sourcePath targetPath source target options fs))
     = Some ("Target already exists: " ++ targetPath
               ++ ". Use force option to overwrite.")%string
  /\ mr_stats (PlanMigrator.result
                 (PlanMigrator.migrate sourcePath targetPath source target options fs))
     = PlanMigrator.no_stats
  /\ PlanMigrator.source_after
       (PlanMigrator.migrate sourcePath targetPath source target options fs)
     = source
  /\ Sqlite.db (PlanMigrator.target_after
                  (PlanMigrator.migrate sourcePath targetPath source target options fs))
     = Sqlite.db target
  /\ PlanMigrator.fs_after
       (PlanMigrator.migrate sourcePath targetPath source target options fs)
     = fs
  /\ PlanMigrator.reported
       (PlanMigrator.migrate sourcePath targetPath source target options fs)
     = [].
Proof.
  intros Ht Hforce. unfold PlanMigrator.migrate.
  change (exists_ target) with (Sqlite.exists_ target).
  rewrite (ready_exists k target Ht), Hforce. cbn. repeat split; reflexivity.
Qed.

(** X15.  [force] does not replace a plan.  When the target is a SQLite
    provider that already holds a plan with the identity code that the
    source reports, [migrate] with [force] set reads the source metadata,
    fails in [initialize] on the [UNIQUE] constraint of [plans.code], and
    returns that failure with all counts 0: the target database and the
    file system are as they were. *)
Theorem migrate_force_keeps_existing_plan (sourcePath targetPath : string) (source : S)
  (target : Sqlite.Provider) (options : MigrationOptions) (fs : FileSystem) (k : Z)
  (metadata : PlanMetadata) (row : Schema.PlanRow) :
  ready k target ->
  force options = true ->
  payload (fst (getMetadata source)) = Some metadata ->
  In row (Schema.plans (Sqlite.db target)) ->
  Schema.plans_code row = md_id metadata ->
  mr_success (PlanMigrator.result
                (PlanMigrator.migrate sourcePath targetPath source target options fs))
  = false
  /\ mr_error (PlanMigrator.result
                 (PlanMigrator.migrate sourcePath targetPath source target options fs))
     = Some "Failed to initialize target: UNIQUE constraint failed: plans.code"
  /\ mr_stats (PlanMigrator.result
                 (PlanMigrator.migrate sourcePath targetPath source target options fs))
     = PlanMigrator.no_stats
  /\ Sqlite.db (PlanMigrator.target_after
                  (PlanMigrator.migrate sourcePath targetPath source target options fs))
     = Sqlite.db target
  /\ PlanMigrator.fs_after
       (PlanMigrator.migrate sourcePath targetPath source target options fs)
     = fs.
Proof.
  intros Ht Hforce Hmeta Hrow Hcode. unfold PlanMigrator.migrate.
  change (exists_ target) with (Sqlite.exists_ target).
  rewrite (ready_exists k target Ht), Hforce. cbn [andb negb].
  destruct (getMetadata source) as [metadataResult source']. cbn [fst] in Hmeta.
  rewrite Hmeta.
  change (@initialize _ _) with Sqlite.initialize.
  assert (Hinit : Sqlite.initialize metadata (Sqlite.count_statement target)
                  = (failure "UNIQUE constraint failed: plans.code",
                     Sqlite.count_statement
                       (Sqlite.count_statement (Sqlite.count_statement target)))).
  { destruct Ht as (Hs & _ & _ & Hf).
    unfold Sqlite.initialize, Sqlite.try_catch, Sqlite.initializeSchema.
    unfold Sqlite.bind at 1. rewrite run_without_fault by apply Hf.
    cbn [Sqlite.db Sqlite.count_statement].
    rewrite (with_schema_same _ Hs).
    unfold Sqlite.bind at 1. unfold Sqlite.prepare.
    cbn [Sqlite.db Sqlite.with_db]. rewrite Hs.
    unfold Sqlite.bind at 1. rewrite run_without_fault by apply Hf.
    unfold Schema.insert_plan. cbn [Sqlite.db Sqlite.with_db].
    assert (Hex : existsb (fun r => String.eqb (Schema.plans_code r) (md_id metadata))
                    (Schema.plans (Sqlite.db target)) = true).
    { apply existsb_exists. exists row. split; [exact Hrow|]. now apply String.eqb_eq. }
    rewrite Hex. destruct target as [? d ? ? ? ? ? ? ?]. cbn. now destruct d. }
  rewrite Hinit. cbn. repeat split; reflexivity.
Qed.

End MigratingIntoExistingTarget.

Lemma migrate_refuses_existing_target_witness :
  mr_error (PlanMigrator.result
              (PlanMigrator.migrate "source.plan" "target.plan" sample_plan bare_plan
                 validating_options source_files_fs))
  = Some "Target already exists: target.plan. Use force option to overwrite.".
Proof.
  destruct (migrate_refuses_existing_target "source.plan" "target.plan" sample_plan
              bare_plan validating_options source_files_fs 1)
    as (_ & H & _).
  - repeat split; vm_compute; reflexivity.
  - reflexivity.
  - exact H.
Defined.

Lemma migrate_force_keeps_existing_plan_witness :
  mr_error (PlanMigrator.result
              (PlanMigrator.migrate "source.plan" "target.plan" sample_plan bare_plan
                 {| force := true; keepSource := false; validate := true;
                    onProgress := false |}
                 source_files_fs))
  = Some "Failed to initialize target: UNIQUE constraint failed: plans.code"
  /\ PlanMigrator.fs_after
       (PlanMigrator.migrate "source.plan" "target.plan" sample_plan bare_plan
          {| force := true; keepSource := false; validate := true;
             onProgress := false |}
          source_files_fs)
     = source_files_fs.
Proof.
  destruct (migrate_force_keeps_existing_plan "source.plan" "target.plan" sample_plan
              bare_plan
              {| force := true; keepSource := false; validate := true;
                 onProgress := false |}
              source_files_fs 1 sample_metadata
              {| Schema.plans_id := 1;
                 Schema.plans_code := "test-plan";
                 Schema.plans_name := "Test Plan";
                 Schema.plans_description := Some "A test plan";
                 Schema.plans_stage := "built";
                 Schema.plans_created_at := "2026-02-12T00:00:00.000Z";
                 Schema.plans_updated_at := "2026-02-12T00:00:00.000Z";
                 Schema.plans_schema_version := 1 |})
    as (_ & H1 & _ & _ & H2).
  - repeat split; vm_compute; reflexivity.
  - reflexivity.
  - vm_compute. reflexivity.
  - vm_compute. left. reflexivity.
  - reflexivity.
  - split; [exact H1 | exact H2].
Defined.

Section Progress.

Context {S T : Type} {Source : StorageProvider S} {Target : StorageProvider T}.


End Progress.


(** * Further properties of the validator *)

Section ValidatorDifferences.

Context {S T : Type} {Source : StorageProvider S} {Target : StorageProvider T}.

Lemma error_makes_invalid (source : S) (target : T) (e : ValidationError) :
  In e (errors (validation source target)) -> valid (validation source target) = false.
Proof.
  destruct (validate_by_phase source target) as (_ & _ & Hv & _).
  rewrite Hv. destruct (errors (validation source target)); [contradiction | reflexivity].
Qed.

Lemma steps_error_in_errors (source : S) (target : T) (e : ValidationError) :
  In e (steps_errors source target) -> In e (errors (validation source target)).
Proof.
  destruct (validate_by_phase source target) as (He & _).
  rewrite He, !in_app_iff. auto.
Qed.

Lemma files_error_in_errors (source : S) (target : T) (e : ValidationError) :
  In e (files_errors source target) -> In e (errors (validation source target)).
Proof.
  destruct (validate_by_phase source target) as (He & _).
  rewrite He, !in_app_iff. auto.
Qed.

(** The errors of the step phase: those of the first loop, then those of
    the second. *)
Lemma steps_errors_by_loop (source : S) (target : T) (steps : list PlanStep) :
  source_steps source target = Some steps ->
  steps_errors source target
  = flat_map (check_step (target_steps source target) []) steps
      ++ flat_map (check_extra_step steps []) (target_steps source target).
Proof.
  unfold source_steps, target_steps, steps_errors, MigrationValidator.validateSteps.
  destruct (before_steps source target) as [s t]. cbn [fst snd].
  destruct (getSteps s) as [rs s']. destruct (getSteps t) as [rt t']. cbn [fst snd].
  intros ->.
  rewrite (fold_left_appending (check_extra_step steps)) by apply check_extra_step_appends.
  rewrite (fold_left_appending (check_step (data_or_empty rt))) by apply check_step_appends.
  reflexivity.
Qed.

Lemma files_errors_by_loop (source : S) (target : T) (files : list PlanFile) :
  source_files source target = Some files ->
  files_errors source target
  = flat_map (check_file (target_files source target) []) files.
Proof.
  unfold source_files, target_files, files_errors, MigrationValidator.validateFiles.
  destruct (before_files source target) as [s t]. cbn [fst snd].
  destruct (getFiles s) as [rs s']. destruct (getFiles t) as [rt t']. cbn [fst snd].
  intros ->.
  rewrite (fold_left_appending (check_file (data_or_empty rt))) by apply check_file_appends.
  reflexivity.
Qed.

(** X17.  Differences that [validate] reports.  A source step is compared
    with the first target step of its number: a different title, a
    different status, or a content that differs after trimming each give a
    [content_mismatch] error that names the field.  A target step whose
    number no source step has gives an error too, and so does a source
    file whose trimmed content differs from that of the first target file
    of its type and name.  In each case the verdict is [valid = false]. *)
Theorem validate_reports_differences (source : S) (target : T) :
  (forall steps step targetStep,
     source_steps source target = Some steps -> In step steps ->
     find (fun s => Z.eqb (st_number s) (st_number step)) (target_steps source target)
     = Some targetStep ->
     (st_title step <> st_title targetStep ->
      In {| ve_type := content_mismatch;
            ve_path := "steps[" ++ string_of_Z (st_number step) ++ "].title";
            ve_expected := is_text (st_title step);
            ve_actual := is_text (st_title targetStep);
            ve_message := "Step " ++ string_of_Z (st_number step) ++ " title mismatch" |}
         (errors (validation source target))
      /\ valid (validation source target) = false)
     /\ (st_status step <> st_status targetStep ->
         In {| ve_type := content_mismatch;
               ve_path := "steps[" ++ string_of_Z (st_number step) ++ "].status";
               ve_expected := is_text (st_status step);
               ve_actual := is_text (st_status targetStep);
               ve_message := "Step " ++ string_of_Z (st_number step) ++ " status mismatch" |}
            (errors (validation source target))
         /\ valid (validation source target) = false)
     /\ (trim (st_content step) <> trim (st_content targetStep) ->
         In {| ve_type := content_mismatch;
               ve_path := "steps[" ++ string_of_Z (st_number step) ++ "].content";
               ve_expected :=
                 is_text (string_of_nat (String.length (trim (st_content step)))
                            ++ " chars");
               ve_actual :=
                 is_text (string_of_nat (String.length (trim (st_content targetStep)))
                            ++ " chars");
               ve_message := "Step " ++ string_of_Z (st_number step) ++ " content mismatch" |}
            (errors (validation source target))
         /\ valid (validation source target) = false))
  /\ (forall steps targetStep,
        source_steps source target = Some steps ->
        In targetStep (target_steps source target) ->
        (forall s, In s steps -> st_number s <> st_number targetStep) ->
        In {| ve_type := content_mismatch;
              ve_path := "steps[" ++ string_of_Z (st_number targetStep) ++ "]";
              ve_expected := is_null;
              ve_actual := is_step targetStep;
              ve_message := "Unexpected step " ++ string_of_Z (st_number targetStep)
                              ++ " in target" |}
           (errors (validation source target))
        /\ valid (validation source target) = false)
  /\ (forall files file targetFile,
        source_files source target = Some files -> In file files ->
        find (fun f => andb (String.eqb (pf_type f) (pf_type file))
                            (String.eqb (pf_filename f) (pf_filename file)))
             (target_files source target)
        = Some targetFile ->
        trim (pf_content file) <> trim (pf_content targetFile) ->
        In {| ve_type := content_mismatch;
              ve_path := "files[" ++ (pf_type file ++ "/" ++ pf_filename file)
                           ++ "].content";
              ve_expected :=
                is_text (string_of_nat (String.length (trim (pf_content file)))
                           ++ " chars");
              ve_actual :=
                is_text (string_of_nat (String.length (trim (pf_content targetFile)))
                           ++ " chars");
              ve_message := "File " ++ pf_filename file ++ " content mismatch" |}
           (errors (validation source target))
        /\ valid (validation source target) = false).
Proof.
  assert (Hboth : forall e, In e (errors (validation source target)) ->
                            In e (errors (validation source target))
                            /\ valid (validation source target) = false).
  { intros e He. split; [exact He | exact (error_makes_invalid _ _ _ He)]. }
  split; [|split].
  - intros steps step targetStep Hsrc Hin Hfind.
    assert (Hsub : forall e, In e (check_step (target_steps source target) [] step) ->
                             In e (errors (validation source target))).
    { intros e He. apply steps_error_in_errors.
      rewrite (steps_errors_by_loop _ _ _ Hsrc). apply in_or_app. left.
      apply in_flat_map. exists step. split; assumption. }
    unfold check_step in Hsub. rewrite Hfind in Hsub.
    split; [|split]; intros Hne; apply Hboth, Hsub.
    + apply String.eqb_neq in Hne. rewrite Hne. cbn [negb app].
      destruct (negb _); destruct (negb _); cbn; auto 6.
    + apply String.eqb_neq in Hne. rewrite Hne. cbn [negb app].
      destruct (negb (String.eqb (st_title step) (st_title targetStep)));
        destruct (negb _); rewrite ?in_app_iff; cbn; auto 6.
    + apply String.eqb_neq in Hne. rewrite Hne. cbn [negb app].
      rewrite in_app_iff. right. now left.
  - intros steps targetStep Hsrc Hin Hnone. apply Hboth, steps_error_in_errors.
    rewrite (steps_errors_by_loop _ _ _ Hsrc). apply in_or_app. right.
    apply in_flat_map. exists targetStep. split; [exact Hin|].
    unfold check_extra_step. rewrite find_none_of.
    + now left.
    + intros x Hx. apply Z.eqb_neq. now apply Hnone.
  - intros files file targetFile Hsrc Hin Hfind Hne. apply Hboth, files_error_in_errors.
    rewrite (files_errors_by_loop _ _ _ Hsrc).
    apply in_flat_map. exists file. split; [exact Hin|].
    unfold check_file. rewrite Hfind.
    apply String.eqb_neq in Hne. rewrite Hne. now left.
Qed.

End ValidatorDifferences.

Lemma validate_reports_differences_witness :
  valid (validation sample_plan
           (snd (Sqlite.addStep (sample_step 1 "Renamed" "completed" "Issue a JWT on login.")
                   bare_plan)))
  = false.
Proof.
  destruct (validate_reports_differences sample_plan
              (snd (Sqlite.addStep
                      (sample_step 1 "Renamed" "completed" "Issue a JWT on login.")
                      bare_plan)))
    as (H & _).
  destruct (H [sample_step 1 "First Step" "completed" "Issue a JWT on login.";
               sample_step 2 "Second Step" "in_progress"
                 "jwt Jwt JWT jwT jWt: refresh and rotate";
               sample_step 3 "Third Step" "pending"
                 "jwt jwt jwt jwt jwt jwt jwt jwt jwt jwt jwt"]
              (sample_step 1 "First Step" "completed" "Issue a JWT on login.")
              (sample_step 1 "Renamed" "completed" "Issue a JWT on login."))
    as (Ht & _).
  - vm_compute. reflexivity.
  - left. reflexivity.
  - vm_compute. reflexivity.
  - apply Ht. discriminate.
Defined.

(** * Further properties of paths and formats *)

Lemma substring_all (s : string) : substring 0 (String.length s) s = s.
Proof. induction s as [|c s IH]; cbn; [reflexivity | now rewrite IH]. Qed.

Lemma substring_app_left (pre suf : string) :
  substring 0 (String.length pre) (pre ++ suf) = pre.
Proof.
  induction pre as [|c pre IH]; cbn; [now destruct suf | now rewrite IH].
Qed.

Lemma substring_app_right (pre suf : string) :
  substring (String.length pre) (String.length suf) (pre ++ suf) = suf.
Proof. induction pre as [|c pre IH]; cbn; [apply substring_all | exact IH]. Qed.

Lemma endsWith_app (pre suf : string) : endsWith (pre ++ suf) suf = true.
Proof.
  unfold endsWith. rewrite append_length.
  replace (String.length pre + String.length suf - String.length suf)
    with (String.length pre) by lia.
  rewrite substring_app_right, String.eqb_refl, andb_true_r.
  apply Nat.leb_le. lia.
Qed.

Lemma endsWith_inv (s suf : string) :
  endsWith s suf = true ->
  s = (substring 0 (String.length s - String.length suf) s ++ suf)%string.
Proof.
  unfold endsWith. intros H. apply andb_true_iff in H. destruct H as [Hle Heq].
  apply Nat.leb_le in Hle. apply String.eqb_eq in Heq.
  rewrite <- Heq at 2.
  rewrite <- (substring_split 0 (String.length s - String.length suf) (String.length suf)).
  replace (String.length s - String.length suf + String.length suf)
    with (String.length s) by lia.
  now rewrite substring_all.
Qed.

Lemma strip_suffix_app (pre suf : string) : strip_suffix suf (pre ++ suf) = pre.
Proof.
  unfold strip_suffix. rewrite endsWith_app, append_length.
  replace (String.length pre + String.length suf - String.length suf)
    with (String.length pre) by lia.
  apply substring_app_left.
Qed.

Lemma strip_suffix_cases (suf s : string) :
  (endsWith s suf = false /\ strip_suffix suf s = s)
  \/ (endsWith s suf = true /\ s = (strip_suffix suf s ++ suf)%string).
Proof.
  unfold strip_suffix. destruct (endsWith s suf) eqn:E; [right | left]; split; auto.
  now apply endsWith_inv.
Qed.

Lemma trim_empty_of_empty (s : string) : s = EmptyString -> trim s = EmptyString.
Proof. intros ->. reflexivity. Qed.

Section PathFacts.

Variable join : string -> string -> string.
Variable extname : string -> string.

(** X18.  [ensureFormatExtension] for SQLite.  The path it returns is the
    given one or the given one followed by the extension; it ends with
    the extension, so [isSqlitePath] accepts it and a second call changes
    nothing; and [validatePlanPath] accepts it unless it is blank. *)
Theorem ensureFormatExtension_accepted (planPath extension : string) :
  (ensureFormatExtension planPath sqlite extension = planPath
   \/ ensureFormatExtension planPath sqlite extension = (planPath ++ extension)%string)
  /\ isSqlitePath (ensureFormatExtension planPath sqlite extension) extension = true
  /\ ensureFormatExtension (ensureFormatExtension planPath sqlite extension) sqlite extension
     = ensureFormatExtension planPath sqlite extension
  /\ validatePlanPath extname (ensureFormatExtension planPath sqlite extension) sqlite
       extension
     = (if String.eqb (trim (ensureFormatExtension planPath sqlite extension)) ""
        then Some "Plan path cannot be empty"
        else None)%string.
Proof.
  assert (Hends : endsWith (ensureFormatExtension planPath sqlite extension) extension
                  = true).
  { unfold ensureFormatExtension. cbn [getFormatExtension].
    destruct (endsWith planPath extension) eqn:E; cbn [negb];
      [exact E | apply endsWith_app]. }
  split; [|split; [exact Hends|split]].
  - unfold ensureFormatExtension. cbn [getFormatExtension].
    destruct (endsWith planPath extension); cbn [negb]; auto.
  - unfold ensureFormatExtension at 1. cbn [getFormatExtension].
    now rewrite Hends.
  - unfold validatePlanPath. cbn [getFormatExtension]. rewrite Hends. cbn [negb].
    destruct (String.eqb_spec (ensureFormatExtension planPath sqlite extension) "")
      as [E|E].
    + rewrite E. reflexivity.
    + cbn [orb]. destruct (String.eqb _ ""); reflexivity.
Qed.

End PathFacts.

Lemma split_path_nonempty (s : string) : split_path s <> [].
Proof.
  induction s as [|c s IH]; cbn; [discriminate|].
  destruct (is_separator c); [discriminate|].
  destruct (split_path s); [contradiction | discriminate].
Qed.

Lemma split_path_free (name : string) :
  separator_free name = true -> split_path name = [name].
Proof.
  induction name as [|c name IH]; cbn; [reflexivity|].
  intros H. apply andb_true_iff in H. destruct H as [Hc Hrest].
  apply negb_true_iff in Hc. rewrite Hc, (IH Hrest). reflexivity.
Qed.

Lemma split_path_app (dir rest : string) (sep : ascii) :
  is_separator sep = true ->
  split_path (dir ++ String sep rest) = split_path dir ++ split_path rest.
Proof.
  intros Hsep. induction dir as [|c dir IH]; cbn.
  - now rewrite Hsep.
  - rewrite IH. destruct (is_separator c); [reflexivity|].
    pose proof (split_path_nonempty dir) as Hne.
    destruct (split_path dir); [contradiction | reflexivity].
Qed.

Lemma last_app_nonempty {A : Type} (l1 l2 : list A) (d : A) :
  l2 <> [] -> last (l1 ++ l2) d = last l2 d.
Proof.
  intros Hne. induction l1 as [|x l1 IH]; [reflexivity|].
  cbn [app]. change (last (x :: l1 ++ l2) d)
    with (match l1 ++ l2 with [] => x | _ :: _ => last (l1 ++ l2) d end).
  destruct (l1 ++ l2) eqn:E; [|exact IH].
  apply app_eq_nil in E. destruct E as [_ E]. contradiction.
Qed.

Lemma last_component_app (dir name : string) :
  separator_free name = true ->
  last (split_path (dir ++ "/" ++ name)) EmptyString = name.
Proof.
  intros Hfree.
  change (dir ++ "/" ++ name)%string with (dir ++ String "/" name)%string.
  rewrite split_path_app by reflexivity.
  rewrite last_app_nonempty by apply split_path_nonempty.
  now rewrite split_path_free.
Qed.

Lemma slice_from_end_app (pre suf : string) :
  suf <> EmptyString -> slice_from_end (pre ++ suf) (String.length suf) = pre.
Proof.
  intros Hne. unfold slice_from_end, slice.
  destruct suf as [|c suf]; [contradiction|].
  cbn [String.length Nat.eqb]. rewrite append_length. cbn [String.length].
  replace (String.length pre + S (String.length suf) - S (String.length suf) - 0)
    with (String.length pre) by lia.
  apply substring_app_left.
Qed.

Lemma separator_free_app (a b : string) :
  separator_free (a ++ b) = andb (separator_free a) (separator_free b).
Proof.
  induction a as [|c a IH]; cbn; [reflexivity|]. now rewrite IH, andb_assoc.
Qed.

Lemma separator_free_substring (n : nat) (s : string) :
  separator_free s = true -> separator_free (substring 0 n s) = true.
Proof.
  revert s. induction n as [|n IH]; intros [|c s]; cbn; try reflexivity.
  intros H. apply andb_true_iff in H. destruct H as [Hc Hs].
  now rewrite Hc, (IH s Hs).
Qed.

Lemma plan_name_or_path (s name : string) :
  name <> EmptyString ->
  last (split_path s) EmptyString = name ->
  match last (split_path s) EmptyString with
  | EmptyString => s
  | String c part => String c part
  end = name.
Proof. intros Hname ->. destruct name; [contradiction | reflexivity]. Qed.

Lemma plan_name_sqlite (dir name extension : string) :
  separator_free name = true -> name <> EmptyString -> extension <> EmptyString ->
  getPlanNameFromPath (dir ++ "/" ++ name ++ extension) sqlite extension = name
  /\ getPlanNameFromPath (name ++ extension) sqlite extension = name.
Proof.
  intros Hfree Hname Hext. split.
  - unfold getPlanNameFromPath. cbn [getFormatExtension].
    replace (dir ++ "/" ++ name ++ extension)%string
      with ((dir ++ "/" ++ name) ++ extension)%string
      by now rewrite !string_app_assoc.
    rewrite endsWith_app, slice_from_end_app by exact Hext.
    apply plan_name_or_path; [exact Hname | now apply last_component_app].
  - unfold getPlanNameFromPath. cbn [getFormatExtension].
    rewrite endsWith_app, slice_from_end_app by exact Hext.
    apply plan_name_or_path; [exact Hname | now rewrite split_path_free].
Qed.

(** X19.  [getPlanNameFromPath].  For a name without separators that is
    not empty, the plan name of [dir/name] is [name], and with a SQLite
    extension that is not empty the plan name of [dir/name.ext] and of
    [name.ext] is [name] too.  Two edges: a path that ends in a slash is
    returned whole, and with an empty SQLite extension the plan name of
    every path is the empty string. *)
Theorem getPlanNameFromPath_last_component (dir name extension anyPath : string) :
  separator_free name = true -> name <> EmptyString ->
  getPlanNameFromPath (dir ++ "/" ++ name) directory extension = name
  /\ (extension <> EmptyString ->
      getPlanNameFromPath (dir ++ "/" ++ name ++ extension) sqlite extension = name
      /\ getPlanNameFromPath (name ++ extension) sqlite extension = name)
  /\ getPlanNameFromPath (dir ++ "/") directory extension = (dir ++ "/")%string
  /\ getPlanNameFromPath anyPath sqlite EmptyString = EmptyString.
Proof.
  intros Hfree Hname.
  split; [|split; [|split]].
  - unfold getPlanNameFromPath.
    apply plan_name_or_path; [exact Hname | now apply last_component_app].
  - intros Hext. now apply plan_name_sqlite.
  - unfold getPlanNameFromPath.
    change (dir ++ "/")%string with (dir ++ String "/" EmptyString)%string.
    rewrite split_path_app by reflexivity.
    rewrite last_app_nonempty by apply split_path_nonempty.
    reflexivity.
  - unfold getPlanNameFromPath, slice_from_end, slice. cbn [getFormatExtension].
    assert (E : endsWith anyPath EmptyString = true).
    { rewrite <- (string_app_empty_r anyPath) at 1. apply endsWith_app. }
    rewrite E. cbn. now destruct anyPath.
Qed.

Lemma getPlanNameFromPath_last_component_witness :
  getPlanNameFromPath "plans/a1b2c3d4-auth.plan" sqlite ".plan" = "a1b2c3d4-auth"%string.
Proof.
  refine (proj1 (proj1 (proj2 (getPlanNameFromPath_last_component
                                 "plans" "a1b2c3d4-auth" ".plan" EmptyString
                                 eq_refl _)) _)); discriminate.
Defined.

Lemma substring_0_length (n : nat) (s : string) :
  String.length (substring 0 n s) = Nat.min n (String.length s).
Proof.
  revert s. induction n as [|n IH]; intros [|c s]; cbn; try reflexivity.
  now rewrite IH.
Qed.

Lemma substring_0_prefix (n : nat) (s : string) : prefix (substring 0 n s) s = true.
Proof.
  revert s. induction n as [|n IH]; intros [|c s]; cbn; try reflexivity.
  destruct (ascii_dec c c); [apply IH | contradiction].
Qed.

(** X20.  [formatPlanFilename] and [abbreviateUuid].  The abbreviation is
    the first eight characters of the identifier (all of it when it is
    shorter).  The file name ends with [.plan], and when neither the
    identifier nor the slug holds a separator, [getPlanNameFromPath]
    gives back the abbreviation, a hyphen and the slug, also below a
    directory. *)
Theorem formatPlanFilename_round_trip (dir uuid slug : string) :
  separator_free uuid = true -> separator_free slug = true ->
  String.length (abbreviateUuid uuid) = Nat.min 8 (String.length uuid)
  /\ prefix (abbreviateUuid uuid) uuid = true
  /\ isSqlitePath (formatPlanFilename uuid slug) ".plan" = true
  /\ getPlanNameFromPath (formatPlanFilename uuid slug) sqlite ".plan"
     = (abbreviateUuid uuid ++ "-" ++ slug)%string
  /\ getPlanNameFromPath (dir ++ "/" ++ formatPlanFilename uuid slug) sqlite ".plan"
     = (abbreviateUuid uuid ++ "-" ++ slug)%string.
Proof.
  intros Hu Hs.
  assert (Hfree : separator_free (abbreviateUuid uuid ++ "-" ++ slug) = true).
  { rewrite separator_free_app. unfold abbreviateUuid.
    rewrite separator_free_substring by exact Hu. cbn. now rewrite Hs. }
  assert (Hne : (abbreviateUuid uuid ++ "-" ++ slug)%string <> EmptyString).
  { destruct (abbreviateUuid uuid); discriminate. }
  assert (Hshape : formatPlanFilename uuid slug
                   = ((abbreviateUuid uuid ++ "-" ++ slug) ++ ".plan")%string).
  { unfold formatPlanFilename. now rewrite !string_app_assoc. }
  destruct (plan_name_sqlite dir _ ".plan" Hfree Hne) as (H1 & H2); [discriminate|].
  repeat match goal with |- _ /\ _ => split end.
  - apply substring_0_length.
  - apply substring_0_prefix.
  - unfold isSqlitePath. rewrite Hshape. apply endsWith_app.
  - rewrite Hshape. exact H2.
  - rewrite Hshape. exact H1.
Qed.

Lemma formatPlanFilename_round_trip_witness :
  getPlanNameFromPath
    ("plans" ++ "/" ++ formatPlanFilename "a1b2c3d4-e5f6-7890-abcd-ef1234567890" "auth")
    sqlite ".plan"
  = "a1b2c3d4-auth"%string.
Proof.
  exact (proj2 (proj2 (proj2 (proj2
           (formatPlanFilename_round_trip "plans" "a1b2c3d4-e5f6-7890-abcd-ef1234567890"
              "auth" eq_refl eq_refl))))).
Defined.

Lemma last_character (a b : string) (x y : ascii) :
  (a ++ String x EmptyString)%string = (b ++ String y EmptyString)%string -> x = y.
Proof.
  revert b. induction a as [|c a IH]; intros [|d b] H; cbn in H.
  - now injection H.
  - injection H as _ H. destruct b; discriminate.
  - injection H as _ H. destruct a; discriminate.
  - injection H as _ H. exact (IH b H).
Qed.

Lemma plan_suffix_no_slash (s : string) :
  endsWith s ".plan" = true -> endsWith s "/" = false.
Proof.
  intros Hplan. destruct (endsWith s "/") eqn:Hslash; [|reflexivity].
  apply endsWith_inv in Hplan. apply endsWith_inv in Hslash.
  rewrite Hplan in Hslash at 1.
  change ".plan"%string with (".pla" ++ "n")%string in Hslash.
  rewrite <- string_app_assoc in Hslash.
  apply last_character in Hslash. discriminate.
Qed.

(** X21.  [generateTargetPath].  The path generated for a SQLite target
    always ends with [.plan]; it is the source path itself exactly when
    the source path already ends with [.plan], and a source path that
    ends in a slash loses that slash first.  The path generated for a
    directory target ends with [_migrated], has the [.plan] of the source
    removed, and is never the source path. *)
Theorem generateTargetPath_paths (sourcePath base : string) (sourceFormat : StorageFormat) :
  endsWith (generateTargetPath sourcePath sourceFormat sqlite) ".plan" = true
  /\ (generateTargetPath sourcePath sourceFormat sqlite = sourcePath
      <-> endsWith sourcePath ".plan" = true)
  /\ (endsWith base ".plan" = false ->
      generateTargetPath (base ++ "/") sourceFormat sqlite = (base ++ ".plan")%string)
  /\ endsWith (generateTargetPath sourcePath sourceFormat directory) "_migrated" = true
  /\ generateTargetPath (base ++ ".plan") sourceFormat directory
     = (base ++ "_migrated")%string
  /\ generateTargetPath sourcePath sourceFormat directory <> sourcePath.
Proof.
  assert (Hends : endsWith (generateTargetPath sourcePath sourceFormat sqlite) ".plan"
                  = true).
  { unfold generateTargetPath, ensureFormatExtension. cbn [getFormatExtension].
    destruct (endsWith (strip_suffix "/" sourcePath) ".plan") eqn:E; cbn [negb];
      [exact E | apply endsWith_app]. }
  repeat match goal with |- _ /\ _ => split end.
  - exact Hends.
  - split.
    + intros E. now rewrite E in Hends.
    + intros Hplan. unfold generateTargetPath, ensureFormatExtension, strip_suffix.
      cbn [getFormatExtension].
      rewrite (plan_suffix_no_slash _ Hplan), Hplan. reflexivity.
  - intros Hplan. unfold generateTargetPath. rewrite strip_suffix_app.
    unfold ensureFormatExtension. cbn [getFormatExtension]. now rewrite Hplan.
  - unfold generateTargetPath. apply endsWith_app.
  - unfold generateTargetPath. now rewrite strip_suffix_app.
  - unfold generateTargetPath. intros E. apply (f_equal String.length) in E.
    rewrite append_length in E. cbn [String.length] in E.
    destruct (strip_suffix_cases ".plan" sourcePath) as [[_ Hs] | [_ Hs]].
    + rewrite Hs in E. lia.
    + rewrite Hs in E at 2. rewrite append_length in E. cbn [String.length] in E. lia.
Qed.

Lemma generateTargetPath_paths_witness :
  generateTargetPath "plans/alpha/" directory sqlite = "plans/alpha.plan"%string.
Proof.
  exact (proj1 (proj2 (proj2 (generateTargetPath_paths "plans/alpha/" "plans/alpha"
                                directory)))
           eq_refl).
Defined.

Section FactoryFacts.

Variable join : string -> string -> string.
Variable extname : string -> string.
Context {P : Type}.
Variable construct : string -> P.

Lemma detectPlanFormat_absent (fs : FileSystem) (planPath : string) :
  existsSync fs planPath = false -> detectPlanFormat join fs planPath = unknown.
Proof. intros H. unfold detectPlanFormat. now rewrite H. Qed.

Lemma determineFormat_infers (fs : FileSystem) (planPath extension : string)
  (defaultFormat : StorageFormat) :
  determineFormat join extname fs planPath extension defaultFormat None
  = inferFormatFromPath join extname fs planPath extension defaultFormat.
Proof.
  unfold determineFormat, inferFormatFromPath.
  destruct (existsSync fs planPath) eqn:E.
  - destruct (detectPlanFormat join fs planPath); reflexivity.
  - now rewrite (detectPlanFormat_absent _ _ E).
Qed.


End FactoryFacts.


Section InferringFormats.

Variable join : string -> string -> string.
Variable extname : string -> string.

(** X27.  [inferFormatFromPath].  A file that begins with the SQLite
    header is a SQLite plan whatever its name and the configuration.  An
    existing directory whose name does not end with the extension is a
    directory plan, with or without plan files in it; when its name does
    end with the extension it is a directory plan only if
    [detectPlanFormat] recognises it, and a SQLite plan otherwise.  An
    existing file without the header and without the extension gets the
    default format.  Where nothing exists the name decides: the
    extension makes a SQLite plan, no extension at all the directory
    format, and any other extension the default format. *)
Theorem inferFormatFromPath_cases (fs : FileSystem) (planPath extension : string)
  (defaultFormat : StorageFormat) :
  (hasSqliteHeader fs planPath = true ->
   inferFormatFromPath join extname fs planPath extension defaultFormat = sqlite)
  /\ (isDirectory fs planPath = true ->
      inferFormatFromPath join extname fs planPath extension defaultFormat
      = if endsWith planPath extension
        then match detectPlanFormat join fs planPath with
             | detected directory => directory
             | _ => sqlite
             end
        else directory)
  /\ (isFile fs planPath = true -> hasSqliteHeader fs planPath = false ->
      endsWith planPath extension = false ->
      inferFormatFromPath join extname fs planPath extension defaultFormat = defaultFormat)
  /\ (existsSync fs planPath = false ->
      inferFormatFromPath join extname fs planPath extension defaultFormat
      = if endsWith planPath extension then sqlite
        else if orb (String.eqb (extname planPath) "") (String.eqb (extname planPath) ".")
             then directory
             else defaultFormat).
Proof.
  unfold inferFormatFromPath, isSqlitePath, isDirectoryPath, detectPlanFormat,
    hasSqliteHeader, readFileSync, existsSync, isDirectory, isFile.
  repeat match goal with |- _ /\ _ => split end.
  - destruct (fs planPath) as [[[contents|]| |]|]; try discriminate.
    cbn [negb]. now intros ->.
  - destruct (fs planPath) as [[[contents|]| |]|]; try discriminate.
    intros _. cbn [negb].
    destruct (has_marker join fs planPath DIRECTORY_PLAN_MARKERS);
      [now destruct (endsWith planPath extension)|].
    destruct (andb _ _); now destruct (endsWith planPath extension).
  - destruct (fs planPath) as [[[contents|]| |]|]; try discriminate;
      intros _; cbn [negb].
    + intros -> ->. now destruct (endsWith planPath ".plan").
    + intros _ ->. now destruct (endsWith planPath ".plan").
  - destruct (fs planPath) as [node|]; [discriminate|]. reflexivity.
Qed.

End InferringFormats.

Lemma inferFormatFromPath_cases_witness :
  inferFormatFromPath sample_join (fun _ => ".plan"%string) sample_fs "plans/beta.plan"
    ".db" directory
  = sqlite.
Proof.
  refine (proj1 (inferFormatFromPath_cases sample_join (fun _ => ".plan"%string) sample_fs
                   "plans/beta.plan" ".db" directory) _).
  vm_compute. reflexivity.
Defined.

Lemma fs_remove_absent (fs : FileSystem) (p q : string) :
  existsSync fs q = false -> existsSync (fs_remove fs p) q = false.
Proof.
  unfold existsSync, fs_remove. destruct (String.eqb q p); [reflexivity | auto].
Qed.

Lemma fs_remove_gone (fs : FileSystem) (p : string) :
  existsSync (fs_remove fs p) p = false.
Proof. unfold existsSync, fs_remove. now rewrite String.eqb_refl. Qed.

Lemma fs_remove_elsewhere (fs : FileSystem) (p q : string) :
  q <> p -> fs_remove fs p q = fs q.
Proof. intros H. unfold fs_remove. apply String.eqb_neq in H. now rewrite H. Qed.

Lemma unlinkSync_removed (fs fs' : FileSystem) (p : string) :
  unlinkSync fs p = inl fs' -> fs' = fs_remove fs p.
Proof.
  unfold unlinkSync. destruct (fs p) as [[contents| |]|]; try discriminate;
    intros H; now injection H as <-.
Qed.

(** X28.  [deleteSource].  Where nothing exists at the source path
    nothing is done, whatever lies beside it.  When something exists
    there and [deleteSource] returns for a SQLite plan, the database
    file, its [-wal] file and its [-shm] file are gone and every other
    path is as it was; but when the source path is a directory it throws
    the error of [unlinkSync].  For a directory plan it always returns,
    the path and everything below it are gone, and every other path is
    as it was. *)
Theorem deleteSource_removes_the_plan (fs : FileSystem) (sourcePath : string) :
  (forall fmt, existsSync fs sourcePath = false -> deleteSource fs sourcePath fmt = inl fs)
  /\ (forall fs',
        existsSync fs sourcePath = true ->
        deleteSource fs sourcePath sqlite = inl fs' ->
        existsSync fs' sourcePath = false
        /\ existsSync fs' (sourcePath ++ "-wal") = false
        /\ existsSync fs' (sourcePath ++ "-shm") = false
        /\ forall q, q <> sourcePath -> q <> (sourcePath ++ "-wal")%string ->
                     q <> (sourcePath ++ "-shm")%string -> fs' q = fs q)
  /\ (isDirectory fs sourcePath = true ->
      deleteSource fs sourcePath sqlite
      = inr ("EISDIR: illegal operation on a directory, unlink '" ++ sourcePath ++ "'")%string)
  /\ (existsSync fs sourcePath = true ->
      exists fs',
        deleteSource fs sourcePath directory = inl fs'
        /\ existsSync fs' sourcePath = false
        /\ (forall q, prefix (sourcePath ++ "/") q = true -> existsSync fs' q = false)
        /\ (forall q, q <> sourcePath -> prefix (sourcePath ++ "/") q = false ->
                      fs' q = fs q)).
Proof.
  repeat match goal with |- _ /\ _ => split end.
  - intros fmt H. unfold deleteSource. now rewrite H.
  - intros fs' Hex H. unfold deleteSource in H. rewrite Hex in H. cbn [negb] in H.
    + destruct (unlinkSync fs sourcePath) as [fs1|e] eqn:U1; [|discriminate].
      apply unlinkSync_removed in U1. subst fs1.
      destruct (existsSync (fs_remove fs sourcePath) (sourcePath ++ "-wal")) eqn:Hwal.
      * destruct (unlinkSync (fs_remove fs sourcePath) (sourcePath ++ "-wal"))
          as [fs2|e] eqn:U2; [|discriminate].
        apply unlinkSync_removed in U2. subst fs2.
        destruct (existsSync _ (sourcePath ++ "-shm")) eqn:Hshm.
        -- apply unlinkSync_removed in H. subst fs'.
           repeat match goal with |- _ /\ _ => split end.
           ++ apply fs_remove_absent, fs_remove_absent, fs_remove_gone.
           ++ apply fs_remove_absent, fs_remove_gone.
           ++ apply fs_remove_gone.
           ++ intros q H1 H2 H3. now rewrite !fs_remove_elsewhere.
        -- injection H as <-.
           repeat match goal with |- _ /\ _ => split end.
           ++ apply fs_remove_absent, fs_remove_gone.
           ++ apply fs_remove_gone.
           ++ exact Hshm.
           ++ intros q H1 H2 H3. now rewrite !fs_remove_elsewhere.
      * destruct (existsSync _ (sourcePath ++ "-shm")) eqn:Hshm.
        -- apply unlinkSync_removed in H. subst fs'.
           repeat match goal with |- _ /\ _ => split end.
           ++ apply fs_remove_absent, fs_remove_gone.
           ++ apply fs_remove_absent, Hwal.
           ++ apply fs_remove_gone.
           ++ intros q H1 H2 H3. now rewrite !fs_remove_elsewhere.
        -- injection H as <-.
           repeat match goal with |- _ /\ _ => split end.
           ++ apply fs_remove_gone.
           ++ exact Hwal.
           ++ exact Hshm.
           ++ intros q H1 H2 H3. now rewrite !fs_remove_elsewhere.
  - intros Hdir. unfold deleteSource, unlinkSync, existsSync. unfold isDirectory in Hdir.
    destruct (fs sourcePath) as [[contents| |]|]; try discriminate. reflexivity.
  - intros Hex. unfold deleteSource. rewrite Hex. cbn [negb].
    eexists. split; [reflexivity|]. unfold rmSync, existsSync.
    repeat match goal with |- _ /\ _ => split end.
    + now rewrite String.eqb_refl.
    + intros q Hq. now rewrite Hq, orb_true_r.
    + intros q Hne Hq. apply String.eqb_neq in Hne. now rewrite Hne, Hq.
Qed.

Lemma deleteSource_removes_the_plan_witness :
  existsSync
    (match deleteSource source_files_fs "source.plan" sqlite with
     | inl fs' => fs'
     | inr _ => source_files_fs
     end)
    "source.plan-wal"
  = false.
Proof.
  destruct (deleteSource source_files_fs "source.plan" sqlite) as [fs'|e] eqn:H.
  - exact (proj1 (proj2 (proj1 (proj2 (deleteSource_removes_the_plan source_files_fs
                                         "source.plan"))
                           fs' eq_refl H))).
  - vm_compute in H. discriminate.
Defined.
